(* ===== verification/_CoqProject ===== *)
-Q . S2P
Prelude.v
JsRegex.v
QueryString.v
QASplit.v
ContextFilter.v
KbData.v
KbExport.v
KbEditModal.v
KbTest.v
Pagination.v
TrainingData.v
Billing.v
PushData.v
Runtime.v
VectorQueue.v
QAQueue.v
Scheduler.v
Pipeline.v
FlowTypes.v
ClientRequest.v
ModuleTemplates.v
AdEditNodes.v
AppTemplates.v
AppForm.v
FileSplit.v
ImportPage.v
Migration.v
AppStore.v
Concurrency.v
CreateModals.v
Account.v
KbSelect.v
BasicEdit.v
AppAccess.v
OutLink.v
AppInfo.v
ListPages.v
