(* ===== verification/Prelude.v ===== *)
(** * FastGPT: a verification library of its ingestion pipeline, app graphs and handlers

    A shallow embedding of the TypeScript sources under src/client/src of
    FastGPT, an app builder for chat bots over knowledge bases.  Three
    groups of parts are modelled: the ingestion pipeline that turns pushed
    text into knowledge-base rows, the module graphs that describe an app
    and the editors and migration that write them, and the API handlers
    over the document and relational stores.

    ** How the parts interact

    - Ingestion.  A push request ([PushData.handler],
      pages/api/openapi/kb/pushData.ts) filters its items and inserts
      training records (service/models/trainingData.ts), then starts the
      queues.  An index invocation ([VectorQueue],
      service/events/generateVector.ts) claims a record atomically, gets its
      embedding, writes a knowledge-base row ([KbData]) and deletes the
      record.  A QA invocation ([QAQueue], generateQA.ts) claims a record,
      asks the chat model for pairs, parses them ([QASplit.formatSplitText]),
      bills them ([Billing], service/events/pushBill.ts) and pushes them back
      in index mode.  Both queues count their running invocations in process
      globals and recurse or arm a timer after each record; [Scheduler] puts
      all of this in one step relation.  The file import page
      ([FileSplit], utils/file.ts and Import/FileSelect.tsx) cuts files
      into the chunks a push carries.  The chat path filters its history
      with [ContextFilter.ChatContextFilter] (service/utils/chat/index.ts).
    - App graphs.  An app is a list of modules whose outputs target inputs
      of other modules ([FlowTypes], types/flow.d.ts).  The editor offers the
      templates of constants/flow/ModuleTemplate.ts ([ModuleTemplates]) and
      the example apps of the same file ([AppTemplates]); the simple editor
      reads a graph into a form and writes a form as a graph ([AppForm],
      utils/app.ts); the admin migration initv4 writes the graph of an app's
      old configuration ([Migration]).  In the advanced editor, the
      extraction node edits the fields of a [contentExtract] module and
      the outputs that go with them ([AdEditNodes]).
    - Handlers.  The app, knowledge-base and chat-item handlers of
      pages/api work on the Mongo collections ([AppStore]); the manual row
      handlers ([KbData]) and the export and list of rows ([KbExport]) work
      on the relational table, and the data dialog of the knowledge-base
      pages calls them ([KbEditModal]), also from the search test page,
      whose history of tests lives in the kb store ([KbTest]).  The chat box and the market of shared apps
      ([AppAccess]) read the same collections: what a user may open, and the
      ranked pages of shared apps with the caller's favourites.  The share
      panel of the app page ([OutLink]) creates and deletes the links
      behind which shareChat/init.ts opens an app; the account handlers
      ([Account]) register a user, whose first apps the register page
      creates through the app handler of [AppStore].

    ** Files

    - Prelude.v (this file): JavaScript strings as [list ascii] and the
      string built-ins the code uses ([trim], [slice], [findIndex],
      [split] with one character, [join]), the scope [fg_scope], the hint
      database [fastgpt], [zsum], [countb], and the list lemmas the
      components share (counting over filters, [NoDup] of projections,
      filters across [insert] and [delete], pages of [take] and [drop],
      sortedness of a page).
    - JsRegex.v: a backtracking matcher for the regular expressions the code
      writes, in continuation-passing style, with [matchAll]; its soundness
      against the relation [mrel] and the fuel lemma of [matchAll].
    - QueryString.v: [Obj2Query] and [parseQueryString] of utils/tools.ts,
      over the URLSearchParams serializer and [decodeURIComponent] (with
      its UTF-8 check), on strings as their UTF-8 bytes.
    - QASplit.v: [formatSplitText] and the printer of the QA prompt's format.
    - ClientRequest.v: the request helper of api/request.ts that every
      client wrapper uses ([checkRes], [responseError] with the logout and
      its redirect to the login page) and the token of utils/user.ts; what
      axios reports for a request is an input.
    - ContextFilter.v: [ChatContextFilter], for every token counter (the
      typeclass [TokenCounter]; [modelToolMap] is outside src/), and the
      reference filter [ChatContextFilter_ref] it computes for additive
      counters.
    - KbData.v: the rows, their normalisation, [insertData], [updateData],
      [delDataById].
    - KbExport.v: [exportModelData] with its half-hour limit kept in the
      user document (service/models/user.ts), and the paged, searchable
      [getDataList] with the SQL [LIKE] test.
    - KbEditModal.v: the dialog that adds, edits and deletes one row
      (InputDataModal.tsx) over the [KbData] handlers, with the effects it
      shows, and the callbacks of the search test page (Test.tsx).
    - KbTest.v: the search test page (Test.tsx) as a state machine over
      the kb store's history of tests, a class with the laws the page needs
      (store/kb is not in the repository): the text area, the test request
      and its answer, the history rows and their delete, and the dialog of
      [KbEditModal] opened on a result.
    - Pagination.v: the paging hook hooks/usePagination.tsx as a state
      machine over its events (pager buttons, the page input, the scroll
      view), with the invariant that the pager keeps the page in range.
    - TrainingData.v: the training record, the claim ([findOneAndUpdate]
      returns the record before the update), the deletes and lock updates,
      the TTL index.
    - Billing.v: the four bill functions; each write may fail.
    - PushData.v: the push handler and [pushDataToKb].
    - Runtime.v: the error tables and the world the queues share.
    - VectorQueue.v, QAQueue.v: one invocation of each queue, one
      constructor of [VState] / [QState] per [await].
    - Scheduler.v: the step relation [step], the executable scheduler [run]
      and its soundness, the sample deployment.
    - Pipeline.v: end-to-end schedules on the sample deployment.
    - FlowTypes.v: modules, inputs, outputs and targets; JSON values
      [JsVal] with JavaScript truthiness; the graph checks ([graph_wf],
      [edges_typed], the acyclicity test [topo_sorted] by Kahn's algorithm).
    - ModuleTemplates.v: every module template, over the configured chat
      models (a Section variable).
    - AdEditNodes.v: the extraction node of the advanced editor
      (NodeExtract.tsx and ExtractFieldModal.tsx) as a state machine over
      the module, the editor's edges, the open dialog and the pending
      timers, with [onChangeNode] and [onDelEdge] of the editor page read
      from their calls.
    - AppTemplates.v: the four example apps and the graph the app creation
      modal writes.
    - AppForm.v: [getDefaultAppForm], [appModules2Form], [appForm2Modules].
    - FileSplit.v: [splitText2Chunks], [simpleText], the CSV and text
      branches of the import, [compressImg]'s size computation; a string is
      a list of UTF-16 code units.
    - ImportPage.v: the file loop of Import/FileSelect.tsx (the reader
      chosen by the extension, the text and CSV branches), the URL-fetch and
      create-file handlers, and the page state of Import/QA.tsx with its
      handlers and the batched upload.
    - Migration.v: the templates of initv4, the batches and the handler.
    - BasicEdit.v: the simple editor page over the client wrappers of
      api/app.ts: loading and saving the form, the delete button, the
      variable dialog, the history of the test chat, and an editing
      session as a sequence of events ([EditorEvent]: the model select, the
      sliders, the textareas and both knowledge-base dialogs) with the
      invariant that the saved graph gives the form back.
    - AppInfo.v: the app information dialog (InfoModal.tsx): validation,
      the error search [deepSearch] (with fuel) and the save through the
      update handler, which puts a shared app into the market.
    - ListPages.v: the delete buttons of the app and knowledge-base list
      pages and the lists they show afterwards.
    - KbSelect.v: the knowledge-base selection dialog of the simple editor
      (KBSelectModal.tsx): one index model per selection, clicks that
      undo each other, and the selection [Finish] hands to the form; and
      the search-parameter dialog ([KbParamsModal]), a fold of its slider
      and textarea events.
    - AppStore.v: the store of Mongo collections, one function per handler
      (app create, update, delete, list, detail and favourite; knowledge
      base create and update; chat record delete; user and admin feedback),
      the step relation of the writing handlers and the store invariant.
    - Concurrency.v: create.ts and share/collection.ts split at their
      [await]s ([Pending], [start_create], [start_collection],
      [advance]) and a server that interleaves the requests in flight
      ([cstep]), serially ([cstep true]) or freely ([cstep false]); the
      other handlers of [AppStore] run whole.
    - AppAccess.v: [authApp] with its two options, chat/init.ts and
      shareChat/init.ts (who may open an app, the last 30 chat items of a
      chat), and share/getModels.ts (the shared apps matching a search,
      ranked by [share.topNum] then [share.collection], paged).
    - CreateModals.v: the dialogs that create an app (from one of the
      example templates) and a knowledge base, each a state machine over
      its form composed with the create handler of [AppStore].
    - OutLink.v: the share panel of OutLink.tsx as a state machine over
      its events ([ShareEvent]: the create button and modal, copy, embed,
      delete, and the arrival of a refetch) and a server given by the class
      [ShareChatApi] with its laws [ShareChatLaws]; [store_api] is one such
      server over the [OutLink] collection of [AppStore].
    - Account.v: loginByPassword.ts and register.ts over the user
      collection, the bills and promotion handlers, and the register page,
      which creates the example apps of [AppTemplates] after a registration.

    ** What is proved

    - Invariants of reachable states: the paging hook keeps its page a
      whole number in [1, maxPage] for a backend of fixed size
      ([Pagination.pager_stays_in_range]); the knowledge-base dialog
      keeps one index model ([KbSelect.clicks_keep_one_model]); the queue
      counters equal the running
      invocations and stay within their maxima
      ([Scheduler.counters_invariant]); on a server that serves one
      create or favourite request at a time, every store with no request
      in flight has unique ids, no user with more than 50 apps, favourites
      unique per user and app and counted in [share.collection]
      ([Concurrency.serial_reachable_wf]); the outputs of an extraction node
      are the template's and one per field, with distinct keys, as long as
      every submitted key is new ([NodeExtract.extract_session_outputs]);
      the history of the search test page and the test shown hold only
      results of their own search, and the test shown is of the knowledge
      base on screen ([KbTest.test_history_sound]).
    - Bounds: in a share-panel session whose refetches come back before
      the next click, an app never has more than 10 links and the list
      shown is the server's ([OutLink.settled_session_bound]).
    - Safety: a claim is exclusive for its stale window; handlers leave the
      documents and rows of other users unchanged; a client request logs
      the user out exactly on a code of [TOKEN_ERROR_CODE] and otherwise
      leaves the client as it was ([ClientRequest.request_logout]), and the
      login page reads back the route the user was on
      ([ClientRequest.logout_keeps_route]); a deleted share link answers
      that it has expired ([OutLink.deleted_link_expires]).
    - Races: concurrent creates of one user all pass the 50-app count and
      all create ([Concurrency.concurrent_creates_exceed_limit]); two
      concurrent favourite toggles both create a favourite
      ([Concurrency.concurrent_toggles_duplicate_favourite]); a QA record
      billed before its push fails stays claimable and is billed again on
      retry ([Pipeline.qa_push_failure_keeps_billed_record]).
    - Error handling: the catch blocks of both queues, branch by branch;
      the errors of the shared-app market ([AppAccess.getModels_errors]).
    - Functional behaviour: the context filter's window and order; the
      push filter and the database check; [formatSplitText]; the chunks of
      [splitText2Chunks] cover the text; the app delete cascade; the
      favourite toggle; the pages of the list handler; the pages of the
      shared-app market are sorted and hold only shared matches with the
      caller's favourite mark, and a favourite toggle shows in the market
      ([AppAccess.favourite_toggle_in_market]); the chat box opens exactly
      when the app exists ([AppAccess.chat_init_ok_iff]); a request
      resolves exactly on a body with a code in [200, 400)
      ([ClientRequest.request_resolves_iff]); registering then logging in
      with the same password succeeds with the same user and a token for
      the same id ([Account.register_then_login]) and the register page gives a new
      user the example apps ([Account.register_creates_templates]).
    - Composition: whatever the user does in the app creation dialog, a
      confirmed creation stores an app whose graph is an example
      template's and routes to its detail page
      ([CreateModals.create_app_from_template]); a link created on the share panel is copied as
      [origin/chat/share?shareId=...] and shareChat/init.ts opens the app
      behind it ([OutLink.created_link_opens_app]).
    - Round trips: QA print and parse; the simple editor reads back the
      graph it writes, also after any editing session saved through the
      update handler and loaded through the detail handler
      ([BasicEdit.edit_save_reload]); the query string [Obj2Query]
      writes reads back through [parseQueryString], spaces as [+]
      ([QueryString.parse_Obj2Query]); and
      the graph the migration writes; knowledge-base
      tags; export and re-import of line feeds.
    - Equivalence: the [LIKE '%t%'] test is the substring test; the
      backward loop of [ChatContextFilter] computes the longest suffix of
      chat items within the budget ([ContextFilter.ChatContextFilter_ref_equiv]).
    - Type: the example apps and every form's graph are valid graphs.
    - Termination and liveness: the migration's loop ends with every app
      migrated for a positive limit and never ends for a limit of 0 or less;
      the fuel of [cjk_join] and [matchAll] is enough; the upload loop of
      the QA import sends every chunk once in at most [totalChunk] requests.
    - Findings, each proved on a concrete input or in general: answers cut
      at the first capital Q; the TTL of 2.8 hours; the double bill of a
      retried QA record; duplicates the push check lets through; charges
      without a bill; a similarity of 0 read back as 0.4; a duplicated
      final chunk; CSV columns shifted by an empty cell; the migration loop
      for [limit <= 0]; creates and favourite toggles that race; the
      export limit that never applies; LIKE wildcards in the search; the
      re-split of an edited import that keeps the old chunk count; one bad
      CSV file that discards a whole selection; variable keys an edit in
      the variable dialog can duplicate; chat/init opens unshared apps of
      other users and returns a chat of one app under another; the search
      text of the market is used as a regular expression; an answer-only
      edit in the data dialog blanks the question of the search test
      result, and a refused edit still reports success; the pager's
      forward button stays enabled past the last page when the total
      shrinks, and its scroll mode replaces the items it should add; the
      knowledge-base list reports every delete as a
      success because it does not await the request; search parameters
      set while an app has no knowledge base are shown but not saved;
      [parseQueryString] reads a space written by [Obj2Query] as [+],
      throws on a stray [%] and on any pair after a key [hasOwnProperty];
      an expired session answered with HTTP status 403 does not log the
      user out, only a 2xx body with code 403 does; registration never
      checks the verification code and the login discloses which user
      names exist; the limit of 10 share links is only the state of the
      create button, so a late refetch lets an eleventh link through; the
      extraction node appends a second field and output for a key already
      used, and a key change leaves the edges of the old output; the test
      button of the search test page sends a text of spaces as an empty
      search.

    ** Bounds and fuel

    [JsRegex.matchAll] runs with fuel [S (length s)]: every iteration
    consumes at least one character or stops.  [FileSplit.cjk_join] runs
    with fuel [length s], and more fuel gives the same result.
    [FlowTypes.topo_order] runs with fuel [length mods]: each round removes a
    module or stops.  The initv4 loop ([Migration.run_batches]) runs with
    fuel; [S (length apps)] rounds are enough for a positive limit because
    each round migrates at least one app or ends the loop.  Times are
    milliseconds as [Z]; the clock stays before 2998/5/5, the date the code
    uses as never.  Amounts are rationals ([Q]).  Token limits are compared
    exactly ([maxToken * 0.8] as [5 * token > 4 * maxToken]).

    ** Not modelled

    The embedding and chat providers, [authBalanceByUid], [authUser] and
    [authKb] are outcomes of the operations that call them; [authApp], the
    Mongo schemas and the relational client are modelled from the spec.
    The executor of module graphs and the vector search are not under src/.
    The rendering of the pages, the streamed chat, the file readers and
    the uploads are I/O; the editor page that owns [onChangeNode],
    [onDelEdge] and the edges is not in the repository, and its other
    nodes only render or call it; [hashPassword], [generateToken] (a
    function of the user id and the clock, as the JWT it signs carries an
    expiry) and [PRICE_SCALE] are outside src/ and are parameters of
    [Account]; the list, create and
    delete handlers of share links are not in the repository, and [OutLink]
    states what the page needs of them as a class, as [KbTest] does for the
    kb store and takes the search handler searchTest.ts (not under src/)
    as a function; whether the [Loading]
    overlay of the share panel takes clicks is not in the repository
    either, so both orders of a click and a refetch are modelled; the
    one-off initv43 migration alters a table.  [getSpecialModule] and [getChatModelNameList]
    (components/ChatBox/utils.ts is not under src/) and the regular
    expression engine are parameters of [AppAccess].  MongoDB may order
    ties of a sort either way; [AppAccess] sorts stably, keeping ties in
    store order, one of the orders MongoDB may return.  Only create.ts and
    share/collection.ts are split at their [await]s ([Concurrency]); the
    other handlers of [AppStore] are single steps, so their own races
    (an update or a delete between the [authApp] read and the write) are
    not modelled.  [getVector] is taken to answer one vector for its one
    input.  The error search [deepSearch] of the information dialogs
    loops on a rule without a message, which no rule of the dialogs is. *)

From Stdlib Require Import Ascii ZArith.
From stdpp Require Import base list strings sorting.
From Stdlib Require String.
Export String.StringSyntax.

(** ** Text

    A JavaScript string is a sequence of UTF-16 code units.  The parts of the
    program modelled here only inspect ASCII and Latin-1 code units (spaces,
    digits, the letters Q and A, quotes, control characters), so a string is a
    list of 8-bit code units, [list ascii]. *)
Abbreviation text := (list ascii).

Declare Scope fg_scope.
Delimit Scope fg_scope with fg.
Notation "⟦ s ⟧" := (String.list_ascii_of_string s%string) (format "⟦ s ⟧") : fg_scope.
Open Scope fg_scope.

Definition chr (n : nat) : ascii := ascii_of_nat n.

(** JS [\s] (WhiteSpace and LineTerminator) on code units 0..255:
    TAB, LF, VT, FF, CR, SPACE and NBSP. [String.prototype.trim] strips
    the same set. *)
Definition is_js_space (c : ascii) : bool :=
  let n := nat_of_ascii c in
  ((9 <=? n) && (n <=? 13)) || (n =? 32) || (n =? 160).

(** JS LineTerminator on code units 0..255: LF and CR. [.] matches anything else. *)
Definition is_line_terminator (c : ascii) : bool :=
  let n := nat_of_ascii c in (n =? 10) || (n =? 13).

(** JS [\d]. *)
Definition is_digit (c : ascii) : bool :=
  let n := nat_of_ascii c in (48 <=? n) && (n <=? 57).

Definition is_char (c : ascii) (d : ascii) : bool := Ascii.eqb d c.

(** [String.prototype.trimStart], [trimEnd], [trim]. *)
Fixpoint js_trim_start (s : text) : text :=
  match s with
  | c :: s' => if is_js_space c then js_trim_start s' else s
  | [] => []
  end.
Definition js_trim_end (s : text) : text := reverse (js_trim_start (reverse s)).
Definition js_trim (s : text) : text := js_trim_end (js_trim_start s).

(** JS truthiness of a string: the empty string is falsy. *)
Definition js_truthy_text (s : text) : bool :=
  match s with [] => false | _ => true end.

(** ** Arrays

    [Array.prototype.slice] with relative (possibly negative) indices, and
    [Array.prototype.findIndex], which answers [-1] when nothing matches. *)
Definition js_rel_index (len : nat) (i : Z) : nat :=
  if (i <? 0)%Z then Z.to_nat (Z.max 0 (Z.of_nat len + i))
  else Z.to_nat (Z.min i (Z.of_nat len)).

Definition js_slice {A} (l : list A) (start : Z) (end_ : option Z) : list A :=
  let len := length l in
  let from := js_rel_index len start in
  let to := match end_ with None => len | Some e => js_rel_index len e end in
  take (to - from) (drop from l).

Fixpoint js_findIndex_from {A} (p : A -> bool) (l : list A) (i : Z) : Z :=
  match l with
  | [] => (-1)%Z
  | x :: l' => if p x then i else js_findIndex_from p l' (i + 1)
  end.
Definition js_findIndex {A} (p : A -> bool) (l : list A) : Z := js_findIndex_from p l 0.

(** Sum of integer weights over a list (JS [reduce] with [+]). *)
Definition zsum {A} (f : A -> Z) (l : list A) : Z := foldr (λ x acc, (f x + acc)%Z) 0%Z l.

(** [s.split(c)] with a one-element separator: the pieces between the
    occurrences of [c]; [n] occurrences give [n + 1] pieces, empty ones
    included. *)
Fixpoint split_on {A} `{EqDecision A} (c : A) (s : list A) : list (list A) :=
  match s with
  | [] => [[]]
  | d :: s' =>
      if bool_decide (d = c) then [] :: split_on c s'
      else match split_on c s' with
           | p :: ps => (d :: p) :: ps
           | [] => [[d]]
           end
  end.

(** Array [join(c)]. *)
Fixpoint join_on {A} (c : A) (ts : list (list A)) : list A :=
  match ts with
  | [] => []
  | [t] => t
  | t :: ts' => t ++ c :: join_on c ts'
  end.

(** ** Automation *)

(** The number of elements of a list a boolean test accepts. *)
Definition countb {A} (f : A -> bool) (l : list A) : nat := length (filter (λ x, f x = true) l).

Create HintDb fastgpt discriminated.
Create Rewrite HintDb fastgpt.

(** Turn the boolean tests of the code into propositions. *)
Ltac fg_bool :=
  repeat match goal with
  | H : (_ && _) = true |- _ => apply andb_prop in H as [? ?]
  | H : (_ || _) = false |- _ => apply orb_false_elim in H as [? ?]
  | H : negb _ = true |- _ => apply negb_true_iff in H
  | H : negb _ = false |- _ => apply negb_false_iff in H
  | H : (_ =? _)%nat = true |- _ => apply Nat.eqb_eq in H
  | H : (_ <=? _)%nat = true |- _ => apply Nat.leb_le in H
  | H : (_ <=? _)%nat = false |- _ => apply Nat.leb_gt in H
  | H : (_ <? _)%Z = true |- _ => apply Z.ltb_lt in H
  | H : (_ <? _)%Z = false |- _ => apply Z.ltb_ge in H
  | H : (_ <=? _)%Z = true |- _ => apply Z.leb_le in H
  | H : (_ <=? _)%Z = false |- _ => apply Z.leb_gt in H
  | H : (_ =? _)%Z = true |- _ => apply Z.eqb_eq in H
  | H : (_ =? _)%Z = false |- _ => apply Z.eqb_neq in H
  end.

(** Case on the next [if]/[match] of the goal, keeping the equation. *)
Ltac fg_case := case_match; simplify_eq/=.

(** ** Shared lemmas on text and lists *)

Lemma js_trim_start_spec (s : text) :
  ∃ w, s = w ++ js_trim_start s ∧ Forall (λ c, is_js_space c = true) w ∧
       (∀ c t, js_trim_start s = c :: t → is_js_space c = false).
Proof.
  induction s as [|c s IH]; simpl.
  - exists []. split_and!; [done | constructor | done].
  - destruct (is_js_space c) eqn:E.
    + destruct IH as (w & Hw & Hf & Hh). exists (c :: w).
      split_and!; [simpl; by rewrite <-Hw | by constructor | done].
    + exists []. split_and!; [done | constructor | by intros ?? [= <- _]].
Qed.

Lemma js_trim_start_app_nonspace (w s : text) c :
  Forall (λ c, is_js_space c = true) w → is_js_space c = false →
  js_trim_start (w ++ c :: s) = c :: s.
Proof. induction 1 as [|d w Hd _ IH]; simpl; [by intros ->|]. by rewrite Hd. Qed.

Lemma js_trim_start_nil_iff (s : text) :
  js_trim_start s = [] ↔ Forall (λ c, is_js_space c = true) s.
Proof.
  induction s as [|c s IH]; simpl; [split; auto|].
  rewrite Forall_cons. destruct (is_js_space c) eqn:E.
  - rewrite IH. tauto.
  - split; [done | by intros [? _]].
Qed.

Lemma js_findIndex_from_none {A} (p : A -> bool) l i :
  Forall (λ x, p x = false) l → js_findIndex_from p l i = (-1)%Z.
Proof. intros H. revert i. induction H as [|x l Hx _ IH]; intros; simpl; [done|]. rewrite Hx. apply IH. Qed.

Lemma js_findIndex_from_some {A} (p : A -> bool) l1 x l2 i :
  Forall (λ y, p y = false) l1 → p x = true →
  js_findIndex_from p (l1 ++ x :: l2) i = (i + Z.of_nat (length l1))%Z.
Proof.
  intros H Hx. revert i. induction H as [|y l1 Hy _ IH]; intros i; simpl.
  - rewrite Hx. lia.
  - rewrite Hy, IH. lia.
Qed.

Lemma js_rel_index_nonneg (len : nat) (i : Z) :
  (0 ≤ i)%Z → js_rel_index len i = min (Z.to_nat i) len.
Proof. intros Hi. unfold js_rel_index. destruct (Z.ltb_spec i 0); lia. Qed.

Lemma js_rel_index_neg (len : nat) (i : Z) :
  (i < 0)%Z → js_rel_index len i = Z.to_nat (Z.of_nat len + i).
Proof. intros Hi. unfold js_rel_index. destruct (Z.ltb_spec i 0); lia. Qed.

Lemma js_slice_0_nat {A} (l : list A) (n : nat) :
  n ≤ length l → js_slice l 0 (Some (Z.of_nat n)) = take n l.
Proof.
  intros Hn. unfold js_slice.
  rewrite !js_rel_index_nonneg by lia. rewrite Nat.min_0_l, drop_0. f_equal. lia.
Qed.

Lemma js_slice_from_nat {A} (l : list A) (n : nat) :
  n ≤ length l → js_slice l (Z.of_nat n) None = drop n l.
Proof.
  intros Hn. unfold js_slice. rewrite js_rel_index_nonneg by lia.
  rewrite take_ge; [f_equal; lia|]. rewrite length_drop. lia.
Qed.

Lemma js_slice_all_but_last {A} (l : list A) :
  js_slice l 0 (Some (-1)%Z) = take (length l - 1) l.
Proof.
  unfold js_slice. rewrite (js_rel_index_nonneg _ 0), (js_rel_index_neg _ (-1)) by lia.
  rewrite Nat.min_0_l, drop_0. f_equal. lia.
Qed.

Lemma js_slice_last {A} (l : list A) :
  js_slice l (-1)%Z None = drop (length l - 1) l.
Proof.
  unfold js_slice. rewrite js_rel_index_neg by lia.
  rewrite take_ge; [f_equal; lia|]. rewrite length_drop. lia.
Qed.

Lemma zsum_app {A} (f : A -> Z) (l1 l2 : list A) : zsum f (l1 ++ l2) = (zsum f l1 + zsum f l2)%Z.
Proof. induction l1 as [|x l1 IH]; simpl; [done|]. rewrite IH. lia. Qed.

Lemma zsum_nonneg {A} (f : A -> Z) (l : list A) : (∀ x, 0 ≤ f x)%Z -> (0 ≤ zsum f l)%Z.
Proof. intros Hf. induction l as [|x l IH]; simpl; [lia|]. specialize (Hf x). lia. Qed.

Lemma filter_Forall_id {A} (P : A -> Prop) `{∀ x, Decision (P x)} (l : list A) :
  Forall P l -> filter P l = l.
Proof. induction 1; [done|]. rewrite filter_cons_True by done. by f_equal. Qed.

Lemma countb_app {A} (f : A -> bool) (l1 l2 : list A) : countb f (l1 ++ l2) = countb f l1 + countb f l2.
Proof. unfold countb. by rewrite filter_app, length_app. Qed.

Lemma countb_cons {A} (f : A -> bool) x (l : list A) :
  countb f (x :: l) = (if f x then 1 else 0) + countb f l.
Proof.
  unfold countb. destruct (f x) eqn:E.
  - rewrite filter_cons_True by done. done.
  - rewrite filter_cons_False by congruence. done.
Qed.

Lemma countb_map {A B} (f : B -> bool) (g : A -> B) (l : list A) : countb f (map g l) = countb (f ∘ g) l.
Proof. induction l as [|x l IH]; [done|]. rewrite map_cons, !countb_cons, IH. done. Qed.

Lemma countb_nil {A} (f : A -> bool) : countb f [] = 0.
Proof. done. Qed.

Lemma countb_filter_eq {A} (f : A -> bool) (P : A -> Prop) `{∀ x, Decision (P x)} (l : list A) :
  (∀ x, x ∈ l -> ¬ P x -> f x = false) -> countb f (filter P l) = countb f l.
Proof.
  induction l as [|x l IH]; intros Hl; [done|]. rewrite filter_cons, countb_cons.
  rewrite <- IH by (intros y Hy; apply Hl; by right).
  destruct (decide (P x)); rewrite ?countb_cons; [done|]. by rewrite (Hl x) by (done || left).
Qed.

Lemma countb_filter_le {A} (f : A -> bool) (P : A -> Prop) `{∀ x, Decision (P x)} (l : list A) :
  countb f (filter P l) ≤ countb f l.
Proof.
  induction l as [|x l IH]; [done|]. rewrite filter_cons, countb_cons.
  destruct (decide (P x)); rewrite ?countb_cons; lia.
Qed.

Lemma NoDup_map_filter {A B} (g : A -> B) (P : A -> Prop) `{∀ x, Decision (P x)} (l : list A) :
  NoDup (map g l) -> NoDup (map g (filter P l)).
Proof.
  induction l as [|x l IH]; intros Hl; [constructor|]. simpl in Hl. apply NoDup_cons in Hl as [Hx Hl].
  rewrite filter_cons. case_decide; [|by apply IH]. simpl. apply NoDup_cons. split; [|by apply IH].
  intros Hin. apply Hx. apply list_elem_of_In in Hin. apply list_elem_of_In, in_map_iff.
  apply in_map_iff in Hin as (y & Hy & Hin). exists y. split; [done|].
  apply list_elem_of_In in Hin. apply list_elem_of_In. by apply list_elem_of_filter in Hin as [_ ?].
Qed.

Lemma NoDup_map_inj_in {A B} (g : A -> B) (l : list A) x y :
  NoDup (map g l) -> x ∈ l -> y ∈ l -> g x = g y -> x = y.
Proof.
  intros Hl Hx Hy Hg. apply list_elem_of_lookup in Hx as [i Hi], Hy as [j Hj].
  change (map g l) with (g <$> l) in Hl. assert (i = j) as ->; [|congruence].
  apply (NoDup_lookup (g <$> l) i j (g x) Hl); rewrite list_lookup_fmap; [by rewrite Hi|by rewrite Hj, Hg].
Qed.

Lemma map_insert_same {A B} (g : A -> B) (l : list A) i x y :
  l !! i = Some x -> g y = g x -> map g (<[i := y]> l) = map g l.
Proof.
  intros Hi Hg. change (g <$> <[i := y]> l = g <$> l).
  rewrite list_fmap_insert, Hg. apply list_insert_id. by rewrite list_lookup_fmap, Hi.
Qed.

Lemma countb_filter_remove {A B} (f : A -> bool) (g : A -> B) `{EqDecision B} (l : list A) x :
  NoDup (map g l) -> x ∈ l -> countb f (filter (λ d, g d ≠ g x) l) + (if f x then 1 else 0) = countb f l.
Proof.
  induction l as [|y l IH]; intros Hl Hx; [by apply not_elem_of_nil in Hx|].
  simpl in Hl. apply NoDup_cons in Hl as [Hy Hl]. rewrite filter_cons, countb_cons.
  apply elem_of_cons in Hx as [->|Hx].
  - rewrite decide_False by auto. rewrite filter_Forall_id; [lia|].
    apply Forall_forall. intros d Hd Heq. apply Hy, list_elem_of_In, in_map_iff.
    exists d. split; [done|by apply list_elem_of_In].
  - assert (g y ≠ g x) as Hne.
    { intros Heq. apply Hy. rewrite Heq. apply list_elem_of_In, in_map_iff.
      exists x. split; [done|by apply list_elem_of_In]. }
    rewrite decide_True by done. rewrite countb_cons. specialize (IH Hl Hx). lia.
Qed.

Lemma filter_insert_skip {A} (P : A -> Prop) `{∀ x, Decision (P x)} (l : list A) i x y :
  l !! i = Some x -> ¬ P x -> ¬ P y -> filter P (<[i := y]> l) = filter P l.
Proof.
  revert i. induction l as [|z l IH]; intros [|i] Hi Hx Hy; try done; simpl in Hi.
  - injection Hi as ->. simpl. by rewrite !filter_cons, !decide_False.
  - simpl. rewrite !filter_cons. by rewrite IH.
Qed.

Lemma filter_delete_skip {A} (P : A -> Prop) `{∀ x, Decision (P x)} (l : list A) i x :
  l !! i = Some x -> ¬ P x -> filter P (delete i l) = filter P l.
Proof.
  revert i. induction l as [|z l IH]; intros [|i] Hi Hx; try done; simpl in Hi.
  - injection Hi as ->. simpl. by rewrite filter_cons, decide_False.
  - simpl. rewrite !filter_cons. by rewrite IH.
Qed.

Lemma filter_filter_sub {A} (P Q : A -> Prop) `{∀ x, Decision (P x)} `{∀ x, Decision (Q x)} (l : list A) :
  (∀ x, P x -> Q x) -> filter P (filter Q l) = filter P l.
Proof.
  intros HPQ. induction l as [|x l IH]; [done|]. rewrite (filter_cons Q).
  destruct (decide (Q x)); rewrite ?filter_cons; [by rewrite IH|].
  rewrite decide_False by auto. done.
Qed.

Lemma filter_fmap {A B} (f : A -> B) (P : B -> Prop) `{∀ x, Decision (P x)} (l : list A) :
  filter P (f <$> l) = f <$> filter (λ x, P (f x)) l.
Proof.
  induction l as [|x l IH]; [done|]. rewrite fmap_cons, !filter_cons.
  case_decide; [by rewrite fmap_cons, IH|done].
Qed.

Lemma Forall_filter_of {A} (P Q : A -> Prop) `{∀ x, Decision (P x)} (l : list A) :
  Forall Q l -> Forall Q (filter P l).
Proof. rewrite !Forall_forall. intros HQ x [_ Hx]%list_elem_of_filter. auto. Qed.

Lemma Forall_filter_self {A} (P : A -> Prop) `{∀ x, Decision (P x)} (l : list A) : Forall P (filter P l).
Proof. apply Forall_forall. intros x Hx. by apply list_elem_of_filter in Hx as [? _]. Qed.

(** [list_find] through a map that keeps what the predicate reads. *)
Lemma list_find_map_keep {A} (P : A -> Prop) `{∀ x, Decision (P x)} (f : A -> A) (l : list A) :
  (∀ x, P (f x) <-> P x) -> list_find P (map f l) = prod_map id f <$> list_find P l.
Proof.
  intros Hf. induction l as [|x l IH]; [done|]. simpl.
  destruct (decide (P (f x))) as [Hx|Hx], (decide (P x)) as [Hx'|Hx']; simpl;
    [done|exfalso; apply Hx'; by apply Hf|exfalso; apply Hx; by apply Hf|].
  rewrite IH. by destruct (list_find P l) as [[]|].
Qed.

Section Split.
Context {A} `{EqDecision A}.
Implicit Types (c : A) (s t r : list A).

Lemma split_on_nonnil c s : split_on c s ≠ [].
Proof. destruct s as [|d s]; simpl; [done|]. by case_bool_decide; [|destruct (split_on c s)]. Qed.

(** [split_on] over a prefix without the separator. *)
Lemma split_on_prefix c t r :
  c ∉ t -> split_on c (t ++ r) = (t ++ hd [] (split_on c r)) :: tl (split_on c r).
Proof.
  induction t as [|d t IH]; intros Ht.
  - simpl. destruct (split_on c r) eqn:E; [by apply split_on_nonnil in E|done].
  - apply not_elem_of_cons in Ht as [Hd Ht]. simpl. rewrite bool_decide_false by done.
    by rewrite IH.
Qed.

Lemma split_on_no_sep c s : Forall (λ t, c ∉ t) (split_on c s).
Proof.
  induction s as [|d s IH]; simpl; [repeat constructor; apply not_elem_of_nil|].
  case_bool_decide as Hd; [constructor; [apply not_elem_of_nil|done]|].
  destruct (split_on c s) as [|p ps]; [repeat constructor; by apply not_elem_of_cons; split; [|apply not_elem_of_nil]|].
  apply Forall_cons in IH as [Hp Hps]. constructor; [|done]. apply not_elem_of_cons. split; [|done]. congruence.
Qed.

Lemma split_on_sep c t r : c ∉ t -> split_on c (t ++ c :: r) = t :: split_on c r.
Proof. intros Ht. rewrite split_on_prefix by done. simpl. by rewrite bool_decide_true, app_nil_r. Qed.

Lemma split_on_none c t : c ∉ t -> split_on c t = [t].
Proof. intros Ht. rewrite <- (app_nil_r t) at 1. rewrite split_on_prefix by done. by rewrite app_nil_r. Qed.

(** Splitting what [join] glued gives the pieces back, when none holds the
    separator. *)
Lemma split_on_join c ts : Forall (λ t, c ∉ t) ts -> ts ≠ [] -> split_on c (join_on c ts) = ts.
Proof.
  induction 1 as [|t ts Ht Hts IH]; [done|]. intros _.
  destruct ts as [|t' ts]; [by apply split_on_none|].
  change (join_on c (t :: t' :: ts)) with (t ++ c :: join_on c (t' :: ts)).
  rewrite split_on_sep by done. by rewrite IH.
Qed.

End Split.

(** ** Paging: [.skip((n - 1) * size).limit(size)] *)

Section Paging.
Context {A : Type}.
Implicit Types (l : list A).

(** The pages [0 .. k - 1] of size [s], one after the other, are the first
    [k * s] elements. *)
Lemma pages_concat l s k :
  concat (map (λ n, take s (drop (n * s) l)) (seq 0 k)) = take (k * s) l.
Proof.
  induction k as [|k IH]; [done|].
  rewrite seq_S, map_app, concat_app, IH. simpl. rewrite app_nil_r, take_take_drop.
  f_equal. lia.
Qed.

(** The last [n] elements, as [.sort({_id: -1}).limit(n)] and a reverse
    read them. *)
Lemma reverse_take_reverse l n : reverse (take n (reverse l)) = drop (length l - n) l.
Proof. by rewrite take_reverse, reverse_involutive. Qed.

Lemma elem_of_page (x : A) l n m : x ∈ take n (drop m l) -> x ∈ l.
Proof.
  rewrite elem_of_take. intros (i & Hi & _). rewrite lookup_drop in Hi.
  by eapply list_elem_of_lookup_2.
Qed.

Lemma Sorted_take (R : relation A) l n : Sorted R l -> Sorted R (take n l).
Proof.
  intros Hs. revert n. induction Hs as [|x l Hs IH Hhd]; intros [|n]; simpl; try constructor.
  - apply IH.
  - destruct Hhd as [|y l' Hxy]; destruct n; simpl; constructor; done.
Qed.

Lemma Sorted_drop (R : relation A) l n : Sorted R l -> Sorted R (drop n l).
Proof.
  intros Hs. revert n. induction Hs as [|x l Hs IH Hhd]; intros [|n]; simpl; try constructor; auto.
Qed.

End Paging.

#[export] Hint Rewrite @zsum_app : fastgpt.
#[export] Hint Rewrite @countb_app @countb_cons @countb_map @countb_nil : fastgpt.

#[export] Hint Resolve js_findIndex_from_none js_findIndex_from_some Forall_filter_self : fastgpt.
