(* ===== verification/JsRegex.v ===== *)
(** * JsRegex: the fragment of ECMAScript regular expressions the program uses

    [formatSplitText] in src/client/src/service/events/generateQA.ts parses the
    model's answer with the global regular expression
    /Q\d+:(\s⋆)(.⋆)(\s⋆)A\d+:(\s⋆)([\s\S]⋆?)(?=Q|$)/g (⋆ is the star) through
    [String.prototype.matchAll].  This file gives that fragment its ECMAScript
    semantics: a backtracking matcher in continuation-passing style (ECMA-262
    §22.2.2, "Pattern Semantics"), greedy and lazy quantifiers over a character
    class, capturing groups, positive lookahead, [$] without the [m] flag, and
    the [RegExpBuiltinExec] / [%RegExpStringIterator%] loop of [matchAll].

    Quantifiers are only applied to one-character atoms, which is all the
    program uses; each iteration consumes a character, so the empty-iteration
    check of §22.2.2.3.1 never fires and the matcher is structurally recursive. *)

From Stdlib Require Import Ascii ZArith.
From stdpp Require Import base list.
From S2P Require Import Prelude.

Module JsRegex.

(** Capture state: group number and captured text, the latest binding first. *)
Abbreviation captures := (list (nat * text)).

Inductive regex : Type :=
| REmpty                                   (* the empty alternative *)
| RChar (p : ascii -> bool)                (* a character class, [Q], [\d], [.] *)
| RStar (greedy : bool) (p : ascii -> bool)(* [p*] (greedy) or [p*?] (lazy) *)
| RSeq (r1 r2 : regex)                     (* concatenation *)
| RAlt (r1 r2 : regex)                     (* [r1|r2] *)
| RGroup (n : nat) (r : regex)             (* the capturing group number [n] *)
| RLook (r : regex)                        (* [(?=r)] *)
| REnd.                                    (* [$] without the [m] flag *)

(** [p+] is [p] followed by [p*]; with a one-character atom the order in
    which the alternatives are tried is that of ECMAScript's [+]. *)
Definition RPlus (greedy : bool) (p : ascii -> bool) : regex := RSeq (RChar p) (RStar greedy p).

(** ** The backtracking matcher

    [mtch r s cs k]: match [r] at the start of the remaining input [s] with
    captures [cs], and pass the remaining input and captures to the
    continuation [k]; the first success in ECMAScript's order is returned. *)

Fixpoint star_greedy {R} (p : ascii -> bool) (k : text -> captures -> option R)
    (s : text) (cs : captures) : option R :=
  match s with
  | c :: s' =>
      if p c then
        match star_greedy p k s' cs with Some x => Some x | None => k s cs end
      else k s cs
  | [] => k [] cs
  end.

Fixpoint star_lazy {R} (p : ascii -> bool) (k : text -> captures -> option R)
    (s : text) (cs : captures) : option R :=
  match k s cs with
  | Some x => Some x
  | None =>
      match s with
      | c :: s' => if p c then star_lazy p k s' cs else None
      | [] => None
      end
  end.

Fixpoint mtch {R} (r : regex) (s : text) (cs : captures)
    (k : text -> captures -> option R) : option R :=
  match r with
  | REmpty => k s cs
  | RChar p => match s with c :: s' => if p c then k s' cs else None | [] => None end
  | RStar g p => if g then star_greedy p k s cs else star_lazy p k s cs
  | RSeq r1 r2 => mtch r1 s cs (λ s' cs', mtch r2 s' cs' k)
  | RAlt r1 r2 => match mtch r1 s cs k with Some x => Some x | None => mtch r2 s cs k end
  | RGroup n r1 =>
      mtch r1 s cs (λ s' cs', k s' ((n, take (length s - length s') s) :: cs'))
  | RLook r1 =>
      match mtch (R:=captures) r1 s cs (λ _ cs', Some cs') with
      | Some cs' => k s cs'
      | None => None
      end
  | REnd => match s with [] => k s cs | _ :: _ => None end
  end.

(** A match attempt at one position: the rest of the input and the captures. *)
Definition exec_at (r : regex) (s : text) : option (text * captures) :=
  mtch r s [] (λ s' cs, Some (s', cs)).

(** [RegExpBuiltinExec] of a global regexp from [lastIndex]: try each position
    in turn.  The result is the input from the match start, the input after
    the match, and the captures. *)
Fixpoint search (r : regex) (s : text) : option (text * text * captures) :=
  match exec_at r s with
  | Some (rest, cs) => Some (s, rest, cs)
  | None => match s with [] => None | _ :: s' => search r s' end
  end.

(** [%RegExpStringIterator%.next]: after an empty match [lastIndex] is
    advanced by one code unit; past the end the iteration stops. *)
Definition next_input (st rest : text) : option text :=
  if decide (length rest < length st) then Some rest
  else match st with [] => None | _ :: st' => Some st' end.

Fixpoint match_all_fuel (fuel : nat) (r : regex) (s : text) : list (text * text * captures) :=
  match fuel with
  | O => []
  | S f =>
      match search r s with
      | None => []
      | Some (st, rest, cs) =>
          (st, rest, cs) ::
          match next_input st rest with
          | Some s' => match_all_fuel f r s'
          | None => []
          end
      end
  end.

(** Every step of the iteration starts strictly further into the input, so
    one more step than there are code units is enough (lemma
    [match_all_fuel_enough] below). *)
Definition matchAll (r : regex) (s : text) : list (text * text * captures) :=
  match_all_fuel (S (length s)) r s.

(** [match[n]]: the latest binding of group [n], [undefined] if none. *)
Fixpoint group (cs : captures) (n : nat) : option text :=
  match cs with
  | [] => None
  | (m, v) :: cs' => if decide (m = n) then Some v else group cs' n
  end.

(** ** A declarative reading of matches

    [mrel r s s' d]: [r] can match the input [s] leaving [s'] and binding the
    captures [d] (latest first).  Every answer of the matcher is such a match
    ([mtch_sound]); which one is returned is the business of the priority
    lemmas on the quantifiers. *)
Inductive mrel : regex -> text -> text -> captures -> Prop :=
| mrel_empty s : mrel REmpty s s []
| mrel_char p c s : p c = true -> mrel (RChar p) (c :: s) s []
| mrel_star g p w s : Forall (λ c, p c = true) w -> mrel (RStar g p) (w ++ s) s []
| mrel_seq r1 r2 s s1 s2 d1 d2 :
    mrel r1 s s1 d1 -> mrel r2 s1 s2 d2 -> mrel (RSeq r1 r2) s s2 (d2 ++ d1)
| mrel_alt_l r1 r2 s s' d : mrel r1 s s' d -> mrel (RAlt r1 r2) s s' d
| mrel_alt_r r1 r2 s s' d : mrel r2 s s' d -> mrel (RAlt r1 r2) s s' d
| mrel_group n r s s' d :
    mrel r s s' d -> mrel (RGroup n r) s s' ((n, take (length s - length s') s) :: d)
| mrel_look r s s' d : mrel r s s' d -> mrel (RLook r) s s d
| mrel_end : mrel REnd [] [] [].

(** Where the matcher can stop: the input is split into a consumed part and a rest. *)
Definition suffix_of (s' s : text) : Prop := ∃ w, s = w ++ s'.

(** ** The quantifiers: what they consume and which stop they choose *)

Section Quantifiers.
Context {R : Type} (p : ascii -> bool) (k : text -> captures -> option R).

Lemma star_greedy_none s cs :
  star_greedy p k s cs = None ->
  ∀ v t, s = v ++ t -> Forall (λ c, p c = true) v -> k t cs = None.
Proof.
  induction s as [|c s IH]; simpl; intros H v t Hs Hv.
  - destruct v; simplify_eq/=. done.
  - destruct v as [|d v]; simplify_eq/=.
    + destruct (p c); [by destruct (star_greedy p k s cs)|done].
    + apply Forall_cons in Hv as [Hd Hv]. rewrite Hd in H.
      destruct (star_greedy p k (v ++ t) cs) eqn:E; [done|]. eauto.
Qed.

(** A greedy star stops at the longest run of [p] after which the
    continuation succeeds. *)
Lemma star_greedy_spec s cs x :
  star_greedy p k s cs = Some x ->
  ∃ w s', s = w ++ s' ∧ Forall (λ c, p c = true) w ∧ k s' cs = Some x ∧
    (∀ v t, s' = v ++ t -> v ≠ [] -> Forall (λ c, p c = true) v -> k t cs = None).
Proof.
  induction s as [|c s IH]; simpl; intros H.
  - exists [], []. split_and!; [done|constructor|done|].
    intros [|??] ? ?; [done|discriminate].
  - destruct (p c) eqn:Hc; [destruct (star_greedy p k s cs) eqn:E|].
    + injection H as <-. destruct (IH eq_refl) as (w & s' & -> & Hw & Hk & Hmax).
      exists (c :: w), s'. split_and!; [done|by constructor|done|done].
    + exists [], (c :: s). split_and!; [done|constructor|done|].
      intros [|d v] t Ht Hv Hpv; [done|]. simplify_eq/=.
      apply Forall_cons in Hpv as [_ Hpv]. eapply star_greedy_none; eauto.
    + exists [], (c :: s). split_and!; [done|constructor|done|].
      intros [|d v] t Ht Hv Hpv; [done|]. simplify_eq/=.
      apply Forall_cons in Hpv as [Hd _]. congruence.
Qed.

(** A lazy star stops at the first position where the continuation succeeds. *)
Lemma star_lazy_spec s cs x :
  star_lazy p k s cs = Some x ->
  ∃ w s', s = w ++ s' ∧ Forall (λ c, p c = true) w ∧ k s' cs = Some x ∧
    (∀ v t, w = v ++ t -> t ≠ [] -> k (t ++ s') cs = None).
Proof.
  induction s as [|c s IH]; simpl; intros H.
  - destruct (k [] cs) eqn:E; simplify_eq.
    exists [], []. split_and!; [done|constructor|done|]. by intros [|??] [|??].
  - destruct (k (c :: s) cs) eqn:E.
    + simplify_eq. exists [], (c :: s). split_and!; [done|constructor|done|].
      by intros [|??] [|??].
    + destruct (p c) eqn:Hc; [|done].
      destruct (IH H) as (w & s' & -> & Hw & Hk & Hfirst).
      exists (c :: w), s'. split_and!; [done|by constructor|done|].
      intros [|d v] t Hwt Ht; simplify_eq/=; [done|]. eauto.
Qed.

(** Running a greedy star over a maximal run of [p]. *)
Lemma star_greedy_run w s cs x :
  Forall (λ c, p c = true) w -> (∀ c t, s = c :: t -> p c = false) ->
  k s cs = Some x -> star_greedy p k (w ++ s) cs = Some x.
Proof.
  intros Hw Hs Hk. induction Hw as [|c w Hc _ IH]; simpl.
  - destruct s as [|c t]; simpl; [done|]. by rewrite (Hs c t eq_refl).
  - by rewrite Hc, IH.
Qed.

(** Running a lazy star up to the first position where the continuation succeeds. *)
Lemma star_lazy_run w s cs x :
  Forall (λ c, p c = true) w ->
  (∀ v t, w = v ++ t -> t ≠ [] -> k (t ++ s) cs = None) ->
  k s cs = Some x -> star_lazy p k (w ++ s) cs = Some x.
Proof.
  intros Hw. revert Hw. induction w as [|c w IH]; intros Hw Hfirst Hk; simpl.
  - destruct s; simpl; by rewrite Hk.
  - assert (k (c :: w ++ s) cs = None) as -> by (apply (Hfirst [] (c :: w)); done).
    apply Forall_cons in Hw as [Hc Hw]. rewrite Hc. apply IH; [done| |done].
    intros v t -> Ht. apply (Hfirst (c :: v) t); done.
Qed.

End Quantifiers.

(** ** Soundness of the matcher *)

Lemma mrel_suffix r s s' d : mrel r s s' d -> suffix_of s' s.
Proof.
  induction 1 as [s|p c s _|g p w s _|r1 r2 s s1 s2 d1 d2 _ [w1 ->] _ [w2 ->]
                 |r1 r2 s s' d _ IH|r1 r2 s s' d _ IH|n r s s' d _ IH|r s s' d _ _|].
  - by exists [].
  - by exists [c].
  - by exists w.
  - exists (w1 ++ w2). by rewrite <-app_assoc.
  - done.
  - done.
  - done.
  - by exists [].
  - by exists [].
Qed.

Lemma mtch_sound {R} r s cs (k : text -> captures -> option R) x :
  mtch r s cs k = Some x -> ∃ s' d, mrel r s s' d ∧ k s' (d ++ cs) = Some x.
Proof.
  revert R s cs k x. induction r as [|p|g p|r1 IH1 r2 IH2|r1 IH1 r2 IH2|n r IH|r IH|];
    intros R s cs k x H; simpl in H.
  - eexists _, []. split; [constructor|done].
  - destruct s as [|c s]; [done|]. destruct (p c) eqn:Hc; [|done].
    eexists _, []. split; [by constructor|done].
  - destruct g; [apply star_greedy_spec in H|apply star_lazy_spec in H];
      destruct H as (w & s' & -> & Hw & Hk & _);
      eexists _, []; (split; [by constructor|done]).
  - apply IH1 in H as (s1 & d1 & H1 & H). apply IH2 in H as (s2 & d2 & H2 & H).
    exists s2, (d2 ++ d1). rewrite <-app_assoc. split; [by econstructor|done].
  - destruct (mtch r1 s cs k) eqn:E.
    + simplify_eq. apply IH1 in E as (s' & d & ? & ?). exists s', d. split; [by constructor|done].
    + apply IH2 in H as (s' & d & ? & ?). exists s', d. split; [by constructor|done].
  - apply IH in H as (s' & d & Hm & H). eexists s', _. split; [by constructor|exact H].
  - destruct (mtch r s cs (λ _ cs', Some cs')) eqn:E; [|done].
    apply IH in E as (s' & d & Hm & [= <-]). exists s, d. split; [by econstructor|done].
  - destruct s; [|done]. eexists [], []. split; [constructor|done].
Qed.

(** ** Search and iteration *)

Lemma exec_at_suffix r s rest cs :
  exec_at r s = Some (rest, cs) -> suffix_of rest s.
Proof.
  unfold exec_at. intros H. apply mtch_sound in H as (s' & d & Hm & [= -> _]).
  by eapply mrel_suffix.
Qed.

(** [search] returns the first position at which the expression matches. *)
Lemma search_spec r s st rest cs :
  search r s = Some (st, rest, cs) ->
  ∃ w, s = w ++ st ∧ exec_at r st = Some (rest, cs) ∧
    (∀ v t, w = v ++ t -> t ≠ [] -> exec_at r (t ++ st) = None).
Proof.
  induction s as [|c s IH]; simpl; intros H.
  - destruct (exec_at r []) as [[??]|] eqn:E; simplify_eq.
    exists []. split_and!; [done|done|]. by intros [|??] [|??].
  - destruct (exec_at r (c :: s)) as [[??]|] eqn:E; simplify_eq.
    + exists []. split_and!; [done|done|]. by intros [|??] [|??].
    + destruct (IH H) as (w & -> & Hx & Hfirst). exists (c :: w). split_and!; [done|done|].
      intros [|d v] t Hwt Ht; simplify_eq/=; [done|]. eauto.
Qed.

Lemma search_here r s rest cs :
  exec_at r s = Some (rest, cs) -> search r s = Some (s, rest, cs).
Proof. destruct s; simpl; by intros ->. Qed.

Lemma search_skip r c s :
  exec_at r (c :: s) = None -> search r (c :: s) = search r s.
Proof. simpl. by intros ->. Qed.

Lemma next_input_shorter st rest s' :
  suffix_of rest st -> next_input st rest = Some s' -> length s' < length st.
Proof.
  intros [w ->]. unfold next_input. rewrite length_app.
  case_decide; [intros [= <-]; lia|].
  destruct w as [|c w]; simpl in *; [|lia].
  destruct rest; [done|]. intros [= <-]. simpl. lia.
Qed.

Lemma search_shorter r s st rest cs s' :
  search r s = Some (st, rest, cs) -> next_input st rest = Some s' -> length s' < length s.
Proof.
  intros Hs Hn. destruct (search_spec _ _ _ _ _ Hs) as (w & -> & Hx & _).
  apply exec_at_suffix in Hx. apply next_input_shorter in Hn; [|done].
  rewrite length_app. lia.
Qed.

(** Enough fuel: with more than [length s] steps the iteration has ended,
    and more fuel changes nothing. *)
Lemma match_all_fuel_enough r n m s :
  length s < n -> n ≤ m -> match_all_fuel m r s = match_all_fuel n r s.
Proof.
  revert m s. induction n as [|n IH]; intros m s Hn Hm; [lia|].
  destruct m as [|m]; [lia|]. simpl.
  destruct (search r s) as [[[st rest] cs]|] eqn:Hs; [|done]. f_equal.
  destruct (next_input st rest) as [s'|] eqn:Hn'; [|done].
  pose proof (search_shorter _ _ _ _ _ _ Hs Hn'). apply IH; lia.
Qed.

Lemma matchAll_unfold r s :
  matchAll r s =
  match search r s with
  | None => []
  | Some (st, rest, cs) =>
      (st, rest, cs) :: match next_input st rest with Some s' => matchAll r s' | None => [] end
  end.
Proof.
  unfold matchAll at 1.
  transitivity
    (match search r s with
     | None => []
     | Some (st, rest, cs) =>
         (st, rest, cs) ::
         match next_input st rest with Some s' => match_all_fuel (length s) r s' | None => [] end
     end); [reflexivity|].
  destruct (search r s) as [[[st rest] cs]|] eqn:Hs; [|done]. f_equal.
  destruct (next_input st rest) as [s'|] eqn:Hn; [|done].
  pose proof (search_shorter _ _ _ _ _ _ Hs Hn).
  apply match_all_fuel_enough; lia.
Qed.

(** ** Stepping through a concatenation

    The program's expressions are right-nested concatenations; these lemmas
    take one component off the front, in the direction of an answer of the
    matcher (soundness) or towards one (running the matcher). *)

Lemma mtch_seq_sound {R} r1 r2 s cs (k : text -> captures -> option R) x :
  mtch (RSeq r1 r2) s cs k = Some x ->
  ∃ s1 d1, mrel r1 s s1 d1 ∧ mtch r2 s1 (d1 ++ cs) k = Some x.
Proof. simpl. intros H. by apply mtch_sound in H. Qed.

Lemma mrel_char_inv p s s' d :
  mrel (RChar p) s s' d -> ∃ c, s = c :: s' ∧ p c = true ∧ d = [].
Proof. inversion 1; subst. eauto. Qed.

Lemma mrel_plus_inv g p s s' d :
  mrel (RPlus g p) s s' d -> ∃ w, s = w ++ s' ∧ w ≠ [] ∧ Forall (λ c, p c = true) w ∧ d = [].
Proof.
  inversion 1; subst.
  match goal with
  | Hc : mrel (RChar _) _ _ _, Hs : mrel (RStar _ _) _ _ _ |- _ =>
      inversion Hc; subst; inversion Hs; subst
  end.
  exists (c :: w). split_and!; [done|done|by constructor|done].
Qed.

Lemma take_app_diff (w s : text) : take (length (w ++ s) - length s) (w ++ s) = w.
Proof. rewrite length_app, Nat.add_sub. apply take_app_length. Qed.

Lemma mrel_group_star_inv n g p s s' d :
  mrel (RGroup n (RStar g p)) s s' d ->
  ∃ w, s = w ++ s' ∧ Forall (λ c, p c = true) w ∧ d = [(n, w)].
Proof.
  inversion 1; subst.
  match goal with Hs : mrel (RStar _ _) _ _ _ |- _ => inversion Hs; subst end.
  exists w. by rewrite take_app_diff.
Qed.

Lemma mtch_group_greedy_spec {R} n p r2 s cs (k : text -> captures -> option R) x :
  mtch (RSeq (RGroup n (RStar true p)) r2) s cs k = Some x ->
  ∃ w s', s = w ++ s' ∧ Forall (λ c, p c = true) w ∧ mtch r2 s' ((n, w) :: cs) k = Some x ∧
    (∀ v t, s' = v ++ t -> v ≠ [] -> Forall (λ c, p c = true) v ->
            mtch r2 t ((n, w ++ v) :: cs) k = None).
Proof.
  simpl. intros H. apply star_greedy_spec in H as (w & s' & -> & Hw & Hk & Hmax).
  exists w, s'. rewrite take_app_diff in Hk. split_and!; [done|done|done|].
  intros v t -> Hv Hpv. specialize (Hmax v t eq_refl Hv Hpv). cbv beta in Hmax.
  by rewrite app_assoc, take_app_diff in Hmax.
Qed.

Lemma mtch_group_lazy_spec {R} n p r2 s cs (k : text -> captures -> option R) x :
  mtch (RSeq (RGroup n (RStar false p)) r2) s cs k = Some x ->
  ∃ w s', s = w ++ s' ∧ Forall (λ c, p c = true) w ∧ mtch r2 s' ((n, w) :: cs) k = Some x ∧
    (∀ v t, w = v ++ t -> t ≠ [] -> mtch r2 (t ++ s') ((n, v) :: cs) k = None).
Proof.
  simpl. intros H. apply star_lazy_spec in H as (w & s' & -> & Hw & Hk & Hfirst).
  exists w, s'. rewrite take_app_diff in Hk. split_and!; [done|done|done|].
  intros v t -> Ht. specialize (Hfirst v t eq_refl Ht). cbv beta in Hfirst.
  by rewrite <-app_assoc, take_app_diff in Hfirst.
Qed.

Lemma mtch_seq_char_run {R} p c r2 s cs (k : text -> captures -> option R) x :
  p c = true -> mtch r2 s cs k = Some x -> mtch (RSeq (RChar p) r2) (c :: s) cs k = Some x.
Proof. simpl. by intros -> ?. Qed.

Lemma mtch_seq_plus_run {R} p c w r2 s cs (k : text -> captures -> option R) x :
  Forall (λ c, p c = true) (c :: w) -> (∀ d t, s = d :: t -> p d = false) ->
  mtch r2 s cs k = Some x -> mtch (RSeq (RPlus true p) r2) (c :: w ++ s) cs k = Some x.
Proof.
  intros [Hc Hw]%Forall_cons Hs Hk. simpl. rewrite Hc. by apply star_greedy_run.
Qed.

Lemma mtch_group_greedy_run {R} n p r2 w s cs (k : text -> captures -> option R) x :
  Forall (λ c, p c = true) w -> (∀ c t, s = c :: t -> p c = false) ->
  mtch r2 s ((n, w) :: cs) k = Some x ->
  mtch (RSeq (RGroup n (RStar true p)) r2) (w ++ s) cs k = Some x.
Proof.
  intros Hw Hs Hk. simpl. apply star_greedy_run; [done|done|]. by rewrite take_app_diff.
Qed.

Lemma mtch_group_lazy_run {R} n p r2 w s cs (k : text -> captures -> option R) x :
  Forall (λ c, p c = true) w ->
  (∀ v t, w = v ++ t -> t ≠ [] -> mtch r2 (t ++ s) ((n, v) :: cs) k = None) ->
  mtch r2 s ((n, w) :: cs) k = Some x ->
  mtch (RSeq (RGroup n (RStar false p)) r2) (w ++ s) cs k = Some x.
Proof.
  intros Hw Hfirst Hk. simpl. apply star_lazy_run; [done| |by rewrite take_app_diff].
  intros v t -> Ht. cbv beta. rewrite <-app_assoc, take_app_diff. by apply Hfirst.
Qed.

(** Every element of [matchAll] is an answer of the matcher at its start. *)
Lemma match_all_fuel_exec r n s st rest cs :
  (st, rest, cs) ∈ match_all_fuel n r s -> exec_at r st = Some (rest, cs).
Proof.
  revert s. induction n as [|n IH]; intros s; simpl; [by rewrite elem_of_nil|].
  destruct (search r s) as [[[st' rest'] cs']|] eqn:Hs; [|by rewrite elem_of_nil].
  rewrite elem_of_cons. intros [[= -> -> ->]|Hin].
  - by destruct (search_spec _ _ _ _ _ Hs) as (? & _ & ? & _).
  - destruct (next_input st' rest'); [by eapply IH|by apply elem_of_nil in Hin].
Qed.

Lemma matchAll_exec r s st rest cs :
  (st, rest, cs) ∈ matchAll r s -> exec_at r st = Some (rest, cs).
Proof. apply match_all_fuel_exec. Qed.

Lemma match_all_fuel_suffix r n s st rest cs :
  (st, rest, cs) ∈ match_all_fuel n r s -> suffix_of st s ∧ suffix_of rest st.
Proof.
  revert s. induction n as [|n IH]; intros s; simpl; [by rewrite elem_of_nil|].
  destruct (search r s) as [[[st' rest'] cs']|] eqn:Hs; [|by rewrite elem_of_nil].
  destruct (search_spec _ _ _ _ _ Hs) as (w & -> & Hx & _).
  destruct (exec_at_suffix _ _ _ _ Hx) as [w' ->].
  rewrite elem_of_cons. intros [[= -> -> ->]|Hin].
  - split; [by exists w|by exists w'].
  - unfold next_input in Hin. case_decide.
    + destruct (IH _ Hin) as [[u ->] Hr]. split; [|done].
      exists (w ++ w' ++ u). by rewrite <-!app_assoc.
    + destruct (w' ++ rest') as [|c st''] eqn:E; [by apply elem_of_nil in Hin|].
      destruct (IH _ Hin) as [[u ->] Hr]. split; [|done].
      exists (w ++ c :: u). by rewrite <-app_assoc.
Qed.

Lemma matchAll_rest_suffix r s st rest cs :
  (st, rest, cs) ∈ matchAll r s -> suffix_of rest s.
Proof.
  intros H. apply match_all_fuel_suffix in H as [[u ->] [v ->]].
  exists (u ++ v). by rewrite app_assoc.
Qed.

(** When the expression does not match at the first position, the first
    match found starts strictly later. *)
Lemma matchAll_skip_first r c s :
  exec_at r (c :: s) = None ->
  match matchAll r (c :: s) with
  | [] => True
  | (st, _, _) :: _ => length st ≤ length s
  end.
Proof.
  intros Hx. rewrite matchAll_unfold, search_skip by done.
  destruct (search r s) as [[[st rest] cs]|] eqn:Hs; [|done].
  destruct (search_spec _ _ _ _ _ Hs) as (w & -> & _). rewrite length_app. lia.
Qed.

Lemma matchAll_skip r c s : exec_at r (c :: s) = None -> matchAll r (c :: s) = matchAll r s.
Proof. intros Hx. rewrite !(matchAll_unfold r), search_skip by done. done. Qed.

Lemma matchAll_here r s rest cs :
  exec_at r s = Some (rest, cs) -> length rest < length s ->
  matchAll r s = (s, rest, cs) :: matchAll r rest.
Proof.
  intros Hx Hl. rewrite matchAll_unfold, (search_here _ _ _ _ Hx).
  unfold next_input. by rewrite decide_True.
Qed.

End JsRegex.
