(* ===== verification/QueryString.v ===== *)
(** * QueryString: the query-string helpers of utils/tools.ts

    [Obj2Query] serialises an object with [URLSearchParams] (the
    application/x-www-form-urlencoded serializer: a space becomes [+],
    the bytes [*-._] and ASCII letters and digits stay, every other byte
    of the UTF-8 encoding becomes [%XX]); [parseQueryString] splits a
    query string at [?], [&] and [=] and decodes each key and value with
    [decodeURIComponent], which decodes [%XX] sequences (throwing a
    [URIError] on a malformed one or on bytes that are not UTF-8) and
    leaves [+] as it is.  Here a string is the list of the bytes of its
    UTF-8 encoding, the form both functions work on; in the ASCII range
    this is the code-unit view of the Prelude.  An exception is [None].

    The object [parseQueryString] builds is an association list in the
    order its keys were first assigned; its values are strings or, for a
    repeated key, arrays.  A JavaScript object enumerates its
    integer-like keys ([0], [1], ...) first, in numeric order, and then
    the others in that order: the list is the object's own properties, and
    its order is the enumeration order only for objects without
    integer-like keys; the lookups the theorems use do not depend on
    it.  The assignment [queryObject[key] = value] is
    modelled with its two special keys: [__proto__] is the prototype
    setter, which ignores a string, and an own property [hasOwnProperty]
    hides [Object.prototype.hasOwnProperty], so that the next
    [queryObject.hasOwnProperty(key)] throws a [TypeError]. *)

From Stdlib Require Import Ascii.
From stdpp Require Import base list strings sets.
From S2P Require Import Prelude.

Module QueryString.

(** ** [URLSearchParams.toString()] *)

Definition byte (c : ascii) : nat := nat_of_ascii c.

Definition is_alnum (c : ascii) : bool :=
  let n := byte c in ((48 <=? n) && (n <=? 57)) || ((65 <=? n) && (n <=? 90)) || ((97 <=? n) && (n <=? 122)).

(** The bytes the urlencoded serializer keeps. *)
Definition form_unreserved (c : ascii) : bool := is_alnum c || bool_decide (c ∈ ⟦"*-._"⟧).

(** An upper-case hexadecimal digit. *)
Definition hex_char (n : nat) : ascii := if n <? 10 then chr (48 + n) else chr (55 + n).

Definition percent_encode (c : ascii) : text := ["%"%char; hex_char (byte c / 16); hex_char (byte c mod 16)].

Definition form_encode_byte (c : ascii) : text :=
  if bool_decide (c = " "%char) then ["+"%char] else if form_unreserved c then [c] else percent_encode c.

Fixpoint form_encode (s : text) : text :=
  match s with [] => [] | c :: s' => form_encode_byte c ++ form_encode s' end.

(** ** [encodeURIComponent]

    [Encode] (ECMA-262, 19.2.6.5) with the unescaped set of
    [encodeURIComponent]: ASCII letters and digits and [-_.!~*'()]; every
    other byte of the UTF-8 encoding as [%XX]. *)
Definition uri_unreserved (c : ascii) : bool := is_alnum c || bool_decide (c ∈ ⟦"-_.!~*'()"⟧).

Definition uri_encode_byte (c : ascii) : text := if uri_unreserved c then [c] else percent_encode c.

Fixpoint encodeURIComponent (s : text) : text :=
  match s with [] => [] | c :: s' => uri_encode_byte c ++ encodeURIComponent s' end.

(** ** [Obj2Query] *)

(** [Obj2Query] (lines 54-60): one [append] per key in the order
    [for...in] enumerates them, then [toString()], the pairs joined with
    [&]. *)
Definition query_part (kv : text * text) : text := form_encode kv.1 ++ "="%char :: form_encode kv.2.

Definition Obj2Query (obj : list (text * text)) : text := join_on "&"%char (query_part <$> obj).

(** ** [decodeURIComponent] *)

Definition hex_val (c : ascii) : option nat :=
  let n := byte c in
  if (48 <=? n) && (n <=? 57) then Some (n - 48)
  else if (65 <=? n) && (n <=? 70) then Some (n - 55)
  else if (97 <=? n) && (n <=? 102) then Some (n - 87)
  else None.

(** The string as literal bytes and [%XX] escapes; a [%] without two
    hexadecimal digits after it is a [URIError]. *)
Inductive Token := Lit (c : ascii) | Pct (b : nat).

Fixpoint tokenize (s : text) : option (list Token) :=
  match s with
  | [] => Some []
  | c :: s' =>
      if bool_decide (c = "%"%char) then
        match s' with
        | h1 :: h2 :: s'' =>
            match hex_val h1, hex_val h2 with
            | Some a, Some b => (Pct (16 * a + b) ::.) <$> tokenize s''
            | _, _ => None
            end
        | _ => None
        end
      else (Lit c ::.) <$> tokenize s'
  end.

(** The number of bytes of the UTF-8 sequence a byte starts (0 for
    ASCII, 1 for a continuation byte, 5 for the bytes no sequence starts
    with). *)
Definition lead_len (b : nat) : nat :=
  if b <? 128 then 0 else if b <? 192 then 1 else if b <? 224 then 2 else if b <? 240 then 3
  else if b <? 248 then 4 else 5.

Definition is_cont (b : nat) : bool := (128 <=? b) && (b <? 192).

(** The sequences of [n] bytes starting [b0 b1 ...] that encode a code
    point: not overlong, not a surrogate, at most U+10FFFF. *)
Definition utf8_ok (n b0 b1 : nat) : bool :=
  match n with
  | 2 => 194 <=? b0
  | 3 => (negb (b0 =? 224) || (160 <=? b1)) && (negb (b0 =? 237) || (b1 <? 160))
  | 4 => (b0 <=? 244) && (negb (b0 =? 240) || (144 <=? b1)) && (negb (b0 =? 244) || (b1 <? 144))
  | _ => false
  end.

(** The decoding loop of [Decode] (ECMA-262, 19.2.6.5) with an empty
    reserved set. *)
Fixpoint decode_tokens (ts : list Token) : option text :=
  match ts with
  | [] => Some []
  | Lit c :: ts' => (c ::.) <$> decode_tokens ts'
  | Pct b :: ts' =>
      match lead_len b, ts' with
      | 0, _ => (ascii_of_nat b ::.) <$> decode_tokens ts'
      | 2, Pct b1 :: ts'' =>
          if is_cont b1 && utf8_ok 2 b b1 then (λ r, ascii_of_nat b :: ascii_of_nat b1 :: r) <$> decode_tokens ts''
          else None
      | 3, Pct b1 :: Pct b2 :: ts'' =>
          if is_cont b1 && is_cont b2 && utf8_ok 3 b b1
          then (λ r, ascii_of_nat b :: ascii_of_nat b1 :: ascii_of_nat b2 :: r) <$> decode_tokens ts''
          else None
      | 4, Pct b1 :: Pct b2 :: Pct b3 :: ts'' =>
          if is_cont b1 && is_cont b2 && is_cont b3 && utf8_ok 4 b b1
          then (λ r, ascii_of_nat b :: ascii_of_nat b1 :: ascii_of_nat b2 :: ascii_of_nat b3 :: r) <$> decode_tokens ts''
          else None
      | _, _ => None
      end
  end.

Definition decodeURIComponent (s : text) : option text := tokenize s ≫= decode_tokens.

(** The strings JavaScript can hold, as UTF-8: the well-formed byte
    sequences. *)
Fixpoint utf8_valid (s : text) : bool :=
  match s with
  | [] => true
  | c :: s' =>
      match lead_len (byte c), s' with
      | 0, _ => utf8_valid s'
      | 2, c1 :: s'' => is_cont (byte c1) && utf8_ok 2 (byte c) (byte c1) && utf8_valid s''
      | 3, c1 :: c2 :: s'' =>
          is_cont (byte c1) && is_cont (byte c2) && utf8_ok 3 (byte c) (byte c1) && utf8_valid s''
      | 4, c1 :: c2 :: c3 :: s'' =>
          is_cont (byte c1) && is_cont (byte c2) && is_cont (byte c3) && utf8_ok 4 (byte c) (byte c1) && utf8_valid s''
      | _, _ => false
      end
  end.

(** ** [parseQueryString] *)

Inductive QVal := QStr (s : text) | QArr (l : list text).

Definition QueryObject := list (text * QVal).

Fixpoint qo_get (o : QueryObject) (k : text) : option QVal :=
  match o with [] => None | (k', v) :: o' => if bool_decide (k' = k) then Some v else qo_get o' k end.

(** An assignment to a property: in place when it exists, appended
    otherwise. *)
Fixpoint qo_set (o : QueryObject) (k : text) (v : QVal) : QueryObject :=
  match o with
  | [] => [(k, v)]
  | (k', v') :: o' => if bool_decide (k' = k) then (k, v) :: o' else (k', v') :: qo_set o' k v
  end.

Definition proto_key : text := ⟦"__proto__"⟧.
Definition hop_key : text := ⟦"hasOwnProperty"⟧.

(** The body of the [forEach] after the key and value are decoded
    (lines 79-86). *)
Definition add_pair (o : QueryObject) (key value : text) : option QueryObject :=
  if bool_decide (qo_get o hop_key ≠ None) then None
  else match qo_get o key with
       | Some (QArr l) => Some (qo_set o key (QArr (l ++ [value])))
       | Some (QStr s) => Some (qo_set o key (QArr [s; value]))
       | None => if bool_decide (key = proto_key) then Some o else Some (qo_set o key (QStr value))
       end.

(** One key-value pair (lines 74-76): [pair[0]] and [pair[1] || '']. *)
Definition parse_pair (o : QueryObject) (kv : text) : option QueryObject :=
  let pair := split_on "="%char kv in
  key ← decodeURIComponent (hd [] pair);
  value ← decodeURIComponent (match pair with _ :: p1 :: _ => p1 | _ => [] end);
  add_pair o key value.

Fixpoint parse_pairs (o : QueryObject) (kvs : list text) : option QueryObject :=
  match kvs with [] => Some o | kv :: kvs' => parse_pair o kv ≫= λ o', parse_pairs o' kvs' end.

(** [parseQueryString] (lines 62-90): the part after the first [?] when
    it is not empty, the whole string otherwise. *)
Definition parseQueryString (str : text) : option QueryObject :=
  let splitStr := split_on "?"%char str in
  let str' := match splitStr with
              | _ :: s1 :: _ => if js_truthy_text s1 then s1 else hd [] splitStr
              | _ => hd [] splitStr
              end in
  parse_pairs [] (split_on "&"%char str').

(** What a key or value of [Obj2Query] reads back as: its spaces as [+]. *)
Definition pfs_char (c : ascii) : ascii := if bool_decide (c = " "%char) then "+"%char else c.

Definition plus_for_space (s : text) : text := pfs_char <$> s.

(** The entry [parseQueryString] reads back from a pair [Obj2Query]
    writes. *)
Definition read_back (kv : text * text) : text * QVal := (plus_for_space kv.1, QStr (plus_for_space kv.2)).

(** The objects whose query string reads back entry by entry: keys and
    values that are strings (well-formed UTF-8), keys distinct once their
    spaces are read as [+], and neither of the two special keys. *)
Definition plain_obj (obj : list (text * text)) : Prop :=
  NoDup ((plus_for_space ∘ fst) <$> obj) ∧
  Forall (λ kv, plus_for_space kv.1 ≠ proto_key ∧ plus_for_space kv.1 ≠ hop_key ∧
                utf8_valid kv.1 = true ∧ utf8_valid kv.2 = true) obj.

(** The tokens [tokenize] reads in a string an encoder writes byte by
    byte, [tok c] for the byte [c]. *)
Fixpoint tokens_of (tok : ascii -> list Token) (s : text) : list Token :=
  match s with [] => [] | c :: s' => tok c ++ tokens_of tok s' end.

Definition form_token (c : ascii) : list Token :=
  if bool_decide (c = " "%char) then [Lit "+"%char] else if form_unreserved c then [Lit c] else [Pct (byte c)].

Definition uri_token (c : ascii) : list Token := if uri_unreserved c then [Lit c] else [Pct (byte c)].

(** ** Samples *)

(** [{q: 'a b=é', page: '2'}], the [é] as its two UTF-8 bytes. *)
Definition sample_obj : list (text * text) :=
  [(⟦"q"⟧, ⟦"a b="⟧ ++ [ascii_of_nat 195; ascii_of_nat 169]); (⟦"page"⟧, ⟦"2"⟧)].

(** ** Lemmas *)

#[local] Arguments lead_len : simpl never.

Lemma hex_val_hex_char n : n < 16 -> hex_val (hex_char n) = Some n.
Proof. intros Hn. do 16 (destruct n as [|n]; [reflexivity|]). lia. Qed.

Lemma byte_lt c : byte c < 256.
Proof. unfold byte. destruct c as [[] [] [] [] [] [] [] []]; vm_compute; lia. Qed.

Lemma byte_inj c : ascii_of_nat (byte c) = c.
Proof. apply ascii_nat_embedding. Qed.

Lemma tokenize_lit c r : c ≠ "%"%char -> tokenize (c :: r) = (Lit c ::.) <$> tokenize r.
Proof. intros Hc. cbn [tokenize]. by rewrite bool_decide_false. Qed.

Lemma tokenize_percent c r : tokenize (percent_encode c ++ r) = (Pct (byte c) ::.) <$> tokenize r.
Proof.
  cbn [app tokenize percent_encode]. rewrite bool_decide_true by done. pose proof (byte_lt c).
  assert (byte c / 16 < 16) by (apply Nat.Div0.div_lt_upper_bound; lia).
  assert (byte c mod 16 < 16) by (apply Nat.mod_upper_bound; lia).
  rewrite !hex_val_hex_char by done. pose proof (Nat.div_mod_eq (byte c) 16).
  replace (16 * (byte c / 16) + byte c mod 16) with (byte c) by lia. by destruct (tokenize r).
Qed.

Lemma tokenize_form_encode s : tokenize (form_encode s) = Some (tokens_of form_token s).
Proof.
  induction s as [|c s IH]; [done|]. cbn [form_encode tokens_of]. unfold form_encode_byte, form_token.
  case_bool_decide; [|destruct (form_unreserved c) eqn:Hu].
  - cbn [app]. by rewrite tokenize_lit, IH.
  - cbn [app]. rewrite tokenize_lit, IH; [done|]. intros ->. discriminate.
  - by rewrite tokenize_percent, IH.
Qed.

Lemma tokenize_encodeURIComponent s : tokenize (encodeURIComponent s) = Some (tokens_of uri_token s).
Proof.
  induction s as [|c s IH]; [done|]. cbn [encodeURIComponent tokens_of]. unfold uri_encode_byte, uri_token.
  destruct (uri_unreserved c) eqn:Hu.
  - cbn [app]. rewrite tokenize_lit, IH; [done|]. intros ->. discriminate.
  - by rewrite tokenize_percent, IH.
Qed.

(** The bytes of a multi-byte sequence are not ASCII: no encoder keeps
    them. *)
Lemma high_not_alnum c : 128 <= byte c -> is_alnum c = false.
Proof.
  intros Hc. pose proof (byte_lt c). unfold is_alnum.
  repeat (apply orb_false_iff; split); apply andb_false_iff; right; apply Nat.leb_gt; lia.
Qed.

Lemma high_not_in c (l : text) : 128 <= byte c -> Forall (λ d, byte d < 128) l -> c ∉ l.
Proof. intros Hc Hl Hin. eapply Forall_forall in Hl; [|done]. lia. Qed.

Lemma form_token_high c : 128 <= byte c -> form_token c = [Pct (byte c)] ∧ pfs_char c = c.
Proof.
  intros Hc. assert (c ≠ " "%char) as Hsp by (intros ->; vm_compute in Hc; lia).
  unfold form_token, pfs_char, form_unreserved. rewrite !bool_decide_false by done.
  rewrite high_not_alnum by done. rewrite bool_decide_false; [done|].
  apply high_not_in; [done|]. repeat constructor.
Qed.

Lemma uri_token_high c : 128 <= byte c -> uri_token c = [Pct (byte c)] ∧ c = c.
Proof.
  intros Hc. unfold uri_token, uri_unreserved. rewrite high_not_alnum by done.
  rewrite bool_decide_false; [done|]. apply high_not_in; [done|]. repeat constructor.
Qed.

Lemma lead_len_ascii b : b < 128 -> lead_len b = 0.
Proof. intros Hb. unfold lead_len. by rewrite (proj2 (Nat.ltb_lt _ _) Hb). Qed.

Lemma lead_len_zero b : lead_len b = 0 -> b < 128.
Proof. unfold lead_len. destruct (Nat.ltb_spec b 128); [done|]. by repeat case_match. Qed.

Lemma lead_len_high b : lead_len b ≠ 0 -> 128 <= b.
Proof. unfold lead_len. destruct (Nat.ltb_spec b 128); [done|lia]. Qed.

Lemma is_cont_high b : is_cont b = true -> 128 <= b.
Proof. unfold is_cont. intros [?%Nat.leb_le _]%andb_prop. done. Qed.

(** An ASCII byte escaped as [%XX] decodes to itself. *)
Lemma decode_pct_ascii c ts r :
  byte c < 128 -> decode_tokens ts = Some r -> decode_tokens (Pct (byte c) :: ts) = Some (c :: r).
Proof. intros Hc Hs. cbn [decode_tokens]. rewrite lead_len_ascii, Hs by done. by rewrite byte_inj. Qed.

(** [decodeURIComponent] undoes an encoder that escapes every byte of a
    multi-byte sequence, on every well-formed string. *)
Section Decode.
Variable tok : ascii -> list Token.
Variable f : ascii -> ascii.
Hypothesis tok_high : ∀ c, 128 <= byte c -> tok c = [Pct (byte c)] ∧ f c = c.
Hypothesis tok_low : ∀ c ts r, byte c < 128 -> decode_tokens ts = Some r -> decode_tokens (tok c ++ ts) = Some (f c :: r).

Lemma decode_tokens_of s : utf8_valid s = true -> decode_tokens (tokens_of tok s) = Some (f <$> s).
Proof.
  induction s as [s IH] using (induction_ltof1 _ (@length _)); unfold ltof in IH.
  destruct s as [|c s]; [done|]. cbn [utf8_valid]. pose proof (byte_lt c).
  destruct (lead_len (byte c)) as [|[|[|[|[|n]]]]] eqn:Hl; try done.
  { intros Hv. apply tok_low; [by apply lead_len_zero|]. apply IH; [simpl; lia|done]. }
  all: assert (128 <= byte c) by (apply lead_len_high; by rewrite Hl).
  all: destruct (tok_high c) as [Htc Hfc]; [done|].
  - destruct s as [|c1 s]; [done|]. intros (Hb & Hv)%andb_prop. apply andb_prop in Hb as [Hc1 Hok].
    destruct (tok_high c1) as [Htc1 Hfc1]; [by apply is_cont_high|].
    cbn [tokens_of fmap list_fmap]. rewrite Htc, Htc1. cbn [app decode_tokens]. rewrite Hl, Hc1, Hok.
    rewrite IH by (simpl; lia || done). simpl. by rewrite !byte_inj, Hfc, Hfc1.
  - destruct s as [|c1 [|c2 s]]; [done|done|]. intros (Hb & Hv)%andb_prop.
    apply andb_prop in Hb as [Hb Hok]. apply andb_prop in Hb as [Hc1 Hc2].
    destruct (tok_high c1) as [Htc1 Hfc1]; [by apply is_cont_high|].
    destruct (tok_high c2) as [Htc2 Hfc2]; [by apply is_cont_high|].
    cbn [tokens_of fmap list_fmap]. rewrite Htc, Htc1, Htc2. cbn [app decode_tokens].
    rewrite Hl, Hc1, Hc2, Hok. rewrite IH by (simpl; lia || done). simpl. by rewrite !byte_inj, Hfc, Hfc1, Hfc2.
  - destruct s as [|c1 [|c2 [|c3 s]]]; [done|done|done|]. intros (Hb & Hv)%andb_prop.
    apply andb_prop in Hb as [Hb Hok]. apply andb_prop in Hb as [Hb Hc3]. apply andb_prop in Hb as [Hc1 Hc2].
    destruct (tok_high c1) as [Htc1 Hfc1]; [by apply is_cont_high|].
    destruct (tok_high c2) as [Htc2 Hfc2]; [by apply is_cont_high|].
    destruct (tok_high c3) as [Htc3 Hfc3]; [by apply is_cont_high|].
    cbn [tokens_of fmap list_fmap]. rewrite Htc, Htc1, Htc2, Htc3. cbn [app decode_tokens].
    rewrite Hl, Hc1, Hc2, Hc3, Hok. rewrite IH by (simpl; lia || done). simpl.
    by rewrite !byte_inj, Hfc, Hfc1, Hfc2, Hfc3.
Qed.

End Decode.

Lemma form_token_low c ts r :
  byte c < 128 -> decode_tokens ts = Some r -> decode_tokens (form_token c ++ ts) = Some (pfs_char c :: r).
Proof.
  intros Hc Hs. unfold form_token, pfs_char. case_bool_decide; cbn [app decode_tokens]; [by rewrite Hs|].
  destruct (form_unreserved c); cbn [app decode_tokens]; [by rewrite Hs|]. by apply decode_pct_ascii.
Qed.

Lemma uri_token_low c ts r :
  byte c < 128 -> decode_tokens ts = Some r -> decode_tokens (uri_token c ++ ts) = Some (c :: r).
Proof.
  intros Hc Hs. unfold uri_token. destruct (uri_unreserved c); cbn [app decode_tokens]; [by rewrite Hs|].
  by apply decode_pct_ascii.
Qed.

Lemma decode_form_encode s : utf8_valid s = true -> decodeURIComponent (form_encode s) = Some (plus_for_space s).
Proof.
  intros Hv. unfold decodeURIComponent. rewrite tokenize_form_encode. simpl.
  apply decode_tokens_of; [apply form_token_high|apply form_token_low|done].
Qed.

(** [decodeURIComponent] undoes [encodeURIComponent]. *)
Lemma decode_encodeURIComponent s : utf8_valid s = true -> decodeURIComponent (encodeURIComponent s) = Some s.
Proof.
  intros Hv. unfold decodeURIComponent. rewrite tokenize_encodeURIComponent. simpl.
  rewrite (decode_tokens_of uri_token id); [by rewrite list_fmap_id|apply uri_token_high|apply uri_token_low|done].
Qed.

Lemma hex_char_unreserved_alnum n : n < 16 -> is_alnum (hex_char n) = true.
Proof. intros Hn. do 16 (destruct n as [|n]; [reflexivity|]). lia. Qed.

Lemma hex_char_unreserved n : n < 16 -> form_unreserved (hex_char n) = true.
Proof. intros Hn. unfold form_unreserved. by rewrite hex_char_unreserved_alnum. Qed.

(** The serializer writes [+], [%] and bytes it keeps, nothing else. *)
Lemma form_encode_chars s x : x ∈ form_encode s -> x = "+"%char ∨ x = "%"%char ∨ form_unreserved x = true.
Proof.
  induction s as [|c s IH]; [by intros ?%elem_of_nil|]. simpl. intros [Hx|Hx]%elem_of_app; [|by apply IH].
  revert Hx. unfold form_encode_byte. case_bool_decide; [intros ->%list_elem_of_singleton; auto|].
  destruct (form_unreserved c) eqn:E; [intros ->%list_elem_of_singleton; auto|].
  unfold percent_encode. pose proof (byte_lt c).
  assert (byte c / 16 < 16) by (apply Nat.Div0.div_lt_upper_bound; lia).
  assert (byte c mod 16 < 16) by (apply Nat.mod_upper_bound; lia).
  intros [->|[->|[->|?%elem_of_nil]%elem_of_cons]%elem_of_cons]%elem_of_cons; [auto| | |done];
    right; right; by apply hex_char_unreserved.
Qed.

Lemma encodeURIComponent_chars s x : x ∈ encodeURIComponent s -> x = "%"%char ∨ uri_unreserved x = true.
Proof.
  induction s as [|c s IH]; [by intros ?%elem_of_nil|]. simpl. intros [Hx|Hx]%elem_of_app; [|by apply IH].
  revert Hx. unfold uri_encode_byte. destruct (uri_unreserved c) eqn:E; [intros ->%list_elem_of_singleton; auto|].
  unfold percent_encode. pose proof (byte_lt c).
  assert (byte c / 16 < 16) by (apply Nat.Div0.div_lt_upper_bound; lia).
  assert (byte c mod 16 < 16) by (apply Nat.mod_upper_bound; lia).
  intros [->|[->|[->|?%elem_of_nil]%elem_of_cons]%elem_of_cons]%elem_of_cons; [auto| | |done];
    right; unfold uri_unreserved; rewrite hex_char_unreserved_alnum; done.
Qed.

Lemma not_in_encodeURIComponent s c : c ≠ "%"%char -> uri_unreserved c = false -> c ∉ encodeURIComponent s.
Proof. intros H1 H2 [->|?]%encodeURIComponent_chars; congruence. Qed.

Lemma not_in_form_encode s c :
  c ≠ "+"%char -> c ≠ "%"%char -> form_unreserved c = false -> c ∉ form_encode s.
Proof. intros H1 H2 H3 [->|[->|?]]%form_encode_chars; congruence. Qed.

Lemma elem_of_join_on {A} (c x : A) ts : x ∈ join_on c ts -> x = c ∨ ∃ t, t ∈ ts ∧ x ∈ t.
Proof.
  induction ts as [|t [|t' ts] IH]; simpl; [by intros ?%elem_of_nil| |].
  - intros Hx. right. exists t. split; [left|done].
  - intros [Hx|[->|Hx]%elem_of_cons]%elem_of_app; [right; exists t; split; [left|done]|by left|].
    destruct (IH Hx) as [->|(t'' & Ht'' & Hx')]; [by left|]. right. exists t''. split; [by right|done].
Qed.

Lemma sep_not_in_part c kv :
  c ≠ "+"%char -> c ≠ "%"%char -> c ≠ "="%char -> form_unreserved c = false -> c ∉ query_part kv.
Proof.
  intros H1 H2 H3 H4. unfold query_part. intros [Hx|[->|Hx]%elem_of_cons]%elem_of_app; [|done|];
    revert Hx; by apply not_in_form_encode.
Qed.

Lemma qo_get_None o k : k ∉ fst <$> o -> qo_get o k = None.
Proof.
  induction o as [|[k' v] o IH]; [done|]. simpl. intros Hk. rewrite bool_decide_false by set_solver.
  apply IH. set_solver.
Qed.

Lemma qo_set_app o k v : k ∉ fst <$> o -> qo_set o k v = o ++ [(k, v)].
Proof.
  induction o as [|[k' v'] o IH]; [done|]. simpl. intros Hk. rewrite bool_decide_false by set_solver.
  f_equal. apply IH. set_solver.
Qed.

Lemma parse_pair_part o kv :
  plus_for_space kv.1 ≠ proto_key -> utf8_valid kv.1 = true -> utf8_valid kv.2 = true ->
  hop_key ∉ fst <$> o -> plus_for_space kv.1 ∉ fst <$> o ->
  parse_pair o (query_part kv) = Some (o ++ [read_back kv]).
Proof.
  intros Hp Hk Hv Hh Hn. unfold parse_pair, query_part.
  rewrite split_on_sep by (apply not_in_form_encode; done).
  rewrite (split_on_none _ (form_encode kv.2)) by (apply not_in_form_encode; done). simpl.
  rewrite !decode_form_encode by done. simpl. unfold add_pair.
  rewrite (qo_get_None _ hop_key), qo_get_None by done. rewrite bool_decide_false by congruence.
  rewrite bool_decide_false by done. by rewrite qo_set_app.
Qed.

Lemma parse_pairs_parts acc obj :
  hop_key ∉ fst <$> acc -> NoDup ((fst <$> acc) ++ ((plus_for_space ∘ fst) <$> obj)) ->
  Forall (λ kv, plus_for_space kv.1 ≠ proto_key ∧ plus_for_space kv.1 ≠ hop_key ∧
                utf8_valid kv.1 = true ∧ utf8_valid kv.2 = true) obj ->
  parse_pairs acc (query_part <$> obj) = Some (acc ++ (read_back <$> obj)).
Proof.
  revert acc. induction obj as [|kv obj IH]; intros acc Hh Hnd Hok; simpl; [by rewrite app_nil_r|].
  apply Forall_cons in Hok as [(Hp & Hhop & Hk & Hv) Hok].
  pose proof Hnd as (_ & Hdis & _)%NoDup_app.
  rewrite parse_pair_part; [|done|done|done|done|]; cycle 1.
  { intros Hin. apply (Hdis _ Hin). by apply elem_of_cons; left. }
  simpl. rewrite IH; [by rewrite <- app_assoc| | |done].
  - rewrite fmap_app. simpl. intros [?|[?|?%elem_of_nil]%elem_of_cons]%elem_of_app; done.
  - rewrite fmap_app, <- app_assoc. exact Hnd.
Qed.

Lemma percent_encode_length c : length (percent_encode c) = 3.
Proof. done. Qed.

Lemma form_encode_byte_length c : 1 ≤ length (form_encode_byte c) ≤ 3.
Proof. unfold form_encode_byte. repeat case_match; simpl; lia. Qed.

(** ** Properties *)

Lemma form_encode_length s : length s ≤ length (form_encode s) ≤ 3 * length s.
Proof.
  induction s as [|c s IH]; simpl; [lia|]. rewrite length_app. pose proof (form_encode_byte_length c). lia.
Qed.

Lemma sum_list_fmap_bounds {B} (f g : B -> nat) (l : list B) :
  (∀ x, g x + 1 ≤ f x ≤ 3 * g x + 1) ->
  sum_list (g <$> l) + length l ≤ sum_list (f <$> l) ≤ 3 * sum_list (g <$> l) + length l.
Proof.
  intros Hfg. induction l as [|x l IH]; [simpl; lia|]. cbn [fmap list_fmap sum_list length id].
  specialize (Hfg x). lia.
Qed.

Lemma length_join_on {A} (c : A) ts :
  length (join_on c ts) + 1 = sum_list (length <$> ts) + length ts ∨ ts = [].
Proof.
  induction ts as [|t [|t' ts] IH]; [by right|left; cbn [join_on fmap list_fmap sum_list length id]; lia|left].
  destruct IH as [IH|]; [|done]. change (join_on c (t :: t' :: ts)) with (t ++ c :: join_on c (t' :: ts)).
  rewrite length_app. cbn [length fmap list_fmap sum_list id] in *. lia.
Qed.

(** C36: [parseQueryString] reads the query string [Obj2Query] writes
    for a non-empty object back as the same keys with the same values,
    in the same order, except that every space of a key or a value comes
    back as [+]: [URLSearchParams] writes a space as [+] and
    [decodeURIComponent] does not decode it. *)
Theorem parse_Obj2Query obj :
  obj ≠ [] -> plain_obj obj -> parseQueryString (Obj2Query obj) = Some (read_back <$> obj).
Proof.
  intros Hne [Hnd Hok]. unfold parseQueryString.
  assert (Hsep : ∀ c, c ≠ "+"%char -> c ≠ "%"%char -> c ≠ "="%char -> form_unreserved c = false ->
                 Forall (λ t, c ∉ t) (query_part <$> obj)).
  { intros c H1 H2 H3 H4. apply Forall_forall. intros t (kv & -> & _)%list_elem_of_fmap. by apply sep_not_in_part. }
  assert (Hq : "?"%char ∉ Obj2Query obj).
  { intros [Heq|(t & Ht & Hx)]%elem_of_join_on; [discriminate|].
    eapply Forall_forall in Ht; [|apply (Hsep "?"%char); (discriminate || reflexivity)]. done. }
  rewrite (split_on_none "?"%char (Obj2Query obj) Hq). simpl. unfold Obj2Query.
  rewrite split_on_join; [|apply (Hsep "&"%char); (discriminate || reflexivity)|].
  - rewrite (parse_pairs_parts [] obj); [done|by intros ?%elem_of_nil|done|done].
  - destruct obj; [done|discriminate].
Qed.

(** a value with a space does not survive the round trip: it comes
    back with a [+]. *)
Example space_reads_back_as_plus :
  parseQueryString (Obj2Query [(⟦"q"⟧, ⟦"a b"⟧)]) = Some [(⟦"q"⟧, QStr ⟦"a+b"⟧)].
Proof. vm_compute. reflexivity. Qed.

(** the empty object's query string, [""], reads back as an object
    with one empty key. *)
Example empty_object_reads_empty_key : parseQueryString (Obj2Query []) = Some [([], QStr [])].
Proof. vm_compute. reflexivity. Qed.

(** [parseQueryString] throws on a literal [%] that does not start an
    escape, on an escape that is not UTF-8 (an overlong [/]), and on any
    pair after a key [hasOwnProperty]; a key [__proto__] is dropped. *)
Example parse_errors :
  parseQueryString ⟦"discount=100%"⟧ = None ∧ parseQueryString ⟦"path=%C0%AF"⟧ = None ∧
  parseQueryString ⟦"hasOwnProperty=1&a=2"⟧ = None ∧ parseQueryString ⟦"__proto__=1&a=2"⟧ = Some [(⟦"a"⟧, QStr ⟦"2"⟧)].
Proof. vm_compute. repeat split. Qed.

Lemma parse_Obj2Query_witness :
  parseQueryString (Obj2Query sample_obj) = Some (read_back <$> sample_obj).
Proof.
  apply parse_Obj2Query; [discriminate|]. unfold plain_obj.
  apply (bool_decide_unpack _). vm_compute. reflexivity.
Defined.

End QueryString.
