(* ===== verification/QASplit.v ===== *)
(** * QASplit: parsing the QA-split answer of the model

    [formatSplitText] of src/client/src/service/events/generateQA.ts (lines
    196-217) turns the text returned by the model into question/answer pairs:
    it iterates the global regular expression over the text with
    [matchAll], keeps [match[2]] as the question and [match[5]] as the answer
    when both are non-empty, and normalises the answer with
    [a.trim().replace(/\n\s*/g, '\n')].  The regular expressions run on the
    ECMAScript matcher of [JsRegex]. *)

From Stdlib Require Import Ascii ZArith.
From stdpp Require Import base list.
From S2P Require Import Prelude JsRegex.

Module QASplit.
Import JsRegex.

Definition nl : ascii := "010"%char.
Definition any_char (_ : ascii) : bool := true.
Definition not_line_terminator (c : ascii) : bool := negb (is_line_terminator c).

(** The tail "([\s\S]⋆?)(?=Q|$)" of the expression below. *)
Definition qa_look : regex := RLook (RAlt (RChar (is_char "Q")) REnd).
Definition qa_answer : regex := RSeq (RGroup 5 (RStar false any_char)) qa_look.

(** "/Q\d+:(\s⋆)(.⋆)(\s⋆)A\d+:(\s⋆)([\s\S]⋆?)(?=Q|$)/g", ⋆ being the star. *)
Definition qa_regex : regex :=
  RSeq (RChar (is_char "Q"))
  (RSeq (RPlus true is_digit)
  (RSeq (RChar (is_char ":"))
  (RSeq (RGroup 1 (RStar true is_js_space))
  (RSeq (RGroup 2 (RStar true not_line_terminator))
  (RSeq (RGroup 3 (RStar true is_js_space))
  (RSeq (RChar (is_char "A"))
  (RSeq (RPlus true is_digit)
  (RSeq (RChar (is_char ":"))
  (RSeq (RGroup 4 (RStar true is_js_space))
        qa_answer))))))))).

(** "/\n\s⋆/g" *)
Definition nl_space_regex : regex := RSeq (RChar (is_char nl)) (RStar true is_js_space).

(** [String.prototype.replace] with a global regexp and a plain replacement
    string: the text between matches is copied, each match is replaced. *)
Fixpoint replace_matches (s : text) (ms : list (text * text * captures)) (repl : text) : text :=
  match ms with
  | [] => s
  | (st, rest, _) :: ms' => take (length s - length st) s ++ repl ++ replace_matches rest ms' repl
  end.

Definition js_replace_all (r : regex) (s : text) (repl : text) : text :=
  replace_matches s (matchAll r s) repl.

(** The pair pushed by [formatSplitText]. *)
Record QAItem := { qa_q : text; qa_a : text }.

(** [a.trim().replace(/\n\s*/g, '\n')] *)
Definition format_answer (a : text) : text := js_replace_all nl_space_regex (js_trim a) [nl].

(** The [for (const match of matches)] loop. *)
Fixpoint collect_pairs (ms : list (text * text * captures)) : list QAItem :=
  match ms with
  | [] => []
  | (_, _, cs) :: ms' =>
      match group cs 2, group cs 5 with
      | Some q, Some a =>
          if js_truthy_text q && js_truthy_text a
          then {| qa_q := q; qa_a := format_answer a |} :: collect_pairs ms'
          else collect_pairs ms'
      | _, _ => collect_pairs ms'
      end
  end.

Definition formatSplitText (t : text) : list QAItem := collect_pairs (matchAll qa_regex t).

(** Where the lookahead "(?=Q|$)" succeeds. *)
Definition starts_Q_or_end (s : text) : bool :=
  match s with [] => true | c :: _ => is_char "Q" c end.

Definition exec_k : text -> captures -> option (text * captures) := λ s' cs, Some (s', cs).

(** ** The format the prompt asks the model for

    The system prompt of [generateQA] asks for "Q1: ... A1: ... Q2: ...".
    [print_qa] writes pairs in that format (one space after each colon, each
    question and answer ended by a newline); [item_ok] says which pairs the
    parser can give back unchanged. *)
Fixpoint decimal_go (fuel n : nat) (acc : text) : text :=
  match fuel with
  | O => acc
  | S f =>
      let acc' := ascii_of_nat (48 + n mod 10) :: acc in
      if n <? 10 then acc' else decimal_go f (n / 10) acc'
  end.
Definition decimal (n : nat) : text := decimal_go (S n) n [].

Definition print_entry (n : text) (it : QAItem) : text :=
  ["Q"%char] ++ n ++ [":"%char; " "%char] ++ qa_q it ++ [nl; "A"%char] ++
  n ++ [":"%char; " "%char] ++ qa_a it ++ [nl].

Fixpoint print_qa_from (i : nat) (items : list QAItem) : text :=
  match items with
  | [] => []
  | it :: its => print_entry (decimal i) it ++ print_qa_from (S i) its
  end.
Definition print_qa (items : list QAItem) : text := print_qa_from 1 items.

Definition head_not_space (s : text) : bool :=
  match s with [] => false | c :: _ => negb (is_js_space c) end.

Fixpoint nl_followed (a : text) : bool :=
  match a with
  | [] => true
  | c :: a' =>
      (if Ascii.eqb c nl then head_not_space a' else true) && nl_followed a'
  end.

Definition question_ok (q : text) : bool :=
  head_not_space q && forallb not_line_terminator q.
Definition answer_ok (a : text) : bool :=
  head_not_space a && head_not_space (reverse a) &&
  forallb (λ c, negb (Ascii.eqb c "Q")) a && nl_followed a.
Definition item_ok (it : QAItem) : bool := question_ok (qa_q it) && answer_ok (qa_a it).

Definition scenario_c_text : text :=
  ⟦"Q1: What is X?"⟧ ++ [nl] ++ ⟦"A1: X is Y."⟧ ++ [nl] ++ ⟦"Q2: bad"⟧.

Definition sql_answer_text : text :=
  ⟦"Q1: What is SQL?"⟧ ++ [nl] ++ ⟦"A1: SQL is a query language."⟧ ++ [nl].

(** ** The match of one pair *)

Lemma qa_look_spec {R} s cs (k : text -> captures -> option R) :
  mtch qa_look s cs k = if starts_Q_or_end s then k s cs else None.
Proof. destruct s as [|c s]; simpl; [done|]. by destruct (is_char "Q" c). Qed.

Lemma star_lazy_any_total {R} (k : text -> captures -> option R) cs t :
  k [] cs ≠ None -> star_lazy any_char k t cs ≠ None.
Proof.
  intros Hk. induction t as [|c t IH]; simpl; [by destruct (k [] cs)|].
  by destruct (k (c :: t) cs).
Qed.

(** The answer part of the expression always matches: the lazy star can
    always run to the end of the input, where "$" holds. *)
Lemma qa_answer_total s cs : mtch qa_answer s cs exec_k ≠ None.
Proof. apply star_lazy_any_total. cbv beta. by rewrite qa_look_spec. Qed.

Lemma Forall_from_splits (P : ascii -> Prop) (w : text) :
  (∀ v t, w = v ++ t -> t ≠ [] -> ∀ c t', t = c :: t' -> P c) -> Forall P w.
Proof.
  intros H. apply Forall_forall. intros c Hc.
  apply list_elem_of_split in Hc as (v & t & ->). by eapply (H v (c :: t)).
Qed.

Ltac peel H := apply mtch_seq_sound in H as (?s & ?d & ?Hm & H).

(** What one match of the expression binds: the question is one line,
    the answer starts with a non-space and contains no [Q] (the lazy star
    stops before the first [Q]), and the match ends before a [Q] or at the
    end of the text. *)
Lemma qa_exec_sound s rest cs :
  exec_at qa_regex s = Some (rest, cs) ->
  ∃ q a, group cs 2 = Some q ∧ group cs 5 = Some a ∧
    Forall (λ c, is_line_terminator c = false) q ∧
    Forall (λ c, c ≠ "Q"%char) a ∧
    (∀ c t, a = c :: t -> is_js_space c = false) ∧
    starts_Q_or_end rest = true.
Proof.
  unfold exec_at, qa_regex. intros H.
  do 9 peel H.
  apply mtch_group_greedy_spec in H as (w4 & s10 & -> & _ & H & Hmax).
  pose proof H as Hans. unfold qa_answer in H.
  apply mtch_group_lazy_spec in H as (a & s11 & -> & _ & H & Hfirst).
  rewrite qa_look_spec in H. destruct (starts_Q_or_end s11) eqn:Hend; [|done].
  injection H as -> <-.
  match goal with Hm : mrel (RGroup 2 _) _ _ _ |- _ => apply mrel_group_star_inv in Hm as (q & -> & Hq & ->) end.
  repeat match goal with
  | Hm : mrel (RChar _) _ _ _ |- _ => apply mrel_char_inv in Hm as (? & -> & _ & ->)
  | Hm : mrel (RPlus _ _) _ _ _ |- _ => apply mrel_plus_inv in Hm as (? & -> & _ & _ & ->)
  | Hm : mrel (RGroup _ _) _ _ _ |- _ => apply mrel_group_star_inv in Hm as (? & -> & _ & ->)
  end.
  exists q, a. simpl. split_and!; [done|done| | | |done].
  - eapply Forall_impl; [exact Hq|]. intros c Hc. by apply negb_true_iff in Hc.
  - apply Forall_from_splits. intros v t -> Ht c t' ->.
    specialize (Hfirst v (c :: t') eq_refl Ht). rewrite qa_look_spec in Hfirst. simpl in Hfirst.
    unfold is_char in Hfirst. destruct (Ascii.eqb_spec "Q" c) as [<-|]; [by simpl in Hfirst|congruence].
  - intros c t ->. destruct (is_js_space c) eqn:Hc; [|done]. exfalso.
    refine (qa_answer_total (t ++ rest) _ _).
    rewrite <-(Hmax [c] (t ++ rest)); [done|done|done|by constructor].
Qed.

(** ** Normalising the answer *)

Lemma js_trim_start_elem c s : c ∈ js_trim_start s -> c ∈ s.
Proof.
  destruct (js_trim_start_spec s) as (w & Hw & _). intros H.
  rewrite Hw. apply elem_of_app. by right.
Qed.

Lemma js_trim_elem c s : c ∈ js_trim s -> c ∈ s.
Proof.
  unfold js_trim, js_trim_end. rewrite elem_of_reverse.
  intros H%js_trim_start_elem. rewrite elem_of_reverse in H. by apply js_trim_start_elem.
Qed.

(** Trimming keeps a first character that is not a space. *)
Lemma js_trim_head c t :
  is_js_space c = false -> ∃ t', js_trim (c :: t) = c :: t'.
Proof.
  intros Hc. unfold js_trim, js_trim_end. simpl. rewrite Hc.
  destruct (js_trim_start_spec (reverse (c :: t))) as (w & Hw & Hsp & _).
  destruct (js_trim_start (reverse (c :: t))) as [|d u] eqn:E.
  - rewrite app_nil_r in Hw. rewrite <-Hw, reverse_cons, Forall_app in Hsp.
    destruct Hsp as [_ Hsp]. apply Forall_cons in Hsp as [Hsp _]. congruence.
  - apply (f_equal reverse) in Hw. rewrite reverse_involutive, reverse_app in Hw.
    destruct (reverse (d :: u)) as [|e v] eqn:E'.
    + by apply (f_equal length) in E'; rewrite length_reverse in E'.
    + simpl in Hw. injection Hw as -> _. by exists v.
Qed.

Lemma replace_matches_elem x s ms repl :
  x ∈ replace_matches s ms repl ->
  x ∈ s ∨ x ∈ repl ∨ ∃ st rest cs, (st, rest, cs) ∈ ms ∧ x ∈ rest.
Proof.
  revert s. induction ms as [|[[st rest] cs] ms IH]; intros s; simpl; [auto|].
  rewrite !elem_of_app. intros [Hx|[Hx|Hx]].
  - left. by eapply subseteq_take.
  - auto.
  - destruct (IH _ Hx) as [Hr|[Hr|(st' & rest' & cs' & ? & ?)]].
    + right. right. exists st, rest, cs. split; [by left|done].
    + auto.
    + right. right. exists st', rest', cs'. split; [by right|done].
Qed.

(** The replacement only copies characters of the input and of the replacement. *)
Lemma js_replace_all_elem x r s repl : x ∈ js_replace_all r s repl -> x ∈ s ∨ x ∈ repl.
Proof.
  unfold js_replace_all. intros [?|[?|(st & rest & cs & Hin & Hx)]]%replace_matches_elem; auto.
  left. apply matchAll_rest_suffix in Hin as [w ->]. apply elem_of_app. by right.
Qed.

Lemma js_replace_all_head r c s repl :
  exec_at r (c :: s) = None -> ∃ t, js_replace_all r (c :: s) repl = c :: t.
Proof.
  intros Hx. unfold js_replace_all. pose proof (matchAll_skip_first _ _ _ Hx) as Hs.
  destruct (matchAll r (c :: s)) as [|[[st rest] cs] ms]; simpl; [by exists s|].
  replace (S (length s) - length st) with (S (length s - length st)) by lia.
  simpl. by eexists.
Qed.

Lemma format_answer_elem x a : x ∈ format_answer a -> x ∈ a ∨ x = nl.
Proof.
  unfold format_answer. intros [H|H]%js_replace_all_elem.
  - left. by apply js_trim_elem.
  - right. by apply list_elem_of_singleton in H.
Qed.

Lemma format_answer_head c t :
  is_js_space c = false -> ∃ t', format_answer (c :: t) = c :: t'.
Proof.
  intros Hc. unfold format_answer. destruct (js_trim_head c t Hc) as [t' ->].
  apply js_replace_all_head. unfold exec_at. simpl.
  destruct (is_char nl c) eqn:E; [|done].
  unfold is_char in E. apply Ascii.eqb_eq in E as ->. done.
Qed.

Lemma collect_pairs_elem it ms :
  it ∈ collect_pairs ms ->
  ∃ st rest cs q a, (st, rest, cs) ∈ ms ∧ group cs 2 = Some q ∧ group cs 5 = Some a ∧
    q ≠ [] ∧ a ≠ [] ∧ it = {| qa_q := q; qa_a := format_answer a |}.
Proof.
  induction ms as [|[[st rest] cs] ms IH]; simpl; [by rewrite elem_of_nil|].
  intros Hin.
  assert (it ∈ collect_pairs ms ->
          ∃ st' rest' cs' q a, (st', rest', cs') ∈ (st, rest, cs) :: ms ∧ group cs' 2 = Some q ∧
            group cs' 5 = Some a ∧ q ≠ [] ∧ a ≠ [] ∧ it = {| qa_q := q; qa_a := format_answer a |})
    as Htail.
  { intros (st' & rest' & cs' & q & a & Hm & Hr)%IH. exists st', rest', cs', q, a.
    split; [by right|exact Hr]. }
  destruct (group cs 2) as [q|] eqn:Hq, (group cs 5) as [a|] eqn:Ha; try by apply Htail.
  destruct (js_truthy_text q && js_truthy_text a) eqn:Ht; [|by apply Htail].
  apply elem_of_cons in Hin as [->|Hin]; [|by apply Htail].
  apply andb_prop in Ht as [Hq' Ha'].
  exists st, rest, cs, q, a. split_and!; [by left|done|done| | |done];
    [by destruct q|by destruct a].
Qed.

(** ** Round trip: the parser gives back what the prompt's format encodes *)

Lemma decimal_go_digits fuel n acc :
  Forall (λ c, is_digit c = true) acc ->
  Forall (λ c, is_digit c = true) (decimal_go fuel n acc) ∧ (fuel ≠ 0 -> decimal_go fuel n acc ≠ []).
Proof.
  revert n acc. induction fuel as [|f IH]; intros n acc Hacc; simpl; [done|].
  assert (is_digit (ascii_of_nat (48 + n mod 10)) = true).
  { unfold is_digit. rewrite nat_ascii_embedding.
    - pose proof (Nat.mod_upper_bound n 10). apply andb_true_intro. split; apply Nat.leb_le; lia.
    - pose proof (Nat.mod_upper_bound n 10). lia. }
  destruct (n <? 10).
  - split; [by constructor|done].
  - destruct (IH (n / 10) (ascii_of_nat (48 + n mod 10) :: acc)) as [Hd Hne]; [by constructor|].
    split; [done|]. destruct f; [simpl; done|]. intros _. by apply Hne.
Qed.

Lemma decimal_digits n : ∃ d ds, decimal n = d :: ds ∧ Forall (λ c, is_digit c = true) (d :: ds).
Proof.
  destruct (decimal_go_digits (S n) n [] (Forall_nil_2 _)) as [Hd Hne].
  unfold decimal. destruct (decimal_go (S n) n []) as [|d ds]; [by destruct Hne|]. eauto.
Qed.

Lemma head_not_space_inv s : head_not_space s = true -> ∃ c t, s = c :: t ∧ is_js_space c = false.
Proof. destruct s as [|c t]; [done|]. intros H%negb_true_iff. eauto. Qed.

Lemma replace_matches_cons r c s repl :
  replace_matches (c :: s) (matchAll r s) repl = c :: replace_matches s (matchAll r s) repl.
Proof.
  destruct (matchAll r s) as [|[[st rest] cs] ms] eqn:E; [done|]. simpl.
  assert ((st, rest, cs) ∈ matchAll r s) as Hin by (rewrite E; by left).
  destruct (match_all_fuel_suffix _ _ _ _ _ _ Hin) as [[w ->] _].
  rewrite length_app. replace (S (length w + length st) - length st) with (S (length w)) by lia.
  by rewrite Nat.add_sub.
Qed.

(** On an answer in which each newline is followed by a non-space, the
    "\n\s⋆" replacement changes nothing. *)
Lemma replace_nl_space_id a : nl_followed a = true -> js_replace_all nl_space_regex a [nl] = a.
Proof.
  unfold js_replace_all. induction a as [|c a IH]; simpl; [done|].
  intros [Hc Ha]%andb_prop.
  destruct (Ascii.eqb_spec c nl) as [->|Hne].
  - apply head_not_space_inv in Hc as (d & t & -> & Hd).
    assert (exec_at nl_space_regex (nl :: d :: t) = Some (d :: t, [])) as Hx
      by (unfold exec_at; simpl; by rewrite Hd).
    rewrite (matchAll_here _ _ _ _ Hx) by (simpl; lia).
    simpl. rewrite Nat.sub_diag. simpl. by rewrite IH.
  - rewrite matchAll_skip.
    + rewrite replace_matches_cons. by rewrite IH.
    + unfold exec_at. simpl. unfold is_char. destruct (Ascii.eqb_spec c nl); [congruence|done].
Qed.

Lemma format_answer_ok a : answer_ok a = true -> format_answer (a ++ [nl]) = a.
Proof.
  unfold answer_ok. intros [[[Hh Hl]%andb_prop _]%andb_prop Hn]%andb_prop.
  apply head_not_space_inv in Hh as (c & t & -> & Hc).
  apply head_not_space_inv in Hl as (e & u & Hr & He).
  unfold format_answer, js_trim, js_trim_end. simpl. rewrite Hc.
  rewrite app_comm_cons, reverse_app, Hr. simpl. rewrite He.
  rewrite <-Hr, reverse_involutive. by apply replace_nl_space_id.
Qed.

Lemma answer_ok_no_Q a c : answer_ok a = true -> c ∈ a -> is_char "Q" c = false.
Proof.
  unfold answer_ok. intros [[_ HQ]%andb_prop _]%andb_prop Hc.
  eapply forallb_forall in HQ; [|by apply list_elem_of_In].
  unfold is_char. rewrite Ascii.eqb_sym. by apply negb_true_iff.
Qed.

Lemma exec_entry n it rest :
  n ≠ [] -> Forall (λ c, is_digit c = true) n -> item_ok it = true ->
  starts_Q_or_end rest = true ->
  exec_at qa_regex (print_entry n it ++ rest) =
  Some (rest, [(5, qa_a it ++ [nl]); (4, [" "%char]); (3, [nl]); (2, qa_q it); (1, [" "%char])]).
Proof.
  destruct n as [|d ds]; [done|]. intros _ Hn.
  destruct it as [q a]. intros [Hq Ha]%andb_prop Hrest. simpl in Hq, Ha.
  apply andb_prop in Hq as [Hqh Hqlt].
  pose proof Hqh as (qc & qt & -> & Hqc)%head_not_space_inv.
  pose proof Ha as Ha'. unfold answer_ok in Ha'.
  apply andb_prop in Ha' as [[[(ac & at' & Ha0 & Hac)%head_not_space_inv _]%andb_prop _]%andb_prop _].
  assert (print_entry (d :: ds) {| qa_q := qc :: qt; qa_a := a |} ++ rest =
          "Q"%char :: d :: ds ++ ":"%char :: " "%char :: qc :: qt ++ nl :: "A"%char :: d :: ds ++
          ":"%char :: " "%char :: (a ++ [nl]) ++ rest) as ->.
  { unfold print_entry. simpl. repeat (rewrite <-!app_assoc; simpl). done. }
  unfold exec_at, qa_regex.
  apply mtch_seq_char_run; [done|].
  apply mtch_seq_plus_run; [done|by intros ?? [= <- _]|].
  apply mtch_seq_char_run; [done|].
  apply (mtch_group_greedy_run 1 _ _ [" "%char]); [by repeat constructor|by intros ?? [= <- _]|].
  apply (mtch_group_greedy_run 2 _ _ (qc :: qt)).
  { apply Forall_forall. intros x Hx. eapply forallb_forall in Hqlt; [exact Hqlt|].
    by apply list_elem_of_In. }
  { by intros ?? [= <- _]. }
  apply (mtch_group_greedy_run 3 _ _ [nl]); [by repeat constructor|by intros ?? [= <- _]|].
  apply mtch_seq_char_run; [done|].
  apply mtch_seq_plus_run; [done|by intros ?? [= <- _]|].
  apply mtch_seq_char_run; [done|].
  apply (mtch_group_greedy_run 4 _ _ [" "%char]); [by repeat constructor| |].
  { intros ?? H. rewrite Ha0 in H. simpl in H. by injection H as <- _. }
  unfold qa_answer.
  apply mtch_group_lazy_run.
  - apply Forall_forall. intros. done.
  - intros v t Hvt Ht. rewrite qa_look_spec.
    destruct t as [|c t]; [done|]. simpl.
    assert (c ∈ a ++ [nl]) as Hc by (rewrite Hvt; apply elem_of_app; right; by left).
    apply elem_of_app in Hc as [Hc|Hc].
    + by rewrite (answer_ok_no_Q a c).
    + apply list_elem_of_singleton in Hc as ->. done.
  - rewrite qa_look_spec, Hrest. done.
Qed.

Lemma print_qa_from_start i items : starts_Q_or_end (print_qa_from i items) = true.
Proof.
  destruct items as [|it its]; [done|]. simpl. done.
Qed.

Lemma formatSplitText_entry n it rest :
  n ≠ [] -> Forall (λ c, is_digit c = true) n -> item_ok it = true ->
  starts_Q_or_end rest = true ->
  formatSplitText (print_entry n it ++ rest) = it :: formatSplitText rest.
Proof.
  intros Hn Hd Hit Hrest. unfold formatSplitText.
  rewrite (matchAll_here _ _ _ _ (exec_entry n it rest Hn Hd Hit Hrest)).
  2:{ unfold print_entry. rewrite !length_app. simpl. lia. }
  simpl. destruct it as [q a]. simpl.
  apply andb_prop in Hit as [[Hq _]%andb_prop Ha]. simpl in Hq, Ha.
  destruct q as [|qc qt]; [done|]. destruct a as [|ac at']; [done|]. simpl.
  rewrite app_comm_cons, format_answer_ok by done. done.
Qed.

(** ** Properties of [formatSplitText] *)

(** every pair [formatSplitText] produces has a non-empty
    question on one line and a non-empty answer in which the letter [Q]
    does not occur: the lazy answer group stops before the first [Q] of
    the text, whatever follows it. *)
Theorem formatSplitText_pairs_wf (t : text) (it : QAItem) :
  it ∈ formatSplitText t ->
  qa_q it ≠ [] ∧ Forall (λ c, is_line_terminator c = false) (qa_q it) ∧
  qa_a it ≠ [] ∧ Forall (λ c, c ≠ "Q"%char) (qa_a it).
Proof.
  unfold formatSplitText.
  intros (st & rest & cs & q & a & Hin & Hq & Ha & Hq0 & Ha0 & ->)%collect_pairs_elem.
  apply matchAll_exec, qa_exec_sound in Hin as (q' & a' & Hq' & Ha' & Hlt & HnoQ & Hhead & _).
  rewrite Hq in Hq'. rewrite Ha in Ha'. simplify_eq/=.
  split_and!; [done|done| |].
  - destruct a' as [|c t']; [done|].
    by destruct (format_answer_head c t' (Hhead c t' eq_refl)) as [? ->].
  - apply Forall_forall. intros x [Hx| ->]%format_answer_elem; [|done].
    by eapply Forall_forall in HnoQ.
Qed.

(** The spec's scenario C.  From the answer
    "Q1: What is X?\nA1: X is Y.\nQ2: bad" exactly one pair is parsed, with
    question "What is X?" and answer "X is Y."; the unanswered "Q2" is dropped. *)
Theorem formatSplitText_scenario_c :
  formatSplitText scenario_c_text = [{| qa_q := ⟦"What is X?"⟧; qa_a := ⟦"X is Y."⟧ |}].
Proof. vm_compute. reflexivity. Qed.

Lemma formatSplitText_pairs_wf_witness :
  ⟦"What is X?"⟧ ≠ [] ∧ Forall (λ c, is_line_terminator c = false) ⟦"What is X?"⟧ ∧
  ⟦"X is Y."⟧ ≠ [] ∧ Forall (λ c, c ≠ "Q"%char) ⟦"X is Y."⟧.
Proof.
  apply (formatSplitText_pairs_wf scenario_c_text {| qa_q := ⟦"What is X?"⟧; qa_a := ⟦"X is Y."⟧ |}).
  apply list_elem_of_In. vm_compute. left. reflexivity.
Defined.

(** an answer that contains a capital [Q] is cut just before it
    and the rest of the answer is lost: for "A1: SQL is a query language."
    the stored answer is "S". *)
Theorem formatSplitText_truncates_at_Q :
  formatSplitText sql_answer_text = [{| qa_q := ⟦"What is SQL?"⟧; qa_a := ⟦"S"⟧ |}].
Proof. vm_compute. reflexivity. Qed.

(** C19: pairs written in the format the prompt asks for
    ("Qn: question", newline, "An: answer", newline, with n = 1, 2, ...) are
    parsed back exactly, when each question is one line not starting with a
    space and each answer is trimmed, has no [Q] and no newline followed by
    a space. *)
Theorem formatSplitText_print_qa (items : list QAItem) :
  Forall (λ it, item_ok it = true) items -> formatSplitText (print_qa items) = items.
Proof.
  unfold print_qa. generalize 1. induction items as [|it its IH]; intros i Hok.
  - vm_compute. reflexivity.
  - apply Forall_cons in Hok as [Hit Hits].
    change (print_qa_from i (it :: its)) with (print_entry (decimal i) it ++ print_qa_from (S i) its).
    destruct (decimal_digits i) as (d & ds & Hdec & Hd).
    rewrite formatSplitText_entry; [| by rewrite Hdec | by rewrite Hdec | done
                                     | apply print_qa_from_start].
    by rewrite IH.
Qed.

Lemma formatSplitText_print_qa_witness :
  Forall (λ it, item_ok it = true)
    [{| qa_q := ⟦"What is X?"⟧; qa_a := ⟦"X is Y."⟧ |}; {| qa_q := ⟦"Why"⟧; qa_a := ⟦"Because."⟧ |}] ∧
  formatSplitText
    (print_qa [{| qa_q := ⟦"What is X?"⟧; qa_a := ⟦"X is Y."⟧ |}; {| qa_q := ⟦"Why"⟧; qa_a := ⟦"Because."⟧ |}]) =
    [{| qa_q := ⟦"What is X?"⟧; qa_a := ⟦"X is Y."⟧ |}; {| qa_q := ⟦"Why"⟧; qa_a := ⟦"Because."⟧ |}].
Proof.
  assert (Forall (λ it, item_ok it = true)
    [{| qa_q := ⟦"What is X?"⟧; qa_a := ⟦"X is Y."⟧ |}; {| qa_q := ⟦"Why"⟧; qa_a := ⟦"Because."⟧ |}])
    as H by (repeat constructor).
  split; [exact H|]. apply formatSplitText_print_qa. exact H.
Defined.

End QASplit.
