(* ===== verification/ContextFilter.v ===== *)
(** * ContextFilter: trimming the chat context to a token budget

    [ChatContextFilter] of src/client/src/service/utils/chat/index.ts (lines
    21-69) keeps the leading system prompts and the newest chat items whose
    token count stays under [maxTokens].  The token counter
    [modelToolMap.countTokens] is defined outside src/ ([@/utils/plugin]); it
    is the interface [TokenCounter] below, and the theorems are proved for
    every counter, or for every additive counter where they need it.  The
    character-count estimate of the spec (§4.1, the fallback of
    [splitText2Chunks]) is one instance. *)

From Stdlib Require Import Ascii ZArith.
From stdpp Require Import base list.
From S2P Require Import Prelude.

Module ContextFilter.

(** [ChatRoleEnum] of src/client/src/constants/chat.ts. *)
Inductive ChatRoleEnum := System | Human | AI.

#[export] Instance ChatRoleEnum_eq_dec : EqDecision ChatRoleEnum.
Proof. solve_decision. Defined.

(** [ChatItemType]: the role [obj] and the text [value]. *)
Record ChatItemType := { obj : ChatRoleEnum; value : text }.

(** What the filter needs of the token counter: a count for a message list. *)
Class TokenCounter := { countTokens : list ChatItemType -> Z }.

(** A counter that charges a fixed overhead per call plus a non-negative
    amount per message, as per-message tokenisers do. *)
Class AdditiveCounter `{TokenCounter} := {
  count_base : Z;
  count_item : ChatItemType -> Z;
  count_item_nonneg : ∀ it, (0 ≤ count_item it)%Z;
  countTokens_additive : ∀ l, countTokens l = (count_base + zsum count_item l)%Z
}.

Section Filter.
Context `{TokenCounter}.

Definition is_not_system (it : ChatItemType) : bool :=
  match obj it with System => false | _ => true end.

(** [prompts.reduce((sum, item) => sum + item.value.length, 0)] *)
Definition raw_text_len (prompts : list ChatItemType) : nat :=
  foldr (λ it sum, length (value it) + sum) 0 prompts.

(** The [for] loop from the newest chat item back: [chats.unshift(item)],
    count, and on reaching the budget [chats.shift()] and [break]. *)
Fixpoint fill_from_back (rev_chats chats : list ChatItemType) (maxTokens : Z) : list ChatItemType :=
  match rev_chats with
  | [] => chats
  | it :: rest =>
      if (maxTokens <=? countTokens (it :: chats))%Z then chats
      else fill_from_back rest (it :: chats) maxTokens
  end.

(** [prompts.findIndex(item => item.obj !== System)] and the two slices. *)
Definition split_system (prompts : list ChatItemType) : list ChatItemType * list ChatItemType :=
  let chatStartIndex := js_findIndex is_not_system prompts in
  (js_slice prompts 0 (Some chatStartIndex), js_slice prompts chatStartIndex None).

(** The cheap path: [rawTextLen < maxTokens * 0.5]. *)
Definition under_half (prompts : list ChatItemType) (maxTokens : Z) : bool :=
  (2 * Z.of_nat (raw_text_len prompts) <? maxTokens)%Z.

Definition ChatContextFilter (prompts : list ChatItemType) (maxTokens : Z) : list ChatItemType :=
  if under_half prompts maxTokens then prompts
  else
    let '(systemPrompts, chatPrompts) := split_system prompts in
    let maxTokens' := (maxTokens - countTokens systemPrompts)%Z in
    systemPrompts ++ fill_from_back (reverse chatPrompts) [] maxTokens'.

(** The reference for the loop: the longest suffix of the chat items whose
    count stays under the budget, the empty window when none does. *)
Fixpoint fit_suffix (chats : list ChatItemType) (maxTokens : Z) : list ChatItemType :=
  match chats with
  | [] => []
  | it :: rest => if (countTokens (it :: rest) <? maxTokens)%Z then chats else fit_suffix rest maxTokens
  end.

(** [ChatContextFilter] with the loop replaced by its reference. *)
Definition ChatContextFilter_ref (prompts : list ChatItemType) (maxTokens : Z) : list ChatItemType :=
  if under_half prompts maxTokens then prompts
  else
    let '(systemPrompts, chatPrompts) := split_system prompts in
    systemPrompts ++ fit_suffix chatPrompts (maxTokens - countTokens systemPrompts).

End Filter.

(** The character-length estimate. *)
#[export] Instance charCounter : TokenCounter :=
  {| countTokens := zsum (λ it, Z.of_nat (length (value it))) |}.

#[export] Program Instance charCounter_additive : @AdditiveCounter charCounter :=
  {| count_base := 0; count_item := λ it, Z.of_nat (length (value it)) |}.
Next Obligation. intros it. cbv beta. lia. Qed.
Next Obligation. intros. simpl. lia. Qed.

(** Inputs of the concrete runs below. *)
Definition sys_prompt : ChatItemType := {| obj := System; value := ⟦"Be brief"⟧ |}.
Definition long_question : ChatItemType := {| obj := Human; value := repeat "x"%char 500 |}.
Definition short_question : ChatItemType := {| obj := Human; value := ⟦"b"⟧ |}.

(** ** The pieces of the filter *)

Section FilterLemmas.
Context `{TokenCounter}.

Lemma nil_eq_app_inv {A} (u v : list A) : [] = u ++ v -> v = [].
Proof. by destruct u, v. Qed.

(** The loop keeps a suffix [w] of the chat items: every partial window it
    measured on the way fitted under the budget, and the item before [w],
    if any, did not fit. *)
Lemma fill_from_back_spec rs acc B :
  ∃ pre w, reverse rs = pre ++ w ∧ fill_from_back rs acc B = w ++ acc ∧
    (∀ u v, w = u ++ v -> v ≠ [] -> (countTokens (v ++ acc) < B)%Z) ∧
    (∀ pre0 x, pre = pre0 ++ [x] -> (B ≤ countTokens (x :: w ++ acc))%Z).
Proof.
  revert acc. induction rs as [|it rest IH]; intros acc; simpl.
  - exists [], []. split_and!; [done|done| |].
    + intros u v Huv Hv. by apply nil_eq_app_inv in Huv.
    + intros [|??] ? ?; discriminate.
  - destruct (Z.leb_spec B (countTokens (it :: acc))) as [Hstop|Hgo].
    + exists (reverse (it :: rest)), []. split_and!; [by rewrite app_nil_r|done| |].
      * intros u v Huv Hv. by apply nil_eq_app_inv in Huv.
      * intros pre0 x Hp. rewrite reverse_cons in Hp. by apply app_inj_tail in Hp as [_ <-].
    + destruct (IH (it :: acc)) as (pre & w & Hr & Hf & Hfit & Hmax).
      exists pre, (w ++ [it]). split_and!.
      * by rewrite reverse_cons, Hr, app_assoc.
      * by rewrite Hf, <-app_assoc.
      * intros u v Huv Hv. destruct (exists_last Hv) as (v' & y & ->).
        rewrite app_assoc in Huv. apply app_inj_tail in Huv as [-> <-].
        rewrite <-app_assoc. simpl. destruct v' as [|z v']; [done|].
        by apply (Hfit u (z :: v')).
      * intros pre0 x Hp. rewrite <-app_assoc. simpl. by apply (Hmax pre0).
Qed.

(** When the budget is never reached, the loop keeps every chat item. *)
Lemma fill_from_back_all l acc B :
  (∀ u v, l = u ++ v -> v ≠ [] -> (countTokens (v ++ acc) < B)%Z) ->
  fill_from_back (reverse l) acc B = l ++ acc.
Proof.
  revert acc. induction l as [|x l IH] using rev_ind; intros acc Hfit; [done|].
  rewrite reverse_app. simpl.
  destruct (Z.leb_spec B (countTokens (x :: acc))) as [Hstop|Hgo].
  - exfalso. specialize (Hfit l [x] eq_refl ltac:(done)). simpl in Hfit. lia.
  - rewrite IH, <-app_assoc; [done|]. intros u v -> Hv.
    replace (v ++ x :: acc) with ((v ++ [x]) ++ acc) by (by rewrite <-app_assoc). apply (Hfit u); [by rewrite <-app_assoc|].
    by destruct v.
Qed.

Lemma Forall_or_first {A} (p : A -> bool) (l : list A) :
  Forall (λ x, p x = false) l ∨
  ∃ l1 x l2, l = l1 ++ x :: l2 ∧ Forall (λ y, p y = false) l1 ∧ p x = true.
Proof.
  induction l as [|y l IH]; [left; constructor|].
  destruct (p y) eqn:Hy.
  - right. by exists [], y, l.
  - destruct IH as [Hall|(l1 & x & l2 & -> & Hl1 & Hx)].
    + left. by constructor.
    + right. exists (y :: l1), x, l2. split_and!; [done|by constructor|done].
Qed.

Lemma split_system_some l1 x l2 :
  Forall (λ it, is_not_system it = false) l1 -> is_not_system x = true ->
  split_system (l1 ++ x :: l2) = (l1, x :: l2).
Proof.
  intros Hl1 Hx. unfold split_system, js_findIndex.
  rewrite (js_findIndex_from_some _ _ _ _ 0 Hl1 Hx), Z.add_0_l.
  rewrite js_slice_0_nat, js_slice_from_nat by (rewrite length_app; simpl; lia).
  by rewrite take_app_length, drop_app_length.
Qed.

(** When every prompt is a system prompt, [findIndex] answers -1 and the
    slices split off the last prompt as if it were the chat. *)
Lemma split_system_none l :
  Forall (λ it, is_not_system it = false) l ->
  split_system l = (take (length l - 1) l, drop (length l - 1) l).
Proof.
  intros Hl. unfold split_system, js_findIndex. rewrite js_findIndex_from_none by done.
  by rewrite js_slice_all_but_last, js_slice_last.
Qed.

Lemma split_system_app prompts :
  prompts = (split_system prompts).1 ++ (split_system prompts).2 ∧
  Forall (λ it, is_not_system it = false) (split_system prompts).1.
Proof.
  destruct (Forall_or_first is_not_system prompts) as [Hall|(l1 & x & l2 & -> & Hl1 & Hx)].
  - rewrite split_system_none by done. simpl. split; [by rewrite take_drop|].
    by apply Forall_take.
  - rewrite split_system_some by done. by split.
Qed.

Lemma ChatContextFilter_unfold prompts maxTokens :
  under_half prompts maxTokens = false ->
  ChatContextFilter prompts maxTokens =
    (split_system prompts).1 ++
    fill_from_back (reverse (split_system prompts).2) []
      (maxTokens - countTokens (split_system prompts).1)%Z.
Proof. unfold ChatContextFilter. intros ->. by destruct (split_system prompts). Qed.

End FilterLemmas.

(** ** Properties of [ChatContextFilter] *)

Section FilterProperties.
Context `{TokenCounter}.

(** C6: the filtered context is a prefix of the prompts followed by
    a suffix of them: the relative order is kept, the system prompts come
    first, and only a contiguous run of the oldest chat items is removed. *)
Theorem ChatContextFilter_order (prompts : list ChatItemType) (maxTokens : Z) :
  ∃ j k, j ≤ k ∧ ChatContextFilter prompts maxTokens = take j prompts ++ drop k prompts.
Proof.
  destruct (under_half prompts maxTokens) eqn:Hh.
  { exists 0, 0. unfold ChatContextFilter. by rewrite Hh. }
  rewrite ChatContextFilter_unfold by done.
  destruct (split_system_app prompts) as [Hp _].
  destruct (split_system prompts) as [sys chat]. simpl in *.
  destruct (fill_from_back_spec (reverse chat) [] (maxTokens - countTokens sys))
    as (pre & w & Hr & -> & _ & _).
  rewrite reverse_involutive in Hr. subst.
  exists (length sys), (length sys + length pre). split; [lia|].
  by rewrite app_nil_r, take_app_length, drop_app_add', drop_app_length.
Qed.

(** The window the backward loop keeps, as [fill_from_back_spec] describes it. *)
Lemma filter_window (prompts : list ChatItemType) (maxTokens : Z) :
  under_half prompts maxTokens = false ->
  ∃ pre w, (split_system prompts).2 = pre ++ w ∧
    ChatContextFilter prompts maxTokens = (split_system prompts).1 ++ w ∧
    (∀ u v, w = u ++ v -> v ≠ [] ->
       (countTokens v < maxTokens - countTokens (split_system prompts).1)%Z) ∧
    (∀ pre0 x, pre = pre0 ++ [x] ->
       (maxTokens - countTokens (split_system prompts).1 ≤ countTokens (x :: w))%Z).
Proof.
  intros Hh. rewrite ChatContextFilter_unfold by done.
  destruct (fill_from_back_spec (reverse (split_system prompts).2) []
              (maxTokens - countTokens (split_system prompts).1))
    as (pre & w & Hr & -> & Hfit & Hmax).
  rewrite reverse_involutive in Hr. exists pre, w. split_and!; [done|by rewrite app_nil_r| |].
  - intros u v Huv Hv. rewrite <-(app_nil_r v). by apply (Hfit u).
  - intros pre0 x Hp. specialize (Hmax pre0 x Hp). by rewrite app_nil_r in Hmax.
Qed.


(** C5: when the prompts are not under half the budget, the result
    is the system part followed by the longest window [w] of newest chat
    items such that every window measured on the way (each non-empty suffix
    of [w]) costs less than the budget left after the system part, the next
    older item making the cost reach it. *)
Theorem ChatContextFilter_window (prompts : list ChatItemType) (maxTokens : Z) :
  under_half prompts maxTokens = false ->
  ∃ pre w, (split_system prompts).2 = pre ++ w ∧
    ChatContextFilter prompts maxTokens = (split_system prompts).1 ++ w ∧
    (∀ u v, w = u ++ v -> v ≠ [] ->
       (countTokens v < maxTokens - countTokens (split_system prompts).1)%Z) ∧
    (∀ pre0 x, pre = pre0 ++ [x] ->
       (maxTokens - countTokens (split_system prompts).1 ≤ countTokens (x :: w))%Z).
Proof. exact (filter_window prompts maxTokens). Qed.

End FilterProperties.


Section Idempotence.
Context `{TokenCounter} `{!AdditiveCounter}.

Lemma system_not_in_sys it sys :
  Forall (λ it, is_not_system it = false) sys -> obj it ≠ System -> it ∉ sys.
Proof.
  intros Hsys Hit Hin. eapply Forall_forall in Hsys; [|exact Hin].
  unfold is_not_system in Hsys. by destruct (obj it).
Qed.

(** For a counter that charges a fixed overhead plus a
    non-negative cost per message, filtering twice gives the same context as
    filtering once, as long as the first result still holds a non-system
    message. *)
Theorem ChatContextFilter_idempotent (prompts : list ChatItemType) (maxTokens : Z) :
  (∃ it, it ∈ ChatContextFilter prompts maxTokens ∧ obj it ≠ System) ->
  ChatContextFilter (ChatContextFilter prompts maxTokens) maxTokens =
  ChatContextFilter prompts maxTokens.
Proof.
  intros (it & Hin & Hit).
  destruct (under_half prompts maxTokens) eqn:Hh.
  { assert (ChatContextFilter prompts maxTokens = prompts) as E
      by (unfold ChatContextFilter; by rewrite Hh).
    rewrite E. exact E. }
  destruct (filter_window prompts maxTokens Hh) as (pre & w & _ & Hout & Hfit & _).
  destruct (split_system_app prompts) as [_ Hsys].
  set (sys := (split_system prompts).1) in *.
  rewrite Hout in Hin |- *.
  apply elem_of_app in Hin as [Hin|Hin]; [by apply (system_not_in_sys it sys) in Hin|].
  destruct (Forall_or_first is_not_system w) as [Hall|(s1 & x & w2 & -> & Hs1 & Hx)].
  { exfalso. eapply Forall_forall in Hall; [|exact Hin]. unfold is_not_system in Hall.
    by destruct (obj it). }
  assert (split_system ((sys ++ s1) ++ x :: w2) = (sys ++ s1, x :: w2)) as Hsplit
    by (apply split_system_some; [by apply Forall_app|done]).
  rewrite app_assoc.
  destruct (under_half ((sys ++ s1) ++ x :: w2) maxTokens) eqn:Hh2.
  { unfold ChatContextFilter. by rewrite Hh2. }
  rewrite ChatContextFilter_unfold, Hsplit by done. simpl. f_equal.
  rewrite fill_from_back_all; [by rewrite app_nil_r|].
  intros u v Huv Hv. rewrite app_nil_r.
  specialize (Hfit [] (s1 ++ x :: w2) eq_refl ltac:(by destruct s1)).
  rewrite Huv in Hfit. rewrite !countTokens_additive, !zsum_app in *.
  pose proof (zsum_nonneg count_item u count_item_nonneg). lia.
Qed.

(** A longer suffix costs at least as much. *)
Lemma countTokens_suffix_mono u v : (countTokens v ≤ countTokens (u ++ v))%Z.
Proof.
  rewrite !countTokens_additive, zsum_app.
  pose proof (zsum_nonneg count_item u count_item_nonneg). lia.
Qed.

(** The reference keeps the window [w] of [pre ++ w] when [w] fits and the
    item just before it does not. *)
Lemma fit_suffix_window pre w B :
  (w ≠ [] -> (countTokens w < B)%Z) ->
  (∀ pre0 x, pre = pre0 ++ [x] -> (B ≤ countTokens (x :: w))%Z) ->
  fit_suffix (pre ++ w) B = w.
Proof.
  intros Hw. induction pre as [|y pre IH]; intros Hmax; simpl.
  - destruct w as [|x w]; [done|]. simpl. by rewrite (proj2 (Z.ltb_lt _ _)) by (apply Hw; done).
  - destruct (exists_last (l := y :: pre) ltac:(done)) as (pre0 & x & Hx).
    assert (B ≤ countTokens (y :: pre ++ w))%Z.
    { specialize (Hmax pre0 x Hx). change (y :: pre ++ w) with ((y :: pre) ++ w).
      rewrite Hx, <-app_assoc. simpl. pose proof (countTokens_suffix_mono pre0 (x :: w)). lia. }
    rewrite (proj2 (Z.ltb_ge _ _)) by done.
    apply IH. intros pre1 x1 Hp. apply (Hmax (y :: pre1)). by rewrite Hp.
Qed.

(** C27: for a counter that charges a fixed overhead plus a non-negative
    cost per message, the backward loop of [ChatContextFilter], which counts
    every partial window, computes the reference filter: the system prompts
    followed by the longest suffix of the chat items that costs less than
    the budget left after them. *)
Theorem ChatContextFilter_ref_equiv (prompts : list ChatItemType) (maxTokens : Z) :
  ChatContextFilter prompts maxTokens = ChatContextFilter_ref prompts maxTokens.
Proof.
  unfold ChatContextFilter_ref. destruct (under_half prompts maxTokens) eqn:Hh.
  { unfold ChatContextFilter. by rewrite Hh. }
  destruct (filter_window prompts maxTokens Hh) as (pre & w & Hsplit & -> & Hfit & Hmax).
  destruct (split_system prompts) as [sys chat]. simpl in *. subst chat. f_equal.
  symmetry. apply fit_suffix_window; [|done]. intros Hw. exact (Hfit [] w eq_refl Hw).
Qed.

End Idempotence.

(** The spec's scenario E.  A question whose cost alone
    exceeds the budget (500 characters against 100) is dropped: the result
    is the system prompt alone, not an error. *)
Theorem ChatContextFilter_scenario_e :
  ChatContextFilter [sys_prompt; long_question] 100 = [sys_prompt].
Proof. vm_compute. reflexivity. Qed.

(** The leading system prompts are not always kept.  When
    the first pass has kept only a system prompt that alone exceeds the
    budget, [findIndex] finds no chat item, [slice(0, -1)] treats that
    system prompt as chat, and the second pass drops it: filtering is not
    idempotent there. *)
Theorem ChatContextFilter_drops_system_prompt :
  ChatContextFilter [sys_prompt; short_question] 6 = [sys_prompt] ∧
  ChatContextFilter (ChatContextFilter [sys_prompt; short_question] 6) 6 = [].
Proof. split; vm_compute; reflexivity. Qed.

Lemma ChatContextFilter_idempotent_witness :
  (∃ it, it ∈ ChatContextFilter [sys_prompt; short_question] 100 ∧ obj it ≠ System) ∧
  ChatContextFilter (ChatContextFilter [sys_prompt; short_question] 100) 100 =
  ChatContextFilter [sys_prompt; short_question] 100.
Proof.
  assert (∃ it, it ∈ ChatContextFilter [sys_prompt; short_question] 100 ∧ obj it ≠ System) as H.
  { exists short_question. split; [|discriminate]. vm_compute. right. left. }
  split; [exact H|]. exact (ChatContextFilter_idempotent _ _ H).
Defined.

Lemma ChatContextFilter_window_witness :
  under_half [sys_prompt; long_question] 100 = false ∧
  ∃ pre w, (split_system [sys_prompt; long_question]).2 = pre ++ w ∧
    ChatContextFilter [sys_prompt; long_question] 100 = (split_system [sys_prompt; long_question]).1 ++ w ∧
    (∀ u v, w = u ++ v -> v ≠ [] ->
       (countTokens v < 100 - countTokens (split_system [sys_prompt; long_question]).1)%Z) ∧
    (∀ pre0 x, pre = pre0 ++ [x] ->
       (100 - countTokens (split_system [sys_prompt; long_question]).1 ≤ countTokens (x :: w))%Z).
Proof.
  assert (under_half [sys_prompt; long_question] 100 = false) as H by reflexivity.
  split; [exact H|]. exact (ChatContextFilter_window _ _ H).
Defined.

End ContextFilter.

