(* ===== verification/KbData.v ===== *)
(** * KbData: the knowledge-base rows of the relational store

    The table [PgTrainingTableName] holds one row per indexed question/answer
    pair.  The client of src/client/src/service/pg.ts is outside src/: its
    [insertKbItem] is modelled from the spec (an append of fresh rows).  The
    handlers of src/ that read and write the table are translated from the
    source: the manual insert of pages/api/plugins/kb/data/insertData.ts, the
    update of pages/api/openapi/kb/updateData.ts and the delete of
    pages/api/openapi/kb/delDataById.ts, together with the text
    normalisation of the question and the answer (the escaped newline
    backslash-n becomes a line feed, then [trim], then every single quote
    becomes a double quote) they
    share with the push path.  The embedding vector of a row is not modelled:
    no handler reads it back.  [md5(x) = md5(y)] is compared as [x = y]. *)

From Stdlib Require Import Ascii ZArith.
From stdpp Require Import base list strings.
From S2P Require Import Prelude ContextFilter.

Module KbData.
Import ContextFilter.

Record PgRow := {
  pg_id : nat;
  user_id : string;
  kb_id : string;
  pg_q : text;
  pg_a : text;
  pg_source : text;
  pg_file_id : text
}.

Record PgTable := { rows : list PgRow; next_pg_id : nat }.

(** A row to insert: [{q, a, source, file_id}]. *)
Record KbItem := { it_q : text; it_a : text; it_source : text; it_file_id : text }.

(** [insertKbItem({userId, kbId, data})]: one fresh row per item, in order. *)
Fixpoint insert_rows (uid kb : string) (id : nat) (items : list KbItem) : list PgRow :=
  match items with
  | [] => []
  | it :: rest =>
      {| pg_id := id; user_id := uid; kb_id := kb; pg_q := it_q it; pg_a := it_a it;
         pg_source := it_source it; pg_file_id := it_file_id it |} :: insert_rows uid kb (S id) rest
  end.

Definition insertKbItem (uid kb : string) (items : list KbItem) (T : PgTable) : PgTable :=
  {| rows := rows T ++ insert_rows uid kb (next_pg_id T) items;
     next_pg_id := next_pg_id T + length items |}.

Definition backslash : ascii := "092"%char.
Definition single_quote : ascii := "039"%char.
Definition double_quote : ascii := "034"%char.

(** [s.replace(/\\n/g, '\n')]: the two characters backslash and [n] become a
    line feed, scanning left to right without overlap. *)
Fixpoint replace_escaped_newline (s : text) : text :=
  match s with
  | [] => []
  | c :: rest =>
      if Ascii.eqb c backslash then
        match rest with
        | d :: rest' => if Ascii.eqb d "n"%char then "010"%char :: replace_escaped_newline rest'
                        else c :: replace_escaped_newline rest
        | [] => [c]
        end
      else c :: replace_escaped_newline rest
  end.

(** [s.replace(/'/g, ...)]: every single quote becomes a double quote. *)
Definition replace_quote (s : text) : text :=
  map (λ c, if Ascii.eqb c single_quote then double_quote else c) s.

(** The normalisation of the insert and push paths. *)
Definition normalize_text (s : text) : text := replace_quote (js_trim (replace_escaped_newline s)).

(** [SELECT COUNT(...) > 0 FROM ... WHERE md5(q)=md5('q') AND md5(a)=md5('a')
    AND user_id='uid' AND kb_id='kb']. *)
Definition pg_exists (T : PgTable) (uid kb : string) (q a : text) : bool :=
  existsb (λ r, bool_decide (pg_q r = q ∧ pg_a r = a ∧ user_id r = uid ∧ kb_id r = kb)) (rows T).

(** The errors the handlers throw. *)
Inductive KbDataError := MissingParameter | OverTokens | AlreadyExists | CantFindDatabase.

Section Insert.
Context `{TokenCounter}.

(** [modelToolMap.countTokens({messages: [{obj: 'System', value: q}]})]. *)
Definition question_tokens (q : text) : Z := countTokens [{| obj := System; value := q |}].

(** [insertData] (lines 19-88): the guards in order, then one normalised row.
    [maxToken] is the limit of the knowledge base's vector model. *)
Definition insertData (uid kbId : string) (data : KbItem) (maxToken : Z) (T : PgTable)
    : KbDataError + (nat * PgTable) :=
  if bool_decide (kbId = "" ∨ it_q data = []) then inl MissingParameter
  else
    let q := normalize_text (it_q data) in
    let a := normalize_text (it_a data) in
    if (maxToken <? question_tokens q)%Z then inl OverTokens
    else if pg_exists T uid kbId q a then inl AlreadyExists
    else inr (next_pg_id T,
              insertKbItem uid kbId [{| it_q := q; it_a := a; it_source := it_source data;
                                       it_file_id := [] |}] T).

End Insert.

(** [PgClient.update(..., {where: [['id', dataId], 'AND', ['user_id', userId]],
    values: [source, a, (q, vector if q)]})] of updateData (lines 17-71). *)
Definition update_row (dataId : nat) (uid : string) (q a : text) (r : PgRow) : PgRow :=
  if bool_decide (pg_id r = dataId ∧ user_id r = uid) then
    {| pg_id := pg_id r; user_id := user_id r; kb_id := kb_id r;
       pg_q := if bool_decide (q = []) then pg_q r else replace_quote q;
       pg_a := replace_quote a; pg_source := ⟦"Manual modifications"⟧;
       pg_file_id := pg_file_id r |}
  else r.

Definition updateData (dataId : option nat) (uid : string) (kb_found : bool) (q a : text) (T : PgTable)
    : KbDataError + PgTable :=
  match dataId with
  | None => inl MissingParameter
  | Some id =>
      if kb_found then inr {| rows := map (update_row id uid q a) (rows T); next_pg_id := next_pg_id T |}
      else inl CantFindDatabase
  end.

(** [PgClient.delete(..., {where: [['user_id', userId], 'AND', ['id', dataId]]})]
    of delDataById (lines 8-33). *)
Definition delDataById (dataId : option nat) (uid : string) (T : PgTable) : KbDataError + PgTable :=
  match dataId with
  | None => inl MissingParameter
  | Some id =>
      inr {| rows := filter (λ r, ¬ (user_id r = uid ∧ pg_id r = id)) (rows T); next_pg_id := next_pg_id T |}
  end.

(** ** Lemmas *)

Lemma pg_exists_spec T uid kb q a :
  pg_exists T uid kb q a = true <->
  ∃ r, r ∈ rows T ∧ pg_q r = q ∧ pg_a r = a ∧ user_id r = uid ∧ kb_id r = kb.
Proof.
  unfold pg_exists. rewrite existsb_exists. split.
  - intros (r & Hin & Hr%bool_decide_eq_true). exists r. split; [by apply list_elem_of_In|done].
  - intros (r & Hin & Hr). exists r. split; [by apply list_elem_of_In|by apply bool_decide_eq_true].
Qed.

Lemma pg_exists_app T l n uid kb q a :
  pg_exists {| rows := rows T ++ l; next_pg_id := n |} uid kb q a =
  pg_exists T uid kb q a || pg_exists {| rows := l; next_pg_id := 0 |} uid kb q a.
Proof. unfold pg_exists. simpl. by rewrite existsb_app. Qed.

Lemma insertData_inv `{TokenCounter} uid kb d m T id T' :
  insertData uid kb d m T = inr (id, T') ->
  kb ≠ "" ∧ it_q d ≠ [] ∧ (question_tokens (normalize_text (it_q d)) <= m)%Z ∧
  pg_exists T uid kb (normalize_text (it_q d)) (normalize_text (it_a d)) = false ∧ id = next_pg_id T ∧
  T' = insertKbItem uid kb [{| it_q := normalize_text (it_q d); it_a := normalize_text (it_a d);
                               it_source := it_source d; it_file_id := [] |}] T.
Proof.
  unfold insertData. case_bool_decide as Hg; [done|].
  destruct (m <? _)%Z eqn:Hm; [done|]. destruct pg_exists eqn:He; [done|].
  intros [= <- <-]. apply Z.ltb_ge in Hm. split_and!; [naive_solver|naive_solver|lia|done|done|done].
Qed.

Lemma filter_other_user_map (f : PgRow -> PgRow) uid rs :
  (∀ r, user_id (f r) = user_id r) -> (∀ r, user_id r ≠ uid -> f r = r) ->
  filter (λ r, user_id r ≠ uid) (map f rs) = filter (λ r, user_id r ≠ uid) rs.
Proof.
  intros Hu Hf. induction rs as [|r rs IH]; [done|]. simpl.
  destruct (decide (user_id r = uid)) as [Hr|Hr].
  - rewrite !filter_cons_False by (rewrite ?Hu; naive_solver). exact IH.
  - rewrite !filter_cons_True by (rewrite ?Hu; naive_solver). rewrite Hf by done. by f_equal.
Qed.

(** ** Properties *)

(** The manual insert is idempotent: after [insertData] has added
    a row, the same request is refused as [AlreadyExists] and adds nothing. *)
Theorem insertData_idempotent `{TokenCounter} (uid kb : string) (d : KbItem) (m : Z) (T T' : PgTable) (id : nat) :
  insertData uid kb d m T = inr (id, T') -> insertData uid kb d m T' = inl AlreadyExists.
Proof.
  intros Hi. pose proof (insertData_inv _ _ _ _ _ _ _ Hi) as (Hk & Hq & Hm & _ & _ & ->).
  unfold insertData. rewrite bool_decide_false by naive_solver.
  destruct (m <? _)%Z eqn:E; [apply Z.ltb_lt in E; lia|].
  unfold insertKbItem. rewrite pg_exists_app.
  replace (pg_exists {| rows := insert_rows _ _ _ _; next_pg_id := 0 |} _ _ _ _) with true;
    [by rewrite orb_true_r|].
  symmetry. apply pg_exists_spec. eexists. split; [apply list_elem_of_singleton; reflexivity|done].
Qed.

Lemma insertData_idempotent_witness :
  insertData "u" "k" {| it_q := ⟦" it's"⟧; it_a := ⟦"x"⟧; it_source := []; it_file_id := [] |} 100
    {| rows := []; next_pg_id := 0 |} =
    inr (0%nat, {| rows := [{| pg_id := 0; user_id := "u"; kb_id := "k"; pg_q := normalize_text ⟦" it's"⟧;
                               pg_a := ⟦"x"⟧; pg_source := []; pg_file_id := [] |}]; next_pg_id := 1 |}) ∧
  insertData "u" "k" {| it_q := ⟦" it's"⟧; it_a := ⟦"x"⟧; it_source := []; it_file_id := [] |} 100
    {| rows := [{| pg_id := 0; user_id := "u"; kb_id := "k"; pg_q := normalize_text ⟦" it's"⟧;
                   pg_a := ⟦"x"⟧; pg_source := []; pg_file_id := [] |}]; next_pg_id := 1 |} = inl AlreadyExists.
Proof.
  split; [vm_compute; reflexivity|].
  apply (insertData_idempotent "u" "k" _ 100 {| rows := []; next_pg_id := 0 |} _ 0%nat).
  vm_compute. reflexivity.
Defined.

(** The update and delete handlers only touch rows of the calling
    user: the rows of every other user are the same before and after. *)
Theorem kb_handlers_user_isolation (uid : string) (dataId : option nat) (kb_found : bool) (q a : text)
    (T : PgTable) :
  (∀ T', updateData dataId uid kb_found q a T = inr T' ->
     filter (λ r, user_id r ≠ uid) (rows T') = filter (λ r, user_id r ≠ uid) (rows T)) ∧
  (∀ T', delDataById dataId uid T = inr T' ->
     filter (λ r, user_id r ≠ uid) (rows T') = filter (λ r, user_id r ≠ uid) (rows T)).
Proof.
  split; intros T'; destruct dataId as [id|]; simpl; try done.
  - destruct kb_found; [|done]. intros [= <-]. simpl.
    apply filter_other_user_map.
    + intros r. unfold update_row. by case_bool_decide.
    + intros r Hr. unfold update_row. rewrite bool_decide_false by naive_solver. done.
  - intros [= <-]. simpl. rewrite !list_filter_filter.
    apply list_filter_iff. intros r. naive_solver.
Qed.

End KbData.
