(* ===== verification/KbExport.v ===== *)
(** * KbExport: reading the knowledge-base rows back

    Two handlers that read the table of knowledge-base rows ([KbData.PgTable]):
    the export of pages/api/plugins/kb/data/exportModelData.ts, guarded by a
    once-every-half-hour limit kept in the user document, and the paged,
    searchable list of pages/api/plugins/kb/data/getDataList.ts.  The client
    of the relational store (service/pg.ts) is outside src/ and is modelled
    from the spec: a [where] list is a conjunction, a raw condition string is
    a SQL [LIKE] test, [order] sorts, and [limit] and [offset] cut the result
    (a negative one is an error of the database).  The user document is
    modelled with its [limit] sub-document as a list of named dates, and a
    Mongo path with a dot names a field of that sub-document. *)

From Stdlib Require Import Ascii ZArith.
From stdpp Require Import base list strings sorting.
From S2P Require Import Prelude KbData.

Module KbExport.
Import KbData.

(** ** The user document and the export limit *)

(** The user document (service/models/user.ts): its id and the one field
    of its [limit] sub-document. *)
Record UserDoc := { ud_id : string; ud_exportKbTime : option Z }.

Record ExportState := { users : list UserDoc; table : PgTable }.

Definition dot : ascii := "."%char.

(** The value of a Mongo path of the user document: ["limit.exportKbTime"]
    is the schema's field; the schema is strict, so no other path under
    [limit] holds a value. *)
Definition get_path (u : UserDoc) (path : text) : option Z :=
  match split_on dot path with
  | [l; f] => if bool_decide (l = ⟦"limit"⟧ ∧ f = ⟦"exportKbTime"⟧) then ud_exportKbTime u else None
  | _ => None
  end.

(** The filter of [User.findOne] (exportModelData.ts lines 26-35): the
    user, and either the path [unset] does not exist or the path of the
    export time is at most [thirtyMinutesAgo]. *)
Definition export_allowed_at (unset : text) (uid : string) (now : Z) (u : UserDoc) : bool :=
  bool_decide (ud_id u = uid) &&
  (bool_decide (get_path u unset = None) ||
   match get_path u ⟦"limit.exportKbTime"⟧ with
   | Some t => (t <=? now - 30 * 60 * 1000)%Z
   | None => false
   end).

(** The code's first path has a space after the dot. *)
Definition export_path_unset : text := ⟦"limit. exportKbTime"⟧.

Definition export_allowed (uid : string) (now : Z) (u : UserDoc) : bool :=
  export_allowed_at export_path_unset uid now u.

(** [User.findByIdAndUpdate(userId, {'limit.exportKbTime': new Date()})]. *)
Definition set_export_time (uid : string) (now : Z) (u : UserDoc) : UserDoc :=
  if bool_decide (ud_id u = uid) then {| ud_id := ud_id u; ud_exportKbTime := Some now |} else u.

(** ** Rows in the order of the handlers *)

(** [order: [{field: 'id', mode: 'DESC'}]]. *)
Definition id_desc (r1 r2 : PgRow) : Prop := pg_id r2 ≤ pg_id r1.
#[local] Instance id_desc_dec : RelDecision id_desc := λ r1 r2, Nat.le_dec _ _.

Definition rows_of (T : PgTable) (uid kb : string) : list PgRow :=
  filter (λ r, kb_id r = kb ∧ user_id r = uid) (rows T).

(** [s.replace(/\n/g, '\\n')]: each line feed becomes a backslash and [n]. *)
Fixpoint escape_newlines (s : text) : text :=
  match s with
  | [] => []
  | c :: s' => if Ascii.eqb c "010"%char then backslash :: "n"%char :: escape_newlines s'
               else c :: escape_newlines s'
  end.

Inductive ExportError := ExportMissingParameter | ExportTooSoon.

(** exportModelData.ts (lines 8-78): the count and the select of lines
    44-56 return every row of the user in the knowledge base, newest id
    first; each row becomes [[q, a, source]] with escaped line feeds. *)
Definition exportModelData (kbId uid : string) (now : Z) (st : ExportState)
    : ExportError + (list (text * text * text) * ExportState) :=
  if bool_decide (kbId = "") then inl ExportMissingParameter
  else match list_find (λ u, export_allowed uid now u = true) (users st) with
       | None => inl ExportTooSoon
       | Some _ =>
           let rs := merge_sort id_desc (rows_of (table st) uid kbId) in
           inr (map (λ r, (escape_newlines (pg_q r), escape_newlines (pg_a r), pg_source r)) rs,
                {| users := map (set_export_time uid now) (users st); table := table st |})
       end.

(** ** The SQL [LIKE] test *)

Definition percent : ascii := "%"%char.
Definition underscore : ascii := "_"%char.

(** [s LIKE p]: [%] matches any run, [_] any one character, a backslash
    makes the next character literal (a pattern may not end with it; the
    handler's patterns end with [%]). *)
Fixpoint like (p : text) : text -> bool :=
  match p with
  | [] => λ s, bool_decide (s = [])
  | c :: p' =>
      if Ascii.eqb c percent then
        fix go (s : text) : bool :=
          like p' s || match s with [] => false | _ :: s' => go s' end
      else if Ascii.eqb c underscore then
        λ s, match s with [] => false | _ :: s' => like p' s' end
      else if Ascii.eqb c backslash then
        match p' with
        | [] => λ _, false
        | e :: p'' => λ s, match s with [] => false | d :: s' => Ascii.eqb d e && like p'' s' end
        end
      else λ s, match s with [] => false | d :: s' => Ascii.eqb d c && like p' s' end
  end.

(** [searchText.replace(/'/g, '')]. *)
Definition strip_quotes (s : text) : text := filter (λ c, c ≠ single_quote) s.

(** [(q LIKE '%t%' OR a LIKE '%t%' OR source LIKE '%t%')]. *)
Definition search_hit (t : text) (r : PgRow) : bool :=
  let p := percent :: t ++ [percent] in like p (pg_q r) || like p (pg_a r) || like p (pg_source r).

(** The [where] of getDataList.ts (lines 32-42). *)
Definition list_where (uid kb : string) (t : text) (r : PgRow) : bool :=
  bool_decide (user_id r = uid ∧ kb_id r = kb) && (if bool_decide (t = []) then true else search_hit t r).

(** The rows the list handler selects, before [limit] and [offset]. *)
Definition list_rows (uid kb : string) (t : text) (T : PgTable) : list PgRow :=
  merge_sort id_desc (filter (λ r, list_where uid kb t r = true) (rows T)).

Record DataPage := { dp_pageNum : Z; dp_pageSize : Z; dp_data : list PgRow; dp_total : nat }.

Inductive ListError := ListMissingParameter | NegativeLimit | NegativeOffset.

(** getDataList.ts (lines 9-72); [pageNum] and [pageSize] default to 1
    and 10, [searchText] to the empty text. *)
Definition getDataList (kbId uid : string) (pageNum pageSize : option Z) (searchText : text) (T : PgTable)
    : ListError + DataPage :=
  if bool_decide (kbId = "") then inl ListMissingParameter
  else
    let n := default 1%Z pageNum in
    let size := default 10%Z pageSize in
    let t := strip_quotes searchText in
    let all := list_rows uid kbId t T in
    let offset := (size * (n - 1))%Z in
    if (size <? 0)%Z then inl NegativeLimit
    else if (offset <? 0)%Z then inl NegativeOffset
    else inr {| dp_pageNum := n; dp_pageSize := size;
                dp_data := take (Z.to_nat size) (drop (Z.to_nat offset) all); dp_total := length all |}.

(** ** Lemmas *)

(** [t] occurs in [s]. *)
Definition infix_of (t s : text) : Prop := ∃ a b, s = a ++ t ++ b.

(** The characters [LIKE] treats specially. *)
Definition wildcard_free (t : text) : Prop :=
  Forall (λ c, c ≠ percent ∧ c ≠ underscore ∧ c ≠ backslash) t.

Definition sample_user : UserDoc := {| ud_id := "u"; ud_exportKbTime := Some 1000%Z |}.

Definition sample_table : PgTable :=
  {| rows := [{| pg_id := 1; user_id := "u"; kb_id := "k"; pg_q := ⟦"two"⟧ ++ ["010"%char] ++ ⟦"lines"⟧;
                 pg_a := ⟦"a"⟧; pg_source := []; pg_file_id := [] |};
              {| pg_id := 2; user_id := "u"; kb_id := "k"; pg_q := ⟦"q2"⟧; pg_a := ⟦"a2"⟧;
                 pg_source := []; pg_file_id := [] |}];
     next_pg_id := 3 |}.

Definition sample_export_state : ExportState := {| users := [sample_user]; table := sample_table |}.

Lemma get_path_unset u : get_path u export_path_unset = None.
Proof. reflexivity. Qed.

Lemma like_cons_literal c p s :
  c ≠ percent -> c ≠ underscore -> c ≠ backslash ->
  like (c :: p) s = match s with [] => false | d :: s' => Ascii.eqb d c && like p s' end.
Proof.
  intros Hp Hu Hb. cbn [like].
  rewrite (proj2 (Ascii.eqb_neq c percent)), (proj2 (Ascii.eqb_neq c underscore)),
    (proj2 (Ascii.eqb_neq c backslash)) by done. done.
Qed.

Lemma like_literal t p s :
  wildcard_free t -> like (t ++ p) s = true <-> ∃ s', s = t ++ s' ∧ like p s' = true.
Proof.
  intros Ht. revert s. induction Ht as [|c t (Hp & Hu & Hb) Ht IH]; intros s.
  - simpl. split; [by exists s|]. by intros (s' & -> & ?).
  - rewrite <- app_comm_cons, like_cons_literal by done.
    destruct s as [|d s]; [split; [done|]; by intros (? & ? & _)|].
    rewrite andb_true_iff, Ascii.eqb_eq, IH. split.
    + intros [-> (s' & -> & Hs')]. by exists s'.
    + intros (s' & [= -> ->] & Hs'). split; [done|]. by exists s'.
Qed.

Lemma like_percent p s : like (percent :: p) s = true <-> ∃ a b, s = a ++ b ∧ like p b = true.
Proof.
  induction s as [|d s IH].
  - simpl. rewrite orb_false_r. split; [by exists [], []|].
    intros (a & b & Hab & Hb). symmetry in Hab. apply app_eq_nil in Hab as [-> ->]. done.
  - change (like (percent :: p) (d :: s)) with (like p (d :: s) || like (percent :: p) s).
    rewrite orb_true_iff, IH. split.
    + intros [H|(a & b & -> & Hb)]; [by exists [], (d :: s)|]. by exists (d :: a), b.
    + intros ([|e a] & b & Hs & Hb); simpl in Hs; [subst; by left|].
      injection Hs as -> ->. right. by exists a, b.
Qed.

Lemma like_percent_any s : like [percent] s = true.
Proof. apply like_percent. exists s, []. by rewrite app_nil_r. Qed.

Lemma unescape_nl r : replace_escaped_newline (backslash :: "n"%char :: r) = "010"%char :: replace_escaped_newline r.
Proof. reflexivity. Qed.

Lemma unescape_other c r : c ≠ backslash -> replace_escaped_newline (c :: r) = c :: replace_escaped_newline r.
Proof.
  intros Hc. cbn [replace_escaped_newline].
  destruct (Ascii.eqb c backslash) eqn:E; [apply Ascii.eqb_eq in E; contradiction|done].
Qed.

Lemma escape_unescape s : backslash ∉ s -> replace_escaped_newline (escape_newlines s) = s.
Proof.
  induction s as [|c s IH]; intros Hs; [done|].
  apply not_elem_of_cons in Hs as [Hc Hs]. cbn [escape_newlines]. destruct (Ascii.eqb c "010"%char) eqn:E.
  - apply Ascii.eqb_eq in E as ->. rewrite unescape_nl. by rewrite IH.
  - rewrite unescape_other by done. by rewrite IH.
Qed.

Lemma list_find_user_allowed uid now us u :
  u ∈ us -> ud_id u = uid -> is_Some (list_find (λ v, export_allowed uid now v = true) us).
Proof.
  intros Hu Hid. apply (list_find_elem_of _ _ u Hu).
  unfold export_allowed, export_allowed_at. rewrite get_path_unset, bool_decide_true by done. done.
Qed.

(** ** Properties *)

(** the half-hour export limit never applies: because the
    code's first path ['limit. exportKbTime'] names no field, every export
    of an existing user succeeds, even right after the previous one, while
    the check with the schema's path refuses an export within half an hour
    of the last. *)
Theorem export_limit_never_applies (kbId uid : string) (now t : Z) (st : ExportState) (u : UserDoc) :
  kbId ≠ "" -> u ∈ users st -> ud_id u = uid ->
  (∃ data st', exportModelData kbId uid now st = inr (data, st')) ∧
  ((now - 30 * 60 * 1000 < t)%Z ->
   export_allowed_at ⟦"limit.exportKbTime"⟧ uid now (set_export_time uid t u) = false).
Proof.
  intros Hk Hu Hid. split.
  - unfold exportModelData. rewrite bool_decide_false by done.
    destruct (list_find_user_allowed uid now (users st) u Hu Hid) as [[i v] ->]. by eexists _, _.
  - intros Ht. unfold set_export_time. rewrite (bool_decide_true (ud_id u = uid)) by done.
    unfold export_allowed_at. cbn [ud_id ud_exportKbTime]. rewrite bool_decide_true by done.
    replace (get_path _ ⟦"limit.exportKbTime"⟧) with (Some t) by reflexivity.
    rewrite (proj2 (Z.leb_gt _ _)) by lia. rewrite orb_false_r. by rewrite bool_decide_false.
Qed.

(** the rows an export returns are the user's rows of
    the knowledge base, the highest id first, and reading the escaped
    line feeds back ([replace(/\\n/g, '\n')] of the insert path) gives
    their question and answer again when these hold no backslash. *)
Theorem export_rows_roundtrip (kbId uid : string) (now : Z) (st st' : ExportState) data :
  exportModelData kbId uid now st = inr (data, st') ->
  Forall (λ r, (backslash ∉ pg_q r) ∧ (backslash ∉ pg_a r)) (rows_of (table st) uid kbId) ->
  ∃ rs, (rs ≡ₚ rows_of (table st) uid kbId) ∧ Sorted id_desc rs ∧
    map (λ x, (replace_escaped_newline x.1.1, replace_escaped_newline x.1.2, x.2)) data =
    map (λ r, (pg_q r, pg_a r, pg_source r)) rs.
Proof.
  unfold exportModelData. case_bool_decide; [done|]. destruct (list_find _ _); [|done].
  intros [= <- _] Hrows. exists (merge_sort id_desc (rows_of (table st) uid kbId)).
  split_and!; [apply (merge_sort_Permutation id_desc)|
    apply Sorted_merge_sort; intros r1 r2; unfold id_desc; lia|].
  rewrite map_map. apply map_ext_in. intros r Hr%list_elem_of_In.
  assert (r ∈ rows_of (table st) uid kbId) as Hr'.
  { by rewrite <- (merge_sort_Permutation id_desc (rows_of (table st) uid kbId)). }
  rewrite Forall_forall in Hrows. destruct (Hrows r Hr'). simpl. by rewrite !escape_unescape.
Qed.

(** for a search text without [%], [_] and backslash, the
    SQL test [x LIKE '%t%'] of the list handler is the substring test. *)
Theorem like_infix (t s : text) :
  wildcard_free t -> like (percent :: t ++ [percent]) s = true <-> infix_of t s.
Proof.
  intros Ht. rewrite like_percent. split.
  - intros (a & b & -> & Hb). apply like_literal in Hb as (s' & -> & _); [|done]. by exists a, s'.
  - intros (a & b & ->). exists a, (t ++ b). split; [done|].
    apply like_literal; [done|]. exists b. split; [done|]. apply like_percent_any.
Qed.

(** with a positive page size, the pages 1, ..., k of the list
    handler, one after the other, are the first [k * pageSize] rows of the
    selection, and each page reports the size of the whole selection. *)
Theorem getDataList_pages (kbId uid : string) (size : Z) (t : text) (T : PgTable) (k : nat) :
  kbId ≠ "" -> (0 < size)%Z ->
  concat (map (λ n, match getDataList kbId uid (Some (Z.of_nat n + 1)%Z) (Some size) t T with
                    | inr p => dp_data p | inl _ => [] end) (seq 0 k)) =
  take (k * Z.to_nat size) (list_rows uid kbId (strip_quotes t) T) ∧
  (∀ n p, getDataList kbId uid (Some n) (Some size) t T = inr p ->
          dp_total p = length (list_rows uid kbId (strip_quotes t) T)).
Proof.
  intros Hk Hs. split.
  - induction k as [|k IH]; [done|].
    rewrite seq_S, map_app, concat_app, IH. simpl. unfold getDataList.
    rewrite bool_decide_false by done. simpl.
    rewrite (proj2 (Z.ltb_ge size 0)) by lia. rewrite (proj2 (Z.ltb_ge _ 0)) by nia.
    rewrite app_nil_r. cbn [dp_data].
    replace (Z.to_nat (size * (Z.of_nat k + 1 - 1))) with (k * Z.to_nat size)
      by (rewrite Z.add_simpl_r, Z.mul_comm, Z2Nat.inj_mul, Nat2Z.id by lia; lia).
    rewrite take_take_drop. f_equal. lia.
  - intros n p. unfold getDataList. rewrite bool_decide_false by done. simpl.
    destruct (size <? 0)%Z; [done|]. destruct (_ <? 0)%Z; [done|]. by intros [= <-].
Qed.

(** Searching for [a_c] lists a row whose question is [abc]: the handler
    removes the quotes of the search text but not the wildcards of [LIKE]. *)
Example getDataList_underscore_wildcard :
  let row := {| pg_id := 1; user_id := "u"; kb_id := "k"; pg_q := ⟦"abc"⟧; pg_a := ⟦"x"⟧;
                pg_source := []; pg_file_id := [] |} in
  match getDataList "k" "u" None None ⟦"a_c"⟧ {| rows := [row]; next_pg_id := 2 |} with
  | inr p => dp_data p = [row]
  | inl _ => False
  end.
Proof. vm_compute. reflexivity. Qed.

(** ** Witnesses *)

Lemma export_limit_never_applies_witness :
  (∃ data st', exportModelData "k" "u" 1001 sample_export_state = inr (data, st')) ∧
  ((1001 - 30 * 60 * 1000 < 1001)%Z ->
   export_allowed_at ⟦"limit.exportKbTime"⟧ "u" 1001 (set_export_time "u" 1001 sample_user) = false).
Proof.
  apply (export_limit_never_applies "k" "u" 1001 1001 sample_export_state sample_user);
    [done|by apply list_elem_of_singleton|done].
Defined.

Lemma export_rows_roundtrip_witness :
  ∃ rs, (rs ≡ₚ rows_of sample_table "u" "k") ∧ Sorted id_desc rs ∧
    map (λ x, (replace_escaped_newline x.1.1, replace_escaped_newline x.1.2, x.2))
      (match exportModelData "k" "u" 5000000 sample_export_state with inr (d, _) => d | inl _ => [] end) =
    map (λ r, (pg_q r, pg_a r, pg_source r)) rs.
Proof.
  apply (export_rows_roundtrip "k" "u" 5000000 sample_export_state
           (match exportModelData "k" "u" 5000000 sample_export_state with inr (_, s) => s | inl _ => sample_export_state end));
    [vm_compute; reflexivity|].
  apply Forall_forall. intros r Hr. apply (bool_decide_unpack _). revert r Hr.
  apply Forall_forall. apply (bool_decide_unpack _). vm_compute. reflexivity.
Defined.

Lemma like_infix_witness : like (percent :: ⟦"abc"⟧ ++ [percent]) ⟦"xabcy"⟧ = true <-> infix_of ⟦"abc"⟧ ⟦"xabcy"⟧.
Proof. apply like_infix. apply (bool_decide_unpack _). vm_compute. reflexivity. Defined.

Lemma getDataList_pages_witness :
  concat (map (λ n, match getDataList "k" "u" (Some (Z.of_nat n + 1)%Z) (Some 1%Z) [] sample_table with
                    | inr p => dp_data p | inl _ => [] end) (seq 0 2)) =
  take (2 * Z.to_nat 1) (list_rows "u" "k" (strip_quotes []) sample_table) ∧
  (∀ n p, getDataList "k" "u" (Some n) (Some 1%Z) [] sample_table = inr p ->
          dp_total p = length (list_rows "u" "k" (strip_quotes []) sample_table)).
Proof. apply getDataList_pages; [done|lia]. Defined.

End KbExport.
