(* ===== verification/KbEditModal.v ===== *)
(** * KbEditModal: the dialog that adds, edits and deletes one row

    pages/kb/detail/components/InputDataModal.tsx is the dialog of a
    knowledge base's rows: [sureImportData] inserts a new row through the
    handler insertData.ts, [updateData] sends an edit to the handler
    updateData.ts, and the delete button calls delDataById.ts.  Each
    operation is a function from the table of [KbData] to the next table
    and the effects the dialog shows, in order: toasts, the form reset and
    the callbacks [onSuccess], [onDelete] and [onClose] of the caller.  The
    search test page (pages/kb/detail/components/Test.tsx) is one caller: it
    opens the dialog on a result and rewrites its list of results in the
    two callbacks.  The row read [getKbDataItemById] is not under src/ and
    is modelled from the spec: the row of that id. *)

From Stdlib Require Import Ascii ZArith QArith.
From stdpp Require Import base list strings.
From S2P Require Import Prelude ContextFilter KbData.

Module KbEditModal.
Import ContextFilter KbData.

(** [FormData = {dataId?} & DatasetItemType]. *)
Record FormData := {
  fd_dataId : option nat;
  fd_q : text;
  fd_a : text;
  fd_source : text;
  fd_file_id : text
}.

(** The data [onSuccess] receives: its [dataId], [q] and [a]. *)
Record SuccessData := { sd_dataId : nat; sd_q : text; sd_a : text }.

(** What the dialog shows or calls, in order. *)
Inductive ModalEvent :=
  | ToastTooLong                     (* warning 'The total length is too long' *)
  | ToastImported                    (* success 'Importing data successfully, ...' *)
  | ToastFailed (e : KbDataError)    (* error: getErrText(err, ...) *)
  | ToastModified                    (* success 'Data modified successfully' *)
  | ToastDeleted                     (* success 'Record deleted' *)
  | ResetForm                        (* reset({a: '', q: ''}) *)
  | OnSuccess (d : SuccessData)
  | OnDelete
  | OnClose.

(** [kbDetail.vectorModel?.maxToken || 2000]. *)
Definition client_maxToken (vm_maxToken : option Z) : Z :=
  match vm_maxToken with
  | Some m => if bool_decide (m = 0%Z) then 2000%Z else m
  | None => 2000%Z
  end.

(** The form's values after the user's edit: [q] and [a] are the fields
    the form registers; the rest comes from [defaultValues]. *)
Definition edited (defaults : FormData) (q a : text) : FormData :=
  {| fd_dataId := fd_dataId defaults; fd_q := q; fd_a := a;
     fd_source := fd_source defaults; fd_file_id := fd_file_id defaults |}.

Section Modal.
Context `{TokenCounter}.

(** [sureImportData] (lines 50-92).  [maxToken] is the limit the handler
    reads from the knowledge base's vector model. *)
Definition sureImportData (uid kbId : string) (vm_maxToken : option Z) (maxToken : Z)
    (e : FormData) (T : PgTable) : PgTable * list ModalEvent :=
  if (client_maxToken vm_maxToken <=? Z.of_nat (length (fd_q e)))%Z then (T, [ToastTooLong])
  else
    let data := {| it_q := fd_q e; it_a := fd_a e; it_source := ⟦"Manual entry"⟧; it_file_id := [] |} in
    match insertData uid kbId data maxToken T with
    | inl err => (T, [ToastFailed err])
    | inr (id, T') => (T', [ToastImported; ResetForm; OnSuccess {| sd_dataId := id; sd_q := fd_q e; sd_a := fd_a e |}])
    end.

End Modal.

(** [updateData] (lines 94-125): nothing without a [dataId]; an unchanged
    form sends nothing; an unchanged question is sent as [''].  The success
    toast and [onClose] follow in every case. *)
Definition modal_updateData (uid : string) (kb_found : bool) (defaults e : FormData) (T : PgTable)
    : PgTable * list ModalEvent :=
  match fd_dataId e with
  | None => (T, [])
  | Some id =>
      let '(T', evs) :=
        if bool_decide (fd_a e ≠ fd_a defaults ∨ fd_q e ≠ fd_q defaults) then
          let q := if bool_decide (fd_q e = fd_q defaults) then [] else fd_q e in
          match updateData (Some id) uid kb_found q (fd_a e) T with
          | inl err => (T, [ToastFailed err])
          | inr T' => (T', [OnSuccess {| sd_dataId := id; sd_q := q; sd_a := fd_a e |}])
          end
        else (T, []) in
      (T', evs ++ [ToastModified; OnClose])
  end.

(** The confirm button (line 243): [handleSubmit(defaultValues.dataId ?
    updateData : sureImportData)]. *)
Definition modal_submit `{TokenCounter} (uid kbId : string) (vm_maxToken : option Z) (maxToken : Z)
    (kb_found : bool) (defaults : FormData) (q a : text) (T : PgTable) : PgTable * list ModalEvent :=
  let e := edited defaults q a in
  match fd_dataId defaults with
  | Some _ => modal_updateData uid kb_found defaults e T
  | None => sureImportData uid kbId vm_maxToken maxToken e T
  end.

(** The delete button (lines 205-235), shown when there is a [dataId] and
    an [onDelete]. *)
Definition modal_delete (uid : string) (hasOnDelete : bool) (defaults : FormData) (T : PgTable)
    : PgTable * list ModalEvent :=
  match fd_dataId defaults with
  | Some id =>
      if hasOnDelete then
        match delDataById (Some id) uid T with
        | inl err => (T, [ToastFailed err])
        | inr T' => (T', [OnDelete; OnClose; ToastDeleted])
        end
      else (T, [])
  | None => (T, [])
  end.

(** ** The search test page: Test.tsx *)

(** A result of [searchText] as the page keeps it. *)
Record KbTestResult := { tr_id : nat; tr_q : text; tr_a : text; tr_score : Q }.

(** [getKbDataItemById(item.id)]: the caller's row of that id. *)
Definition getKbDataItemById (uid : string) (id : nat) (T : PgTable) : option PgRow :=
  snd <$> list_find (λ r, pg_id r = id ∧ user_id r = uid) (rows T).

(** The click on a result (lines 198-218): the dialog opens on the row
    read back, or a warning 'The data has been deleted'. *)
Definition open_result (uid : string) (item : KbTestResult) (T : PgTable) : option FormData :=
  match getKbDataItemById uid (tr_id item) T with
  | Some r => Some {| fd_dataId := Some (pg_id r); fd_q := pg_q r; fd_a := pg_a r;
                      fd_source := pg_source r; fd_file_id := pg_file_id r |}
  | None => None
  end.

(** [onSuccess] of the dialog (lines 255-274): the result of the edited
    row takes the [q] and [a] the dialog reports. *)
Definition test_onSuccess (editData : FormData) (data : SuccessData) (results : list KbTestResult)
    : list KbTestResult :=
  match fd_dataId editData with
  | Some id => map (λ it, if bool_decide (tr_id it = id)
                          then {| tr_id := tr_id it; tr_q := sd_q data; tr_a := sd_a data; tr_score := tr_score it |}
                          else it) results
  | None => results
  end.

(** [onDelete] of the dialog (lines 275-285). *)
Definition test_onDelete (editData : FormData) (results : list KbTestResult) : list KbTestResult :=
  match fd_dataId editData with
  | Some id => filter (λ it, tr_id it ≠ id) results
  | None => results
  end.

(** The callbacks of the page applied to the dialog's events, in order. *)
Fixpoint test_apply (editData : FormData) (evs : list ModalEvent) (results : list KbTestResult)
    : list KbTestResult :=
  match evs with
  | [] => results
  | OnSuccess d :: evs' => test_apply editData evs' (test_onSuccess editData d results)
  | OnDelete :: evs' => test_apply editData evs' (test_onDelete editData results)
  | _ :: evs' => test_apply editData evs' results
  end.

(** ** Samples *)

Definition sample_row : PgRow :=
  {| pg_id := 7; user_id := "u"; kb_id := "kb"; pg_q := ⟦"What is FastGPT?"⟧; pg_a := ⟦"An app"⟧;
     pg_source := ⟦"Manual entry"⟧; pg_file_id := [] |}.

Definition sample_table : PgTable := {| rows := [sample_row]; next_pg_id := 8 |}.

Definition sample_result : KbTestResult :=
  {| tr_id := 7; tr_q := ⟦"What is FastGPT?"⟧; tr_a := ⟦"An app"⟧; tr_score := 9 # 10 |}.

(** The dialog opened on [sample_result]. *)
Definition sample_form : FormData :=
  {| fd_dataId := Some 7; fd_q := ⟦"What is FastGPT?"⟧; fd_a := ⟦"An app"⟧;
     fd_source := ⟦"Manual entry"⟧; fd_file_id := [] |}.

Definition new_answer : text := ⟦"A builder of chat apps"⟧.

(** ** Lemmas *)

Lemma open_result_Some uid item T fd :
  open_result uid item T = Some fd ->
  ∃ r, getKbDataItemById uid (tr_id item) T = Some r ∧ pg_id r = tr_id item ∧ user_id r = uid ∧
       fd = {| fd_dataId := Some (tr_id item); fd_q := pg_q r; fd_a := pg_a r;
               fd_source := pg_source r; fd_file_id := pg_file_id r |}.
Proof.
  unfold open_result. destruct (getKbDataItemById _ _ _) as [r|] eqn:E; [|done]. intros [= <-].
  unfold getKbDataItemById in E. destruct (list_find _ _) as [[i r']|] eqn:F; [|done].
  simpl in E. injection E as ->. apply list_find_Some in F as (_ & [Hid Hu] & _).
  exists r. by rewrite Hid.
Qed.

Lemma getKbDataItemById_map uid id (f : PgRow -> PgRow) T n :
  (∀ r, pg_id (f r) = pg_id r ∧ user_id (f r) = user_id r) ->
  getKbDataItemById uid id {| rows := map f (rows T); next_pg_id := n |} = f <$> getKbDataItemById uid id T.
Proof.
  intros Hf. unfold getKbDataItemById. cbn [rows].
  rewrite list_find_map_keep; [by destruct (list_find _ _) as [[]|]|].
  intros r. by rewrite (proj1 (Hf r)), (proj2 (Hf r)).
Qed.

Lemma update_row_keys id uid q a r :
  pg_id (update_row id uid q a r) = pg_id r ∧ user_id (update_row id uid q a r) = user_id r.
Proof. unfold update_row. by case_bool_decide. Qed.

Lemma getKbDataItemById_filter uid id T n :
  getKbDataItemById uid id {| rows := filter (λ r, ¬ (user_id r = uid ∧ pg_id r = id)) (rows T); next_pg_id := n |} = None.
Proof.
  unfold getKbDataItemById. cbn [rows]. destruct (list_find _ _) as [[i r]|] eqn:E; [|done].
  apply list_find_Some in E as (Hr%list_elem_of_lookup_2 & [Hid Hu] & _).
  apply list_elem_of_filter in Hr as [Hr _]. naive_solver.
Qed.

(** ** Theorems *)

(** C14: editing only the answer of a search-test result in the dialog
    keeps the row's question in the table, but the page's list of results
    then shows an empty question for that row: [updateData] sends an
    unchanged question as [''] and reports that [''] to [onSuccess], which
    Test.tsx copies into the result. *)
Theorem answer_edit_blanks_test_question `{TokenCounter} uid kbId vm mt item fd a' results T :
  open_result uid item T = Some fd -> a' ≠ fd_a fd ->
  let '(T', evs) := modal_submit uid kbId vm mt true fd (fd_q fd) a' T in
  (∃ r', getKbDataItemById uid (tr_id item) T' = Some r' ∧ pg_q r' = fd_q fd ∧ pg_a r' = replace_quote a') ∧
  Forall (λ it, tr_id it = tr_id item -> tr_q it = [] ∧ tr_a it = a') (test_apply fd evs results).
Proof.
  intros (r & Hr & Hid & Hu & ->)%open_result_Some Ha.
  unfold modal_submit, modal_updateData, edited. cbn [fd_dataId fd_q fd_a].
  rewrite bool_decide_true by (left; done). rewrite bool_decide_true by done. simpl. split.
  - rewrite getKbDataItemById_map by apply update_row_keys. rewrite Hr. eexists. split; [done|].
    unfold update_row. rewrite bool_decide_true by done. done.
  - apply Forall_forall. intros it Hit%list_elem_of_In Hid'.
    apply in_map_iff in Hit as (it0 & <- & _). revert Hid'.
    case_bool_decide as Hc; [done|]. intros Hx. by destruct Hc.
Qed.

(** when the handler refuses an edit (the knowledge base is not found),
    the dialog still shows 'Data modified successfully' after the error and
    closes; the table is unchanged. *)
Theorem update_failure_reports_success `{TokenCounter} uid kbId vm mt defaults q a id T :
  fd_dataId defaults = Some id -> (a ≠ fd_a defaults ∨ q ≠ fd_q defaults) ->
  modal_submit uid kbId vm mt false defaults q a T = (T, [ToastFailed CantFindDatabase; ToastModified; OnClose]).
Proof.
  intros Hid Hch. unfold modal_submit, modal_updateData, edited. rewrite Hid. cbn [fd_dataId fd_q fd_a].
  rewrite bool_decide_true by done. done.
Qed.

(** deleting the row from the dialog removes it from the table and
    from the page's results. *)
Theorem delete_removes_row `{TokenCounter} uid item fd results T :
  open_result uid item T = Some fd ->
  let '(T', evs) := modal_delete uid true fd T in
  getKbDataItemById uid (tr_id item) T' = None ∧
  Forall (λ it, tr_id it ≠ tr_id item) (test_apply fd evs results).
Proof.
  intros (r & _ & _ & _ & ->)%open_result_Some. unfold modal_delete. cbn [fd_dataId delDataById].
  split; [apply getKbDataItemById_filter|]. simpl. apply Forall_forall.
  intros it [Hit _]%list_elem_of_filter. exact Hit.
Qed.

(** a new row from the dialog is refused on the page when its
    question has [maxToken] characters or more, refused by the handler with
    an error toast, or appended to the table normalised; [onSuccess] then
    receives the id of the new row and the text as typed. *)
Theorem import_appends_normalised_row `{TokenCounter} uid kbId vm mt kb_found defaults q a T T' evs :
  fd_dataId defaults = None ->
  modal_submit uid kbId vm mt kb_found defaults q a T = (T', evs) ->
  (evs = [ToastTooLong] ∧ T' = T ∧ (client_maxToken vm <= Z.of_nat (length q))%Z) ∨
  (∃ e, evs = [ToastFailed e] ∧ T' = T) ∨
  (evs = [ToastImported; ResetForm; OnSuccess {| sd_dataId := next_pg_id T; sd_q := q; sd_a := a |}] ∧
   rows T' = rows T ++ [{| pg_id := next_pg_id T; user_id := uid; kb_id := kbId;
                           pg_q := normalize_text q; pg_a := normalize_text a;
                           pg_source := ⟦"Manual entry"⟧; pg_file_id := [] |}]).
Proof.
  intros Hd. unfold modal_submit. rewrite Hd. unfold sureImportData, edited. cbn [fd_q fd_a].
  destruct (Z.leb_spec (client_maxToken vm) (Z.of_nat (length q))); [intros [= <- <-]; by left|].
  destruct (insertData _ _ _ _ _) as [e|[id T0]] eqn:E; intros [= <- <-]; [right; left; eauto|].
  apply insertData_inv in E as (_ & _ & _ & _ & -> & ->). right; right. done.
Qed.

Lemma answer_edit_blanks_test_question_witness :
  let '(T', evs) := modal_submit "u" "kb" None 2000 true sample_form (fd_q sample_form) new_answer sample_table in
  (∃ r', getKbDataItemById "u" (tr_id sample_result) T' = Some r' ∧ pg_q r' = fd_q sample_form ∧
         pg_a r' = replace_quote new_answer) ∧
  Forall (λ it, tr_id it = tr_id sample_result -> tr_q it = [] ∧ tr_a it = new_answer)
         (test_apply sample_form evs [sample_result]).
Proof.
  apply (answer_edit_blanks_test_question (H := charCounter)); [reflexivity|vm_compute; congruence].
Defined.

(** on the sample, the page lists the edited result with an empty
    question, while the table keeps the question. *)
Example answer_edit_blanks_sample :
  let '(T', evs) := modal_submit "u" "kb" None 2000 true sample_form (fd_q sample_form) new_answer sample_table in
  map tr_q (test_apply sample_form evs [sample_result]) = [[]] ∧
  (pg_q <$> getKbDataItemById "u" 7 T') = Some ⟦"What is FastGPT?"⟧.
Proof. vm_compute. split; reflexivity. Qed.

Lemma update_failure_reports_success_witness :
  modal_submit (H := charCounter) "u" "kb" None 2000 false sample_form (fd_q sample_form) new_answer sample_table =
  (sample_table, [ToastFailed CantFindDatabase; ToastModified; OnClose]).
Proof. apply (update_failure_reports_success _ _ _ _ _ _ _ 7); [reflexivity|left; vm_compute; congruence]. Defined.

Lemma delete_removes_row_witness :
  let '(T', evs) := modal_delete "u" true sample_form sample_table in
  getKbDataItemById "u" (tr_id sample_result) T' = None ∧
  Forall (λ it, tr_id it ≠ tr_id sample_result) (test_apply sample_form evs [sample_result]).
Proof. apply (delete_removes_row (H := charCounter)). reflexivity. Defined.

Lemma import_appends_normalised_row_witness :
  let defaults := {| fd_dataId := None; fd_q := []; fd_a := []; fd_source := []; fd_file_id := [] |} in
  ∃ T' evs, modal_submit (H := charCounter) "u" "kb" None 2000 true defaults ⟦"Q"⟧ ⟦"A"⟧ sample_table = (T', evs) ∧
  rows T' = rows sample_table ++ [{| pg_id := 8; user_id := "u"; kb_id := "kb";
                                     pg_q := normalize_text ⟦"Q"⟧; pg_a := normalize_text ⟦"A"⟧;
                                     pg_source := ⟦"Manual entry"⟧; pg_file_id := [] |}].
Proof.
  cbv zeta. eexists _, _. split; [reflexivity|].
  match goal with |- rows ?T' = _ =>
    destruct (import_appends_normalised_row (H := charCounter) "u" "kb" None 2000 true
      {| fd_dataId := None; fd_q := []; fd_a := []; fd_source := []; fd_file_id := [] |}
      ⟦"Q"⟧ ⟦"A"⟧ sample_table T' _ eq_refl eq_refl) as [(? & _ & ?)|[(? & ? & _)|(_ & ->)]] end;
    [vm_compute in *; congruence|vm_compute in *; congruence|reflexivity].
Defined.

End KbEditModal.
