(* ===== verification/KbTest.v ===== *)
(** * KbTest: the history of the search test page

    pages/kb/detail/components/Test.tsx keeps a history of search tests in
    the kb store ([kbTestList], [pushKbTestItem], [delKbTestItemById],
    [updateKbItemById] of store/kb, which is not in the repository): the
    page is a state machine over that store and its own state
    ([inputText], [kbTestItem], [editData]) whose events are the text
    area, the test button and its answer, a click on a history row or its
    delete icon, and the dialog of [KbEditModal] opened on a result.  The
    store is the class [KbTestStore] with the three laws the page needs
    ([KbTestStoreLaws]); [searchText] (the handler searchTest.ts, not under
    src/) is a function of the knowledge base and the text.  The request is
    modelled with the closure of the click: [mutationFn] and [onSuccess]
    read [kbId] and [inputText] of the render that called [mutate]. *)

From Stdlib Require Import ZArith QArith.
From stdpp Require Import base list strings.
From S2P Require Import Prelude ContextFilter KbData KbEditModal.

Module KbTest.
Import ContextFilter KbData KbEditModal.

(** [KbTestItemType]: an entry of the history. *)
Record KbTestItem := {
  ti_id : string;
  ti_kbId : string;
  ti_text : text;
  ti_time : Z;
  ti_results : list KbTestResult
}.

(** The part of the kb store the page uses. *)
Class KbTestStore (St : Type) := {
  kbTestList : St -> list KbTestItem;
  pushKbTestItem : KbTestItem -> St -> St;
  delKbTestItemById : string -> St -> St;
  updateKbItemById : KbTestItem -> St -> St
}.

(** What the page needs of the store: it keeps no entry it was not given,
    and a deleted entry is gone. *)
Class KbTestStoreLaws (St : Type) `{KbTestStore St} := {
  push_kbTestList it s x : x ∈ kbTestList (pushKbTestItem it s) -> x = it ∨ x ∈ kbTestList s;
  del_kbTestList id s x : x ∈ kbTestList (delKbTestItemById id s) -> x ∈ kbTestList s ∧ ti_id x ≠ id;
  update_kbTestList it s x : x ∈ kbTestList (updateKbItemById it s) -> x = it ∨ x ∈ kbTestList s
}.

(** The events of the page. *)
Inductive TestEvent :=
  | TE_SetKbId (k : string)            (* a new [kbId] prop: the effect of lines 55-57 *)
  | TE_Input (s : text)                (* onChange of the text area, line 83 *)
  | TE_ClickTest                       (* the test button, line 89 *)
  | TE_SearchOk (id : string) (time : Z)  (* onSuccess of the request, lines 37-47 *)
  | TE_SearchErr                       (* onError: a toast, lines 48-53 *)
  | TE_ClickHistory (i : nat)          (* the [i]th history row, line 118 *)
  | TE_DeleteHistory (i : nat)         (* its delete icon, lines 132-136 *)
  | TE_ClickResult (T : PgTable) (i : nat)  (* the [i]th result, lines 199-219 *)
  | TE_DialogSuccess (d : SuccessData) (* onSuccess of the dialog, lines 255-274 *)
  | TE_DialogDelete                    (* onDelete of the dialog, lines 275-285 *)
  | TE_DialogClose.                    (* onClose, line 254 *)

Section Page.
Context {St : Type} `{KbTestStore St}.
(** The signed-in user, the [maxToken] of the vector model and the search. *)
Variable uid : string.
Variable maxToken : nat.
Variable searchText : string -> text -> list KbTestResult.

Record TestPage := {
  tp_store : St;
  tp_kbId : string;
  inputText : text;
  kbTestItem : option KbTestItem;
  editData : option FormData;
  searching : option (string * text)   (* the request in flight: its kbId and text *)
}.

Definition set_store (P : TestPage) s : TestPage :=
  {| tp_store := s; tp_kbId := tp_kbId P; inputText := inputText P; kbTestItem := kbTestItem P;
     editData := editData P; searching := searching P |}.
Definition set_item (P : TestPage) o : TestPage :=
  {| tp_store := tp_store P; tp_kbId := tp_kbId P; inputText := inputText P; kbTestItem := o;
     editData := editData P; searching := searching P |}.
Definition set_edit (P : TestPage) o : TestPage :=
  {| tp_store := tp_store P; tp_kbId := tp_kbId P; inputText := inputText P; kbTestItem := kbTestItem P;
     editData := o; searching := searching P |}.
Definition set_searching (P : TestPage) o : TestPage :=
  {| tp_store := tp_store P; tp_kbId := tp_kbId P; inputText := inputText P; kbTestItem := kbTestItem P;
     editData := editData P; searching := o |}.

(** [kbTestHistory] (lines 29-32). *)
Definition kbTestHistory (P : TestPage) : list KbTestItem :=
  filter (λ it, ti_kbId it = tp_kbId P) (kbTestList (tp_store P)).

(** The item shown after a dialog callback: [{...kbTestItem, results}]. *)
Definition with_results (it : KbTestItem) rs : KbTestItem :=
  {| ti_id := ti_id it; ti_kbId := ti_kbId it; ti_text := ti_text it; ti_time := ti_time it; ti_results := rs |}.

(** The dialog's callbacks (lines 250-286): with a test shown and a
    [dataId], the new results go to the store and to the page; the dialog
    closes in every case. *)
Definition dialog_done (P : TestPage) (f : FormData -> list KbTestResult -> list KbTestResult) : TestPage :=
  match editData P with
  | None => P
  | Some fd =>
      match kbTestItem P, fd_dataId fd with
      | Some it, Some _ =>
          let it' := with_results it (f fd (ti_results it)) in
          set_edit (set_item (set_store P (updateKbItemById it' (tp_store P))) (Some it')) None
      | _, _ => set_edit P None
      end
  end.

(** One event of the page (lines 19-136 and 190-286). *)
Definition test_step (P : TestPage) (ev : TestEvent) : TestPage :=
  match ev with
  | TE_SetKbId k =>
      {| tp_store := tp_store P; tp_kbId := k; inputText := inputText P;
         kbTestItem := if bool_decide (k = tp_kbId P) then kbTestItem P else None;
         editData := editData P; searching := searching P |}
  | TE_Input s =>
      {| tp_store := tp_store P; tp_kbId := tp_kbId P; inputText := take maxToken s;
         kbTestItem := kbTestItem P; editData := editData P; searching := searching P |}
  | TE_ClickTest =>
      if bool_decide (inputText P = []) || bool_decide (is_Some (searching P)) then P
      else set_searching P (Some (tp_kbId P, js_trim (inputText P)))
  | TE_SearchOk id time =>
      match searching P with
      | Some (k, t) =>
          let it := {| ti_id := id; ti_kbId := k; ti_text := t; ti_time := time;
                       ti_results := searchText k t |} in
          set_searching (set_item (set_store P (pushKbTestItem it (tp_store P))) (Some it)) None
      | None => P
      end
  | TE_SearchErr => set_searching P None
  | TE_ClickHistory i => match kbTestHistory P !! i with Some it => set_item P (Some it) | None => P end
  | TE_DeleteHistory i =>
      match kbTestHistory P !! i with
      | Some it =>
          let P' := set_store P (delKbTestItemById (ti_id it) (tp_store P)) in
          match kbTestItem P with
          | Some cur => if bool_decide (ti_id cur = ti_id it) then set_item P' None else P'
          | None => P'
          end
      | None => P
      end
  | TE_ClickResult T i =>
      match kbTestItem P ≫= λ cur, ti_results cur !! i with
      | Some r => match open_result uid r T with Some fd => set_edit P (Some fd) | None => P end
      | None => P
      end
  | TE_DialogSuccess d => dialog_done P (λ fd rs, test_onSuccess fd d rs)
  | TE_DialogDelete => dialog_done P test_onDelete
  | TE_DialogClose => set_edit P None
  end.

Definition test_run (P : TestPage) (evs : list TestEvent) : TestPage := foldl test_step P evs.

(** A result [r] comes from the search of [k] and [t]: the search returned
    a result of its id and score (its question and answer may have been
    edited since). *)
Definition result_of (k : string) (t : text) (r : KbTestResult) : Prop :=
  ∃ r', r' ∈ searchText k t ∧ tr_id r' = tr_id r ∧ tr_score r' = tr_score r.

Definition item_ok (it : KbTestItem) : Prop := Forall (result_of (ti_kbId it) (ti_text it)) (ti_results it).

(** The page's invariant: every entry of the history and the test shown
    hold results of their own search, and the test shown and the request in
    flight are of the knowledge base on screen. *)
Definition page_inv (P : TestPage) : Prop :=
  (∀ it, it ∈ kbTestList (tp_store P) -> item_ok it) ∧
  (∀ it, kbTestItem P = Some it -> item_ok it ∧ ti_kbId it = tp_kbId P) ∧
  (∀ k t, searching P = Some (k, t) -> k = tp_kbId P).

(** The page changes knowledge base only while no request is in flight. *)
Definition test_event_ok (P : TestPage) (ev : TestEvent) : Prop :=
  match ev with TE_SetKbId k => searching P = None ∨ k = tp_kbId P | _ => True end.

Inductive test_run_ok : TestPage -> list TestEvent -> Prop :=
  | run_ok_nil P : test_run_ok P []
  | run_ok_cons P ev evs : test_event_ok P ev -> test_run_ok (test_step P ev) evs -> test_run_ok P (ev :: evs).

Definition test_page0 (s : St) (k : string) : TestPage :=
  {| tp_store := s; tp_kbId := k; inputText := []; kbTestItem := None; editData := None; searching := None |}.

End Page.

Arguments TestPage St : clear implicits.

(** ** Samples *)

(** The list store: [pushKbTestItem] puts the new entry first,
    [delKbTestItemById] filters, [updateKbItemById] replaces by id. *)
#[export] Instance list_test_store : KbTestStore (list KbTestItem) := {|
  kbTestList s := s;
  pushKbTestItem it s := it :: s;
  delKbTestItemById id s := filter (λ x, ti_id x ≠ id) s;
  updateKbItemById it s := map (λ x, if bool_decide (ti_id x = ti_id it) then it else x) s
|}.

Definition sample_search (k : string) (t : text) : list KbTestResult :=
  if bool_decide (k = "kb") then [sample_result] else [].

Definition sample_test_events : list TestEvent :=
  [TE_Input ⟦"What is FastGPT?"⟧; TE_ClickTest; TE_SearchOk "t1" 0; TE_ClickResult sample_table 0;
   TE_DialogSuccess {| sd_dataId := 7; sd_q := []; sd_a := new_answer |}; TE_ClickTest; TE_SearchOk "t2" 1;
   TE_DeleteHistory 0].

(** ** Lemmas *)

(** [rs'] keeps only results of [rs], by id and score. *)
Definition results_sub (rs' rs : list KbTestResult) : Prop :=
  ∀ r, r ∈ rs' -> ∃ r0, r0 ∈ rs ∧ tr_id r0 = tr_id r ∧ tr_score r0 = tr_score r.


Lemma test_onSuccess_sub fd d rs : results_sub (test_onSuccess fd d rs) rs.
Proof.
  intros r. unfold test_onSuccess. destruct (fd_dataId fd) as [id|]; [|eauto].
  intros Hr. apply list_elem_of_In, in_map_iff in Hr as (r0 & <- & Hr0%list_elem_of_In).
  exists r0. by case_bool_decide.
Qed.

Lemma test_onDelete_sub fd rs : results_sub (test_onDelete fd rs) rs.
Proof.
  intros r. unfold test_onDelete. destruct (fd_dataId fd) as [id|]; [|eauto].
  intros [_ Hr]%list_elem_of_filter. eauto.
Qed.

Lemma with_results_ok searchText it rs :
  item_ok searchText it -> results_sub rs (ti_results it) -> item_ok searchText (with_results it rs).
Proof.
  unfold item_ok, result_of. rewrite !Forall_forall. intros Hok Hsub r Hr. cbn [ti_kbId ti_text with_results] in *.
  destruct (Hsub r Hr) as (r0 & Hr0 & Hid & Hsc). destruct (Hok r0 Hr0) as (r' & ? & ? & ?).
  exists r'. split_and!; congruence.
Qed.

Lemma search_item_ok searchText id k t time :
  item_ok searchText {| ti_id := id; ti_kbId := k; ti_text := t; ti_time := time; ti_results := searchText k t |}.
Proof. apply Forall_forall. intros r Hr. by exists r. Qed.

Lemma kbTestHistory_lookup {St} `{KbTestStore St} (P : TestPage St) i it :
  kbTestHistory P !! i = Some it -> it ∈ kbTestList (tp_store P) ∧ ti_kbId it = tp_kbId P.
Proof. intros Hi%list_elem_of_lookup_2%list_elem_of_filter. tauto. Qed.

Section Invariant.
Context {St : Type} `{KbTestStoreLaws St}.
Variable uid : string.
Variable maxToken : nat.
Variable searchText : string -> text -> list KbTestResult.

Ltac page_simpl :=
  unfold page_inv; cbn [tp_store tp_kbId kbTestItem editData searching set_store set_item set_edit set_searching].

Lemma dialog_done_inv P f :
  (∀ fd rs, results_sub (f fd rs) rs) -> page_inv searchText P -> page_inv searchText (dialog_done P f).
Proof.
  intros Hf (Hs & Hi & Hq). unfold dialog_done.
  destruct (editData P) as [fd|]; [|by split_and!].
  destruct (kbTestItem P) as [it|] eqn:Eit; [destruct (fd_dataId fd)|]; page_simpl; [|rewrite Eit; exact (conj Hs (conj Hi Hq))..].
  destruct (Hi it eq_refl) as [Hok Hk]. split_and!; [|intros ? [= <-]|exact Hq].
  - intros x [->|Hx]%update_kbTestList; [|auto]. by apply with_results_ok.
  - split; [by apply with_results_ok|exact Hk].
Qed.

Lemma test_step_inv P ev :
  test_event_ok P ev -> page_inv searchText P -> page_inv searchText (test_step uid maxToken searchText P ev).
Proof.
  intros Hev Hinv. pose proof Hinv as (Hs & Hi & Hq).
  destruct ev as [k|s| |id time| |i|i|T i|d| |]; cbn [test_step]; try (page_simpl; by split_and!).
  - (* the kbId prop *)
    page_simpl. case_bool_decide as Hk; subst; [done|]. split_and!; [done|done|].
    intros k' t Hs'. destruct Hev as [Hn|]; [congruence|done].
  - (* the test button *)
    destruct (_ || _); [done|]. page_simpl. split_and!; [done|done|by intros ?? [= <- _]].
  - (* the answer of the search *)
    destruct (searching P) as [[k t]|] eqn:Es; [|done]. specialize (Hq k t eq_refl) as ->.
    page_simpl. split_and!; [|intros ? [= <-]; split; [apply search_item_ok|done]|done].
    intros x [->|Hx]%push_kbTestList; [apply search_item_ok|auto].
  - (* a history row *)
    destruct (kbTestHistory P !! i) as [it|] eqn:Ei; [|done]. apply kbTestHistory_lookup in Ei as [Hit Hk].
    page_simpl. split_and!; [done|intros ? [= <-]; auto|done].
  - (* its delete icon *)
    destruct (kbTestHistory P !! i) as [it|] eqn:Ei; [|done].
    assert (∀ x, x ∈ kbTestList (delKbTestItemById (ti_id it) (tp_store P)) -> item_ok searchText x)
      by (intros x [Hx _]%del_kbTestList; auto).
    destruct (kbTestItem P) as [cur|] eqn:Ec; [case_bool_decide|]; page_simpl;
      rewrite ?Ec; split_and!; done.
  - (* a result *)
    destruct (_ ≫= _) as [r|]; [destruct (open_result _ _ _)|]; [page_simpl; by split_and!|done|done].
  - apply dialog_done_inv; [intros; apply test_onSuccess_sub|done].
  - apply dialog_done_inv; [intros; apply test_onDelete_sub|done].
Qed.

Lemma test_run_inv P evs :
  test_run_ok uid maxToken searchText P evs -> page_inv searchText P ->
  page_inv searchText (test_run uid maxToken searchText P evs).
Proof. induction 1; [done|]. intros Hinv. apply IHtest_run_ok, test_step_inv; done. Qed.

End Invariant.

#[export] Instance list_test_laws : KbTestStoreLaws (list KbTestItem).
Proof.
  split; cbn [kbTestList pushKbTestItem delKbTestItemById updateKbItemById list_test_store].
  - intros it s x. by rewrite elem_of_cons.
  - intros id s x [Hx Hin]%list_elem_of_filter. done.
  - intros it s x Hx. apply list_elem_of_In, in_map_iff in Hx as (y & <- & Hy%list_elem_of_In).
    case_bool_decide; auto.
Qed.

(** C31: the history of the search test page holds only results of its
    own searches: from a store whose entries hold results of the search of
    their knowledge base and text, after any events of the page (the
    knowledge base changing only with no request in flight), every entry of
    the store and the test shown hold results the search returned for
    their knowledge base and text (up to the question and answer edited in
    the dialog), and the test shown is of the knowledge base on screen. *)
Theorem test_history_sound {St} `{KbTestStoreLaws St} uid maxToken searchText (s : St) k evs :
  (∀ it, it ∈ kbTestList s -> item_ok searchText it) ->
  test_run_ok uid maxToken searchText (test_page0 s k) evs ->
  let P := test_run uid maxToken searchText (test_page0 s k) evs in
  (∀ it, it ∈ kbTestList (tp_store P) -> item_ok searchText it) ∧
  (∀ it, kbTestItem P = Some it -> item_ok searchText it ∧ ti_kbId it = tp_kbId P).
Proof.
  intros Hs Hrun. cbv zeta. apply test_run_inv in Hrun as (? & ? & _); [done|].
  split_and!; [done|done|done].
Qed.

Lemma test_history_sound_witness :
  let P := test_run "u" 2000 sample_search (test_page0 [] "kb") sample_test_events in
  (∀ it, it ∈ kbTestList (tp_store P) -> item_ok sample_search it) ∧
  (∀ it, kbTestItem P = Some it -> item_ok sample_search it ∧ ti_kbId it = tp_kbId P).
Proof.
  apply (test_history_sound "u" 2000 sample_search [] "kb").
  - intros it Hit. by apply elem_of_nil in Hit.
  - repeat (apply run_ok_cons; [exact I|]). apply run_ok_nil.
Defined.

(** On the sample, the history keeps the first test with the edited
    answer; the second test, shown and then deleted, is gone. *)
Example sample_test_history :
  let P := test_run "u" 2000 sample_search (test_page0 [] "kb") sample_test_events in
  map ti_id (tp_store P) = ["t1"] ∧ kbTestItem P = None ∧
  (map tr_a ∘ ti_results <$> head (tp_store P)) = Some [new_answer].
Proof. vm_compute. split_and!; reflexivity. Qed.

(** The test button is enabled for a text of spaces ([inputText === '']
    compares the text as typed), and the request carries its trimmed form,
    the empty text. *)
Example blank_text_searches_empty :
  searching (test_run "u" 2000 sample_search (test_page0 [] "kb") [TE_Input ⟦"   "⟧; TE_ClickTest]) =
  Some ("kb", []).
Proof. vm_compute. reflexivity. Qed.

(** Without the condition on the events: a search started on one
    knowledge base and answered after the page moved to another shows a
    test of the first on the page of the second. *)
Example kb_switch_shows_other_kb :
  let P := test_run "u" 2000 sample_search (test_page0 [] "kb")
             [TE_Input ⟦"What is FastGPT?"⟧; TE_ClickTest; TE_SetKbId "kb2"; TE_SearchOk "t1" 0] in
  tp_kbId P = "kb2" ∧ ti_kbId <$> kbTestItem P = Some "kb".
Proof. vm_compute. split; reflexivity. Qed.

End KbTest.
