(* ===== verification/Pagination.v ===== *)
(** * Pagination: the paging hook of the client

    hooks/usePagination.tsx keeps the page number, the total and the items
    of the current page of a paged API, and offers a pager (back and
    forward buttons and an input for the page number) and a scroll view
    that asks for the next page.  The hook is a state machine: its state is
    the three [useState]s, its events the clicks, the input's blur and
    Enter, and the scroll; every event that asks for a page runs [mutate],
    which changes the state only when the request succeeds.

    The page number is a JavaScript number ([Q]: the input's value can be
    a decimal); the page size is a positive integer.  The API is a function
    from the page number asked to its answer, [None] when the request
    throws. *)

From Stdlib Require Import ZArith QArith.
From stdpp Require Import base list.
From S2P Require Import Prelude.

Module Pagination.

(** [PagingData<T>]: [total] may be missing. *)
Record PagingData (T : Type) := { pd_total : option nat; pd_data : list T }.
Arguments pd_total {T}.
Arguments pd_data {T}.

(** The three [useState]s (lines 28-30). *)
Record PState (T : Type) := { pageNum : Q; total : nat; data : list T }.
Arguments pageNum {T}.
Arguments total {T}.
Arguments data {T}.

Definition init_state {T} : PState T := {| pageNum := 1; total := 0; data := [] |}.

(** [type]: the pager or the scroll view. *)
Inductive PagerType := PButton | PScroll.

(** [thresholdVal] (line 9). *)
Definition thresholdVal : Z := 100.

(** The events of the hook: the two buttons of the pager, the input's blur
    and its key press with the value typed, the click on the text of the
    scroll view, a scroll event with its three heights, and the first
    request of the effect of line 174. *)
Inductive PEvent :=
  | Back
  | Forward
  | Blur (val : Q)
  | KeyDown (val : Q) (keyCode : Z)
  | LoadMore
  | Scrolled (scrollTop clientHeight scrollHeight : Z)
  | FirstRequest.

Section Hook.
Context {T : Type}.
Variable api : Q -> option (PagingData T).
Variable pageSize : positive.
Variable type : PagerType.
Variable defaultRequest : bool.

(** [Math.ceil(total / pageSize) || 1] (line 31). *)
Definition maxPage (total : nat) : Z :=
  let c := ((Z.of_nat total + Zpos pageSize - 1) / Zpos pageSize)%Z in
  if (c =? 0)%Z then 1%Z else c.

(** [mutate(num)] (lines 33-54): on success the page number, the total
    when the answer has one, and the items. *)
Definition mutate (num : Q) (st : PState T) : PState T :=
  match api num with
  | Some res =>
      {| pageNum := num; total := default (total st) (pd_total res); data := pd_data res |}
  | None => st
  end.

(** The choice of the input (lines 79-86 and 92-98). *)
Definition goto (val : Q) (st : PState T) : PState T :=
  if Qeq_bool val (pageNum st) then st
  else if Qle_bool (inject_Z (maxPage (total st))) val then mutate (inject_Z (maxPage (total st))) st
  else if negb (Qle_bool 1 val) then mutate 1 st
  else mutate val st.

(** [loadText] of the scroll view (lines 122-126), when no request runs. *)
Definition all_loaded (st : PState T) : bool := Nat.leb (total st) (length (data st)).

(** One event. *)
Definition pstep (ev : PEvent) (st : PState T) : PState T :=
  match ev with
  | Back => if Qeq_bool (pageNum st) 1 then st else mutate (pageNum st - 1) st
  | Forward => if Qeq_bool (pageNum st) (inject_Z (maxPage (total st))) then st
               else mutate (pageNum st + 1) st
  | Blur val => goto val st
  | KeyDown val code =>
      if negb (Qeq_bool val 0) && (code =? 13)%Z then goto val st else st
  | LoadMore => if all_loaded st then st else mutate (pageNum st + 1) st
  | Scrolled top client height =>
      match type with
      | PScroll => if (height <=? top + client + thresholdVal)%Z then mutate (pageNum st + 1) st else st
      | PButton => st
      end
  | FirstRequest => if defaultRequest then mutate 1 st else st
  end.

Definition run (evs : list PEvent) (st : PState T) : PState T :=
  foldl (λ s ev, pstep ev s) st evs.

End Hook.

(** ** Samples *)

(** A backend whose total drops from 30 to 5 after the first request:
    rows were deleted meanwhile. *)
Definition shrinking_api (num : Q) : option (PagingData nat) :=
  if Qeq_bool num 1 then Some {| pd_total := Some 30; pd_data := [1; 2; 3; 4; 5; 6; 7; 8; 9; 10] |}
  else Some {| pd_total := Some 5; pd_data := [] |}.

(** A backend of three items, one per page. *)
Definition three_api (num : Q) : option (PagingData Z) :=
  Some {| pd_total := Some 3; pd_data := [Qnum num] |}.

(** A backend of 25 items that always answers. *)
Definition stable_api (num : Q) : option (PagingData nat) := Some {| pd_total := Some 25; pd_data := [] |}.

(** ** The pager's invariant *)

(** The events of the pager alone (no scroll view), with whole numbers
    typed in the input. *)
Definition pager_event (ev : PEvent) : Prop :=
  match ev with
  | Back | Forward | FirstRequest => True
  | Blur v | KeyDown v _ => Qden v = 1%positive
  | LoadMore | Scrolled _ _ _ => False
  end.

Section Invariant.
Context {T : Type}.
Variable api : Q -> option (PagingData T).
Variable pageSize : positive.
Variable type : PagerType.
Variable defaultRequest : bool.

(** A backend whose total does not change: every answer reports [N]. *)
Variable N : nat.
Hypothesis api_stable : ∀ num, api num = None ∨ ∃ d, api num = Some {| pd_total := Some N; pd_data := d |}.

(** The page number is a whole number between 1 and [maxPage]; the total
    is 0 (nothing loaded yet) or [N]. *)
Definition page_ok (st : PState T) : Prop :=
  (total st = 0 ∨ total st = N) ∧ Qden (pageNum st) = 1%positive ∧
  (1 ≤ Qnum (pageNum st) ≤ maxPage pageSize (total st))%Z.

Ltac qz := unfold Qeq, Qle in *; cbn [Qnum Qden Qplus Qminus Qopp Qmult inject_Z] in *;
  rewrite ?Z.mul_1_r, ?Pos.mul_1_r in *; lia.

Ltac qcase e :=
  let E := fresh "E" in
  destruct e eqn:E;
  [ first [apply Qeq_bool_iff in E | apply Qle_bool_iff in E | idtac]
  | first [apply Qeq_bool_neq in E | (apply Bool.not_true_iff_false in E; rewrite Qle_bool_iff in E) | idtac] ].

Lemma maxPage_pos t : (1 ≤ maxPage pageSize t)%Z.
Proof.
  unfold maxPage. destruct (Z.eqb_spec ((Z.of_nat t + Z.pos pageSize - 1) / Z.pos pageSize) 0); [lia|].
  enough (0 ≤ (Z.of_nat t + Z.pos pageSize - 1) / Z.pos pageSize)%Z by lia.
  apply Z.div_pos; lia.
Qed.

Lemma maxPage_0 : maxPage pageSize 0 = 1%Z.
Proof. unfold maxPage. rewrite Z.div_small by lia. done. Qed.

Lemma mutate_ok num st :
  page_ok st -> Qden num = 1%positive -> (1 ≤ Qnum num ≤ maxPage pageSize (total st))%Z ->
  page_ok (mutate api num st).
Proof.
  intros Hok Hd Hr. pose proof Hok as (Ht & _ & _). unfold mutate.
  destruct (api_stable num) as [->|[d ->]]; [done|]. unfold page_ok. cbn. split_and!; [by right|done|lia|].
  destruct Ht as [Ht|Ht]; rewrite Ht in Hr; [|lia]. rewrite maxPage_0 in Hr. pose proof (maxPage_pos N). lia.
Qed.

Lemma goto_ok v st : page_ok st -> Qden v = 1%positive -> page_ok (goto api pageSize v st).
Proof.
  intros Hok Hv. pose proof (maxPage_pos (total st)). pose proof Hok as (Ht & Hd & Hr).
  destruct v as [v dv]. simpl in Hv. subst dv.
  unfold goto. qcase (Qeq_bool (v # 1) (pageNum st)); [done|].
  qcase (Qle_bool (inject_Z (maxPage pageSize (total st))) (v # 1)); [apply mutate_ok; simpl; done || lia|].
  qcase (Qle_bool 1 (v # 1)); apply mutate_ok; try done; simpl; qz.
Qed.

Lemma pstep_ok ev st : pager_event ev -> page_ok st -> page_ok (pstep api pageSize type defaultRequest ev st).
Proof.
  intros Hev Hok. pose proof (maxPage_pos (total st)) as Hm. pose proof Hok as (Ht & Hd & Hr).
  destruct ev; simpl in Hev; try done; simpl.
  - qcase (Qeq_bool (pageNum st) 1); [done|]. apply mutate_ok; [done|simpl; by rewrite Hd|].
    destruct (pageNum st) as [z d]. simpl in *. subst d. qz.
  - qcase (Qeq_bool (pageNum st) (inject_Z (maxPage pageSize (total st)))); [done|].
    apply mutate_ok; [done|simpl; by rewrite Hd|].
    destruct (pageNum st) as [z d]. simpl in *. subst d. qz.
  - by apply goto_ok.
  - destruct (negb _ && _); [by apply goto_ok|done].
  - destruct defaultRequest; [|done]. apply mutate_ok; [done|done|simpl; lia].
Qed.

Lemma run_ok evs st :
  Forall pager_event evs -> page_ok st -> page_ok (run api pageSize type defaultRequest evs st).
Proof.
  intros Hevs. revert st. unfold run.
  induction Hevs as [|ev evs Hev _ IH]; intros st Hst; [done|]. simpl. apply IH. by apply pstep_ok.
Qed.

(** C15: with a backend whose total stays [N], the pager alone keeps the
    page number a whole number between 1 and [maxPage], from the first
    render on, whatever buttons are pressed and whole numbers typed. *)
Theorem pager_stays_in_range evs :
  Forall pager_event evs -> page_ok (run api pageSize type defaultRequest evs init_state).
Proof.
  intros Hevs. apply run_ok; [done|]. unfold page_ok. simpl. rewrite maxPage_0. split_and!; [by left|done|lia|lia].
Qed.

End Invariant.

(** [maxPage] is [Math.ceil(total / pageSize)], and 1 for an empty
    total: the pages [1 .. maxPage] hold every item, and the last one is
    not empty. *)
Theorem maxPage_ceil (pageSize : positive) (t : nat) :
  (Z.of_nat t ≤ maxPage pageSize t * Zpos pageSize)%Z ∧
  ((0 < t)%nat -> ((maxPage pageSize t - 1) * Zpos pageSize < Z.of_nat t)%Z) ∧
  (t = 0 -> maxPage pageSize t = 1%Z).
Proof.
  unfold maxPage. set (p := Zpos pageSize).
  pose proof (Z.div_mod (Z.of_nat t + p - 1) p ltac:(lia)) as Hdm.
  pose proof (Z.mod_pos_bound (Z.of_nat t + p - 1) p ltac:(lia)) as Hb.
  destruct (Z.eqb_spec ((Z.of_nat t + p - 1) / p) 0) as [E|E]; rewrite ?E in Hdm; split_and!; intros; nia.
Qed.

Lemma pager_stays_in_range_witness :
  page_ok 10 25 (run stable_api 10 PButton true [FirstRequest; Forward; Forward; Blur 7; Back] init_state).
Proof.
  apply (pager_stays_in_range stable_api 10 PButton true 25).
  - intros num. right. eexists. reflexivity.
  - repeat constructor.
Defined.

(** when the total shrinks under the pager, the page number passes
    [maxPage] and the forward button, disabled only when the page number
    equals [maxPage], stays enabled and moves further away. *)
Example pager_runs_past_last_page :
  let st := run shrinking_api 10 PButton true [FirstRequest; Blur 2; Forward; Forward] init_state in
  Qeq_bool (pageNum st) (4 # 1) = true ∧ maxPage 10 (total st) = 1%Z ∧
  Qeq_bool (pageNum st) (inject_Z (maxPage 10 (total st))) = false.
Proof. vm_compute. split_and!; reflexivity. Qed.

(** the scroll view's "load more" replaces the items with the next
    page instead of adding them: after the first page and one more, the
    hook holds only the second page. *)
Example load_more_replaces_items :
  data (run three_api 1 PScroll true [FirstRequest; LoadMore] init_state) = [2%Z].
Proof. reflexivity. Qed.

End Pagination.
