(* ===== verification/TrainingData.v ===== *)
(** * TrainingData: the training-record collection and its operations

    The schema of src/client/src/service/models/trainingData.ts (lines 5-69)
    and the Mongo operations the ingestion queues perform on it: the atomic
    claim [findOneAndUpdate({mode, lockTime <= now - window}, {lockTime: now})],
    [findByIdAndDelete], [findByIdAndUpdate(id, {lockTime})],
    [updateMany({userId}, {lockTime})] and the TTL index on [expireAt].
    The collection is a list in its natural (insertion) order, which is the
    order an unsorted [findOneAndUpdate] scans.  Dates are milliseconds since
    the epoch (UTC). *)

From Stdlib Require Import Ascii ZArith.
From stdpp Require Import base list strings.
From S2P Require Import Prelude.

Module TrainingData.

(** [TrainingModeEnum] of constants/plugin. *)
Inductive TrainingModeEnum := index | qa.

#[export] Instance TrainingModeEnum_eq_dec : EqDecision TrainingModeEnum.
Proof. solve_decision. Defined.

Record TrainingRecord := {
  tr_id : nat;                 (* _id *)
  userId : string;
  kbId : string;
  expireAt : Z;
  lockTime : Z;
  mode : TrainingModeEnum;
  vectorModel : string;
  prompt : text;
  q : text;
  a : text;
  source : text;
  file_id : text
}.

(** Dates written in the code. *)
Definition date_2000_1_1 : Z := 946684800000.     (* default lockTime *)
Definition date_2998_5_5 : Z := 32451321600000.   (* lock of a record with a malformed request *)
Definition date_2999_5_5 : Z := 32482857600000.   (* lock of the records of a user out of balance *)

Definition minute : Z := 60000.

(** The stale-lock windows of the two queues: [Date.now() - 1 * 60 * 1000]
    in generateVector, [Date.now() - 4 * 60 * 1000] in generateQA. *)
Definition lock_window (m : TrainingModeEnum) : Z :=
  match m with index => 1 * minute | qa => 4 * minute end.

(** [TrainingDataSchema.index({ expireAt: 1 }, { expireAfterSeconds: 7 * 24 * 60 })]. *)
Definition expire_after_ms : Z := 7 * 24 * 60 * 1000.

Definition set_lock (t : Z) (r : TrainingRecord) : TrainingRecord :=
  {| tr_id := tr_id r; userId := userId r; kbId := kbId r; expireAt := expireAt r;
     lockTime := t; mode := mode r; vectorModel := vectorModel r; prompt := prompt r;
     q := q r; a := a r; source := source r; file_id := file_id r |}.

(** The filter of the claim: [{mode, lockTime: {$lte: now - window}}]. *)
Definition claimable (m : TrainingModeEnum) (now : Z) (r : TrainingRecord) : bool :=
  bool_decide (mode r = m) && (lockTime r <=? now - lock_window m)%Z.

(** [findOneAndUpdate(filter, {lockTime: now})]: atomically lock the first
    record in natural order that passes the filter, and answer the record
    as it was before the update (Mongoose's default). *)
Fixpoint findOneAndUpdate_lock (p : TrainingRecord -> bool) (now : Z)
    (recs : list TrainingRecord) : option (TrainingRecord * list TrainingRecord) :=
  match recs with
  | [] => None
  | r :: rs =>
      if p r then Some (r, set_lock now r :: rs)
      else match findOneAndUpdate_lock p now rs with
           | Some (x, rs') => Some (x, r :: rs')
           | None => None
           end
  end.

Definition claim (m : TrainingModeEnum) (now : Z) (recs : list TrainingRecord)
    : option (TrainingRecord * list TrainingRecord) :=
  findOneAndUpdate_lock (claimable m now) now recs.

Definition findByIdAndDelete (id : nat) (recs : list TrainingRecord) : list TrainingRecord :=
  filter (λ r, tr_id r ≠ id) recs.

Definition findByIdAndUpdate_lock (id : nat) (t : Z) (recs : list TrainingRecord) : list TrainingRecord :=
  map (λ r, if decide (tr_id r = id) then set_lock t r else r) recs.

Definition updateMany_user_lock (uid : string) (t : Z) (recs : list TrainingRecord) : list TrainingRecord :=
  map (λ r, if decide (userId r = uid) then set_lock t r else r) recs.

(** The TTL monitor removes the records whose [expireAt] is older than
    [expireAfterSeconds]. *)
Definition reap_expired (now : Z) (recs : list TrainingRecord) : list TrainingRecord :=
  filter (λ r, (now < expireAt r + expire_after_ms)%Z) recs.

Definition ids (recs : list TrainingRecord) : list nat := map tr_id recs.

(** A record as the push path creates it, at 2023-11-14. *)
Definition sample_record : TrainingRecord :=
  {| tr_id := 0; userId := "u"; kbId := "k"; expireAt := 1700000000000; lockTime := date_2000_1_1;
     mode := index; vectorModel := "text-embedding-ada-002"; prompt := []; q := ⟦"hi"⟧; a := ⟦"x"⟧;
     source := []; file_id := [] |}.

(** ** The claim *)

Lemma set_lock_id t r : tr_id (set_lock t r) = tr_id r.
Proof. done. Qed.

Lemma findOneAndUpdate_lock_spec p now recs r recs' :
  findOneAndUpdate_lock p now recs = Some (r, recs') ->
  ∃ pre post, recs = pre ++ r :: post ∧ Forall (λ x, p x = false) pre ∧ p r = true ∧
    recs' = pre ++ set_lock now r :: post.
Proof.
  revert recs'. induction recs as [|x rs IH]; intros recs'; simpl; [done|].
  destruct (p x) eqn:Hx.
  - intros [= -> <-]. by exists [], rs.
  - destruct (findOneAndUpdate_lock p now rs) as [[y rs']|] eqn:E; [|done].
    intros [= -> <-]. destruct (IH rs' eq_refl) as (pre & post & -> & Hpre & Hr & ->).
    exists (x :: pre), post. split_and!; [done|by constructor|done|done].
Qed.

Lemma findOneAndUpdate_lock_none p now recs :
  findOneAndUpdate_lock p now recs = None -> Forall (λ x, p x = false) recs.
Proof.
  induction recs as [|x rs IH]; simpl; [constructor|].
  destruct (p x) eqn:Hx; [done|].
  destruct (findOneAndUpdate_lock p now rs) as [[??]|]; [done|]. intros _. constructor; auto.
Qed.

Lemma claim_ids m now recs r recs' :
  claim m now recs = Some (r, recs') -> ids recs' = ids recs.
Proof.
  intros (pre & post & -> & _ & _ & ->)%findOneAndUpdate_lock_spec.
  unfold ids. by rewrite !map_app.
Qed.

Lemma ids_unique recs x y :
  NoDup (ids recs) -> x ∈ recs -> y ∈ recs -> tr_id x = tr_id y -> x = y.
Proof.
  unfold ids. intros Hnd Hx Hy Hxy.
  apply list_elem_of_lookup in Hx as [i Hi], Hy as [j Hj].
  assert (i = j) as ->.
  { eapply NoDup_lookup; [exact Hnd| |]; rewrite list_lookup_fmap; [rewrite Hi|rewrite Hj]; simpl;
      [reflexivity|by rewrite Hxy]. }
  congruence.
Qed.

Lemma claim_elem m now recs r recs' :
  claim m now recs = Some (r, recs') -> r ∈ recs ∧ claimable m now r = true.
Proof.
  intros (pre & post & -> & _ & Hr & _)%findOneAndUpdate_lock_spec.
  split; [apply elem_of_app; right; by left|done].
Qed.

Lemma findByIdAndUpdate_lock_elem id t recs x :
  x ∈ recs -> tr_id x = id -> set_lock t x ∈ findByIdAndUpdate_lock id t recs.
Proof.
  intros Hx Hid. unfold findByIdAndUpdate_lock. apply list_elem_of_fmap.
  exists x. split; [by rewrite decide_True|done].
Qed.

Lemma findByIdAndDelete_gone id recs x : x ∈ findByIdAndDelete id recs -> tr_id x ≠ id.
Proof. unfold findByIdAndDelete. by intros [? _]%list_elem_of_filter. Qed.

Lemma updateMany_user_lock_elem uid t recs x :
  x ∈ updateMany_user_lock uid t recs -> userId x = uid -> lockTime x = t.
Proof.
  unfold updateMany_user_lock. intros (y & -> & _)%list_elem_of_fmap.
  by destruct (decide (userId y = uid)).
Qed.

(** C2: the claim is exclusive for the whole stale-lock window: once a
    queue has claimed a record at time [now], no claim of that queue before
    [now + window] answers the same record (the spec's scenario D: of two
    concurrent claims on one record, the second finds nothing). *)
Theorem claim_exclusive (m : TrainingModeEnum) (now now' : Z) (recs recs' : list TrainingRecord)
    (r : TrainingRecord) :
  NoDup (ids recs) -> claim m now recs = Some (r, recs') -> (now' < now + lock_window m)%Z ->
  ∀ r' recs'', claim m now' recs' = Some (r', recs'') -> tr_id r' ≠ tr_id r.
Proof.
  intros Hnd Hc Hlt r' recs'' Hc' Hid.
  pose proof (claim_ids _ _ _ _ _ Hc) as Hids.
  apply findOneAndUpdate_lock_spec in Hc as (pre & post & -> & _ & _ & ->).
  destruct (claim_elem _ _ _ _ _ Hc') as [Hin Hcl].
  assert (r' = set_lock now r) as ->.
  { apply (ids_unique (pre ++ set_lock now r :: post)); [by rewrite Hids|done| |done].
    apply elem_of_app. right. by left. }
  unfold claimable in Hcl. simpl in Hcl. apply andb_prop in Hcl as [_ Hle]. fg_bool. lia.
Qed.

Lemma claim_exclusive_witness :
  NoDup (ids [sample_record]) ∧
  claim index 1700000000000 [sample_record] = Some (sample_record, [set_lock 1700000000000 sample_record]) ∧
  (1700000030000 < 1700000000000 + lock_window index)%Z ∧
  ∀ r' recs'', claim index 1700000030000 [set_lock 1700000000000 sample_record] = Some (r', recs'') ->
    tr_id r' ≠ tr_id sample_record.
Proof.
  split_and!.
  - apply NoDup_singleton.
  - reflexivity.
  - vm_compute. reflexivity.
  - apply (claim_exclusive index 1700000000000 1700000030000 [sample_record]); [apply NoDup_singleton|reflexivity|vm_compute; reflexivity].
Defined.

(** ** Parking the records of a user *)

(** Parking a user (the insufficient-balance path) leaves the
    records of every other user exactly as they were, and until the parking
    date plus the stale window no claim of either queue answers a record of
    the parked user. *)
Theorem park_user_scope (uid : string) (recs : list TrainingRecord) :
  filter (λ r, userId r ≠ uid) (updateMany_user_lock uid date_2999_5_5 recs) =
    filter (λ r, userId r ≠ uid) recs ∧
  ∀ m now r recs', (now < date_2999_5_5 + lock_window m)%Z ->
    claim m now (updateMany_user_lock uid date_2999_5_5 recs) = Some (r, recs') -> userId r ≠ uid.
Proof.
  split.
  - induction recs as [|x rs IH]; [done|]. unfold updateMany_user_lock in *. simpl.
    destruct (decide (userId x = uid)) as [Hx|Hx].
    + rewrite !filter_cons_False by (simpl; naive_solver). exact IH.
    + rewrite !filter_cons_True by (simpl; naive_solver). by f_equal.
  - intros m now r recs' Hnow Hc Hu.
    destruct (claim_elem _ _ _ _ _ Hc) as [Hin Hcl].
    unfold updateMany_user_lock in Hin. apply list_elem_of_fmap in Hin as (x & -> & _).
    destruct (decide (userId x = uid)) as [Hx|Hx].
    + unfold claimable in Hcl. simpl in Hcl. apply andb_prop in Hcl as [_ Hle]. fg_bool. lia.
    + done.
Qed.

(** ** Expiry *)

(** The TTL index removes every record three hours after its
    [expireAt] (set at creation), parked or not: [expireAfterSeconds] is
    [7 * 24 * 60] seconds, 2.8 hours, while the notice sent to a user out of
    balance promises that parked tasks are deleted after 7 days. *)
Theorem reap_expired_within_3_hours (recs : list TrainingRecord) (r : TrainingRecord) :
  let now := (expireAt r + 3 * 60 * minute)%Z in
  (now < expireAt r + 7 * 24 * 60 * minute)%Z ∧ r ∉ reap_expired now recs.
Proof.
  simpl. split; [unfold minute; lia|].
  unfold reap_expired. rewrite list_elem_of_filter. unfold expire_after_ms, minute. lia.
Qed.

End TrainingData.
