(* ===== verification/Billing.v ===== *)
(** * Billing: cost events and balance deductions

    [pushTaskBill], [updateShareChatBill], [pushQABill] and
    [pushGenerateVectorBill] of src/client/src/service/events/pushBill.ts.
    Each writes a [Bill] document and decrements [User.balance]; every write
    can fail, which the outcome records below make explicit.  Amounts are
    rationals: the code multiplies per-token prices such as [0.2] by token
    counts. *)

From Stdlib Require Import ZArith QArith Qring Lqa.
From stdpp Require Import base list strings gmap.
From S2P Require Import Prelude.

Module Billing.
Local Open Scope Q_scope.

Record BillListItem := {
  moduleName : string;
  amount : Q;
  bl_model : string;
  bl_tokenLen : nat
}.

Record Bill := {
  bill_id : nat;
  bill_userId : string;
  appName : string;
  bill_total : Q;
  bill_list : list BillListItem
}.

(** The documents the bill functions touch: [Bill], [User.balance] and
    [OutLink.total]. *)
Record Ledger := {
  bills : list Bill;
  next_bill_id : nat;
  balances : gmap string Q;
  share_totals : gmap string Q
}.

(** The fields of [ChatHistoryItemResType] the bill reads. *)
Record ModuleResponse := {
  r_moduleName : string;
  price : Q;
  r_model : string;
  tokens : nat
}.

(** A vector model of [global.vectorModels]. *)
Record VectorModel := {
  vm_model : string;
  vm_price : option Q;
  vm_maxToken : nat
}.

(** [x || d] on a number: [0] and [undefined] give [d]. *)
Definition js_or_price (p : option Q) (d : Q) : Q :=
  match p with Some x => if Qeq_bool x 0 then d else x | None => d end.

Definition bill_create (uid app : string) (tot : Q) (lst : list BillListItem) (L : Ledger)
    : Ledger * nat :=
  let id := next_bill_id L in
  ({| bills := bills L ++ [{| bill_id := id; bill_userId := uid; appName := app;
                              bill_total := tot; bill_list := lst |}];
      next_bill_id := S id; balances := balances L; share_totals := share_totals L |}, id).

Definition bill_delete (id : nat) (L : Ledger) : Ledger :=
  {| bills := filter (λ b, bill_id b ≠ id) (bills L); next_bill_id := next_bill_id L;
     balances := balances L; share_totals := share_totals L |}.

(** [User.findByIdAndUpdate(userId, {$inc: {balance: delta}})]: no upsert. *)
Definition inc_balance (uid : string) (delta : Q) (L : Ledger) : Ledger :=
  {| bills := bills L; next_bill_id := next_bill_id L;
     balances := alter (λ b, b + delta) uid (balances L); share_totals := share_totals L |}.

(** [updateShareChatBill]: [OutLink.findOneAndUpdate({shareId}, {$inc: {total}})]. *)
Definition updateShareChatBill (shareId : string) (tot : Q) (ok : bool) (L : Ledger) : Ledger :=
  if ok then
    {| bills := bills L; next_bill_id := next_bill_id L; balances := balances L;
       share_totals := alter (λ t, t + tot) shareId (share_totals L) |}
  else L.

(** Which of the writes of one call succeed: the bill, the balance, the
    share link, and the delete that rolls a bill back. *)
Record WriteOutcome := { create_ok : bool; update_ok : bool; share_ok : bool; rollback_ok : bool }.

Definition task_total (response : list ModuleResponse) : Q :=
  fold_left (λ sum item, sum + price item) response 0.

(** [pushTaskBill]: [Promise.allSettled] over the bill, the balance and the
    share link; a failed write is ignored. *)
Definition pushTaskBill (app : string) (uid : string) (shareId : option string)
    (response : list ModuleResponse) (o : WriteOutcome) (L : Ledger) : Ledger :=
  let total := task_total response in
  let lst := map (λ item, {| moduleName := r_moduleName item;
                              amount := js_or_price (Some (price item)) 0;
                              bl_model := r_model item; bl_tokenLen := tokens item |}) response in
  let L1 := if create_ok o then (bill_create uid app total lst L).1 else L in
  let L2 := if update_ok o then inc_balance uid (- total) L1 else L1 in
  match shareId with
  | Some sid => updateShareChatBill sid total (share_ok o) L2
  | None => L2
  end.

(** [pushQABill]: the bill, then the deduction; if either throws, the bill
    that was created is deleted again ([billId && Bill.findByIdAndDelete],
    not awaited). *)
Definition pushQABill (qaPrice : option Q) (uid app : string) (totalTokens : nat)
    (o : WriteOutcome) (L : Ledger) : Ledger :=
  let unitPrice := js_or_price qaPrice 3 in
  let total := unitPrice * inject_Z (Z.of_nat totalTokens) in
  if create_ok o then
    let '(L1, bid) := bill_create uid app total [] L in
    if update_ok o then inc_balance uid (- total) L1
    else if rollback_ok o then bill_delete bid L1 else L1
  else L.

(** The price of an index generation: [unitPrice * tokenLen], at least 1. *)
Definition vector_bill_total (vm : VectorModel) (tokenLen : nat) : Q :=
  let unitPrice := js_or_price (vm_price vm) (2 # 10) in
  let total := unitPrice * inject_Z (Z.of_nat tokenLen) in
  if Qlt_le_dec 1 total then total else 1.

(** [vectorModels.find((item) => item.model === model) || vectorModels[0]];
    with no vector model at all, reading [.price] throws. *)
Definition find_vector_model (models : list VectorModel) (model : string) : option VectorModel :=
  match list_find (λ vm, vm_model vm = model) models with
  | Some (_, vm) => Some vm
  | None => head models
  end.

Definition pushGenerateVectorBill (models : list VectorModel) (uid : string) (tokenLen : nat)
    (model : string) (o : WriteOutcome) (L : Ledger) : Ledger :=
  match find_vector_model models model with
  | None => L
  | Some vm =>
      let total := vector_bill_total vm tokenLen in
      if create_ok o then
        let '(L1, bid) := bill_create uid "Index Generation" total
                            [{| moduleName := "index generation"; amount := total;
                                bl_model := vm_model vm; bl_tokenLen := tokenLen |}] L in
        if update_ok o then inc_balance uid (- total) L1
        else if rollback_ok o then bill_delete bid L1 else L1
      else L
  end.

(** [countModelPrice]: the model's price times the tokens, 0 for an unknown model. *)
Definition countModelPrice (price_of : string -> option Q) (model : string) (toks : nat) : Q :=
  match price_of model with
  | None => 0
  | Some p => p * inject_Z (Z.of_nat toks)
  end.

(** The amounts billed to a user. *)
Definition billed (uid : string) (L : Ledger) : Q :=
  fold_right (λ b acc, (if decide (bill_userId b = uid) then bill_total b else 0) + acc) 0 (bills L).

(** Bill ids are below the next id to be given. *)
Definition ledger_ok (L : Ledger) : Prop := Forall (λ b, (bill_id b < next_bill_id L)%nat) (bills L).

(** Inputs of the concrete runs. *)
Definition ledger_u10 : Ledger :=
  {| bills := []; next_bill_id := 0; balances := {[ "u" := 10 ]}; share_totals := ∅ |}.
Definition one_module : list ModuleResponse :=
  [{| r_moduleName := "AI Chat"; price := 4; r_model := "gpt-3.5-turbo"; tokens := 100 |}].

(** ** Conservation of what a user has paid *)

Lemma fold_bills_shift (f : Bill -> Q) bs c :
  fold_right (λ b acc, f b + acc) c bs == fold_right (λ b acc, f b + acc) 0 bs + c.
Proof. induction bs as [|x bs IH]; cbn [foldr]; lra. Qed.

Lemma bill_create_delete uid app tot lst L :
  ledger_ok L ->
  bills (bill_delete (bill_create uid app tot lst L).2 (bill_create uid app tot lst L).1) = bills L.
Proof.
  unfold ledger_ok. intros Hok. simpl. rewrite filter_app.
  rewrite filter_cons_False by (simpl; naive_solver). rewrite app_nil_r.
  apply filter_Forall_id. eapply Forall_impl; [exact Hok|]. simpl. lia.
Qed.

(** Creating a bill of [tot] for [uid] and deducting [tot] from the same user. *)
Lemma bill_then_deduct_conserves uid app tot lst L u b :
  balances L !! u = Some b ->
  ∃ b', balances (inc_balance uid (- tot) (bill_create uid app tot lst L).1) !! u = Some b' ∧
    b' + billed u (inc_balance uid (- tot) (bill_create uid app tot lst L).1) == b + billed u L.
Proof.
  intros Hb. unfold inc_balance, billed, bill_create. cbn [bills balances fst].
  rewrite foldr_app. cbn [foldr bill_userId bill_total].
  match goal with |- context [foldr ?F (?x + 0) (bills L)] =>
    pose proof (fold_bills_shift (λ b, if decide (bill_userId b = u) then bill_total b else 0)
                  (bills L) (x + 0)) as E end.
  cbv beta in E.
  destruct (decide (uid = u)) as [->|Hne].
  - rewrite lookup_alter, Hb, decide_True by done. eexists. split; [reflexivity|]. lra.
  - rewrite lookup_alter, Hb, decide_False by done. eexists. split; [reflexivity|]. lra.
Qed.

Lemma bill_then_rollback_conserves uid app tot lst L u b :
  ledger_ok L -> balances L !! u = Some b ->
  ∃ b', balances (bill_delete (bill_create uid app tot lst L).2 (bill_create uid app tot lst L).1) !! u
          = Some b' ∧
    b' + billed u (bill_delete (bill_create uid app tot lst L).2 (bill_create uid app tot lst L).1)
      == b + billed u L.
Proof.
  intros Hok Hb. exists b. split; [exact Hb|].
  unfold billed. rewrite bill_create_delete by done. reflexivity.
Qed.

(** [pushQABill] never loses or invents money: for every user
    with a balance, balance plus amounts billed is the same before and after,
    whichever of the bill and the deduction fails, as long as the delete
    that rolls back a bill whose deduction failed succeeds. *)
Theorem pushQABill_conserves (qaPrice : option Q) (uid app : string) (totalTokens : nat)
    (o : WriteOutcome) (L : Ledger) (u : string) (b : Q) :
  rollback_ok o = true -> ledger_ok L -> balances L !! u = Some b ->
  ∃ b', balances (pushQABill qaPrice uid app totalTokens o L) !! u = Some b' ∧
    b' + billed u (pushQABill qaPrice uid app totalTokens o L) == b + billed u L.
Proof.
  intros Hrb Hok Hb. unfold pushQABill.
  destruct (create_ok o); [|exists b; split; [done|reflexivity]].
  destruct (update_ok o); [|rewrite Hrb].
  - exact (bill_then_deduct_conserves _ _ _ _ _ _ _ Hb).
  - exact (bill_then_rollback_conserves _ _ _ _ _ _ _ Hok Hb).
Qed.

(** The same conservation for [pushGenerateVectorBill]. *)
Theorem pushGenerateVectorBill_conserves (models : list VectorModel) (uid : string) (tokenLen : nat)
    (model : string) (o : WriteOutcome) (L : Ledger) (u : string) (b : Q) :
  rollback_ok o = true -> ledger_ok L -> balances L !! u = Some b ->
  ∃ b', balances (pushGenerateVectorBill models uid tokenLen model o L) !! u = Some b' ∧
    b' + billed u (pushGenerateVectorBill models uid tokenLen model o L) == b + billed u L.
Proof.
  intros Hrb Hok Hb. unfold pushGenerateVectorBill.
  destruct (find_vector_model models model) as [vm|]; [|exists b; split; [done|reflexivity]].
  destruct (create_ok o); [|exists b; split; [done|reflexivity]].
  destruct (update_ok o); [|rewrite Hrb].
  - exact (bill_then_deduct_conserves _ _ _ _ _ _ _ Hb).
  - exact (bill_then_rollback_conserves _ _ _ _ _ _ _ Hok Hb).
Qed.

Lemma pushQABill_conserves_witness :
  ∃ b', balances (pushQABill (Some 3) "u" "QA Split" 10 {| create_ok := true; update_ok := false; share_ok := true; rollback_ok := true |} ledger_u10) !! "u" = Some b' ∧
    b' + billed "u" (pushQABill (Some 3) "u" "QA Split" 10 {| create_ok := true; update_ok := false; share_ok := true; rollback_ok := true |} ledger_u10) == 10 + billed "u" ledger_u10.
Proof. apply pushQABill_conserves; [reflexivity|constructor|reflexivity]. Defined.

Lemma pushGenerateVectorBill_conserves_witness :
  ∃ b', balances (pushGenerateVectorBill [{| vm_model := "text-embedding-ada-002"; vm_price := None; vm_maxToken := 3000 |}]
                    "u" 20 "text-embedding-ada-002" {| create_ok := true; update_ok := true; share_ok := true; rollback_ok := true |} ledger_u10)
          !! "u" = Some b' ∧
    b' + billed "u" (pushGenerateVectorBill [{| vm_model := "text-embedding-ada-002"; vm_price := None; vm_maxToken := 3000 |}]
                    "u" 20 "text-embedding-ada-002" {| create_ok := true; update_ok := true; share_ok := true; rollback_ok := true |} ledger_u10)
      == 10 + billed "u" ledger_u10.
Proof. apply pushGenerateVectorBill_conserves; [reflexivity|constructor|reflexivity]. Defined.

(** [pushTaskBill] does not keep the same account: with
    [Promise.allSettled], when the bill cannot be created but the deduction
    succeeds, the user's balance drops by the total while no bill records it. *)
Theorem pushTaskBill_charge_without_bill :
  let L' := pushTaskBill "app" "u" None one_module
              {| create_ok := false; update_ok := true; share_ok := true; rollback_ok := true |} ledger_u10 in
  balances L' !! "u" = Some 6 ∧ bills L' = [] ∧ billed "u" L' + 6 < billed "u" ledger_u10 + 10.
Proof. vm_compute. split; [reflexivity|]. split; [reflexivity|]. reflexivity. Qed.

(** A QA model configured with price [0] is charged 3 per
    token: [global.qaModel.price || 3] treats the free price as missing. *)
Theorem pushQABill_zero_price_charges_3 :
  balances (pushQABill (Some 0) "u" "QA Split" 2 {| create_ok := true; update_ok := true; share_ok := true; rollback_ok := true |}
              ledger_u10) !! "u" = Some 4.
Proof. vm_compute. reflexivity. Qed.

(** The rollback [billId && Bill.findByIdAndDelete(billId)]
    is not awaited and its failure is not observed: when the deduction and
    the rollback both fail, the user keeps a bill of 30 for a deduction that
    never happened. *)
Theorem pushQABill_lost_rollback :
  let L' := pushQABill (Some 3) "u" "QA Split" 10
              {| create_ok := true; update_ok := false; share_ok := true; rollback_ok := false |} ledger_u10 in
  balances L' !! "u" = Some 10 ∧ map bill_total (bills L') = [30].
Proof. vm_compute. split; reflexivity. Qed.

End Billing.
