(* ===== verification/PushData.v ===== *)
(** * PushData: the push path of the ingestion pipeline

    [handler] and [pushDataToKb] of
    src/client/src/pages/api/openapi/kb/pushData.ts: the request guards, the
    in-request filter (empty question, token limit, [Set] of [q + a]), the
    index-mode database check against the knowledge-base rows, and the
    [insertMany] of the surviving items into the training collection.  The
    item type [DatasetItemType] is defined outside src/ ([@/types/plugin]) and
    is modelled from the spec. *)

From Stdlib Require Import Ascii ZArith.
From stdpp Require Import base list strings.
From S2P Require Import Prelude ContextFilter KbData TrainingData.

Module PushData.
Import ContextFilter KbData TrainingData.

(** [DatasetItemType]: a question, an answer and where they come from. *)
Record DatasetItemType := { d_q : text; d_a : text; d_source : text; d_file_id : text }.

#[export] Instance DatasetItemType_eq_dec : EqDecision DatasetItemType.
Proof. solve_decision. Defined.

(** What [pushDataToKb] reads besides its arguments: the vector model chosen
    for the mode (its name and [maxToken]) and [global.qaModel.maxToken]. *)
Record PushEnv := { env_vectorModel : string; env_vectorMaxToken : Z; env_qaMaxToken : Z }.

(** [token > modeMaxToken[mode]]; [qaModel.maxToken * 0.8] is compared
    exactly as [5 * token > 4 * maxToken]. *)
Definition over_limit (env : PushEnv) (m : TrainingModeEnum) (token : Z) : bool :=
  match m with
  | index => (env_vectorMaxToken env <? token)%Z
  | qa => (4 * env_qaMaxToken env <? 5 * token)%Z
  end.

Definition item_text (d : DatasetItemType) : text := d_q d ++ d_a d.

Section Push.
Context `{TokenCounter}.

(** One turn of [data.forEach] (lines 99-117); the state is the [Set] of
    texts seen and [filterData]. *)
Definition filter_step (env : PushEnv) (m : TrainingModeEnum)
    (st : list text * list DatasetItemType) (item : DatasetItemType) : list text * list DatasetItemType :=
  let '(set, filterData) := st in
  if bool_decide (d_q item = []) then st
  else
    let t := item_text item in
    if over_limit env m (question_tokens (d_q item)) then st
    else if bool_decide (t ∈ set) then st
    else (t :: set, filterData ++ [item]).

Definition filter_data (env : PushEnv) (m : TrainingModeEnum) (data : list DatasetItemType)
    : list DatasetItemType :=
  (fold_left (filter_step env m) data ([], [])).2.

(** The settled promise of one item of the database check (lines 122-152). *)
Inductive Settled := Fulfilled (d : DatasetItemType) | Rejected (reason : text).

#[export] Instance Settled_eq_dec : EqDecision Settled.
Proof. solve_decision. Defined.

(** [pg] is [None] when the query throws: the error is logged and the item
    accepted. *)
Definition db_check (m : TrainingModeEnum) (pg : option PgTable) (uid kb : string)
    (d : DatasetItemType) : Settled :=
  match m with
  | qa => Fulfilled d
  | index =>
      if bool_decide (d_q d = []) then Rejected ⟦"q is empty"⟧
      else
        let q := normalize_text (d_q d) in
        let a := normalize_text (d_a d) in
        match pg with
        | Some T => if pg_exists T uid kb q a then Rejected ⟦"exists"⟧ else Fulfilled d
        | None => Fulfilled d
        end
  end.

(** [.filter(item => item.status === 'fulfilled').map(item => item.value)]. *)
Fixpoint fulfilled (l : list Settled) : list DatasetItemType :=
  match l with
  | [] => []
  | Fulfilled d :: rest => d :: fulfilled rest
  | Rejected _ :: rest => fulfilled rest
  end.

(** [insertMany(insertData.map(item => ({...item, userId, kbId, mode, prompt,
    vectorModel})))]: the schema defaults give [expireAt = now] and
    [lockTime = 2000/1/1]; ids are fresh. *)
Fixpoint new_records (now : Z) (id : nat) (uid kb : string) (m : TrainingModeEnum) (prompt : text)
    (vm : string) (items : list DatasetItemType) : list TrainingRecord :=
  match items with
  | [] => []
  | d :: rest =>
      {| tr_id := id; userId := uid; kbId := kb; expireAt := now; lockTime := date_2000_1_1;
         mode := m; vectorModel := vm; prompt := prompt; q := d_q d; a := d_a d;
         source := d_source d; file_id := d_file_id d |}
        :: new_records now (S id) uid kb m prompt vm rest
  end.

(** The result of [pushDataToKb]: [insertLen], the training collection after
    the insert, and whether [startQueue()] is called. *)
Record PushResult := { insertLen : nat; collection : list TrainingRecord; startsQueue : bool }.

Definition pushDataToKb (env : PushEnv) (now : Z) (next_id : nat) (uid kb : string)
    (data : list DatasetItemType) (m : TrainingModeEnum) (prompt : text) (pg : option PgTable)
    (recs : list TrainingRecord) : PushResult :=
  let filterData := filter_data env m data in
  let insertData := fulfilled (map (db_check m pg uid kb) filterData) in
  let inserted := new_records now next_id uid kb m prompt (env_vectorModel env) insertData in
  {| insertLen := length inserted; collection := recs ++ inserted;
     startsQueue := bool_decide (0 < length inserted)%nat |}.

End Push.

(** The guards of [handler] (lines 30-66).  The mode arrives as a string and
    defaults to [index]. *)
Inductive PushError := KbIdOrDataEmpty | ModeIsError | DataTooLong.

Definition mode_of_string (s : string) : option TrainingModeEnum :=
  if String.eqb s "index" then Some index else if String.eqb s "qa" then Some qa else None.

Definition handler_guard (kbId : string) (data : option (list DatasetItemType)) (mode : option string)
    : PushError + (list DatasetItemType * TrainingModeEnum) :=
  match data with
  | None => inl KbIdOrDataEmpty
  | Some l =>
      if String.eqb kbId "" then inl KbIdOrDataEmpty
      else match mode_of_string (default "index" mode) with
           | None => inl ModeIsError
           | Some m => if Nat.ltb 500 (length l) then inl DataTooLong else inr (l, m)
           end
  end.

Definition handler `{TokenCounter} (env : PushEnv) (now : Z) (next_id : nat) (uid kbId : string)
    (data : option (list DatasetItemType)) (mode : option string) (prompt : text) (pg : option PgTable)
    (recs : list TrainingRecord) : PushError + PushResult :=
  match handler_guard kbId data mode with
  | inl e => inl e
  | inr (l, m) => inr (pushDataToKb env now next_id uid kbId l m prompt pg recs)
  end.

(** ** The in-request filter *)

Section FilterSpec.
Context `{TokenCounter} (env : PushEnv) (m : TrainingModeEnum).

(** An item the forEach keeps unless its text was already seen. *)
Definition valid_item (d : DatasetItemType) : Prop :=
  d_q d ≠ [] ∧ over_limit env m (question_tokens (d_q d)) = false.

Lemma filter_step_cases set fd d :
  (filter_step env m (set, fd) d = (set, fd) ∧ (¬ valid_item d ∨ item_text d ∈ set)) ∨
  (filter_step env m (set, fd) d = (item_text d :: set, fd ++ [d]) ∧ valid_item d ∧ item_text d ∉ set).
Proof.
  unfold filter_step, valid_item. case_bool_decide; [left; naive_solver|].
  destruct over_limit eqn:Ho; [left; split; [done|left; naive_solver]|].
  case_bool_decide; [left; naive_solver|right; naive_solver].
Qed.

Lemma filter_fold_spec data set fd :
  (∀ t, t ∈ set ↔ t ∈ map item_text fd) -> NoDup (map item_text fd) ->
  let '(set', fd') := fold_left (filter_step env m) data (set, fd) in
  (∀ t, t ∈ set' ↔ t ∈ map item_text fd') ∧ NoDup (map item_text fd') ∧
  ∃ extra, fd' = fd ++ extra ∧ extra `sublist_of` data ∧ Forall valid_item extra ∧
    ∀ d, d ∈ data -> valid_item d -> item_text d ∈ set'.
Proof.
  revert set fd. induction data as [|d data IH]; intros set fd Hset Hnd; cbn [fold_left].
  - split_and!; [done|done|]. exists []. rewrite app_nil_r. split_and!; [done|constructor|constructor|].
    intros ? Hin. inversion Hin.
  - destruct (filter_step_cases set fd d) as [[-> Hd]|(-> & Hv & Hn)].
    + specialize (IH set fd Hset Hnd). destruct (fold_left _ _ _) as [set' fd'].
      destruct IH as (Hs' & Hnd' & extra & -> & Hsub & Hval & Hall). split_and!; [done|done|].
      exists extra. split_and!; [done|by apply sublist_cons_r; left|done|].
      intros d' Hin Hv'. apply elem_of_cons in Hin as [->|Hin]; [|by apply Hall].
      destruct Hd as [Hd|Hd]; [done|]. apply Hs'. rewrite map_app, elem_of_app. left. by apply Hset.
    + specialize (IH (item_text d :: set) (fd ++ [d])).
      destruct (fold_left _ _ _) as [set' fd'].
      destruct IH as (Hs' & Hnd' & extra & -> & Hsub & Hval & Hall).
      { intros t. rewrite map_app, elem_of_app, elem_of_cons, Hset. simpl.
        rewrite list_elem_of_singleton. naive_solver. }
      { rewrite map_app, NoDup_app. split_and!; [done| |by apply NoDup_singleton].
        intros t Ht Ht'. apply list_elem_of_singleton in Ht' as ->. by apply Hn, Hset. }
      split_and!; [done|done|]. exists (d :: extra). rewrite <-app_assoc. split_and!; [done| |by constructor|].
      * by apply sublist_skip.
      * intros d' Hin Hv'. apply elem_of_cons in Hin as [->|Hin]; [|by apply Hall].
        apply Hs'. rewrite !map_app, !elem_of_app. left; right. by left.
Qed.

End FilterSpec.

(** ** The database check *)

Lemma db_check_value `{TokenCounter} m pg uid kb d d' :
  db_check m pg uid kb d = Fulfilled d' -> d' = d.
Proof.
  unfold db_check. destruct m; [|by intros [=]].
  case_bool_decide; [done|]. destruct pg as [T|]; [|by intros [=]].
  by destruct pg_exists; intros [=].
Qed.

Lemma fulfilled_map_filter (f : DatasetItemType -> Settled) l :
  (∀ d d', f d = Fulfilled d' -> d' = d) ->
  fulfilled (map f l) = filter (λ d, f d = Fulfilled d) l.
Proof.
  intros Hf. induction l as [|d l IH]; [done|]. simpl.
  destruct (f d) as [d'|r] eqn:E.
  - apply Hf in E as Ed. subst d'. rewrite filter_cons_True by done. by f_equal.
  - rewrite filter_cons_False by congruence. exact IH.
Qed.

Lemma db_check_index_fresh `{TokenCounter} pg T uid kb d :
  pg = Some T -> db_check index pg uid kb d = Fulfilled d ->
  pg_exists T uid kb (normalize_text (d_q d)) (normalize_text (d_a d)) = false.
Proof.
  intros ->. unfold db_check. case_bool_decide; [done|]. by destruct pg_exists.
Qed.

Lemma new_records_length now id uid kb m prompt vm items :
  length (new_records now id uid kb m prompt vm items) = length items.
Proof. revert id. induction items; intros id; simpl; auto. Qed.

(** ** Properties *)

(** C7: the in-request filter of [pushDataToKb] keeps, in their
    order, only items with a non-empty question within the token limit of the
    mode, keeps no two items with the same [q + a] text, and keeps one item for
    every text of a valid item (it drops nothing but duplicates and invalid
    items). *)
Theorem filter_data_spec `{TokenCounter} (env : PushEnv) (m : TrainingModeEnum) (data : list DatasetItemType) :
  let out := filter_data env m data in
  out `sublist_of` data ∧ Forall (valid_item env m) out ∧ NoDup (map item_text out) ∧
  ∀ d, d ∈ data -> valid_item env m d -> item_text d ∈ map item_text out.
Proof.
  unfold filter_data. pose proof (filter_fold_spec env m data [] []) as Hf.
  destruct (fold_left _ _ _) as [set' fd'].
  destruct Hf as (Hs & Hnd & extra & -> & Hsub & Hval & Hall); [done|constructor|].
  simpl. split_and!; [done|done|done|]. intros d Hin Hv. by apply Hs, Hall.
Qed.

(** C18: [pushDataToKb] appends to the training collection one fresh
    record per item of a sub-list of the filtered items, in order; reports
    their number as [insertLen] and starts the queues exactly when it is
    positive; and in index mode, when the store answers, no inserted item has
    its normalised question and answer already stored for the same user and
    knowledge base. *)
Theorem pushDataToKb_spec `{TokenCounter} (env : PushEnv) (now : Z) (nid : nat) (uid kb : string)
    (data : list DatasetItemType) (m : TrainingModeEnum) (prompt : text) (pg : option PgTable)
    (recs : list TrainingRecord) :
  let R := pushDataToKb env now nid uid kb data m prompt pg recs in
  ∃ ins, collection R = recs ++ new_records now nid uid kb m prompt (env_vectorModel env) ins ∧
    ins `sublist_of` filter_data env m data ∧ insertLen R = length ins ∧
    (startsQueue R = true ↔ ins ≠ []) ∧
    ∀ T, m = index -> pg = Some T -> Forall (λ d,
       pg_exists T uid kb (normalize_text (d_q d)) (normalize_text (d_a d)) = false) ins.
Proof.
  simpl. unfold pushDataToKb. rewrite fulfilled_map_filter by apply db_check_value.
  eexists. split_and!; [reflexivity|apply sublist_filter|apply new_records_length| |].
  - simpl. rewrite new_records_length, bool_decide_eq_true.
    destruct (filter _ _); simpl; split; try done; lia.
  - intros T -> Hpg. apply Forall_forall. intros d Hd%list_elem_of_filter.
    eapply db_check_index_fresh; [exact Hpg|apply Hd].
Qed.

(** The in-request de-duplication compares [q + a] without a
    separator, so two different pairs whose concatenations coincide are
    treated as duplicates: of [("ab", "c")] and [("a", "bc")] only the first
    is inserted. *)
Theorem push_dedup_concat_collision :
  let env := {| env_vectorModel := "text-embedding-ada-002"; env_vectorMaxToken := 3000;
                env_qaMaxToken := 16000 |} in
  let d1 := {| d_q := ⟦"ab"⟧; d_a := ⟦"c"⟧; d_source := []; d_file_id := [] |} in
  let d2 := {| d_q := ⟦"a"⟧; d_a := ⟦"bc"⟧; d_source := []; d_file_id := [] |} in
  d1 ≠ d2 ∧
  insertLen (@pushDataToKb charCounter env 0 0 "u" "k" [d1; d2] qa [] None []) = 1%nat.
Proof. split; [by intros [=]|vm_compute; reflexivity]. Qed.

End PushData.
