(* ===== verification/Runtime.v ===== *)
(** * Runtime: the state the ingestion queues share, and the errors they throw

    The error table of src/client/src/service/errorCode.ts ([ERROR_CODE],
    [ERROR_ENUM], [ERROR_RESPONSE] and the provider-error tables), the value a
    queue catches ([Thrown]: a member of [ERROR_ENUM] thrown as a string, or
    an [Error] object with its [message], [code] and
    [response.data.error.type]), and the world both queues act on: the
    training collection, the knowledge-base rows, the bill ledger, the two
    process-wide counters [global.vectorQueueLen] and [global.qaQueueLen],
    the notifications sent and the pending [setTimeout] timers. *)

From Stdlib Require Import Ascii ZArith QArith.
From stdpp Require Import base list strings.
From S2P Require Import Prelude KbData TrainingData Billing PushData.

Module Runtime.
Import KbData TrainingData Billing PushData.

(** ** errorCode.ts *)

(** [ERROR_CODE] (lines 1-14). *)
Definition ERROR_CODE (code : Z) : option string :=
  match code with
  | 400%Z => Some "Request failed"
  | 401%Z => Some "No access"
  | 403%Z => Some "Nervous access"
  | 404%Z => Some "The request does not exist"
  | 405%Z => Some "Request method error"
  | 406%Z => Some "The requested format is wrong"
  | 410%Z => Some "The resource has been deleted"
  | 422%Z => Some "Verification error"
  | 500%Z => Some "A server error occurred"
  | 502%Z => Some "Gateway Error"
  | 503%Z => Some "The server is temporarily overloaded or under maintenance"
  | 504%Z => Some "Gateway Timeout"
  | _ => None
  end.

(** [TOKEN_ERROR_CODE] (lines 16-18). *)
Definition TOKEN_ERROR_CODE (code : Z) : option string :=
  if Z.eqb code 403 then Some "Login status is invalid, please log in again" else None.

(** [openaiError], [openaiAccountError] and [proxyError] (lines 20-36) as
    association lists: [record[key]]. *)
Definition openaiError : list (string * string) :=
  [("context_length_exceeded", "The content is too long, please reset the dialog");
   ("Unauthorized", "API-KEY is invalid");
   ("rate_limit_reached", "API is limited, please try again later");
   ("Bad Request", "Bad Request~ There may be too much content");
   ("Bad Gateway", "Gateway exception, please try again")].

Definition openaiAccountError : list (string * string) :=
  [("insufficient_quota", "API balance is insufficient");
   ("invalid_api_key", "openai account is abnormal");
   ("account_deactivated", "Account has been deactivated");
   ("invalid_request_error", "Invalid request")].

Definition proxyError : list (string * bool) := [("ECONNABORTED", true); ("ECONNRESET", true)].

Fixpoint assoc {V} (k : string) (l : list (string * V)) : option V :=
  match l with
  | [] => None
  | (k', v) :: rest => if String.eqb k k' then Some v else assoc k rest
  end.

(** [ERROR_ENUM] (lines 38-44). *)
Inductive ERROR_ENUM := unAuthorization | insufficientQuota | unAuthModel | unAuthKb | unAuthFile.

#[export] Instance ERROR_ENUM_eq_dec : EqDecision ERROR_ENUM.
Proof. solve_decision. Defined.

Definition ERROR_ENUM_string (e : ERROR_ENUM) : string :=
  match e with
  | unAuthorization => "unAuthorization"
  | insufficientQuota => "insufficientQuota"
  | unAuthModel => "unAuthModel"
  | unAuthKb => "unAuthKb"
  | unAuthFile => "unAuthFile"
  end.

Record ErrorResponse := { er_code : Z; er_statusText : string; er_message : string }.

(** [ERROR_RESPONSE] (lines 45-84). *)
Definition ERROR_RESPONSE (e : ERROR_ENUM) : ErrorResponse :=
  match e with
  | unAuthorization => {| er_code := 403; er_statusText := ERROR_ENUM_string e;
                          er_message := "Credential error" |}
  | insufficientQuota => {| er_code := 510; er_statusText := ERROR_ENUM_string e;
                            er_message := "Account balance insufficient" |}
  | unAuthModel => {| er_code := 511; er_statusText := ERROR_ENUM_string e;
                      er_message := "Do not have permission to use this model" |}
  | unAuthKb => {| er_code := 512; er_statusText := ERROR_ENUM_string e;
                   er_message := "Do not have permission to use this knowledge base" |}
  | unAuthFile => {| er_code := 513; er_statusText := ERROR_ENUM_string e;
                     er_message := "Do not have permission to read this file" |}
  end.

(** ** What a queue catches *)

(** [ThrownEnum e]: the string [ERROR_ENUM.e] itself (as [authBalanceByUid]
    throws it).  [ThrownError]: an [Error] with [message], [code] and
    [response.data.error.type]; an absent field is [None] or [""]. *)
Inductive Thrown :=
  | ThrownEnum (e : ERROR_ENUM)
  | ThrownError (message : string) (code : option Z) (response_error_type : option string).

#[export] Instance Thrown_eq_dec : EqDecision Thrown.
Proof. solve_decision. Defined.

(** [err?.message === 'invalid message format'] *)
Definition is_invalid_message_format (t : Thrown) : bool :=
  match t with ThrownError msg _ _ => String.eqb msg "invalid message format" | _ => false end.

(** [err.response?.data?.error?.type === 'invalid_request_error'] *)
Definition is_invalid_request_error (t : Thrown) : bool :=
  match t with
  | ThrownError _ _ (Some ty) => String.eqb ty "invalid_request_error"
  | _ => false
  end.

(** [err?.code === 500] *)
Definition is_code_500 (t : Thrown) : bool :=
  match t with ThrownError _ (Some c) _ => Z.eqb c 500 | _ => false end.

(** [err === ERROR_ENUM.insufficientQuota] *)
Definition is_insufficient_quota (t : Thrown) : bool :=
  match t with ThrownEnum insufficientQuota => true | _ => false end.

(** ** The world *)

Inductive QueueKind := VectorQ | QAQ.

#[export] Instance QueueKind_eq_dec : EqDecision QueueKind.
Proof. solve_decision. Defined.

(** [global.systemEnv], [global.qaModel] and the vector model the push path
    picks. *)
Record SysEnv := {
  vectorMaxProcess : nat;
  qaMaxProcess : nat;
  qaPrice : option Q;
  pushEnv : PushEnv
}.

Record World := {
  w_now : Z;
  w_recs : list TrainingRecord;
  w_next_id : nat;
  w_pg : PgTable;
  w_ledger : Ledger;
  w_vectorQueueLen : nat;
  w_qaQueueLen : nat;
  w_informs : list string;
  w_timers : list (Z * QueueKind)
}.

(** Record updates of the world, one field at a time. *)
Definition set_recs (recs : list TrainingRecord) (w : World) : World :=
  {| w_now := w_now w; w_recs := recs; w_next_id := w_next_id w; w_pg := w_pg w; w_ledger := w_ledger w;
     w_vectorQueueLen := w_vectorQueueLen w; w_qaQueueLen := w_qaQueueLen w;
     w_informs := w_informs w; w_timers := w_timers w |}.

Definition set_pg (pg : PgTable) (w : World) : World :=
  {| w_now := w_now w; w_recs := w_recs w; w_next_id := w_next_id w; w_pg := pg; w_ledger := w_ledger w;
     w_vectorQueueLen := w_vectorQueueLen w; w_qaQueueLen := w_qaQueueLen w;
     w_informs := w_informs w; w_timers := w_timers w |}.

Definition set_ledger (L : Ledger) (w : World) : World :=
  {| w_now := w_now w; w_recs := w_recs w; w_next_id := w_next_id w; w_pg := w_pg w; w_ledger := L;
     w_vectorQueueLen := w_vectorQueueLen w; w_qaQueueLen := w_qaQueueLen w;
     w_informs := w_informs w; w_timers := w_timers w |}.

Definition set_vlen (n : nat) (w : World) : World :=
  {| w_now := w_now w; w_recs := w_recs w; w_next_id := w_next_id w; w_pg := w_pg w; w_ledger := w_ledger w;
     w_vectorQueueLen := n; w_qaQueueLen := w_qaQueueLen w;
     w_informs := w_informs w; w_timers := w_timers w |}.

Definition set_qlen (n : nat) (w : World) : World :=
  {| w_now := w_now w; w_recs := w_recs w; w_next_id := w_next_id w; w_pg := w_pg w; w_ledger := w_ledger w;
     w_vectorQueueLen := w_vectorQueueLen w; w_qaQueueLen := n;
     w_informs := w_informs w; w_timers := w_timers w |}.

Definition add_inform (uid : string) (w : World) : World :=
  {| w_now := w_now w; w_recs := w_recs w; w_next_id := w_next_id w; w_pg := w_pg w; w_ledger := w_ledger w;
     w_vectorQueueLen := w_vectorQueueLen w; w_qaQueueLen := w_qaQueueLen w;
     w_informs := w_informs w ++ [uid]; w_timers := w_timers w |}.

(** [setTimeout(() => generate(), 1000)]. *)
Definition add_timer (k : QueueKind) (w : World) : World :=
  {| w_now := w_now w; w_recs := w_recs w; w_next_id := w_next_id w; w_pg := w_pg w; w_ledger := w_ledger w;
     w_vectorQueueLen := w_vectorQueueLen w; w_qaQueueLen := w_qaQueueLen w;
     w_informs := w_informs w; w_timers := w_timers w ++ [(w_now w + 1000, k)%Z] |}.

Definition set_timers (ts : list (Z * QueueKind)) (w : World) : World :=
  {| w_now := w_now w; w_recs := w_recs w; w_next_id := w_next_id w; w_pg := w_pg w; w_ledger := w_ledger w;
     w_vectorQueueLen := w_vectorQueueLen w; w_qaQueueLen := w_qaQueueLen w;
     w_informs := w_informs w; w_timers := ts |}.

Definition set_now (t : Z) (w : World) : World :=
  {| w_now := t; w_recs := w_recs w; w_next_id := w_next_id w; w_pg := w_pg w; w_ledger := w_ledger w;
     w_vectorQueueLen := w_vectorQueueLen w; w_qaQueueLen := w_qaQueueLen w;
     w_informs := w_informs w; w_timers := w_timers w |}.

Definition set_next_id (n : nat) (w : World) : World :=
  {| w_now := w_now w; w_recs := w_recs w; w_next_id := n; w_pg := w_pg w; w_ledger := w_ledger w;
     w_vectorQueueLen := w_vectorQueueLen w; w_qaQueueLen := w_qaQueueLen w;
     w_informs := w_informs w; w_timers := w_timers w |}.

(** [reduceQueue]: [len > 0 ? len - 1 : 0], the same in both queue files. *)
Definition reduceQueue (n : nat) : nat := if Nat.ltb 0 n then n - 1 else 0.

(** The outcome of the operation a queue invocation awaits: it resolves
    ([Ok]), resolves with a chat completion ([Answer]: the content, the
    usage's [total_tokens], and which of the bill's writes succeed), or
    rejects with a thrown value. *)
Inductive Outcome :=
  | Ok
  | Answer (content : text) (totalTokens : nat) (bill : WriteOutcome)
  | Throw (t : Thrown).

End Runtime.
