(* ===== verification/VectorQueue.v ===== *)
(** * VectorQueue: one invocation of the index-generation queue

    [generateVector] of src/client/src/service/events/generateVector.ts.  An
    invocation is a thread of the cooperative scheduler: its synchronous entry
    ([generateVector] below: the [vectorMaxProcess] guard and
    [vectorQueueLen++]) runs where it is called, and each [await] is a program
    point of [VState] holding the locals live across it.  [vstep] runs the
    awaited operation on the world and the code that follows it up to the
    next [await], [return] or end: the claim, [getVector], [insertKbItem],
    [findByIdAndDelete], and the [catch] with its four classes of error.
    The call [generateVector()] at the end of a branch starts a new
    invocation, whose entry runs at once.  [getVector] is given one input
    and is taken to answer one vector, so [insertKbItem] writes one row
    ([vector_row]); an answer of no vector (no row) or of more vectors (a
    [TypeError] on [dataItems[1]]) is not modelled. *)

From Stdlib Require Import Ascii ZArith.
From stdpp Require Import base list strings.
From S2P Require Import Prelude KbData TrainingData Runtime.

Module VectorQueue.
Import KbData TrainingData Runtime.

(** [s.replace(/[\x00-\x08]/g, ' ')] *)
Definition replace_control (s : text) : text :=
  map (λ c, if Nat.leb (nat_of_ascii c) 8 then " "%char else c) s.

(** The [await]s of [generateVector].  [t] is the time the claim was issued
    (the [lockTime] it wrote); [dq], [da] are [dataItems[0]]; [tid] is
    [trainingId], [None] while it is still [''].  *)
Inductive VState :=
  | V_claim (t : Z)
  | V_getVector (r : TrainingRecord) (t : Z) (dq da : text)
  | V_insert (r : TrainingRecord) (t : Z) (dq da : text)
  | V_delete (r : TrainingRecord) (t : Z)
  | V_park (tid : option nat)
  | V_delete500 (tid : option nat)
  | V_parkUser (uid : string).

(** The program points between [vectorQueueLen++] and [reduceQueue()]. *)
Definition v_active (s : VState) : bool :=
  match s with
  | V_claim _ | V_getVector _ _ _ _ | V_insert _ _ _ _ | V_delete _ _ => true
  | _ => false
  end.

(** The entry of [generateVector] (lines 15-16, then the claim is issued). *)
Definition generateVector (env : SysEnv) (w : World) : World * list VState :=
  if Nat.leb (vectorMaxProcess env) (w_vectorQueueLen w) then (w, [])
  else (set_vlen (S (w_vectorQueueLen w)) w, [V_claim (w_now w)]).

Definition reduce_v (w : World) : World := set_vlen (reduceQueue (w_vectorQueueLen w)) w.

(** The branches of the [catch] block, in the order of its tests: a
    malformed request (lines 105-118), a vector-store error (121-124), an
    exhausted balance (127-147), anything else (149-151). *)
Inductive CatchBranch := BInvalid | B500 | BQuota | BOther.

Definition vector_branch (uid : string) (e : Thrown) : CatchBranch :=
  if is_invalid_message_format e || is_invalid_request_error e then BInvalid
  else if is_code_500 e then B500
  else if negb (String.eqb uid "") && is_insufficient_quota e then BQuota
  else BOther.

(** The [catch] block (lines 89-152) up to its first [await]. *)
Definition vector_catch (tid : option nat) (uid : string) (e : Thrown) (w : World) : World * list VState :=
  let w1 := reduce_v w in
  match vector_branch uid e with
  | BInvalid => (w1, [V_park tid])
  | B500 => (w1, [V_delete500 tid])
  | BQuota => (add_inform uid w1, [V_parkUser uid])
  | BOther => (add_timer VectorQ w1, [])
  end.

Definition update_by_id (tid : option nat) (t : Z) (recs : list TrainingRecord) : list TrainingRecord :=
  match tid with Some id => findByIdAndUpdate_lock id t recs | None => recs end.

Definition delete_by_id (tid : option nat) (recs : list TrainingRecord) : list TrainingRecord :=
  match tid with Some id => findByIdAndDelete id recs | None => recs end.

(** The row [insertKbItem] writes for a claimed record. *)
Definition vector_row (r : TrainingRecord) (dq da : text) : KbItem :=
  {| it_q := dq; it_a := da; it_source := source r; it_file_id := file_id r |}.

(** One resumption of an invocation: the awaited operation with outcome [o],
    then the code up to the next [await].  The threads returned are the
    invocation itself at its next [await] and the invocation its
    [generateVector()] call starts. *)
Definition vstep (env : SysEnv) (s : VState) (o : Outcome) (w : World) : World * list VState :=
  match s, o with
  | V_claim _, Throw e => vector_catch None "" e w
  | V_claim t, _ =>
      match claim index t (w_recs w) with
      | None => (reduce_v w, [])
      | Some (r, recs') =>
          (set_recs recs' w, [V_getVector r t (replace_control (q r)) (replace_control (a r))])
      end
  | V_getVector r _ _ _, Throw e => vector_catch (Some (tr_id r)) (userId r) e w
  | V_getVector r t dq da, _ => (w, [V_insert r t dq da])
  | V_insert r _ _ _, Throw e => vector_catch (Some (tr_id r)) (userId r) e w
  | V_insert r t dq da, _ =>
      (set_pg (insertKbItem (userId r) (kbId r) [vector_row r dq da] (w_pg w)) w, [V_delete r t])
  | V_delete r _, Throw e => vector_catch (Some (tr_id r)) (userId r) e w
  | V_delete r _, _ => generateVector env (reduce_v (set_recs (findByIdAndDelete (tr_id r) (w_recs w)) w))
  | V_park _, Throw _ => generateVector env w
  | V_park tid, _ => generateVector env (set_recs (update_by_id tid date_2998_5_5 (w_recs w)) w)
  | V_delete500 _, Throw _ => (w, [])
  | V_delete500 tid, _ => generateVector env (set_recs (delete_by_id tid (w_recs w)) w)
  | V_parkUser _, Throw _ => generateVector env w
  | V_parkUser uid, _ => generateVector env (set_recs (updateMany_user_lock uid date_2999_5_5 (w_recs w)) w)
  end.

(** The outcomes an operation of this queue can have: it resolves or throws. *)
Definition vaccepts (o : Outcome) : bool :=
  match o with Answer _ _ _ => false | _ => true end.

(** ** The error policy *)

Lemma generateVector_recs env w : w_recs (generateVector env w).1 = w_recs w.
Proof. unfold generateVector. by case_match. Qed.

Lemma generateVector_informs env w : w_informs (generateVector env w).1 = w_informs w.
Proof. unfold generateVector. by case_match. Qed.

(** C3: the [catch] of [generateVector] on an error while a record
    [r] is claimed: the counter is decremented, and then, once the branch's
    store operation has completed, a malformed request leaves [r] parked
    until 2998/5/5 (it is not deleted), a vector-store error ([code 500])
    deletes [r], an exhausted balance notifies the user and parks every
    record of the user until 2999/5/5, and any other error leaves the
    collection as it is and retries after a 1000 ms timer. *)
Theorem vector_error_policy (env : SysEnv) (r : TrainingRecord) (e : Thrown) (w : World) :
  let '(w1, ks) := vector_catch (Some (tr_id r)) (userId r) e w in
  w_vectorQueueLen w1 = reduceQueue (w_vectorQueueLen w) ∧
  match vector_branch (userId r) e with
  | BInvalid => ks = [V_park (Some (tr_id r))] ∧
      ∀ x, x ∈ w_recs w -> tr_id x = tr_id r ->
        set_lock date_2998_5_5 x ∈ w_recs (vstep env (V_park (Some (tr_id r))) Ok w1).1
  | B500 => ks = [V_delete500 (Some (tr_id r))] ∧
      ∀ x, x ∈ w_recs (vstep env (V_delete500 (Some (tr_id r))) Ok w1).1 -> tr_id x ≠ tr_id r
  | BQuota => ks = [V_parkUser (userId r)] ∧ userId r ∈ w_informs w1 ∧
      ∀ x, x ∈ w_recs (vstep env (V_parkUser (userId r)) Ok w1).1 -> userId x = userId r ->
        lockTime x = date_2999_5_5
  | BOther => ks = [] ∧ w_recs w1 = w_recs w ∧ ((w_now w + 1000)%Z, VectorQ) ∈ w_timers w1
  end.
Proof.
  unfold vector_catch. destruct (vector_branch (userId r) e); simpl; (split; [done|]).
  - split; [done|]. intros x Hx Hid. rewrite generateVector_recs. simpl.
    by apply findByIdAndUpdate_lock_elem.
  - split; [done|]. intros x Hx. rewrite generateVector_recs in Hx. simpl in Hx.
    by eapply findByIdAndDelete_gone.
  - split_and!; [done|apply elem_of_app; right; by left|].
    intros x Hx. rewrite generateVector_recs in Hx. simpl in Hx.
    by eapply updateMany_user_lock_elem.
  - split_and!; [done|done|]. apply elem_of_app. right. by left.
Qed.

End VectorQueue.
