(* ===== verification/QAQueue.v ===== *)
(** * QAQueue: one invocation of the QA-split queue

    [generateQA] of src/client/src/service/events/generateQA.ts, in the
    style of VectorQueue.v: the synchronous entry [generateQA], the program
    points [QState] of its [await]s, and [qstep].  The completion's content
    goes through [QASplit.formatSplitText]; when it gives pairs, the bill of
    [Billing.pushQABill] is written (the call is not awaited: it is applied
    where it is made, since nothing else reads the bills); the pairs go
    through [PushData.pushDataToKb] in index mode, whose [startQueue()]
    starts invocations of both queues.  [startQueue] is defined outside src/
    ([service/utils/tools]) and is modelled from the spec as what pushing new
    data does: start [qaMaxProcess] QA and [vectorMaxProcess] index
    invocations. *)

From Stdlib Require Import Ascii ZArith.
From stdpp Require Import base list strings.
From S2P Require Import Prelude ContextFilter KbData TrainingData Billing PushData QASplit Runtime VectorQueue.

Module QAQueue.
Import ContextFilter KbData TrainingData Billing PushData QASplit Runtime VectorQueue.

(** The [await]s of [generateQA]: the claim, [authBalanceByUid], the chat
    completion, [pushDataToKb], [findByIdAndDelete], and in the [catch] the
    [findByIdAndRemove] of a malformed record and the [updateMany] that
    parks a user. *)
Inductive QState :=
  | Q_claim (t : Z)
  | Q_auth (r : TrainingRecord) (t : Z)
  | Q_llm (r : TrainingRecord) (t : Z)
  | Q_push (r : TrainingRecord) (t : Z) (items : list QAItem)
  | Q_delete (r : TrainingRecord) (t : Z)
  | Q_remove (tid : option nat) (uid : string) (e : Thrown)
  | Q_parkUser (uid : string).

Definition q_active (s : QState) : bool :=
  match s with
  | Q_claim _ | Q_auth _ _ | Q_llm _ _ | Q_push _ _ _ | Q_delete _ _ => true
  | _ => false
  end.

(** The entry of [generateQA] (lines 19-20). *)
Definition generateQA (env : SysEnv) (w : World) : World * list QState :=
  if Nat.leb (qaMaxProcess env) (w_qaQueueLen w) then (w, [])
  else (set_qlen (S (w_qaQueueLen w)) w, [Q_claim (w_now w)]).

Definition reduce_q (w : World) : World := set_qlen (reduceQueue (w_qaQueueLen w)) w.

(** [n] calls of an entry, in order. *)
Fixpoint repeat_spawn {S} (f : World -> World * list S) (n : nat) (w : World) : World * list S :=
  match n with
  | 0 => (w, [])
  | Datatypes.S n' =>
      let '(w1, l1) := f w in
      let '(w2, l2) := repeat_spawn f n' w1 in
      (w2, l1 ++ l2)
  end.

(** [startQueue()]: [qaMaxProcess] calls of [generateQA], then
    [vectorMaxProcess] calls of [generateVector]. *)
Definition startQueue (env : SysEnv) (w : World) : World * list QState * list VState :=
  let '(w1, qs) := repeat_spawn (generateQA env) (qaMaxProcess env) w in
  let '(w2, vs) := repeat_spawn (VectorQueue.generateVector env) (vectorMaxProcess env) w1 in
  (w2, qs, vs).

(** The [catch] block after the removal of a malformed record (lines 168-191). *)
Definition qa_catch_tail (uid : string) (e : Thrown) (w : World) : World * list QState :=
  if negb (String.eqb uid "") && is_insufficient_quota e then (add_inform uid w, [Q_parkUser uid])
  else (add_timer QAQ w, []).

(** The [catch] block (lines 153-192) up to its first [await]. *)
Definition qa_catch (tid : option nat) (uid : string) (e : Thrown) (w : World) : World * list QState :=
  let w1 := reduce_q w in
  if is_invalid_message_format e then (w1, [Q_remove tid uid e]) else qa_catch_tail uid e w1.

Definition lift_q (p : World * list QState) : World * list QState * list VState := (p.1, p.2, []).

(** [responseList.map(item => ({...item, source, file_id}))]. *)
Definition qa_items_data (r : TrainingRecord) (items : list QAItem) : list DatasetItemType :=
  map (λ it, {| d_q := qa_q it; d_a := qa_a it; d_source := source r; d_file_id := file_id r |}) items.

Section Step.
Context `{TokenCounter}.

(** The [.then] of the completion (lines 102-123): parse, and bill when
    there are pairs. *)
Definition qa_answer (env : SysEnv) (r : TrainingRecord) (t : Z) (content : text) (totalTokens : nat)
    (bill : WriteOutcome) (w : World) : World * list QState * list VState :=
  let result := formatSplitText content in
  let w1 := if bool_decide (0 < length result)%nat
            then set_ledger (pushQABill (qaPrice env) (userId r) "QA Split" totalTokens bill (w_ledger w)) w
            else w in
  (w1, [Q_push r t result], []).

(** [pushDataToKb({kbId, data, userId, mode: index})] (lines 135-144),
    including its [startQueue()]. *)
Definition qa_push (env : SysEnv) (r : TrainingRecord) (t : Z) (items : list QAItem) (w : World)
    : World * list QState * list VState :=
  let R := pushDataToKb (pushEnv env) (w_now w) (w_next_id w) (userId r) (kbId r)
             (qa_items_data r items) index [] (Some (w_pg w)) (w_recs w) in
  let w1 := set_recs (collection R) (set_next_id (w_next_id w + insertLen R) w) in
  if startsQueue R then
    let '(w2, qs, vs) := startQueue env w1 in (w2, Q_delete r t :: qs, vs)
  else (w1, [Q_delete r t], []).

Definition qstep (env : SysEnv) (s : QState) (o : Outcome) (w : World) : World * list QState * list VState :=
  match s, o with
  | Q_claim _, Throw e => lift_q (qa_catch None "" e w)
  | Q_claim t, _ =>
      match claim qa t (w_recs w) with
      | None => (reduce_q w, [], [])
      | Some (r, recs') => (set_recs recs' w, [Q_auth r t], [])
      end
  | Q_auth r _, Throw e => lift_q (qa_catch (Some (tr_id r)) (userId r) e w)
  | Q_auth r t, _ => (w, [Q_llm r t], [])
  | Q_llm r _, Throw e => lift_q (qa_catch (Some (tr_id r)) (userId r) e w)
  | Q_llm r t, Answer content toks bill => qa_answer env r t content toks bill w
  | Q_llm r t, Ok => qa_answer env r t [] 0 {| create_ok := false; update_ok := false; share_ok := false; rollback_ok := false |} w
  | Q_push r _ _, Throw e => lift_q (qa_catch (Some (tr_id r)) (userId r) e w)
  | Q_push r t items, _ => qa_push env r t items w
  | Q_delete r _, Throw e => lift_q (qa_catch (Some (tr_id r)) (userId r) e w)
  | Q_delete r _, _ => lift_q (generateQA env (reduce_q (set_recs (findByIdAndDelete (tr_id r) (w_recs w)) w)))
  | Q_remove _ _ _, Throw _ => (w, [], [])
  | Q_remove tid uid e, _ => lift_q (qa_catch_tail uid e (set_recs (delete_by_id tid (w_recs w)) w))
  | Q_parkUser _, Throw _ => (w, [], [])
  | Q_parkUser uid, _ => lift_q (generateQA env (set_recs (updateMany_user_lock uid date_2999_5_5 (w_recs w)) w))
  end.

End Step.

(** The outcomes of each [await]: only the completion resolves with an
    answer ([Ok] there is a response without content, [answer || ''] and
    [total_tokens || 0]); every operation may throw. *)
Definition qaccepts (s : QState) (o : Outcome) : bool :=
  match s, o with
  | Q_llm _ _, _ => true
  | _, Answer _ _ _ => false
  | _, _ => true
  end.

(** ** The error policy *)

Lemma generateQA_recs env w : w_recs (generateQA env w).1 = w_recs w.
Proof. unfold generateQA. by case_match. Qed.

(** C4: the [catch] of [generateQA] on an error while a record [r] is
    claimed: the counter is decremented; a malformed completion deletes [r]
    and then (the same error is no balance error) arms the 1000 ms timer
    instead of continuing at once; an exhausted balance notifies the user
    and parks every record of the user until 2999/5/5; any other error
    leaves the collection as it is and arms the timer. *)
Theorem qa_error_policy `{TokenCounter} (env : SysEnv) (r : TrainingRecord) (e : Thrown) (w : World) :
  let '(w1, ks) := qa_catch (Some (tr_id r)) (userId r) e w in
  w_qaQueueLen w1 = reduceQueue (w_qaQueueLen w) ∧
  if is_invalid_message_format e then
    ks = [Q_remove (Some (tr_id r)) (userId r) e] ∧
    let '(w2, ks2, vs2) := qstep env (Q_remove (Some (tr_id r)) (userId r) e) Ok w1 in
    (∀ x, x ∈ w_recs w2 -> tr_id x ≠ tr_id r) ∧ ks2 = [] ∧ vs2 = [] ∧
    ((w_now w + 1000)%Z, QAQ) ∈ w_timers w2
  else if negb (String.eqb (userId r) "") && is_insufficient_quota e then
    ks = [Q_parkUser (userId r)] ∧ userId r ∈ w_informs w1 ∧
    ∀ x, x ∈ w_recs (qstep env (Q_parkUser (userId r)) Ok w1).1.1 -> userId x = userId r ->
      lockTime x = date_2999_5_5
  else ks = [] ∧ w_recs w1 = w_recs w ∧ ((w_now w + 1000)%Z, QAQ) ∈ w_timers w1.
Proof.
  unfold qa_catch. destruct (is_invalid_message_format e) eqn:Hinv; simpl.
  - split; [done|]. split; [done|]. unfold qa_catch_tail.
    assert (is_insufficient_quota e = false) as ->
      by (destruct e as [[]|]; simpl in *; done).
    rewrite andb_false_r. simpl. split; [intros x Hx; by eapply findByIdAndDelete_gone|].
    split_and!; try done. apply elem_of_app. right. by left.
  - unfold qa_catch_tail. destruct (negb (String.eqb (userId r) "") && is_insufficient_quota e); simpl;
      (split; [done|]).
    + split; [done|]. split; [apply elem_of_app; right; by left|].
      intros x Hx. rewrite generateQA_recs in Hx. simpl in Hx. by eapply updateMany_user_lock_elem.
    + split; [done|]. split; [done|]. apply elem_of_app. right. by left.
Qed.

End QAQueue.
