(* ===== verification/Scheduler.v ===== *)
(** * Scheduler: the two queues, the timers and the push path as one system

    The process-wide behaviour of the ingestion pipeline as a step relation
    [step] on [Sys]: a world and a pool of pending queue invocations.  A step
    resumes one invocation at its [await] with an outcome the operation can
    have ([VectorQueue.vstep], [QAQueue.qstep]); advances the clock; fires a
    due [setTimeout] timer (its callback calls [generateVector()] or
    [generateQA()]); serves a push request (pages/api/openapi/kb/pushData.ts
    [handler], then [startQueue()]); or lets the TTL monitor reap expired
    records.

    Granularity: the code between two [await]s runs as one step, together
    with the awaited operation it resumes from.  A resumption only touches
    the process globals and the locals of its invocation, and a store
    operation only the stores, so an operation commutes with the resumptions
    of other invocations; every interleaving of the finer semantics reaches a
    state this relation reaches.  The clock stays before 2998/5/5, the dates
    the code uses as "never". *)

From Stdlib Require Import Ascii ZArith QArith.
From stdpp Require Import base list strings relations gmap.
From S2P Require Import Prelude ContextFilter KbData TrainingData Billing PushData QASplit Runtime VectorQueue QAQueue.

Module Scheduler.
Import ContextFilter KbData TrainingData Billing PushData QASplit Runtime VectorQueue QAQueue.

Inductive Thread := VT (s : VState) | QT (s : QState).

Record Sys := { world : World; pool : list Thread }.

Definition accepts (th : Thread) (o : Outcome) : bool :=
  match th with VT _ => vaccepts o | QT s => qaccepts s o end.

(** The invocations a callback or a push starts. *)
Definition spawn (env : SysEnv) (k : QueueKind) (w : World) : World * list Thread :=
  match k with
  | VectorQ => let '(w', vs) := VectorQueue.generateVector env w in (w', map VT vs)
  | QAQ => let '(w', qs) := generateQA env w in (w', map QT qs)
  end.

Definition start_all (env : SysEnv) (w : World) : World * list Thread :=
  let '(w', qs, vs) := startQueue env w in (w', map QT qs ++ map VT vs).

Section Steps.
Context `{TokenCounter} (env : SysEnv).

Definition thread_step (th : Thread) (o : Outcome) (w : World) : World * list Thread :=
  match th with
  | VT s => let '(w', vs) := vstep env s o w in (w', map VT vs)
  | QT s => let '(w', qs, vs) := qstep env s o w in (w', map QT qs ++ map VT vs)
  end.

(** A push request: the handler's guards, [pushDataToKb] against the
    current rows, and [startQueue()] when something was inserted. *)
Definition serve_push (uid kbId : string) (data : option (list DatasetItemType)) (mode : option string)
    (prompt : text) (w : World) : World * list Thread :=
  match handler (pushEnv env) (w_now w) (w_next_id w) uid kbId data mode prompt (Some (w_pg w)) (w_recs w) with
  | inl _ => (w, [])
  | inr R =>
      let w1 := set_recs (collection R) (set_next_id (w_next_id w + insertLen R) w) in
      if startsQueue R then start_all env w1 else (w1, [])
  end.

Inductive step : Sys -> Sys -> Prop :=
  | step_thread w pre th post o w' ts :
      accepts th o = true -> thread_step th o w = (w', ts) ->
      step {| world := w; pool := pre ++ th :: post |} {| world := w'; pool := pre ++ ts ++ post |}
  | step_tick w p d :
      (0 < d)%Z -> (w_now w + d < date_2998_5_5)%Z ->
      step {| world := w; pool := p |} {| world := set_now (w_now w + d) w; pool := p |}
  | step_timer w p tpre due k tpost w' ts :
      w_timers w = tpre ++ (due, k) :: tpost -> (due <= w_now w)%Z ->
      spawn env k (set_timers (tpre ++ tpost) w) = (w', ts) ->
      step {| world := w; pool := p |} {| world := w'; pool := p ++ ts |}
  | step_push w p uid kbId data mode prompt w' ts :
      serve_push uid kbId data mode prompt w = (w', ts) ->
      step {| world := w; pool := p |} {| world := w'; pool := p ++ ts |}
  | step_reap w p :
      step {| world := w; pool := p |}
           {| world := set_recs (reap_expired (w_now w) (w_recs w)) w; pool := p |}.

(** ** An executable scheduler

    A schedule names each step: which invocation resumes and with what
    outcome, how far the clock moves, which timer fires, which request
    arrives.  [run] executes a schedule, and [run_steps] shows that every
    state it reaches is reachable by [step]. *)
Inductive Choice :=
  | CThread (i : nat) (o : Outcome)
  | CTick (d : Z)
  | CTimer (i : nat)
  | CPush (uid kbId : string) (data : option (list DatasetItemType)) (mode : option string) (prompt : text)
  | CReap.

Definition exec (c : Choice) (sy : Sys) : option Sys :=
  let w := world sy in
  match c with
  | CThread i o =>
      match pool sy !! i with
      | Some th =>
          if accepts th o then
            let '(w', ts) := thread_step th o w in
            Some {| world := w'; pool := take i (pool sy) ++ ts ++ drop (S i) (pool sy) |}
          else None
      | None => None
      end
  | CTick d =>
      if bool_decide (0 < d)%Z && bool_decide (w_now w + d < date_2998_5_5)%Z
      then Some {| world := set_now (w_now w + d) w; pool := pool sy |} else None
  | CTimer i =>
      match w_timers w !! i with
      | Some (due, k) =>
          if bool_decide (due <= w_now w)%Z then
            let '(w', ts) := spawn env k (set_timers (take i (w_timers w) ++ drop (S i) (w_timers w)) w) in
            Some {| world := w'; pool := pool sy ++ ts |}
          else None
      | None => None
      end
  | CPush uid kbId data mode prompt =>
      let '(w', ts) := serve_push uid kbId data mode prompt w in Some {| world := w'; pool := pool sy ++ ts |}
  | CReap => Some {| world := set_recs (reap_expired (w_now w) (w_recs w)) w; pool := pool sy |}
  end.

Fixpoint run (cs : list Choice) (sy : Sys) : option Sys :=
  match cs with
  | [] => Some sy
  | c :: rest => match exec c sy with Some S' => run rest S' | None => None end
  end.

End Steps.

(** The initial state: no invocation, both counters at zero. *)
Definition init (w : World) : Sys :=
  {| world := set_qlen 0 (set_vlen 0 w); pool := [] |}.

(** The invocations each counter counts: those between [queueLen++] and
    [reduceQueue()]. *)
Definition th_v (th : Thread) : bool := match th with VT s => v_active s | QT _ => false end.
Definition th_q (th : Thread) : bool := match th with QT s => q_active s | VT _ => false end.

(** The counter invariant: each counter is the number of invocations of its
    queue that are past their entry and before their [reduceQueue()], and it
    stays within [maxProcess]. *)
Definition counters_inv (env : SysEnv) (sy : Sys) : Prop :=
  w_vectorQueueLen (world sy) = countb th_v (pool sy) ∧ w_qaQueueLen (world sy) = countb th_q (pool sy) ∧
  w_vectorQueueLen (world sy) ≤ vectorMaxProcess env ∧ w_qaQueueLen (world sy) ≤ qaMaxProcess env.

Definition lift {St} (inj : St -> Thread) (f : World -> World * list St) (w : World) : World * list Thread :=
  ((f w).1, map inj (f w).2).

(** ** A sample deployment

    Two index invocations and one QA invocation at most; a QA model priced 3
    per token; user [u] with a balance of 100, at 2023-11-14. *)
Definition sample_env : SysEnv :=
  {| vectorMaxProcess := 2; qaMaxProcess := 1; qaPrice := Some 3%Q;
     pushEnv := {| env_vectorModel := "text-embedding-ada-002"; env_vectorMaxToken := 3000;
                   env_qaMaxToken := 16000 |} |}.

Definition sample_world : World :=
  {| w_now := 1700000000000; w_recs := []; w_next_id := 0; w_pg := {| rows := []; next_pg_id := 0 |};
     w_ledger := {| bills := []; next_bill_id := 0; balances := {[ "u" := 100%Q ]}; share_totals := ∅ |};
     w_vectorQueueLen := 0; w_qaQueueLen := 0; w_informs := []; w_timers := [] |}.

(** The question [" hi"] with answer ["x"], pushed in index mode, and the
    four successful resumptions of the index invocation that claims it. *)
Definition hi_item : DatasetItemType := {| d_q := ⟦" hi"⟧; d_a := ⟦"x"⟧; d_source := []; d_file_id := [] |}.

Definition push_and_index : list Choice :=
  [CPush "u" "k" (Some [hi_item]) (Some "index") []; CThread 1 Ok; CThread 1 Ok; CThread 1 Ok; CThread 1 Ok].

(** ** Executed schedules are runs of the system *)

Lemma sys_eta sy : sy = {| world := world sy; pool := pool sy |}.
Proof. by destruct sy. Qed.

Lemma exec_step `{TokenCounter} env c sy sy' : exec env c sy = Some sy' -> step env sy sy'.
Proof.
  destruct sy as [w p]. destruct c as [i o|d|i|uid kb data mode prompt|]; simpl.
  - destruct (p !! i) as [th|] eqn:Hi; [|done]. destruct (accepts th o) eqn:Ha; [|done].
    destruct (thread_step env th o w) as [w' ts] eqn:Ht. intros [= <-].
    pose proof (@step_thread _ env w (take i p) th (drop (S i) p) o w' ts Ha Ht) as Hs.
    by rewrite take_drop_middle in Hs.
  - case_bool_decide; case_bool_decide; simpl; intros; simplify_eq. by apply step_tick.
  - destruct (w_timers w !! i) as [[due k]|] eqn:Hi; [|done]. case_bool_decide; [|done].
    destruct (spawn env k _) as [w' ts] eqn:Hs. intros [= <-].
    eapply step_timer; [|done|exact Hs]. by rewrite take_drop_middle.
  - destruct (serve_push env uid kb data mode prompt w) as [w' ts] eqn:Hs. intros [= <-].
    by eapply step_push.
  - intros [= <-]. apply step_reap.
Qed.

Lemma run_steps `{TokenCounter} env cs sy sy' : run env cs sy = Some sy' -> rtc (step env) sy sy'.
Proof.
  revert sy. induction cs as [|c cs IH]; intros sy; simpl; [intros [= ->]; constructor|].
  destruct (exec env c sy) as [sy1|] eqn:E; [|done].
  intros Hr. eapply rtc_l; [eapply exec_step; exact E|by apply IH].
Qed.

(** ** The counter invariant *)

Section Counters.
Context (env : SysEnv).

Definition counts_ok (w : World) (nv nq : nat) : Prop :=
  w_vectorQueueLen w = nv ∧ w_qaQueueLen w = nq ∧ nv ≤ vectorMaxProcess env ∧ nq ≤ qaMaxProcess env.

(** Code that starts invocations: each counter grows by the active
    invocations of its queue it starts. *)
Definition grows (f : World -> World * list Thread) : Prop :=
  ∀ w nv nq, counts_ok w nv nq -> counts_ok (f w).1 (nv + countb th_v (f w).2) (nq + countb th_q (f w).2).

Lemma counts_ok_frame w nv nq (g : World -> World) :
  w_vectorQueueLen (g w) = w_vectorQueueLen w -> w_qaQueueLen (g w) = w_qaQueueLen w ->
  counts_ok w nv nq -> counts_ok (g w) nv nq.
Proof. unfold counts_ok. intros -> ->. done. Qed.

Lemma countb_false {A} (l : list A) : countb (λ _, false) l = 0.
Proof. induction l; [done|]. by rewrite countb_cons. Qed.

Lemma countb_VT_v l : countb th_v (map VT l) = countb v_active l.
Proof. by rewrite countb_map. Qed.
Lemma countb_VT_q l : countb th_q (map VT l) = 0.
Proof. rewrite countb_map. apply countb_false. Qed.
Lemma countb_QT_q l : countb th_q (map QT l) = countb q_active l.
Proof. by rewrite countb_map. Qed.
Lemma countb_QT_v l : countb th_v (map QT l) = 0.
Proof. rewrite countb_map. apply countb_false. Qed.

#[local] Hint Rewrite countb_VT_v countb_VT_q countb_QT_q countb_QT_v : fastgpt.

Ltac counts :=
  unfold counts_ok, reduce_v, reduce_q in *;
  repeat (autorewrite with fastgpt in *; cbn [w_vectorQueueLen w_qaQueueLen set_vlen set_qlen
    set_recs set_pg set_ledger set_next_id add_inform add_timer set_timers set_now v_active q_active fst snd] in * );
  repeat match goal with
         | H : _ ∧ _ |- _ => destruct H
         | H : w_vectorQueueLen ?w = _ |- _ => rewrite H in *; clear H
         | H : w_qaQueueLen ?w = _ |- _ => rewrite H in *; clear H
         end;
  unfold reduceQueue; simpl in *; try (split_and!; lia).

Lemma generateVector_grows : grows (lift VT (VectorQueue.generateVector env)).
Proof.
  intros w nv nq Hc. unfold lift, VectorQueue.generateVector.
  destruct (Nat.leb_spec (vectorMaxProcess env) (w_vectorQueueLen w)); counts.
Qed.

Lemma generateQA_grows : grows (lift QT (generateQA env)).
Proof.
  intros w nv nq Hc. unfold lift, generateQA.
  destruct (Nat.leb_spec (qaMaxProcess env) (w_qaQueueLen w)); counts.
Qed.

Lemma repeat_spawn_grows {St} (inj : St -> Thread) (f : World -> World * list St) n :
  grows (lift inj f) -> grows (lift inj (repeat_spawn f n)).
Proof.
  intros Hf. induction n as [|n IH]; intros w nv nq Hc; unfold lift in *; simpl.
  - by rewrite countb_nil, !Nat.add_0_r.
  - specialize (Hf w nv nq Hc). simpl in Hf. revert Hf. destruct (f w) as [w1 l1]. simpl. intros Hf.
    specialize (IH w1 _ _ Hf). simpl in IH. revert IH. destruct (repeat_spawn f n w1) as [w2 l2]. simpl. intros IH.
    rewrite map_app, !countb_app, !Nat.add_assoc. exact IH.
Qed.

Lemma spawn_grows k : grows (spawn env k).
Proof.
  intros w nv nq Hc. destruct k.
  - pose proof (generateVector_grows w nv nq Hc) as G. unfold lift in G. simpl in G. unfold spawn.
    revert G. destruct (VectorQueue.generateVector env w). done.
  - pose proof (generateQA_grows w nv nq Hc) as G. unfold lift in G. simpl in G. unfold spawn.
    revert G. destruct (generateQA env w). done.
Qed.

Lemma start_all_grows : grows (start_all env).
Proof.
  intros w nv nq Hc. unfold start_all, startQueue.
  pose proof (repeat_spawn_grows QT _ (qaMaxProcess env) generateQA_grows w nv nq Hc) as G1.
  unfold lift in G1. simpl in G1. revert G1. destruct (repeat_spawn (generateQA env) _ w) as [w1 qs]. simpl. intros G1.
  pose proof (repeat_spawn_grows VT _ (vectorMaxProcess env) generateVector_grows w1 _ _ G1) as G2.
  unfold lift in G2. simpl in G2. revert G2. destruct (repeat_spawn (VectorQueue.generateVector env) _ w1) as [w2 vs].
  simpl. intros G2.
  rewrite !countb_app. counts.
Qed.

Lemma generateVector_counts w nv nq :
  counts_ok w nv nq ->
  counts_ok (VectorQueue.generateVector env w).1 (nv + countb v_active (VectorQueue.generateVector env w).2) nq.
Proof.
  intros Hc. pose proof (generateVector_grows w nv nq Hc) as G. unfold lift in G. simpl in G.
  by rewrite countb_VT_v, countb_VT_q, Nat.add_0_r in G.
Qed.

Lemma generateQA_counts w nv nq :
  counts_ok w nv nq ->
  counts_ok (generateQA env w).1 nv (nq + countb q_active (generateQA env w).2).
Proof.
  intros Hc. pose proof (generateQA_grows w nv nq Hc) as G. unfold lift in G. simpl in G.
  by rewrite countb_QT_v, countb_QT_q, Nat.add_0_r in G.
Qed.

Lemma vector_catch_counts tid uid e w nv nq :
  counts_ok w (S nv) nq ->
  counts_ok (vector_catch tid uid e w).1 nv nq ∧ countb v_active (vector_catch tid uid e w).2 = 0.
Proof. intros Hc. unfold vector_catch. repeat case_match; counts. Qed.

Lemma qa_catch_tail_counts uid e w nv nq :
  counts_ok w nv nq ->
  counts_ok (qa_catch_tail uid e w).1 nv nq ∧ countb q_active (qa_catch_tail uid e w).2 = 0.
Proof. intros Hc. unfold qa_catch_tail. repeat case_match; counts. Qed.

Lemma qa_catch_counts tid uid e w nv nq :
  counts_ok w nv (S nq) ->
  counts_ok (qa_catch tid uid e w).1 nv nq ∧ countb q_active (qa_catch tid uid e w).2 = 0.
Proof.
  intros Hc. unfold qa_catch. case_match.
  - unfold reduce_q. counts.
  - apply qa_catch_tail_counts. unfold reduce_q. counts.
Qed.

Lemma vstep_counts s o w nv nq :
  counts_ok w (nv + (if v_active s then 1 else 0)) nq ->
  counts_ok (vstep env s o w).1 (nv + countb v_active (vstep env s o w).2) nq.
Proof.
  intros Hc. destruct s; simpl in Hc; rewrite ?Nat.add_1_r, ?Nat.add_0_r in Hc; destruct o; simpl.
  all: try (match goal with |- context [vector_catch ?a ?b ?c ?d] =>
              destruct (vector_catch_counts a b c d _ _ Hc) as [H1 ->]; rewrite Nat.add_0_r; exact H1 end).
  all: try (apply generateVector_counts; counts; fail).
  all: repeat case_match; counts.
Qed.

Lemma startQueue_counts w nv nq :
  counts_ok w nv nq ->
  counts_ok (startQueue env w).1.1 (nv + countb v_active (startQueue env w).2)
    (nq + countb q_active (startQueue env w).1.2).
Proof.
  intros Hc. pose proof (start_all_grows w nv nq Hc) as G. unfold start_all in G.
  revert G. destruct (startQueue env w) as [[w' qs] vs]. simpl.
  rewrite !countb_app, countb_QT_v, countb_QT_q, countb_VT_v, countb_VT_q. simpl.
  intros G. unfold counts_ok in *. lia.
Qed.

Lemma qa_push_counts `{TokenCounter} r t items w nv nq :
  counts_ok w nv (S nq) ->
  counts_ok (qa_push env r t items w).1.1 (nv + countb v_active (qa_push env r t items w).2)
    (nq + countb q_active (qa_push env r t items w).1.2).
Proof.
  intros Hc. unfold qa_push. case_match.
  - match goal with |- context [startQueue env ?w1] =>
      pose proof (startQueue_counts w1 nv (S nq) ltac:(counts)) as G;
      revert G; destruct (startQueue env w1) as [[w2 qs] vs] end.
    cbn [fst snd]. rewrite countb_cons. cbn [q_active]. unfold counts_ok. lia.
  - cbn [fst snd]. rewrite countb_cons. cbn [q_active]. counts.
Qed.

Lemma qstep_counts `{TokenCounter} s o w nv nq :
  counts_ok w nv (nq + (if q_active s then 1 else 0)) ->
  counts_ok (qstep env s o w).1.1 (nv + countb v_active (qstep env s o w).2)
    (nq + countb q_active (qstep env s o w).1.2).
Proof.
  intros Hc. destruct s; simpl in Hc; rewrite ?Nat.add_1_r, ?Nat.add_0_r in Hc; destruct o; simpl.
  all: try (match goal with |- context [qa_catch ?a ?b ?c ?d] =>
              destruct (qa_catch_counts a b c d _ _ Hc) as [H1 ->]; rewrite !Nat.add_0_r; exact H1 end).
  all: try (unfold qa_answer; case_match; counts; fail).
  all: try (apply qa_push_counts; exact Hc).
  all: try (apply generateQA_counts; counts; fail).
  all: try (match goal with |- context [qa_catch_tail ?a ?b ?c] =>
              destruct (qa_catch_tail_counts a b c nv nq ltac:(counts)) as [H1 ->];
              rewrite !Nat.add_0_r; exact H1 end).
  all: repeat case_match; counts.
Qed.

Lemma thread_step_counts `{TokenCounter} th o w w' ts nv nq :
  counts_ok w (nv + (if th_v th then 1 else 0)) (nq + (if th_q th then 1 else 0)) ->
  thread_step env th o w = (w', ts) ->
  counts_ok w' (nv + countb th_v ts) (nq + countb th_q ts).
Proof.
  destruct th as [s|s]; simpl; intros Hc.
  - rewrite Nat.add_0_r in Hc. pose proof (vstep_counts s o w nv nq Hc) as G.
    revert G. destruct (vstep env s o w) as [w1 vs]. simpl. intros G [= <- <-].
    by rewrite countb_VT_v, countb_VT_q, Nat.add_0_r.
  - rewrite Nat.add_0_r in Hc. pose proof (qstep_counts s o w nv nq Hc) as G.
    revert G. destruct (qstep env s o w) as [[w1 qs] vs]. simpl. intros G [= <- <-].
    rewrite !countb_app, countb_VT_v, countb_VT_q, countb_QT_q, countb_QT_v. simpl.
    by rewrite Nat.add_0_r.
Qed.

Lemma serve_push_grows `{TokenCounter} uid kbId data mode prompt :
  grows (serve_push env uid kbId data mode prompt).
Proof.
  intros w nv nq Hc. unfold serve_push. case_match; [simpl; by rewrite !Nat.add_0_r|].
  case_match.
  - apply start_all_grows. counts.
  - simpl. rewrite !Nat.add_0_r. counts.
Qed.

Lemma counters_inv_counts sy :
  counters_inv env sy <-> counts_ok (world sy) (countb th_v (pool sy)) (countb th_q (pool sy)).
Proof. unfold counters_inv, counts_ok. naive_solver lia. Qed.

Lemma step_counters `{TokenCounter} sy sy' :
  counters_inv env sy -> step env sy sy' -> counters_inv env sy'.
Proof.
  rewrite !counters_inv_counts. intros Hc Hs.
  destruct Hs as [w pre th post o w' ts Ha Ht|w p d Hd1 Hd2|w p tpre due k tpost w' ts Ht Hdue Hsp
    |w p uid kb data mode prompt w' ts Hsp|w p]; simpl in *.
  - rewrite !countb_app, !countb_cons in Hc. rewrite !countb_app.
    eapply (thread_step_counts th o w w' ts (countb th_v pre + countb th_v post)
              (countb th_q pre + countb th_q post)) in Ht; [|counts].
    counts.
  - counts.
  - pose proof (spawn_grows k (set_timers (tpre ++ tpost) w) (countb th_v p) (countb th_q p)
      ltac:(counts)) as G.
    rewrite Hsp in G. simpl in G. by rewrite !countb_app.
  - pose proof (serve_push_grows uid kb data mode prompt w _ _ Hc) as G.
    rewrite Hsp in G. simpl in G. by rewrite !countb_app.
  - counts.
Qed.

End Counters.

(** C1: in every state the system reaches from its start, each
    queue's counter [vectorQueueLen] / [qaQueueLen] equals the number of its
    invocations that have passed the entry guard and not yet run
    [reduceQueue()], and never exceeds [vectorMaxProcess] / [qaMaxProcess]:
    the counter is decremented exactly once on every exit path and the
    number of concurrent claims is bounded. *)
Theorem counters_invariant `{TokenCounter} (env : SysEnv) (w0 : World) (sy : Sys) :
  rtc (step env) (init w0) sy -> counters_inv env sy.
Proof.
  intros Hr. assert (counters_inv env (init w0)) as H0 by (split_and!; cbn; [reflexivity|reflexivity|lia|lia]).
  induction Hr as [|x y z Hxy _ IH]; [done|]. apply IH. by eapply step_counters.
Qed.

Lemma counters_invariant_witness :
  let sy := default (init sample_world) (run sample_env push_and_index (init sample_world)) in
  rtc (step sample_env) (init sample_world) sy ∧ counters_inv sample_env sy.
Proof.
  cbv zeta. split.
  - apply (run_steps sample_env push_and_index). vm_compute. reflexivity.
  - apply (counters_invariant sample_env sample_world).
    apply (run_steps sample_env push_and_index). vm_compute. reflexivity.
Defined.

End Scheduler.
