(* ===== verification/Pipeline.v ===== *)
(** * Pipeline: end-to-end runs of the ingestion pipeline

    Schedules of Scheduler.v executed on the sample deployment, each shown
    to be a run of the step relation: the chained hand-off from the QA queue
    to the index queue (spec scenario C), a duplicate the push-time check
    lets through because the index queue stores the text it was given while
    the check compares normalised text, and a QA record billed twice because
    its bill is written before the steps that can fail and be retried. *)

From Stdlib Require Import Ascii ZArith QArith.
From stdpp Require Import base list strings relations gmap.
From S2P Require Import Prelude ContextFilter KbData TrainingData Billing PushData QASplit Runtime VectorQueue QAQueue Scheduler.

Module Pipeline.
Import ContextFilter KbData TrainingData Billing PushData QASplit Runtime VectorQueue QAQueue Scheduler.Scheduler.

(** A source text pushed in QA mode, and the completion the QA model returns
    for it. *)
Definition source_item : DatasetItemType :=
  {| d_q := ⟦"Some long text"⟧; d_a := []; d_source := []; d_file_id := [] |}.

Definition completion : text := ⟦"Q1: What is X?"⟧ ++ ["010"%char] ++ ⟦"A1: X is Y."⟧.

Definition all_writes_ok : WriteOutcome := {| create_ok := true; update_ok := true; share_ok := true; rollback_ok := true |}.

(** Push in QA mode; the QA invocation claims, passes the balance check,
    gets the completion, pushes the pairs and deletes its record; then the
    first index invocation indexes the pair. *)
Definition chained_handoff : list Choice :=
  [CPush "u" "k" (Some [source_item]) (Some "qa") []; CThread 0 Ok; CThread 0 Ok;
   CThread 0 (Answer completion 10 all_writes_ok); CThread 0 Ok; CThread 0 Ok;
   CThread 1 Ok; CThread 1 Ok; CThread 1 Ok; CThread 1 Ok].

(** The same question pushed again after it was indexed, and indexed again. *)
Definition push_twice : list Choice :=
  push_and_index ++ [CPush "u" "k" (Some [hi_item]) (Some "index") []; CThread 1 Ok; CThread 1 Ok;
                     CThread 1 Ok; CThread 1 Ok].

(** The push of the QA pairs fails once; four minutes later the timer's
    invocation claims the same record again and gets a completion again. *)
Definition qa_retry : list Choice :=
  [CPush "u" "k" (Some [source_item]) (Some "qa") []; CThread 0 Ok; CThread 0 Ok;
   CThread 0 (Answer completion 10 all_writes_ok);
   CThread 0 (Throw (ThrownError "connect ECONNREFUSED" None None)); CTick 240000; CTimer 0;
   CThread 2 Ok; CThread 2 Ok; CThread 2 (Answer completion 10 all_writes_ok)].

(** A QA record of user [u] waiting since the default lock time, in the
    sample world. *)
Definition qa_record : TrainingRecord :=
  {| tr_id := 0; userId := "u"; kbId := "k"; expireAt := 1700000000000; lockTime := date_2000_1_1;
     mode := qa; vectorModel := "text-embedding-ada-002"; prompt := []; q := ⟦"Some long text"⟧; a := [];
     source := []; file_id := [] |}.

Definition qa_world : World := set_recs [qa_record] sample_world.

Definition connection_refused : Thrown := ThrownError "connect ECONNREFUSED" None None.

Definition final (cs : list Choice) : Sys :=
  default (init sample_world) (run sample_env cs (init sample_world)).

Lemma final_reachable cs :
  is_Some (run sample_env cs (init sample_world)) -> rtc (step sample_env) (init sample_world) (final cs).
Proof.
  intros [sy Hsy]. unfold final. rewrite Hsy. simpl. by eapply run_steps.
Qed.

(** a source text pushed in QA mode reaches the knowledge
    base as the pair the completion contains: in a reachable state the
    training collection is empty and the rows hold exactly that pair, for the
    pushing user and knowledge base (spec scenario C). *)
Theorem chained_handoff_indexes_pair :
  rtc (step sample_env) (init sample_world) (final chained_handoff) ∧
  w_recs (world (final chained_handoff)) = [] ∧
  map (λ r, (user_id r, kb_id r, pg_q r, pg_a r)) (rows (w_pg (world (final chained_handoff)))) =
    [("u", "k", ⟦"What is X?"⟧, ⟦"X is Y."⟧)].
Proof.
  split; [apply final_reachable; vm_compute; eexists; reflexivity|]. vm_compute. split; reflexivity.
Qed.

(** the push-time check compares the normalised question
    (trimmed) with the stored rows, but the index queue stores the question
    as pushed; pushing [" hi"] again after it was indexed is accepted, and the
    knowledge base ends with two identical rows. *)
Theorem push_dedup_misses_indexed_text :
  rtc (step sample_env) (init sample_world) (final push_twice) ∧
  map (λ r, (user_id r, kb_id r, pg_q r, pg_a r)) (rows (w_pg (world (final push_twice)))) =
    [("u", "k", ⟦" hi"⟧, ⟦"x"⟧); ("u", "k", ⟦" hi"⟧, ⟦"x"⟧)].
Proof. split; [apply final_reachable; vm_compute; eexists; reflexivity|]. vm_compute. reflexivity. Qed.

(** C37: [pushQABill] runs as soon as the completion is parsed, before
    [pushDataToKb] and the delete: for every world and every QA record the
    claim takes, when the completion has pairs and [pushDataToKb] then
    throws an error that is neither a malformed request nor an exhausted
    quota, the invocation has billed the user for the completion, ends
    with no continuation, and leaves the record in the collection, where it
    is claimable again once the 4-minute window has passed; its next run
    bills the user again. *)
Theorem qa_push_failure_keeps_billed_record `{TokenCounter} env t w r recs' content toks bill e :
  claim qa t (w_recs w) = Some (r, recs') ->
  formatSplitText content ≠ [] -> is_invalid_message_format e = false -> is_insufficient_quota e = false ->
  let '(w1, ks1, _) := qstep env (Q_claim t) Ok w in
  let '(w2, ks2, _) := qstep env (Q_auth r t) Ok w1 in
  let '(w3, ks3, _) := qstep env (Q_llm r t) (Answer content toks bill) w2 in
  let '(w4, ks4, vs4) := qstep env (Q_push r t (formatSplitText content)) (Throw e) w3 in
  ks1 = [Q_auth r t] ∧ ks2 = [Q_llm r t] ∧ ks3 = [Q_push r t (formatSplitText content)] ∧
  ks4 = [] ∧ vs4 = [] ∧
  w_ledger w4 = pushQABill (qaPrice env) (userId r) "QA Split" toks bill (w_ledger w) ∧
  ∃ r', r' ∈ w_recs w4 ∧ tr_id r' = tr_id r ∧ claimable qa (t + lock_window qa) r' = true.
Proof.
  intros Hc Hne Hinv Hq. pose proof Hc as Hc'.
  apply findOneAndUpdate_lock_spec in Hc' as (pre & post & _ & _ & Hr & ->).
  cbn [qstep]. rewrite Hc. unfold qa_answer.
  rewrite bool_decide_true by (destruct (formatSplitText content); [done|simpl; lia]).
  unfold lift_q, qa_catch. rewrite Hinv. unfold qa_catch_tail. rewrite Hq, andb_false_r.
  cbn. split_and!; try done.
  exists (set_lock t r). split; [apply elem_of_app; right; by left|split; [done|]].
  unfold claimable in *. apply andb_true_iff in Hr as [Hm _].
  apply andb_true_iff. split; [exact Hm|]. apply Z.leb_le. cbn. lia.
Qed.

Lemma qa_push_failure_keeps_billed_record_witness :
  let t := w_now qa_world in
  let r := qa_record in
  let '(w1, ks1, _) := qstep (H := charCounter) sample_env (Q_claim t) Ok qa_world in
  let '(w2, ks2, _) := qstep (H := charCounter) sample_env (Q_auth r t) Ok w1 in
  let '(w3, ks3, _) := qstep (H := charCounter) sample_env (Q_llm r t) (Answer completion 10 all_writes_ok) w2 in
  let '(w4, ks4, vs4) := qstep (H := charCounter) sample_env (Q_push r t (formatSplitText completion))
                           (Throw connection_refused) w3 in
  ks1 = [Q_auth r t] ∧ ks2 = [Q_llm r t] ∧ ks3 = [Q_push r t (formatSplitText completion)] ∧
  ks4 = [] ∧ vs4 = [] ∧
  w_ledger w4 = pushQABill (qaPrice sample_env) (userId r) "QA Split" 10 all_writes_ok (w_ledger qa_world) ∧
  ∃ r', r' ∈ w_recs w4 ∧ tr_id r' = tr_id r ∧ claimable qa (t + lock_window qa) r' = true.
Proof.
  cbv zeta. apply (qa_push_failure_keeps_billed_record (H := charCounter) sample_env _ qa_world qa_record
    [set_lock (w_now qa_world) qa_record]); [reflexivity|vm_compute; discriminate|reflexivity|reflexivity].
Defined.

(** On the sample deployment, the push of the QA pairs fails once; four
    minutes later the timer's invocation claims the same record again and
    bills it a second time: two bills of 30, a balance of 40 out of 100,
    and the record still waiting. *)
Example qa_retry_bills_twice :
  rtc (step sample_env) (init sample_world) (final qa_retry) ∧
  map bill_total (bills (w_ledger (world (final qa_retry)))) = [30%Q; 30%Q] ∧
  balances (w_ledger (world (final qa_retry))) !! "u" = Some 40%Q ∧
  map tr_id (w_recs (world (final qa_retry))) = [0%nat].
Proof. split; [apply final_reachable; vm_compute; eexists; reflexivity|]. vm_compute. split_and!; reflexivity. Qed.

End Pipeline.
