(* ===== verification/FlowTypes.v ===== *)
(** * FlowTypes: the module graph of an app

    The types of src/client/src/types/flow.d.ts ([FlowInputItemType],
    [FlowOutputItemType], [FlowOutputTargetItemType],
    [FlowModuleTemplateType]) and of the app modules that reference them.
    The enumerations of @/constants/flow and the app types of @/types/app
    are outside src/ and are modelled from the spec and from the string
    values the templates of src/ write.  A TypeScript object literal with
    optional properties is written [Input key type label [props]]: the
    required properties first, then the list of the optional ones it sets.
    [value?: any] is a JSON value [JsVal].  The well-formedness of a module
    graph (spec §3: every edge target exists) is the boolean [graph_wf]. *)

From Stdlib Require Import Ascii ZArith QArith.
From stdpp Require Import base list strings relations.
From S2P Require Import Prelude.

Module FlowTypes.

(** [FlowModuleTypeEnum] with its string values. *)
Module FlowModuleTypeEnum.
Inductive t := empty | variable | userGuide | questionInput | historyNode | chatNode | kbSearchNode
  | tfSwitchNode | answerNode | classifyQuestion | contentExtract | httpRequest.
End FlowModuleTypeEnum.

(** The values of [FlowInputItemTypeEnum] the sources use. *)
Module FlowInputItemTypeEnum.
Inductive t := systemInput | input | textarea | numberInput | select | slider | custom | target | hidden.
End FlowInputItemTypeEnum.

Module FlowOutputItemTypeEnum.
Inductive t := source | hidden.
End FlowOutputItemTypeEnum.

(** [FlowValueTypeEnum]: ['string'], ['number'], ['boolean'],
    ['chat_history'], ['kb_quote'], ['any']. *)
Module FlowValueTypeEnum.
Inductive t := string | number | boolean | chatHistory | kbQuote | any.
End FlowValueTypeEnum.

#[export] Instance FlowModuleTypeEnum_eq_dec : EqDecision FlowModuleTypeEnum.t.
Proof. solve_decision. Defined.
#[export] Instance FlowInputItemTypeEnum_eq_dec : EqDecision FlowInputItemTypeEnum.t.
Proof. solve_decision. Defined.
#[export] Instance FlowOutputItemTypeEnum_eq_dec : EqDecision FlowOutputItemTypeEnum.t.
Proof. solve_decision. Defined.
#[export] Instance FlowValueTypeEnum_eq_dec : EqDecision FlowValueTypeEnum.t.
Proof. solve_decision. Defined.

(** The string keys of @/constants/app [SystemInputEnum], of
    [SpecialInputKeyEnum], [ContextExtractEnum] and [HttpPropsEnum], and of
    [TaskResponseKeyEnum] (src/client/src/constants/chat.ts). *)
Definition SystemInputEnum_welcomeText : string := "welcomeText".
Definition SystemInputEnum_variables : string := "variables".
Definition SystemInputEnum_switch : string := "switch".
Definition SystemInputEnum_history : string := "history".
Definition SystemInputEnum_userChatInput : string := "userChatInput".
Definition SpecialInputKeyEnum_answerText : string := "text".
Definition SpecialInputKeyEnum_agents : string := "agents".
Definition ContextExtractEnum_description : string := "description".
Definition ContextExtractEnum_content : string := "content".
Definition ContextExtractEnum_extractKeys : string := "extractKeys".
Definition ContextExtractEnum_success : string := "success".
Definition ContextExtractEnum_failed : string := "failed".
Definition ContextExtractEnum_fields : string := "fields".
Definition HttpPropsEnum_url : string := "url".
Definition HttpPropsEnum_finish : string := "finish".
Definition TaskResponseKeyEnum_answerText : string := "answerText".

(** A JSON value: what [value?: any] holds. *)
Inductive JsVal :=
  | JUndefined
  | JBool (b : bool)
  | JNum (q : Q)
  | JStr (s : string)
  | JArr (l : list JsVal)
  | JObj (fields : list (string * JsVal)).

(** JavaScript truthiness: [undefined], [false], [0] and [''] are falsy,
    arrays and objects are truthy. *)
Definition js_truthy (x : JsVal) : bool :=
  match x with
  | JUndefined => false
  | JBool b => b
  | JNum q => negb (Qeq_bool q 0)
  | JStr s => negb (String.eqb s "")
  | JArr _ | JObj _ => true
  end.

(** [x || d] *)
Definition js_or (x d : JsVal) : JsVal := if js_truthy x then x else d.

(** [x.length > 0] for a value that is an array or a string (any other
    value has no [length]: [undefined > 0] is [false]). *)
Definition js_length_pos (x : JsVal) : bool :=
  match x with
  | JArr l => Nat.ltb 0 (length l)
  | JStr s => Nat.ltb 0 (String.length s)
  | _ => false
  end.

(** [{label, value}] items of [list] and [markList]. *)
Record LabelValue := { lv_label : string; lv_value : JsVal }.

Definition LV (label : string) (value : JsVal) : LabelValue := {| lv_label := label; lv_value := value |}.

(** The characters a Rocq string literal cannot hold as they are: the
    double quote and the line feed of a JavaScript ['\n']. *)
Definition dq : string := String "034"%char EmptyString.
Definition lf : string := String "010"%char EmptyString.

(** [type] and [label] are required by the type but absent from the
    inputs the v4 migration (initv4.ts) writes: they are [option]s. *)
Record FlowInputItemType := {
  in_key : string;
  in_value : JsVal;
  in_valueType : option FlowValueTypeEnum.t;
  in_type : option FlowInputItemTypeEnum.t;
  in_label : option string;
  in_edit : option bool;
  in_connected : option bool;
  in_description : option string;
  in_placeholder : option string;
  in_max : option Q;
  in_min : option Q;
  in_step : option Q;
  in_required : option bool;
  in_list : option (list LabelValue);
  in_markList : option (list LabelValue)
}.

(** The optional properties of an input object literal. *)
Inductive InputProp :=
  | i_value (v : JsVal)
  | i_valueType (t : FlowValueTypeEnum.t)
  | i_edit (b : bool)
  | i_connected (b : bool)
  | i_description (s : string)
  | i_placeholder (s : string)
  | i_max (q : Q)
  | i_min (q : Q)
  | i_step (q : Q)
  | i_required (b : bool)
  | i_list (l : list LabelValue)
  | i_markList (l : list LabelValue).

Definition set_input_prop (i : FlowInputItemType) (p : InputProp) : FlowInputItemType :=
  let '{| in_key := k; in_value := v; in_valueType := vt; in_type := ty; in_label := lb; in_edit := ed;
          in_connected := c; in_description := ds; in_placeholder := ph; in_max := mx; in_min := mn;
          in_step := st; in_required := rq; in_list := ls; in_markList := ml |} := i in
  match p with
  | i_value v' => Build_FlowInputItemType k v' vt ty lb ed c ds ph mx mn st rq ls ml
  | i_valueType vt' => Build_FlowInputItemType k v (Some vt') ty lb ed c ds ph mx mn st rq ls ml
  | i_edit b => Build_FlowInputItemType k v vt ty lb (Some b) c ds ph mx mn st rq ls ml
  | i_connected b => Build_FlowInputItemType k v vt ty lb ed (Some b) ds ph mx mn st rq ls ml
  | i_description s => Build_FlowInputItemType k v vt ty lb ed c (Some s) ph mx mn st rq ls ml
  | i_placeholder s => Build_FlowInputItemType k v vt ty lb ed c ds (Some s) mx mn st rq ls ml
  | i_max q => Build_FlowInputItemType k v vt ty lb ed c ds ph (Some q) mn st rq ls ml
  | i_min q => Build_FlowInputItemType k v vt ty lb ed c ds ph mx (Some q) st rq ls ml
  | i_step q => Build_FlowInputItemType k v vt ty lb ed c ds ph mx mn (Some q) rq ls ml
  | i_required b => Build_FlowInputItemType k v vt ty lb ed c ds ph mx mn st (Some b) ls ml
  | i_list l => Build_FlowInputItemType k v vt ty lb ed c ds ph mx mn st rq (Some l) ml
  | i_markList l => Build_FlowInputItemType k v vt ty lb ed c ds ph mx mn st rq ls (Some l)
  end.

(** The object literal [{key, type, label, ...props}]. *)
Definition Input (key : string) (type : FlowInputItemTypeEnum.t) (label : string) (props : list InputProp)
    : FlowInputItemType :=
  fold_left set_input_prop props
    {| in_key := key; in_value := JUndefined; in_valueType := None; in_type := Some type; in_label := Some label;
       in_edit := None; in_connected := None; in_description := None; in_placeholder := None;
       in_max := None; in_min := None; in_step := None; in_required := None; in_list := None;
       in_markList := None |}.

Record FlowOutputTargetItemType := { t_moduleId : string; t_key : string }.

Record FlowOutputItemType := {
  out_key : string;
  out_label : option string;
  out_edit : option bool;
  out_description : option string;
  out_valueType : option FlowValueTypeEnum.t;
  out_type : option FlowOutputItemTypeEnum.t;
  out_targets : list FlowOutputTargetItemType
}.

Inductive OutputProp :=
  | o_label (s : string)
  | o_edit (b : bool)
  | o_description (s : string)
  | o_valueType (t : FlowValueTypeEnum.t)
  | o_type (t : FlowOutputItemTypeEnum.t).

Definition set_output_prop (o : FlowOutputItemType) (p : OutputProp) : FlowOutputItemType :=
  let '{| out_key := k; out_label := lb; out_edit := ed; out_description := ds; out_valueType := vt;
          out_type := ty; out_targets := ts |} := o in
  match p with
  | o_label s => Build_FlowOutputItemType k (Some s) ed ds vt ty ts
  | o_edit b => Build_FlowOutputItemType k lb (Some b) ds vt ty ts
  | o_description s => Build_FlowOutputItemType k lb ed (Some s) vt ty ts
  | o_valueType t => Build_FlowOutputItemType k lb ed ds (Some t) ty ts
  | o_type t => Build_FlowOutputItemType k lb ed ds vt (Some t) ts
  end.

(** The object literal [{key, ...props, targets}]. *)
Definition Output (key : string) (props : list OutputProp) (targets : list FlowOutputTargetItemType)
    : FlowOutputItemType :=
  fold_left set_output_prop props
    {| out_key := key; out_label := None; out_edit := None; out_description := None;
       out_valueType := None; out_type := None; out_targets := targets |}.

(** [{moduleId, key}]. *)
Definition Target (moduleId key : string) : FlowOutputTargetItemType := {| t_moduleId := moduleId; t_key := key |}.

Record FlowModuleTemplateType := {
  m_logo : string;
  m_name : string;
  m_description : option string;
  m_intro : string;
  m_flowType : FlowModuleTypeEnum.t;
  m_showStatus : option bool;
  m_inputs : list FlowInputItemType;
  m_outputs : list FlowOutputItemType
}.

(** [AppModuleItemType] of @/types/app: a module placed in an app ([name]
    is absent from the modules of the v4 migration). *)
Record AppModuleItemType := {
  am_moduleId : string;
  am_name : option string;
  am_flowType : FlowModuleTypeEnum.t;
  am_showStatus : option bool;
  am_position : option (Q * Q);
  am_inputs : list FlowInputItemType;
  am_outputs : list FlowOutputItemType
}.

Inductive ModuleProp := a_showStatus (b : bool) | a_position (x y : Q).

Definition set_module_prop (m : AppModuleItemType) (p : ModuleProp) : AppModuleItemType :=
  let '{| am_moduleId := id; am_name := n; am_flowType := ft; am_showStatus := ss; am_position := pos;
          am_inputs := ins; am_outputs := outs |} := m in
  match p with
  | a_showStatus b => Build_AppModuleItemType id n ft (Some b) pos ins outs
  | a_position x y => Build_AppModuleItemType id n ft ss (Some (x, y)) ins outs
  end.

Definition AppModule (moduleId name : string) (flowType : FlowModuleTypeEnum.t) (props : list ModuleProp)
    (inputs : list FlowInputItemType) (outputs : list FlowOutputItemType) : AppModuleItemType :=
  fold_left set_module_prop props
    {| am_moduleId := moduleId; am_name := Some name; am_flowType := flowType; am_showStatus := None;
       am_position := None; am_inputs := inputs; am_outputs := outputs |}.

(** The objects initv4.ts writes: an input [{key, value?, connected}]
    and a module [{flowType, inputs, outputs, position, moduleId}]. *)
Definition RawInput (key : string) (props : list InputProp) : FlowInputItemType :=
  fold_left set_input_prop props
    {| in_key := key; in_value := JUndefined; in_valueType := None; in_type := None; in_label := None;
       in_edit := None; in_connected := None; in_description := None; in_placeholder := None;
       in_max := None; in_min := None; in_step := None; in_required := None; in_list := None;
       in_markList := None |}.

Definition RawModule (moduleId : string) (flowType : FlowModuleTypeEnum.t) (x y : Q)
    (inputs : list FlowInputItemType) (outputs : list FlowOutputItemType) : AppModuleItemType :=
  {| am_moduleId := moduleId; am_name := None; am_flowType := flowType; am_showStatus := None;
     am_position := Some (x, y); am_inputs := inputs; am_outputs := outputs |}.

(** [AppItemType & {avatar, intro}]. *)
Record AppTemplate := {
  app_id : string;
  app_avatar : string;
  app_name : string;
  app_intro : string;
  app_modules : list AppModuleItemType
}.

(** ** Well-formedness of a module graph *)

Definition find_module (mods : list AppModuleItemType) (id : string) : option AppModuleItemType :=
  List.find (λ m, String.eqb (am_moduleId m) id) mods.

Definition find_input (ins : list FlowInputItemType) (key : string) : option FlowInputItemType :=
  List.find (λ i, String.eqb (in_key i) key) ins.

(** An edge [{moduleId, key}] is well formed when the module exists and has
    an input with that key. *)
Definition target_ok (mods : list AppModuleItemType) (t : FlowOutputTargetItemType) : bool :=
  match find_module mods (t_moduleId t) with
  | Some m => bool_decide (is_Some (find_input (am_inputs m) (t_key t)))
  | None => false
  end.

Definition graph_wf (mods : list AppModuleItemType) : bool :=
  forallb (λ m, forallb (λ o, forallb (target_ok mods) (out_targets o)) (am_outputs m)) mods.

(** Module ids are unique. *)
Definition ids_unique (mods : list AppModuleItemType) : bool :=
  bool_decide (NoDup (map am_moduleId mods)).

(** An edge's value types agree: the input takes [any], or both ports
    carry the same type; a port without a type accepts anything. *)
Definition value_compatible (o i : option FlowValueTypeEnum.t) : bool :=
  match o, i with
  | Some a, Some b => bool_decide (b = FlowValueTypeEnum.any) || bool_decide (a = b)
  | _, _ => true
  end.

Definition edges_typed (mods : list AppModuleItemType) : bool :=
  forallb (λ m, forallb (λ o, forallb (λ t,
    match find_module mods (t_moduleId t) with
    | Some m' => match find_input (am_inputs m') (t_key t) with
                 | Some i => value_compatible (out_valueType o) (in_valueType i)
                 | None => false
                 end
    | None => false
    end) (out_targets o)) (am_outputs m)) mods.

(** The edges of the graph, from module id to module id. *)
Definition edges (mods : list AppModuleItemType) : list (string * string) :=
  flat_map (λ m, flat_map (λ o, map (λ t, (am_moduleId m, t_moduleId t)) (out_targets o)) (am_outputs m)) mods.

Definition edge_rel (mods : list AppModuleItemType) (x y : string) : Prop := (x, y) ∈ edges mods.

Fixpoint index_of (x : string) (l : list string) : option nat :=
  match l with
  | [] => None
  | y :: l' => if String.eqb x y then Some 0%nat else S <$> index_of x l'
  end.

(** An edge goes forward in the order [ord]. *)
Definition forward (ord : list string) (e : string * string) : bool :=
  match index_of e.1 ord, index_of e.2 ord with
  | Some i, Some j => Nat.ltb i j
  | _, _ => false
  end.

(** Kahn's algorithm: the modules no remaining module points to come first.
    Each round removes at least one module, so [length mods] rounds are
    enough; a round with no source means a cycle. *)
Definition has_incoming (rest : list AppModuleItemType) (id : string) : bool :=
  existsb (λ e, String.eqb e.2 id) (edges rest).

Fixpoint topo_order (fuel : nat) (rest : list AppModuleItemType) : option (list string) :=
  match rest with
  | [] => Some []
  | _ =>
      match fuel with
      | O => None
      | S f =>
          match filter (λ m, negb (has_incoming rest (am_moduleId m))) rest with
          | [] => None
          | srcs => app (map am_moduleId srcs) <$> topo_order f (filter (λ m, has_incoming rest (am_moduleId m)) rest)
          end
      end
  end.

Definition topo_sorted (mods : list AppModuleItemType) : bool :=
  match topo_order (length mods) mods with
  | Some ord => forallb (forward ord) (edges mods)
  | None => false
  end.

(** The field [k] of a JSON object. *)
Definition js_field (k : string) (fs : list (string * JsVal)) : JsVal :=
  match List.find (λ f, String.eqb f.1 k) fs with Some (_, v) => v | None => JUndefined end.

(** The [key]s of the agents a classification module holds in its
    [agents] input, in order. *)
Definition agent_keys (ins : list FlowInputItemType) : list string :=
  match find_input ins SpecialInputKeyEnum_agents with
  | Some i =>
      match in_value i with
      | JArr l => flat_map (λ v, match v with JObj fs => match js_field "key" fs with JStr k => [k] | _ => [] end
                                             | _ => [] end) l
      | _ => []
      end
  | None => []
  end.

(** Input and output keys of a template are unique, so a lookup by key
    ([find_input], the executor's [inputs.find]) sees the only port. *)
Definition ports_unique (ins : list FlowInputItemType) (outs : list FlowOutputItemType) : bool :=
  bool_decide (NoDup (map in_key ins)) && bool_decide (NoDup (map out_key outs)).

(** The checks of a module graph together. *)
Definition graph_valid (mods : list AppModuleItemType) : bool :=
  graph_wf mods && ids_unique mods && edges_typed mods && topo_sorted mods.

(** ** Lemmas *)

Lemma forward_tc ord mods x y :
  forallb (forward ord) (edges mods) = true -> tc (edge_rel mods) x y ->
  ∃ i j, index_of x ord = Some i ∧ index_of y ord = Some j ∧ (i < j)%nat.
Proof.
  intros Hf Htc. rewrite forallb_forall in Hf.
  assert (Hedge : ∀ a b, edge_rel mods a b ->
            ∃ i j, index_of a ord = Some i ∧ index_of b ord = Some j ∧ (i < j)%nat).
  { intros a b Hab. apply list_elem_of_In, Hf in Hab. unfold forward in Hab. simpl in Hab.
    destruct (index_of a ord) as [i|], (index_of b ord) as [j|]; try done.
    apply Nat.ltb_lt in Hab. eauto. }
  induction Htc as [a b Hab|a b c Hab _ IH]; [by apply Hedge|].
  destruct (Hedge a b Hab) as (i & j & Hi & Hj & Hij), IH as (j' & k & Hj' & Hk & Hjk).
  simplify_eq. eauto with lia.
Qed.

(** A graph [topo_sorted] accepts has no cycle. *)
Lemma topo_sorted_acyclic mods : topo_sorted mods = true -> ∀ x, ¬ tc (edge_rel mods) x x.
Proof.
  unfold topo_sorted. destruct (topo_order _ _) as [ord|]; [|done].
  intros Hf x Hx. destruct (forward_tc ord mods x x Hf Hx) as (i & j & Hi & Hj & Hij). simplify_eq. lia.
Qed.

Lemma graph_valid_spec mods :
  graph_valid mods = true ->
  graph_wf mods = true ∧ ids_unique mods = true ∧ edges_typed mods = true ∧
  ∀ x, ¬ tc (edge_rel mods) x x.
Proof.
  unfold graph_valid. rewrite !andb_true_iff. intros [[[? ?] ?] Ht].
  split_and!; [done..|]. by apply topo_sorted_acyclic.
Qed.

End FlowTypes.
