(* ===== verification/ClientRequest.v ===== *)
(** * ClientRequest: the request helper of api/request.ts

    Every client wrapper of src/client/src/api ([GET], [POST], [PUT],
    [DELETE]) goes through [request]: it deletes the [null] and
    [undefined] fields of the data, sends them as the body of a [POST] or
    [PUT] and as the query of the other methods, with the stored token as
    a header ([requestStart]), then [.then((res) => checkRes(res.data))]
    and [.catch((err) => responseError(err))].  [checkRes] rejects a body
    whose [code] is outside [200, 400) with the body itself, and an absent
    body with the string ['Server exception']; the rejection goes on to
    [responseError], which logs the user out ([clearToken] and a redirect
    to the login page carrying the current route) when [err.code] is a key
    of [TOKEN_ERROR_CODE], and otherwise rejects with a message, with the
    body of the failed response, or with the error itself.

    The network is an input: for the request it is given, [answer] says
    what axios reports, a response body (axios resolves for a 2xx status)
    or an [AxiosError] with axios's own string [code] and the body of the
    failed response.  A body is [ResponseDataType] with a numeric or
    absent [code]; a field that is [null] or [undefined] is [JUndefined].
    The client state is the stored token, the route shown, the page the
    browser was sent to and the number of [loginOut] requests sent. *)

From Stdlib Require Import Ascii ZArith QArith.
From stdpp Require Import base list strings.
From S2P Require Import Prelude FlowTypes Runtime QueryString.

Module ClientRequest.
Import FlowTypes Runtime QueryString.

(** axios's [Method], the four the wrappers use. *)
Inductive Method := M_GET | M_POST | M_PUT | M_DELETE.

(** [ResponseDataType] (lines 16-20). *)
Record ResponseData := { rd_code : option Q; rd_message : JsVal; rd_data : JsVal }.

(** What axios reports for a request. *)
Inductive AxiosResult :=
  | AxResponse (body : option ResponseData)
  | AxError (code : option string) (response_data : option JsVal).

(** The values a rejection carries into [responseError]. *)
Inductive Thrown :=
  | ThrownString (s : string)
  | ThrownBody (b : ResponseData)
  | ThrownAxios (code : option string) (response_data : option JsVal).

(** What the promise [request] returns rejects with. *)
Inductive Rejection :=
  | RMessage (message : string)
  | RBody (b : ResponseData)
  | RResponseData (v : JsVal)
  | RAxios (code : option string) (response_data : option JsVal).

Inductive RequestOutcome := Resolved (v : JsVal) | Rejected (r : Rejection).

Record Client := {
  token : option text;           (* localStorage [token] *)
  route : text;                  (* [location.pathname + location.search] *)
  redirected : option text;      (* the argument of [window.location.replace] *)
  loginOuts : nat                (* the [loginOut()] requests [clearToken] sent *)
}.

(** The request axios sends. *)
Record AxiosRequest := {
  rq_baseURL : string; rq_url : string; rq_method : Method;
  rq_data : option (list (string * JsVal)); rq_params : option (list (string * JsVal));
  rq_token : text
}.

(** [getToken] of utils/user.ts (lines 18-20): the stored token, or ['']. *)
Definition getToken (C : Client) : text := default [] (token C).

(** [clearToken] (utils/user.ts lines 5-12): [loginOut()], then the token
    removed. *)
Definition clearToken (C : Client) : Client :=
  {| token := None; route := route C; redirected := redirected C; loginOuts := S (loginOuts C) |}.

(** The page [responseError] sends the user to (lines 67-69). *)
Definition login_redirect (r : text) : text := ⟦"/login?lastRoute="⟧ ++ encodeURIComponent r.

Definition relocate (C : Client) (url : text) : Client :=
  {| token := token C; route := route C; redirected := Some url; loginOuts := loginOuts C |}.

Definition is_nullish (v : JsVal) : bool := match v with JUndefined => true | _ => false end.

(** [remove empty] (lines 92-97); [null] and [undefined] alike. *)
Definition remove_empty (data : list (string * JsVal)) : list (string * JsVal) :=
  filter (λ kv, is_nullish kv.2 = false) data.

Definition has_body (m : Method) : bool := match m with M_POST | M_PUT => true | _ => false end.

(** The request [request] builds (lines 99-107), with the header
    [requestStart] sets (lines 25-31). *)
Definition request_config (C : Client) (url : string) (data : list (string * JsVal)) (m : Method) : AxiosRequest :=
  {| rq_baseURL := "/api"; rq_url := url; rq_method := m;
     rq_data := if has_body m then Some (remove_empty data) else None;
     rq_params := if has_body m then None else Some (remove_empty data);
     rq_token := getToken C |}.

(** [checkRes] (lines 42-50): the [<] and [>=] of an absent [code]
    ([undefined], [NaN]) are false. *)
Definition checkRes (data : option ResponseData) : Thrown + JsVal :=
  match data with
  | None => inl (ThrownString "Server exception")
  | Some b =>
      match rd_code b with
      | Some c => if negb (Qle_bool 200 c) || Qle_bool 400 c then inl (ThrownBody b) else inr (rd_data b)
      | None => inr (rd_data b)
      end
  end.

(** [err?.code in TOKEN_ERROR_CODE]: the property key of a number is its
    decimal form, so a numeric code is a key when it is an integer of the
    table; a string code when it is the decimal form of one or a key the
    object inherits. *)
Definition num_in_token_table (c : Q) : bool :=
  let c' := Qred c in bool_decide (Qden c' = 1%positive) && bool_decide (TOKEN_ERROR_CODE (Qnum c') ≠ None).

(** The keys [in] also finds on the object literal [TOKEN_ERROR_CODE]
    through its prototype, [Object.prototype]. *)
Definition object_prototype_keys : list string :=
  ["constructor"; "__proto__"; "toString"; "toLocaleString"; "valueOf"; "hasOwnProperty";
   "isPrototypeOf"; "propertyIsEnumerable"; "__defineGetter__"; "__defineSetter__";
   "__lookupGetter__"; "__lookupSetter__"].

Definition str_in_token_table (s : string) : bool := bool_decide (s = "403" ∨ s ∈ object_prototype_keys).

(** [responseError] (lines 55-76). *)
Definition responseError (C : Client) (err : Thrown) : Client * Rejection :=
  let logout := (relocate (clearToken C) (login_redirect (route C)), RMessage "token expired, log in again") in
  match err with
  | ThrownString s => (C, RMessage (if bool_decide (s = "") then "Unknown error" else s))
  | ThrownBody b =>
      if match rd_code b with Some c => num_in_token_table c | None => false end then logout else (C, RBody b)
  | ThrownAxios code rd =>
      if match code with Some s => str_in_token_table s | None => false end then logout
      else match rd with
           | Some v => if js_truthy v then (C, RResponseData v) else (C, RAxios code rd)
           | None => (C, RAxios code rd)
           end
  end.

(** [request] (lines 91-110). *)
Definition request (answer : AxiosRequest -> AxiosResult) (C : Client) (url : string)
    (data : list (string * JsVal)) (m : Method) : Client * RequestOutcome :=
  let thrown := match answer (request_config C url data m) with
                | AxResponse body => checkRes body
                | AxError code rd => inl (ThrownAxios code rd)
                end in
  match thrown with
  | inr v => (C, Resolved v)
  | inl err => let '(C', r) := responseError C err in (C', Rejected r)
  end.

(** The exported methods (lines 119-133). *)
Definition GET answer C url params := request answer C url params M_GET.
Definition POST answer C url data := request answer C url data M_POST.
Definition PUT answer C url data := request answer C url data M_PUT.
Definition DELETE answer C url data := request answer C url data M_DELETE.

(** The answers that end a session: a body whose [code] is in the token
    table. *)
Definition session_expired (a : AxiosResult) : bool :=
  match a with
  | AxResponse (Some b) => match rd_code b with Some c => num_in_token_table c | None => false end
  | AxError (Some s) _ => str_in_token_table s
  | _ => false
  end.

(** ** Samples *)

Definition sample_client : Client :=
  {| token := Some ⟦"t0k"⟧; route := ⟦"/app/detail?appId=64a 1"⟧; redirected := None; loginOuts := 0 |}.

Definition expired_body : ResponseData := {| rd_code := Some 403%Q; rd_message := JStr "Credential error"; rd_data := JUndefined |}.

(** ** Lemmas *)

Lemma num_in_token_table_spec c : num_in_token_table c = true <-> (c == 403)%Q.
Proof.
  unfold num_in_token_table, TOKEN_ERROR_CODE. rewrite andb_true_iff, !bool_decide_eq_true.
  split.
  - intros [Hd Hn]. destruct (Z.eqb_spec (Qnum (Qred c)) 403) as [Hq|]; [|done].
    rewrite <- (Qred_correct c). unfold Qeq. rewrite Hd, Hq. reflexivity.
  - intros Hc. apply Qred_complete in Hc. rewrite Hc. split; [reflexivity|]. simpl. discriminate.
Qed.

(** The codes [checkRes] accepts. *)
Definition code_ok (b : ResponseData) : Prop :=
  match rd_code b with Some c => (200 <= c)%Q ∧ (c < 400)%Q | None => True end.

Lemma checkRes_inr data v : checkRes data = inr v <-> ∃ b, data = Some b ∧ code_ok b ∧ v = rd_data b.
Proof.
  unfold checkRes, code_ok. split.
  - destruct data as [b|]; [|done]. exists b. destruct (rd_code b) as [c|]; [|naive_solver].
    destruct (Qle_bool 200 c) eqn:H1, (Qle_bool 400 c) eqn:H2; cbn in *; simplify_eq.
    apply Qle_bool_iff in H1. apply not_true_iff_false in H2. rewrite Qle_bool_iff in H2.
    repeat split; try done. by apply Qnot_le_lt.
  - intros (b & -> & Hok & ->). destruct (rd_code b) as [c|]; [|done]. destruct Hok as [H1 H2].
    apply Qle_bool_iff in H1. rewrite H1. replace (Qle_bool 400 c) with false; [done|].
    symmetry. apply not_true_iff_false. rewrite Qle_bool_iff. by apply Qlt_not_le.
Qed.

Lemma token_code_rejected c : num_in_token_table c = true -> negb (Qle_bool 200 c) || Qle_bool 400 c = true.
Proof.
  intros Hc%num_in_token_table_spec. replace (Qle_bool 400 c) with true; [apply orb_true_r|].
  symmetry. apply Qle_bool_iff. rewrite Hc. discriminate.
Qed.

(** The state after a logout: no token, one more [loginOut], the login
    page with the route the user was on. *)
Definition logged_out (C : Client) : Client := relocate (clearToken C) (login_redirect (route C)).

(** ** Properties *)

(** C40: a request resolves exactly when axios hands back a body whose
    [code] is absent or in [200, 400), and then with the body's [data]
    and the client unchanged; [responseError] never turns a rejection
    into a value. *)
Theorem request_resolves_iff answer C url data m v :
  (request answer C url data m).2 = Resolved v <->
  ∃ b, answer (request_config C url data m) = AxResponse (Some b) ∧ code_ok b ∧ v = rd_data b.
Proof.
  unfold request. destruct (answer _) as [body|code rd]; simpl.
  - destruct (checkRes body) as [err|w] eqn:E; simpl.
    + destruct (responseError C err). split; [done|]. intros (b & [= ->] & Hb & ->).
      assert (checkRes (Some b) = inr (rd_data b)) by (apply checkRes_inr; eauto). congruence.
    + split.
      * intros [= <-]. apply checkRes_inr in E as (b & -> & Hb & ->). eauto.
      * intros (b & [= ->] & Hb & ->).
        assert (checkRes (Some b) = inr (rd_data b)) by (apply checkRes_inr; eauto). congruence.
  - split; [|by intros (b & ? & _)]. by repeat case_match.
Qed.

(** C24: a request logs the user out exactly when the answer carries a
    code of [TOKEN_ERROR_CODE] in [err.code]: a body with [code] 403, or
    an [AxiosError] whose own [code] is ['403']; the promise then rejects
    with ['token expired, log in again'].  Every other answer leaves the
    client as it was. *)
Theorem request_logout answer C url data m :
  let '(C', r) := request answer C url data m in
  if session_expired (answer (request_config C url data m))
  then C' = logged_out C ∧ r = Rejected (RMessage "token expired, log in again")
  else C' = C.
Proof.
  unfold request. destruct (answer _) as [[b|]|[s|] rd]; simpl.
  - unfold checkRes. destruct (rd_code b) as [c|] eqn:Hc; [|done].
    destruct (num_in_token_table c) eqn:Ht.
    + rewrite token_code_rejected by done. simpl. by rewrite Hc, Ht.
    + destruct (_ || _); simpl; [by rewrite Hc, Ht|done].
  - done.
  - destruct (str_in_token_table s); simpl; [done|]. destruct rd as [v|]; [destruct (js_truthy v)|]; done.
  - destruct rd as [v|]; [destruct (js_truthy v)|]; done.
Qed.

(** C32: the login page the logout sends the user to carries the route
    they were on: [parseQueryString] reads its [lastRoute] back as that
    route, spaces and [&], [=], [?] included. *)
Theorem logout_keeps_route (r : text) :
  utf8_valid r = true -> parseQueryString (login_redirect r) = Some [(⟦"lastRoute"⟧, QStr r)].
Proof.
  intros Hr. unfold parseQueryString, login_redirect.
  assert (Hq : "?"%char ∉ ⟦"lastRoute="⟧ ++ encodeURIComponent r).
  { intros [Hx|Hx]%elem_of_app; [by repeat (apply elem_of_cons in Hx as [Hx|Hx]; [done|]); apply elem_of_nil in Hx|].
    revert Hx. by apply not_in_encodeURIComponent. }
  change (⟦"/login?lastRoute="⟧ ++ encodeURIComponent r) with (⟦"/login"⟧ ++ "?"%char :: (⟦"lastRoute="⟧ ++ encodeURIComponent r)).
  rewrite split_on_sep by (by repeat (apply not_elem_of_cons; split; [done|]); apply not_elem_of_nil).
  rewrite (split_on_none "?"%char _ Hq). cbn [js_truthy_text app hd].
  rewrite (split_on_none "&"%char).
  2: { intros [Hx|Hx]%elem_of_app; [by repeat (apply elem_of_cons in Hx as [Hx|Hx]; [done|]); apply elem_of_nil in Hx|].
       revert Hx. by apply not_in_encodeURIComponent. }
  cbn [parse_pairs]. unfold parse_pair.
  change (⟦"lastRoute="⟧ ++ encodeURIComponent r) with (⟦"lastRoute"⟧ ++ "="%char :: encodeURIComponent r).
  replace (js_truthy_text (⟦"lastRoute"⟧ ++ "="%char :: encodeURIComponent r)) with true by reflexivity.
  rewrite split_on_sep by (by repeat (apply not_elem_of_cons; split; [done|]); apply not_elem_of_nil).
  rewrite (split_on_none "="%char). 2: { by apply not_in_encodeURIComponent. }
  cbn [hd]. rewrite decode_encodeURIComponent by done. reflexivity.
Qed.

(** an expired session answered with an HTTP error status does not
    log the user out: axios puts its own code (['ERR_BAD_REQUEST']) in
    [err.code], and the request rejects with the response's body. *)
Example http_403_keeps_session :
  GET (λ _, AxError (Some "ERR_BAD_REQUEST") (Some (JObj [("code", JNum 403)]))) sample_client "/app/myApps" [] =
  (sample_client, Rejected (RResponseData (JObj [("code", JNum 403)]))).
Proof. reflexivity. Qed.

Lemma logout_keeps_route_witness :
  parseQueryString (login_redirect (route sample_client)) = Some [(⟦"lastRoute"⟧, QStr (route sample_client))].
Proof. apply logout_keeps_route. reflexivity. Defined.

End ClientRequest.
