(* ===== verification/ModuleTemplates.v ===== *)
(** * ModuleTemplates: the module templates of the flow editor

    The [FlowModuleTemplateType] constants of
    src/client/src/constants/flow/ModuleTemplate.ts (lines 20-529): the
    tips, one definition per module template ([VariableModule] ...
    [EmptyModule]), and the grouped list [ModuleTemplates] with its flat
    form.  [ChatModule] reads the configured chat models
    ([chatModelList] of @/store/static, outside src/), so it and the lists
    that contain it are defined in a Section over that list.  The three
    [Input_Template_*] inputs come from ./inputTemplate, which is not under
    src/; they are modelled from the form in which the templates of
    [appTemplates] show them.  The theorems check the templates against the
    keys the executor and the editor look up. *)

From Stdlib Require Import Ascii ZArith QArith.
From stdpp Require Import base list strings pretty.
From S2P Require Import Prelude FlowTypes.

Module ModuleTemplates.
Import FlowTypes.
Local Open Scope Q_scope.

Definition ChatModelSystemTip : string :=
  "Model fixed guide word, by adjusting the content, you can guide the model chat direction. The content will be pinned to the beginning of the context. Variables can be used, e.g. {{language}}".

Definition ChatModelLimitTip : string :=
  ("Limit the scope of the model dialogue, which will be placed before this question, with strong guidance and limitations. Variables can be used, such as {{language}}. Guidance example:" +:+ lf +:+ "1. The knowledge base is an introduction about Laf. Please refer to the knowledge base to answer questions. If it has nothing to do with " +:+ dq +:+ "Laf" +:+ dq +:+ ", reply directly: " +:+ dq +:+ "I dont know" +:+ dq +:+ ". " +:+ lf +:+ "2. You only answer questions about " +:+ dq +:+ "xxx" +:+ dq +:+ ". For other questions, reply: " +:+ dq +:+ "xxxx" +:+ dq).

Definition userGuideTip : string :=
  "You can add special pre- and post-dialogue guidance modules to better allow users to engage in dialogue".

Definition welcomeTextTip : string :=
  ("Before each conversation starts, send an initial content. Supports standard Markdown syntax, additional tags that can be used:" +:+ lf +:+ "[Shortcut keys]: users can click to directly send the question").


(** [Input_Template_TFSwitch], [Input_Template_History] and
    [Input_Template_UserChatInput] of ./inputTemplate. *)
Definition Input_Template_TFSwitch : FlowInputItemType :=
  Input SystemInputEnum_switch FlowInputItemTypeEnum.target "trigger" [i_valueType FlowValueTypeEnum.any].

Definition Input_Template_History : FlowInputItemType :=
  Input SystemInputEnum_history FlowInputItemTypeEnum.target "Chat records" [i_valueType FlowValueTypeEnum.chatHistory].

Definition Input_Template_UserChatInput : FlowInputItemType :=
  Input SystemInputEnum_userChatInput FlowInputItemTypeEnum.target "User Question"
    [i_required true; i_valueType FlowValueTypeEnum.string].

(** An entry of [chatModelList]: the fields the templates read. *)
Record ChatModelItem := { cm_model : string; cm_name : string; cm_contextMaxToken : Z }.

Definition VariableModule : FlowModuleTemplateType :=
  {| m_logo := "/imgs/module/variable.png";
     m_name := "global variable";
     m_description := Some "Global variables can be injected into the string type input of other modules in the form of {{variable key}}, such as prompt words, qualifiers, etc.";
     m_intro := "Before the conversation starts, the user can be asked to fill in some content as variables for this round of conversation. This module is located after the opening guide. ";
     m_flowType := FlowModuleTypeEnum.variable;
     m_showStatus := None;
     m_inputs :=
    [Input SystemInputEnum_variables FlowInputItemTypeEnum.systemInput "Variable input"
       [i_value (JArr [])]];
     m_outputs :=
    [] |}.

Definition UserGuideModule : FlowModuleTemplateType :=
  {| m_logo := "/imgs/module/userGuide.png";
     m_name := "User Guide";
     m_description := None;
     m_intro := userGuideTip;
     m_flowType := FlowModuleTypeEnum.userGuide;
     m_showStatus := None;
     m_inputs :=
    [Input SystemInputEnum_welcomeText FlowInputItemTypeEnum.input "opening"
       []];
     m_outputs :=
    [] |}.

Definition UserInputModule : FlowModuleTemplateType :=
  {| m_logo := "/imgs/module/userChatInput.png";
     m_name := "User question (dialogue entry)";
     m_description := None;
     m_intro := "The content entered by the user. This module usually serves as the entry point of the application. Users will first execute this module after sending a message. ";
     m_flowType := FlowModuleTypeEnum.questionInput;
     m_showStatus := None;
     m_inputs :=
    [Input SystemInputEnum_userChatInput FlowInputItemTypeEnum.systemInput "User question"
       []];
     m_outputs :=
    [Output SystemInputEnum_userChatInput
       [o_label "User question";
        o_type FlowOutputItemTypeEnum.source;
        o_valueType FlowValueTypeEnum.string]
       []] |}.

Definition HistoryModule : FlowModuleTemplateType :=
  {| m_logo := "/imgs/module/history.png";
     m_name := "Chat history";
     m_description := None;
     m_intro := "The content entered by the user. This module usually serves as the entry point of the application. Users will first execute this module after sending a message. ";
     m_flowType := FlowModuleTypeEnum.historyNode;
     m_showStatus := None;
     m_inputs :=
    [Input "maxContext" FlowInputItemTypeEnum.numberInput "The longest record number"
       [i_value (JNum 6);
        i_min 0;
        i_max 50];
     Input SystemInputEnum_history FlowInputItemTypeEnum.hidden "Chat history"
       []];
     m_outputs :=
    [Output SystemInputEnum_history
       [o_label "Chat history";
        o_valueType FlowValueTypeEnum.chatHistory;
        o_type FlowOutputItemTypeEnum.source]
       []] |}.

Definition KBSearchModule : FlowModuleTemplateType :=
  {| m_logo := "/imgs/module/db.png";
     m_name := "Knowledge Base Search";
     m_description := None;
     m_intro := "Search for the corresponding answer in the knowledge base. Can be used as a reference for AI conversation quotes. ";
     m_flowType := FlowModuleTypeEnum.kbSearchNode;
     m_showStatus := Some true;
     m_inputs :=
    [Input "kbList" FlowInputItemTypeEnum.custom "Associated knowledge base"
       [i_value (JArr []);
        i_list []];
     Input "similarity" FlowInputItemTypeEnum.slider "similarity"
       [i_value (JNum 0.4);
        i_min 0;
        i_max 1;
        i_step 0.01;
        i_markList [LV "100" (JNum 100); LV "1" (JNum 1)]];
     Input "limit" FlowInputItemTypeEnum.slider "Single search limit"
       [i_description "Take up to n records as references for this question";
        i_value (JNum 5);
        i_min 1;
        i_max 20;
        i_step 1;
        i_markList [LV "1" (JNum 1); LV "20" (JNum 20)]];
     Input_Template_TFSwitch;
     Input_Template_UserChatInput];
     m_outputs :=
    [Output "isEmpty"
       [o_label "Search results are empty";
        o_type FlowOutputItemTypeEnum.source;
        o_valueType FlowValueTypeEnum.boolean]
       [];
     Output "unEmpty"
       [o_label "Search results are not empty";
        o_type FlowOutputItemTypeEnum.source;
        o_valueType FlowValueTypeEnum.boolean]
       [];
     Output "quoteQA"
       [o_label "reference content";
        o_description "Always return an array. If you want to perform additional operations when the search result is empty, you need to use the above two inputs and the trigger of the target module";
        o_type FlowOutputItemTypeEnum.source;
        o_valueType FlowValueTypeEnum.kbQuote]
       []] |}.

Definition AnswerModule : FlowModuleTemplateType :=
  {| m_logo := "/imgs/module/reply.png";
     m_name := "specified reply";
     m_description := Some "This module can directly reply to a specified piece of content. Often used for guidance and prompts";
     m_intro := "This module can directly reply to a specified piece of content. Often used for guidance and prompts";
     m_flowType := FlowModuleTypeEnum.answerNode;
     m_showStatus := None;
     m_inputs :=
    [Input_Template_TFSwitch;
     Input SpecialInputKeyEnum_answerText FlowInputItemTypeEnum.textarea "reply content"
       [i_valueType FlowValueTypeEnum.string;
        i_value (JStr "");
        i_description "You can use \n to achieve line breaks. Replies can also be implemented through external module input. When the external module is input, the currently filled content will be overwritten"]];
     m_outputs :=
    [Output "finish"
       [o_label "End of reply";
        o_description "Triggered after reply is completed";
        o_valueType FlowValueTypeEnum.boolean;
        o_type FlowOutputItemTypeEnum.source]
       []] |}.

Definition TFSwitchModule : FlowModuleTemplateType :=
  {| m_logo := "";
     m_name := "TF switch";
     m_description := None;
     m_intro := "You can determine whether the input content is True or False, and perform different operations. ";
     m_flowType := FlowModuleTypeEnum.tfSwitchNode;
     m_showStatus := None;
     m_inputs :=
    [Input SystemInputEnum_switch FlowInputItemTypeEnum.target "input"
       []];
     m_outputs :=
    [Output "true"
       [o_label "True";
        o_type FlowOutputItemTypeEnum.source]
       [];
     Output "false"
       [o_label "False";
        o_type FlowOutputItemTypeEnum.source]
       []] |}.

Definition ClassifyQuestionModule : FlowModuleTemplateType :=
  {| m_logo := "/imgs/module/cq.png";
     m_name := "Problem Classification";
     m_description := Some ("Determine the type of question based on the users history and current questions. Multiple groups of question types can be added. The following is a template example:" +:+ lf +:+ "Type 1: Say hello" +:+ lf +:+ "Type 2: General questions about laf" +:+ lf +:+ "Type 3: About laf code questions" +:+ lf +:+ "Type 4: Other questions");
     m_intro := "You can determine which aspect the users problem belongs to and perform different operations. ";
     m_flowType := FlowModuleTypeEnum.classifyQuestion;
     m_showStatus := Some true;
     m_inputs :=
    [Input "systemPrompt" FlowInputItemTypeEnum.textarea "System prompt word"
       [i_valueType FlowValueTypeEnum.string;
        i_value (JStr "");
        i_description "You can add some specific content introduction to better identify the users question type. This content usually introduces a content to the model that it does not know. ";
        i_placeholder ("For example: " +:+ lf +:+ "1. Laf is a cloud function development platform..." +:+ lf +:+ "2. Sealos is a cluster operating system")];
     Input_Template_History;
     Input_Template_UserChatInput;
     Input SpecialInputKeyEnum_agents FlowInputItemTypeEnum.custom ""
       [i_value (JArr [(JObj [("value", (JStr "Say hello")); ("key", (JStr "fasw"))]); (JObj [("value", (JStr "Questions about xxx")); ("key", (JStr "fqsw"))]); (JObj [("value", (JStr "Other questions")); ("key", (JStr "fesw"))])])]];
     m_outputs :=
    [Output "fasw"
       [o_label "";
        o_type FlowOutputItemTypeEnum.hidden]
       [];
     Output "fqsw"
       [o_label "";
        o_type FlowOutputItemTypeEnum.hidden]
       [];
     Output "fesw"
       [o_label "";
        o_type FlowOutputItemTypeEnum.hidden]
       []] |}.

Definition ContextExtractModule : FlowModuleTemplateType :=
  {| m_logo := "/imgs/module/extract.png";
     m_name := "Text content extraction";
     m_description := Some "The specified data can be extracted from the text, such as: sql statement, search keyword, code, etc.";
     m_intro := "Extract the data in the specified format from the text";
     m_flowType := FlowModuleTypeEnum.contentExtract;
     m_showStatus := Some true;
     m_inputs :=
    [Input_Template_TFSwitch;
     Input ContextExtractEnum_description FlowInputItemTypeEnum.textarea "Extract request description"
       [i_valueType FlowValueTypeEnum.string;
        i_value (JStr "");
        i_description "Write an extraction request to tell AI what content needs to be extracted";
        i_required true;
        i_placeholder ("Example: " +:+ lf +:+ "1. You are a lab appointment assistant. According to the users question, extract the name, laboratory number and appointment time")];
     Input_Template_History;
     Input ContextExtractEnum_content FlowInputItemTypeEnum.target "text to be extracted"
       [i_required true;
        i_valueType FlowValueTypeEnum.string];
     Input ContextExtractEnum_extractKeys FlowInputItemTypeEnum.custom "target field"
       [i_description "A target field is composed of 'description' and 'key', and multiple target fields can be extracted";
        i_value (JArr [])]];
     m_outputs :=
    [Output ContextExtractEnum_success
       [o_label "field complete extraction";
        o_valueType FlowValueTypeEnum.boolean;
        o_type FlowOutputItemTypeEnum.source]
       [];
     Output ContextExtractEnum_failed
       [o_label "The extraction field is missing";
        o_valueType FlowValueTypeEnum.boolean;
        o_type FlowOutputItemTypeEnum.source]
       [];
     Output ContextExtractEnum_fields
       [o_label "Complete extraction results";
        o_description ("A JSON string, for example: {" +:+ dq +:+ "name:" +:+ dq +:+ ":" +:+ dq +:+ "YY" +:+ dq +:+ "," +:+ dq +:+ "Time" +:+ dq +:+ ":" +:+ dq +:+ "2023/7/2 18:00" +:+ dq +:+ "}");
        o_valueType FlowValueTypeEnum.string;
        o_type FlowOutputItemTypeEnum.source]
       []] |}.

Definition HttpModule : FlowModuleTemplateType :=
  {| m_logo := "/imgs/module/http.png";
     m_name := "HTTP module";
     m_description := Some "A HTTP POST request can be issued to achieve more complex operations (network search, database query, etc.)";
     m_intro := "An HTTP POST request can be issued to achieve more complex operations (network search, database query, etc.)";
     m_flowType := FlowModuleTypeEnum.httpRequest;
     m_showStatus := Some true;
     m_inputs :=
    [Input HttpPropsEnum_url FlowInputItemTypeEnum.input "request address"
       [i_value (JStr "");
        i_description "Request target address";
        i_placeholder "https://api.fastgpt.run/getInventory";
        i_required true];
     Input_Template_TFSwitch];
     m_outputs :=
    [Output HttpPropsEnum_finish
       [o_label "Request end";
        o_valueType FlowValueTypeEnum.boolean;
        o_type FlowOutputItemTypeEnum.source]
       []] |}.

Definition EmptyModule : FlowModuleTemplateType :=
  {| m_logo := "/imgs/module/cq.png";
     m_name := "The module has been removed";
     m_description := Some "";
     m_intro := "";
     m_flowType := FlowModuleTypeEnum.empty;
     m_showStatus := None;
     m_inputs :=
    [];
     m_outputs :=
    [] |}.

Section WithChatModels.
Variable chatModelList : list ChatModelItem.

(** [chatModelList[0]?.contextMaxToken || 4000] *)
Definition maxTokenCeiling : Z :=
  match head chatModelList with
  | Some m => if Z.eqb (cm_contextMaxToken m) 0 then 4000 else cm_contextMaxToken m
  | None => 4000
  end.

Definition ChatModule : FlowModuleTemplateType :=
  {| m_logo := "/imgs/module/AI.png";
     m_name := "AI dialogue";
     m_description := None;
     m_intro := "AI large model dialogue";
     m_flowType := FlowModuleTypeEnum.chatNode;
     m_showStatus := Some true;
     m_inputs :=
    [Input "model" FlowInputItemTypeEnum.custom "dialogue model"
       [i_value (match head chatModelList with Some m => JStr (cm_model m) | None => JUndefined end);
        i_list (map (λ item, LV (cm_name item) (JStr (cm_model item))) chatModelList)];
     Input "temperature" FlowInputItemTypeEnum.slider "temperature"
       [i_value (JNum 0); i_min 0; i_max 10; i_step 1;
        i_markList [LV "rigorous" (JNum 0); LV "divergent" (JNum 10)]];
     Input "maxToken" FlowInputItemTypeEnum.custom "reply upper limit"
       [i_value (match head chatModelList with
                 | Some m => JNum (inject_Z (cm_contextMaxToken m) / 2)
                 | None => JNum 2000
                 end);
        i_min 100; i_max (inject_Z maxTokenCeiling); i_step 50;
        i_markList [LV "100" (JNum 100); LV (pretty maxTokenCeiling) (JNum (inject_Z maxTokenCeiling))]];
     Input "systemPrompt" FlowInputItemTypeEnum.textarea "system prompt word"
       [i_valueType FlowValueTypeEnum.string; i_description ChatModelSystemTip;
        i_placeholder ChatModelSystemTip; i_value (JStr "")];
     Input "limitPrompt" FlowInputItemTypeEnum.textarea "qualifier"
       [i_valueType FlowValueTypeEnum.string; i_description ChatModelLimitTip;
        i_placeholder ChatModelLimitTip; i_value (JStr "")];
     Input_Template_TFSwitch;
     Input "quoteQA" FlowInputItemTypeEnum.target "Quote content" [i_valueType FlowValueTypeEnum.kbQuote];
     Input_Template_History;
     Input_Template_UserChatInput];
     m_outputs :=
    [Output TaskResponseKeyEnum_answerText
       [o_label "Model reply"; o_description "Will be triggered after the stream reply is completed";
        o_valueType FlowValueTypeEnum.string; o_type FlowOutputItemTypeEnum.source] [];
     Output "finish"
       [o_label "end of reply"; o_description "Triggered after AI reply is completed";
        o_valueType FlowValueTypeEnum.boolean; o_type FlowOutputItemTypeEnum.source] []] |}.

(** [{label, list}] groups of the editor's module menu. *)
Record TemplateGroup := { tg_label : string; tg_list : list FlowModuleTemplateType }.

Definition ModuleTemplates : list TemplateGroup :=
  [{| tg_label := "Input module"; tg_list := [UserInputModule; HistoryModule] |};
   {| tg_label := "Guide module"; tg_list := [UserGuideModule; VariableModule] |};
   {| tg_label := "Content Generation"; tg_list := [ChatModule; AnswerModule] |};
   {| tg_label := "Knowledge Base Module"; tg_list := [KBSearchModule] |};
   {| tg_label := "Agent"; tg_list := [ClassifyQuestionModule; ContextExtractModule; HttpModule] |}].

Definition ModuleTemplatesFlat : list FlowModuleTemplateType := flat_map tg_list ModuleTemplates.

(** The template of a flow type in the menu. *)
Definition template_of (ft : FlowModuleTypeEnum.t) : option FlowModuleTemplateType :=
  List.find (λ t, bool_decide (m_flowType t = ft)) ModuleTemplatesFlat.

End WithChatModels.

(** ** The templates *)

(** Whatever the configured chat models, the templates of
    the editor's menu have pairwise distinct flow types (the type selects the
    template), each template's input keys and output keys are unique, and
    the three default agents of [ClassifyQuestionModule] are exactly its
    outputs, in order (an agent's key names the output it fires). *)
Theorem ModuleTemplates_well_keyed (chatModelList : list ChatModelItem) :
  NoDup (map m_flowType (ModuleTemplatesFlat chatModelList)) ∧
  Forall (λ t, ports_unique (m_inputs t) (m_outputs t) = true) (ModuleTemplatesFlat chatModelList) ∧
  agent_keys (m_inputs ClassifyQuestionModule) = map out_key (m_outputs ClassifyQuestionModule).
Proof.
  split_and!.
  - apply (bool_decide_eq_true_1 (NoDup _)). vm_compute. reflexivity.
  - apply Forall_forall. intros t Ht. apply list_elem_of_In in Ht.
    assert (H : forallb (λ t, ports_unique (m_inputs t) (m_outputs t)) (ModuleTemplatesFlat chatModelList) = true)
      by (vm_compute; reflexivity).
    by apply (proj1 (forallb_forall _ _) H).
  - vm_compute. reflexivity.
Qed.

End ModuleTemplates.
