(* ===== verification/AdEditNodes.v ===== *)
(** * AdEditNodes: the nodes of the advanced editor

    src/client/src/pages/app/detail/components/AdEdit/components/Nodes/NodeExtract.tsx
    edits the target fields of a [contentExtract] module: the array held
    by its input [extractKeys], one object [{desc, key, required}] per
    field, and one output per field beside the template's outputs
    [success], [failed] and [fields].  The field dialog is
    modules/ExtractFieldModal.tsx.

    The node changes the module only through [onChangeNode] and
    [onDelEdge] of the editor page, which is not in the repository: their
    effect is [apply_change] and [del_edge] below, read from the calls
    (['inputs'] replaces the input of that key, ['outputs'] replaces the
    outputs, [onDelEdge] removes the edges leaving the module at that
    handle).  The second half of a key change is a [setTimeout] of 10 ms:
    it is an event of its own, [TimerFires], with the queue of pending
    timers in the state. *)

From Stdlib Require Import Ascii ZArith QArith.
From stdpp Require Import base list strings.
From S2P Require Import Prelude FlowTypes ModuleTemplates.

Module NodeExtract.
Import FlowTypes ModuleTemplates.

(** [item.key] of a value: a property of an object, [undefined] for
    anything else. *)
Definition js_prop (v : JsVal) (k : string) : JsVal :=
  match v with JObj fs => js_field k fs | _ => JUndefined end.

(** [a === b] for the values a field key can be: strings, booleans,
    numbers and [undefined] by value, arrays and objects by reference
    (two values read from different places are never the same object). *)
Definition js_strict_eq (a b : JsVal) : bool :=
  match a, b with
  | JUndefined, JUndefined => true
  | JBool x, JBool y => Bool.eqb x y
  | JNum x, JNum y => Qeq_bool x y
  | JStr x, JStr y => String.eqb x y
  | _, _ => false
  end.

(** The object the field dialog submits: [{desc, key, required}]. *)
Definition field_js (desc key : string) (required : bool) : JsVal :=
  JObj [("desc", JStr desc); ("key", JStr key); ("required", JBool required)].

(** The field [new field] opens the dialog with (lines 44-48). *)
Definition blank_field : JsVal := field_js "" "" true.

(** The output of a field (lines 160-167 and 200-207). *)
Definition extract_output (desc key : string) : FlowOutputItemType :=
  Output key [o_label ("Extraction result-" +:+ desc);
              o_description "It will not be returned when it cannot be extracted";
              o_valueType FlowValueTypeEnum.string; o_type FlowOutputItemTypeEnum.source] [].

(** An edge of the editor: from an output handle of a module to an input
    handle of another. *)
Record FlowEdge := { e_source : string; e_sourceHandle : string; e_target : string; e_targetHandle : string }.

(** The module the node shows, the editor's edges, the field the dialog
    edits ([editExtractFiled], [None] when it is closed) and the pending
    timers, oldest first. *)
Record ExtractNodeState := {
  moduleId : string;
  inputs : list FlowInputItemType;
  outputs : list FlowOutputItemType;
  edges : list FlowEdge;
  editExtractFiled : option JsVal;
  timers : list (list FlowOutputItemType)
}.

(** ** The editor's callbacks *)

Inductive ChangeNode :=
  | ChangeInputs (key : string) (value : FlowInputItemType)
  | ChangeOutputs (value : list FlowOutputItemType).

Definition apply_change (st : ExtractNodeState) (c : ChangeNode) : ExtractNodeState :=
  match c with
  | ChangeInputs k v =>
      {| moduleId := moduleId st; inputs := (λ i, if String.eqb (in_key i) k then v else i) <$> inputs st;
         outputs := outputs st; edges := edges st; editExtractFiled := editExtractFiled st; timers := timers st |}
  | ChangeOutputs v =>
      {| moduleId := moduleId st; inputs := inputs st; outputs := v; edges := edges st;
         editExtractFiled := editExtractFiled st; timers := timers st |}
  end.

Definition onChangeNode (st : ExtractNodeState) (cs : list ChangeNode) : ExtractNodeState :=
  foldl apply_change st cs.

(** [onDelEdge({moduleId, sourceHandle})]. *)
Definition del_edge (st : ExtractNodeState) (handle : string) : ExtractNodeState :=
  {| moduleId := moduleId st; inputs := inputs st; outputs := outputs st;
     edges := filter (λ e, ¬ (e_source e = moduleId st ∧ e_sourceHandle e = handle)) (edges st);
     editExtractFiled := editExtractFiled st; timers := timers st |}.

Definition set_edit (st : ExtractNodeState) (f : option JsVal) (ts : list (list FlowOutputItemType))
    : ExtractNodeState :=
  {| moduleId := moduleId st; inputs := inputs st; outputs := outputs st; edges := edges st;
     editExtractFiled := f; timers := ts |}.

(** ** The node *)

(** [inputs.find(item => item.key === extractKeys)?.value || []], as an
    array. *)
Definition extracts_of (ins : list FlowInputItemType) : list JsVal :=
  match find_input ins ContextExtractEnum_extractKeys with
  | Some i => match js_or (in_value i) (JArr []) with JArr l => l | _ => [] end
  | None => []
  end.

(** [{...input, value}] for the input [extractKeys]. *)
Definition extractKeys_change (ins : list FlowInputItemType) (l : list JsVal) : ChangeNode :=
  ChangeInputs ContextExtractEnum_extractKeys
    (match find_input ins ContextExtractEnum_extractKeys with
     | Some i => set_input_prop i (i_value (JArr l))
     | None => RawInput "" [i_value (JArr l)]
     end).

(** The delete icon of a row (lines 89-113). *)
Definition delete_field (st : ExtractNodeState) (item : JsVal) : ExtractNodeState :=
  let extractKeys := extracts_of (inputs st) in
  let newInputValue := filter (λ extract, js_strict_eq (js_prop item "key") (js_prop extract "key") = false) extractKeys in
  let newOutputVal := filter (λ output, js_strict_eq (JStr (out_key output)) (js_prop item "key") = false) (outputs st) in
  let st' := onChangeNode st [extractKeys_change (inputs st) newInputValue; ChangeOutputs newOutputVal] in
  match js_prop item "key" with
  | JStr k => del_edge st' k
  | _ => st'
  end.

(** [onSubmit] of the field dialog (lines 135-214), for the field [edit]
    being edited and the submitted [{desc, key, required}]. *)
Definition submit_field (st : ExtractNodeState) (edit : JsVal) (desc key : string) (required : bool)
    : ExtractNodeState :=
  let data := field_js desc key required in
  let extracts := extracts_of (inputs st) in
  let exists_ := List.find (λ item, js_strict_eq (js_prop item "key") (js_prop edit "key")) extracts in
  let newInputs := match exists_ with
                   | Some _ => (λ item, if js_strict_eq (js_prop item "key") (js_prop edit "key") then data else item) <$> extracts
                   | None => extracts ++ [data]
                   end in
  let st1 := onChangeNode st [extractKeys_change (inputs st) newInputs] in
  let st2 :=
    match exists_ with
    | None => onChangeNode st1 [ChangeOutputs (outputs st ++ [extract_output desc key])]
    | Some _ =>
        if js_strict_eq (js_prop edit "key") (JStr key) then
          onChangeNode st1 [ChangeOutputs ((λ output, if String.eqb (out_key output) key
                                                      then set_output_prop output (o_label ("Extraction result-" +:+ desc))
                                                      else output) <$> outputs st)]
        else
          let newOutputs := filter (λ output, js_strict_eq (JStr (out_key output)) (js_prop edit "key") = false) (outputs st) in
          let st' := onChangeNode st1 [ChangeOutputs newOutputs] in
          set_edit st' (editExtractFiled st') (timers st' ++ [newOutputs ++ [extract_output desc key]])
    end in
  set_edit st2 None (timers st2).

Inductive ExtractEvent :=
  | ClickNewField
  | ClickSetting (index : nat)
  | ClickDelete (index : nat)
  | CloseFieldModal
  | SubmitField (desc key : string) (required : bool)
  | TimerFires.

(** One event.  While the dialog is open, the node behind it takes no
    clicks. *)
Definition extract_step (st : ExtractNodeState) (ev : ExtractEvent) : ExtractNodeState :=
  match ev with
  | ClickNewField => if bool_decide (is_Some (editExtractFiled st)) then st else set_edit st (Some blank_field) (timers st)
  | ClickSetting n =>
      if bool_decide (is_Some (editExtractFiled st)) then st
      else match extracts_of (inputs st) !! n with Some item => set_edit st (Some item) (timers st) | None => st end
  | ClickDelete n =>
      if bool_decide (is_Some (editExtractFiled st)) then st
      else match extracts_of (inputs st) !! n with Some item => delete_field st item | None => st end
  | CloseFieldModal => set_edit st None (timers st)
  | SubmitField desc key required =>
      (* the rules [required] of the dialog *)
      match editExtractFiled st with
      | Some edit => if bool_decide (desc = "") || bool_decide (key = "") then st
                     else submit_field st edit desc key required
      | None => st
      end
  | TimerFires =>
      match timers st with
      | outs :: ts => set_edit (onChangeNode st [ChangeOutputs outs]) (editExtractFiled st) ts
      | [] => st
      end
  end.

(** A session in which each timer fires before the next click. *)
Definition settle_timers (st : ExtractNodeState) : ExtractNodeState :=
  match timers st with [] => st | _ => extract_step st TimerFires end.

Definition extract_run (st : ExtractNodeState) (evs : list ExtractEvent) : ExtractNodeState :=
  foldl (λ st e, settle_timers (extract_step st e)) st evs.

(** A node as the template [ContextExtractModule] creates it. *)
Definition new_extract_node (mid : string) : ExtractNodeState :=
  {| moduleId := mid; inputs := m_inputs ContextExtractModule; outputs := m_outputs ContextExtractModule;
     edges := []; editExtractFiled := None; timers := [] |}.

(** ** The node's invariant *)

Definition fixed_keys : list string :=
  [ContextExtractEnum_success; ContextExtractEnum_failed; ContextExtractEnum_fields].

(** A field as the dialog writes it: description, key, required. *)
Definition Field : Type := string * string * bool.
Definition field_key (f : Field) : string := f.1.2.
Definition field_val (f : Field) : JsVal := field_js f.1.1 f.1.2 f.2.

(** The keys of the fields the node shows. *)
Definition extract_keys (st : ExtractNodeState) : list string :=
  flat_map (λ v, match js_prop v "key" with JStr k => [k] | _ => [] end) (extracts_of (inputs st)).

(** The node holds the fields [fs]: no timer pending, the input
    [extractKeys] holds their objects, keys are non-empty and distinct
    from each other and from the template's outputs, the outputs are the
    template's and one per field, and the dialog edits a new field or one
    of them. *)
Definition node_holds (st : ExtractNodeState) (fs : list Field) : Prop :=
  timers st = [] ∧ is_Some (find_input (inputs st) ContextExtractEnum_extractKeys) ∧
  extracts_of (inputs st) = field_val <$> fs ∧
  Forall (λ f, field_key f ≠ "") fs ∧
  NoDup (fixed_keys ++ (field_key <$> fs)) ∧
  out_key <$> outputs st ≡ₚ fixed_keys ++ (field_key <$> fs) ∧
  (∀ e, editExtractFiled st = Some e -> e = blank_field ∨ e ∈ field_val <$> fs).

Definition extract_wf (st : ExtractNodeState) : Prop := ∃ fs, node_holds st fs.

(** What the dialog does not check: a submitted key is not an output of
    the template, and no field but the one edited has it. *)
Definition extract_event_ok (st : ExtractNodeState) (ev : ExtractEvent) : Prop :=
  match ev with
  | SubmitField _ key _ =>
      key ∉ fixed_keys ∧
      (∀ e, editExtractFiled st = Some e -> key ∈ extract_keys st -> js_prop e "key" = JStr key)
  | _ => True
  end.

Fixpoint extract_events_ok (st : ExtractNodeState) (evs : list ExtractEvent) : Prop :=
  match evs with
  | [] => True
  | e :: evs' => extract_event_ok st e ∧ extract_events_ok (settle_timers (extract_step st e)) evs'
  end.

(** The same, as a test a run can evaluate. *)
Definition extract_event_okb (st : ExtractNodeState) (ev : ExtractEvent) : bool :=
  match ev with
  | SubmitField _ key _ =>
      bool_decide (key ∉ fixed_keys) &&
      match editExtractFiled st with
      | Some e => negb (bool_decide (key ∈ extract_keys st)) || js_strict_eq (js_prop e "key") (JStr key)
      | None => true
      end
  | _ => true
  end.

Fixpoint extract_events_okb (st : ExtractNodeState) (evs : list ExtractEvent) : bool :=
  match evs with
  | [] => true
  | e :: evs' => extract_event_okb st e && extract_events_okb (settle_timers (extract_step st e)) evs'
  end.

(** The node of [new_extract_node "m1"] with the field [a], and an
    edge from its output [a] to the input [content] of a module [m2]. *)
Definition sample_node_a : ExtractNodeState :=
  let st := extract_run (new_extract_node "m1") [ClickNewField; SubmitField "a" "a" true] in
  {| moduleId := moduleId st; inputs := inputs st; outputs := outputs st;
     edges := [{| e_source := "m1"; e_sourceHandle := "a"; e_target := "m2"; e_targetHandle := "content" |}];
     editExtractFiled := editExtractFiled st; timers := timers st |}.

(** ** Lemmas *)

Lemma js_prop_field_val f : js_prop (field_val f) "key" = JStr (field_key f).
Proof. by destruct f as [[d k] r]. Qed.

Lemma strict_str a b : js_strict_eq (JStr a) (JStr b) = bool_decide (a = b).
Proof. cbn. destruct (String.eqb_spec a b); by case_bool_decide. Qed.

Lemma set_input_prop_key i p : in_key (set_input_prop i p) = in_key i.
Proof. by destruct i, p. Qed.

Lemma find_input_replace ins k i v :
  find_input ins k = Some i -> in_key v = k ->
  find_input ((λ j, if String.eqb (in_key j) k then v else j) <$> ins) k = Some v.
Proof.
  unfold find_input. intros Hf Hv. induction ins as [|j ins IH]; [done|]. cbn in Hf |- *.
  destruct (String.eqb (in_key j) k) eqn:E; cbn.
  - by rewrite Hv, String.eqb_refl.
  - rewrite E. by apply IH.
Qed.

(** Writing the input [extractKeys] changes nothing else. *)
Lemma extractKeys_change_rest st l :
  let st' := apply_change st (extractKeys_change (inputs st) l) in
  moduleId st' = moduleId st ∧ outputs st' = outputs st ∧ edges st' = edges st ∧
  editExtractFiled st' = editExtractFiled st ∧ timers st' = timers st.
Proof. unfold extractKeys_change. by case_match. Qed.

(** Writing the input [extractKeys] gives back the array written. *)
Lemma extracts_of_change st l :
  is_Some (find_input (inputs st) ContextExtractEnum_extractKeys) ->
  extracts_of (inputs (apply_change st (extractKeys_change (inputs st) l))) = l ∧
  is_Some (find_input (inputs (apply_change st (extractKeys_change (inputs st) l))) ContextExtractEnum_extractKeys).
Proof.
  intros [i Hi]. assert (Hk : in_key i = ContextExtractEnum_extractKeys).
  { unfold find_input in Hi. apply find_some in Hi as [_ Hk]. by apply String.eqb_eq. }
  unfold extractKeys_change, extracts_of. rewrite Hi. cbn [apply_change inputs].
  rewrite (find_input_replace _ _ i) by (by rewrite ?set_input_prop_key).
  by destruct i.
Qed.

Lemma strict_field_key k f :
  js_strict_eq (JStr k) (js_prop (field_val f) "key") = bool_decide (k = field_key f) ∧
  js_strict_eq (js_prop (field_val f) "key") (JStr k) = bool_decide (field_key f = k).
Proof. by rewrite js_prop_field_val, !strict_str. Qed.

Lemma fmap_filter_key {A} (g : A -> string) k (l : list A) :
  g <$> filter (λ x, g x ≠ k) l = filter (λ y, y ≠ k) (g <$> l).
Proof.
  induction l as [|x l IH]; [done|]. cbn [fmap list_fmap]. rewrite !filter_cons.
  case_decide; cbn [fmap list_fmap]; by rewrite IH.
Qed.

(** The delete icon's filter of the field objects. *)
Lemma vals_filter (fs : list Field) k :
  filter (λ x, js_strict_eq (JStr k) (js_prop x "key") = false) (field_val <$> fs) =
  field_val <$> filter (λ f, field_key f ≠ k) fs.
Proof.
  induction fs as [|f fs IH]; [done|]. cbn [fmap list_fmap]. rewrite !filter_cons, IH.
  rewrite (proj1 (strict_field_key k f)). repeat case_decide; try case_bool_decide; naive_solver.
Qed.

(** The filters of the outputs by key. *)
Lemma keys_filter_out (outs : list FlowOutputItemType) k :
  out_key <$> filter (λ o, js_strict_eq (JStr (out_key o)) (JStr k) = false) outs =
  filter (λ x, x ≠ k) (out_key <$> outs).
Proof.
  induction outs as [|o outs IH]; [done|]. cbn [fmap list_fmap]. rewrite !filter_cons, strict_str.
  repeat case_decide; try case_bool_decide; cbn [fmap list_fmap]; rewrite ?IH; naive_solver.
Qed.

Lemma extract_keys_vals st (fs : list Field) : extracts_of (inputs st) = field_val <$> fs -> extract_keys st = field_key <$> fs.
Proof.
  unfold extract_keys. intros ->. induction fs as [|f fs IH]; [done|]. cbn [fmap list_fmap flat_map].
  by rewrite js_prop_field_val, IH.
Qed.

(** The search of [exists] finds a field exactly when its key is the
    edited one. *)
Lemma find_vals (fs : list Field) ke :
  match List.find (λ item, js_strict_eq (js_prop item "key") (JStr ke)) (field_val <$> fs) with
  | Some _ => ke ∈ field_key <$> fs
  | None => ke ∉ field_key <$> fs
  end.
Proof.
  destruct (List.find _ _) as [x|] eqn:E.
  - apply find_some in E as [Hx Hk]. apply list_elem_of_In, list_elem_of_fmap in Hx as (f & -> & Hf).
    rewrite (proj2 (strict_field_key ke f)) in Hk. apply bool_decide_eq_true in Hk as <-.
    apply list_elem_of_fmap. eauto.
  - intros (f & -> & Hf)%list_elem_of_fmap.
    assert (List.In (field_val f) (field_val <$> fs)) as Hin by (apply list_elem_of_In, list_elem_of_fmap; eauto).
    pose proof (find_none _ _ E _ Hin) as Hk. cbv beta in Hk. rewrite (proj2 (strict_field_key _ f)) in Hk.
    by rewrite bool_decide_true in Hk.
Qed.

(** Replacing the object of the edited key. *)
Lemma vals_replace (fs : list Field) ke d k r :
  (λ item, if js_strict_eq (js_prop item "key") (JStr ke) then field_js d k r else item) <$> (field_val <$> fs) =
  field_val <$> ((λ f, if bool_decide (field_key f = ke) then (d, k, r) else f) <$> fs).
Proof.
  rewrite <-!list_fmap_compose. apply list_fmap_ext. intros _ f _. cbn [compose].
  rewrite (proj2 (strict_field_key ke f)). by case_bool_decide.
Qed.

Lemma keys_replace (fs : list Field) ke d k r :
  field_key <$> ((λ f, if bool_decide (field_key f = ke) then (d, k, r) else f) <$> fs) =
  (λ x, if bool_decide (x = ke) then k else x) <$> (field_key <$> fs).
Proof. rewrite <-!list_fmap_compose. apply list_fmap_ext. intros _ f _. cbn. by case_bool_decide. Qed.

Lemma replace_keys_id (l : list string) ke : (λ x, if bool_decide (x = ke) then ke else x) <$> l = l.
Proof. induction l as [|x l IH]; [done|]. cbn. rewrite IH. by case_bool_decide; subst. Qed.

Lemma filter_neq_notin (l : list string) ke : ke ∉ l -> filter (λ x, x ≠ ke) l = l.
Proof.
  induction l as [|x l IH]; [done|]. intros [Hx Hn]%not_elem_of_cons.
  rewrite filter_cons_True by done. by rewrite IH.
Qed.

Lemma replace_notin (l : list string) ke k : ke ∉ l -> (λ x, if bool_decide (x = ke) then k else x) <$> l = l.
Proof.
  induction l as [|x l IH]; [done|]. intros [Hx Hn]%not_elem_of_cons. cbn.
  rewrite bool_decide_false by done. by rewrite IH.
Qed.

(** With distinct keys, renaming the key [ke] to [k] is removing [ke]
    and adding [k] at the end, up to order. *)
Lemma replace_keys_perm (l : list string) ke k :
  NoDup l -> ke ∈ l -> (λ x, if bool_decide (x = ke) then k else x) <$> l ≡ₚ filter (λ x, x ≠ ke) l ++ [k].
Proof.
  induction l as [|x l IH]; intros Hnd Hin; [by apply elem_of_nil in Hin|].
  apply NoDup_cons in Hnd as [Hx Hnd]. cbn [fmap list_fmap]. rewrite filter_cons.
  case_bool_decide as Hxk; subst.
  - rewrite decide_False by tauto.
    by rewrite replace_notin, filter_neq_notin, Permutation_cons_append.
  - rewrite decide_True by done. apply elem_of_cons in Hin as [->|Hin]; [done|]. by rewrite IH.
Qed.

Lemma settle_timers_idle st : timers st = [] -> settle_timers st = st.
Proof. unfold settle_timers. by intros ->. Qed.

(** The invariant with the keys of the fields and of the outputs. *)
Lemma node_holds_keys st fs :
  node_holds st fs -> extract_keys st = field_key <$> fs ∧ NoDup (out_key <$> outputs st).
Proof.
  intros (_ & _ & Hx & _ & Hnd & Hp & _). split; [by apply extract_keys_vals|]. by rewrite Hp.
Qed.

Lemma set_edit_holds st fs f :
  node_holds st fs -> (∀ e, f = Some e -> e = blank_field ∨ e ∈ field_val <$> fs) ->
  node_holds (set_edit st f (timers st)) fs.
Proof. intros (Ht & Hi & Hx & Hne & Hnd & Hp & _) He. by split_and!. Qed.

Lemma nodup_filter_keys (ks : list string) (P : string -> Prop) `{∀ x, Decision (P x)} :
  NoDup (fixed_keys ++ ks) -> NoDup (fixed_keys ++ filter P ks).
Proof.
  intros Hnd. apply NoDup_app in Hnd as (Hn1 & Hd & Hn2). apply NoDup_app. split_and!; [done| |by apply NoDup_filter].
  intros x Hx1 Hx2%list_elem_of_filter. by apply (Hd x Hx1), Hx2.
Qed.

(** A field key is none of the template's outputs. *)
Lemma field_key_not_fixed (fs : list Field) k :
  NoDup (fixed_keys ++ (field_key <$> fs)) -> k ∈ field_key <$> fs -> k ∉ fixed_keys.
Proof. intros Hnd Hk Hf. apply NoDup_app in Hnd as (_ & Hd & _). exact (Hd _ Hf Hk). Qed.

(** The delete icon removes the field and its output. *)
Lemma delete_field_holds st fs f :
  node_holds st fs -> f ∈ fs -> editExtractFiled st = None ->
  node_holds (delete_field st (field_val f)) (filter (λ g, field_key g ≠ field_key f) fs).
Proof.
  intros (Ht & Hi & Hx & Hne & Hnd & Hp & He) Hf Hnone.
  unfold delete_field. rewrite js_prop_field_val, Hx, vals_filter. cbn [onChangeNode foldl].
  set (l := field_val <$> filter (λ g, field_key g ≠ field_key f) fs).
  destruct (extracts_of_change st l Hi) as [Hx' Hi'].
  destruct (extractKeys_change_rest st l) as (Hm & Ho & Hed & Hef & Ht').
  set (st1 := apply_change st (extractKeys_change (inputs st) l)) in *.
  assert (Hk : field_key f ∉ fixed_keys) by (apply (field_key_not_fixed fs); [done|apply list_elem_of_fmap; eauto]).
  unfold node_holds. cbn [del_edge apply_change inputs outputs timers editExtractFiled].
  split_and!.
  - by rewrite Ht'.
  - done.
  - done.
  - apply Forall_forall. intros x [_ Hx0]%list_elem_of_filter. by eapply Forall_forall in Hne.
  - rewrite fmap_filter_key. by apply nodup_filter_keys.
  - rewrite keys_filter_out, Hp, filter_app, fmap_filter_key, (filter_neq_notin fixed_keys) by done. done.
  - intros e. by rewrite Hef, Hnone.
Qed.

Lemma set_output_prop_key o p : out_key (set_output_prop o p) = out_key o.
Proof. by destruct o, p. Qed.

(** Relabelling the outputs of a key keeps the keys. *)
Lemma relabel_keys (outs : list FlowOutputItemType) k p :
  out_key <$> ((λ o, if String.eqb (out_key o) k then set_output_prop o p else o) <$> outs) = out_key <$> outs.
Proof.
  rewrite <-list_fmap_compose. apply list_fmap_ext. intros _ o _. cbn.
  case_match; [apply set_output_prop_key|done].
Qed.

Lemma edit_key st fs e :
  node_holds st fs -> editExtractFiled st = Some e -> ∃ ke, js_prop e "key" = JStr ke.
Proof.
  intros (_ & _ & _ & _ & _ & _ & He) Hs. destruct (He e Hs) as [->|(f & -> & _)%list_elem_of_fmap].
  - by exists "".
  - exists (field_key f). apply js_prop_field_val.
Qed.

Lemma nodup_add (ks : list string) k :
  NoDup (fixed_keys ++ ks) -> k ∉ fixed_keys -> k ∉ ks -> NoDup (fixed_keys ++ ks ++ [k]).
Proof.
  intros Hnd Hf Hk. rewrite app_assoc. apply NoDup_app. split_and!; [done| |apply NoDup_singleton].
  intros x [Hx|Hx]%elem_of_app ->%list_elem_of_singleton; done.
Qed.

Lemma Forall_replace (P : Field -> Prop) (fs : list Field) ke g :
  Forall P fs -> P g -> Forall P ((λ f, if bool_decide (field_key f = ke) then g else f) <$> fs).
Proof. intros Hfs Hg. apply Forall_fmap, (Forall_impl _ _ _ Hfs). intros f Hf. cbn. by case_bool_decide. Qed.

(** A key the dialog submits is new, unless it is the edited one. *)
Lemma submitted_key_new st fs e ke k :
  node_holds st fs -> editExtractFiled st = Some e -> js_prop e "key" = JStr ke ->
  extract_event_ok st (SubmitField "" k true) -> k ≠ ke -> k ∉ field_key <$> fs.
Proof.
  intros Hh Hs Hke [_ Hok] Hne Hin. destruct (node_holds_keys _ _ Hh) as [Hks _].
  rewrite <-Hks in Hin. specialize (Hok e Hs Hin). rewrite Hke in Hok. congruence.
Qed.

(** A new key: the field and its output are appended. *)
Lemma submit_new_holds st fs e ke d k r :
  node_holds st fs -> editExtractFiled st = Some e -> js_prop e "key" = JStr ke -> ke ∉ field_key <$> fs ->
  extract_event_ok st (SubmitField d k r) -> k ≠ "" ->
  node_holds (submit_field st e d k r) (fs ++ [(d, k, r)]).
Proof.
  intros Hh Hs Hke Hnin Hok Hk. pose proof Hh as (Ht & Hi & Hx & Hne & Hnd & Hp & He).
  assert (Hkn : k ∉ field_key <$> fs).
  { destruct (decide (k = ke)) as [->|Hne']; [done|]. by apply (submitted_key_new st fs e ke k Hh Hs Hke Hok). }
  pose proof (find_vals fs ke) as Hf.
  unfold submit_field. rewrite Hke, Hx. destruct (List.find _ _); [done|].
  replace ((field_val <$> fs) ++ [field_js d k r]) with (field_val <$> (fs ++ [(d, k, r)])) by (by rewrite fmap_app).
  cbn [onChangeNode foldl]. set (l := field_val <$> (fs ++ [(d, k, r)])).
  destruct (extracts_of_change st l Hi) as [Hx' Hi'].
  destruct (extractKeys_change_rest st l) as (Hm & Ho & Hed & Hef & Ht').
  set (st1 := apply_change st (extractKeys_change (inputs st) l)) in *.
  unfold node_holds. cbn [set_edit apply_change inputs outputs timers editExtractFiled].
  split_and!; [done|done|done| | | |done].
  - apply Forall_app. split; [done|]. by apply Forall_singleton.
  - rewrite fmap_app. apply nodup_add; [done|apply Hok|done].
  - by rewrite fmap_app, Hp, fmap_app, app_assoc.
Qed.

(** An edited field: in place when its key is kept, and otherwise its
    output removed now and the new one added when the timer fires. *)
Lemma submit_existing_holds st fs e ke d k r :
  node_holds st fs -> editExtractFiled st = Some e -> js_prop e "key" = JStr ke -> ke ∈ field_key <$> fs ->
  extract_event_ok st (SubmitField d k r) -> k ≠ "" ->
  node_holds (settle_timers (submit_field st e d k r))
    ((λ f, if bool_decide (field_key f = ke) then (d, k, r) else f) <$> fs).
Proof.
  intros Hh Hs Hke Hin Hok Hk. pose proof Hh as (Ht & Hi & Hx & Hne & Hnd & Hp & He).
  pose proof (field_key_not_fixed fs ke Hnd Hin) as Hkef.
  pose proof (find_vals fs ke) as Hf.
  unfold submit_field. rewrite Hke, Hx. destruct (List.find _ _); [|done]. rewrite vals_replace.
  cbn [onChangeNode foldl]. set (l := field_val <$> _).
  destruct (extracts_of_change st l Hi) as [Hx' Hi'].
  destruct (extractKeys_change_rest st l) as (Hm & Ho & Hed & Hef & Ht').
  set (st1 := apply_change st (extractKeys_change (inputs st) l)) in *.
  rewrite strict_str. case_bool_decide as Heq.
  - subst ke. rewrite settle_timers_idle by (cbn [set_edit apply_change timers]; by rewrite Ht').
    unfold node_holds. cbn [set_edit apply_change inputs outputs timers editExtractFiled].
    rewrite keys_replace, replace_keys_id. split_and!; [by rewrite Ht'|done|done| |done| |done].
    + by apply Forall_replace.
    + by rewrite relabel_keys.
  - assert (Hkn : k ∉ field_key <$> fs) by (apply (submitted_key_new st fs e ke k); auto).
    unfold settle_timers. cbn [set_edit apply_change timers]. rewrite Ht', Ht. cbn [app extract_step timers].
    unfold node_holds. cbn [set_edit apply_change onChangeNode foldl inputs outputs timers editExtractFiled].
    apply NoDup_app in Hnd as Hnd'. destruct Hnd' as (_ & _ & Hndk).
    rewrite keys_replace, (replace_keys_perm _ ke k Hndk Hin).
    split_and!; [done|done|done| | | |done].
    + by apply Forall_replace.
    + rewrite app_assoc. apply NoDup_app. split_and!; [by apply nodup_filter_keys| |apply NoDup_singleton].
      intros x [Hx1|Hx1%list_elem_of_filter]%elem_of_app ->%list_elem_of_singleton; [by apply Hok|by apply Hkn, Hx1].
    + rewrite fmap_app, keys_filter_out, Hp, filter_app, (filter_neq_notin fixed_keys) by done.
      by rewrite app_assoc.
Qed.

Lemma extract_event_okb_sound st e : extract_event_okb st e = true -> extract_event_ok st e.
Proof.
  destruct e as [| | | |d k r|]; cbn; try done.
  intros [Hf%bool_decide_eq_true Hk]%andb_true_iff. split; [done|]. intros e Hs Hin.
  rewrite Hs in Hk. apply orb_true_iff in Hk as [Hn|Hk].
  - apply negb_true_iff, bool_decide_eq_false in Hn. done.
  - destruct (js_prop e "key"); try done. cbn in Hk. by apply String.eqb_eq in Hk as ->.
Qed.

(** A node the template creates holds no field. *)
Lemma new_extract_node_wf mid : extract_wf (new_extract_node mid).
Proof.
  exists []. split_and!; [reflexivity|by eexists|reflexivity|constructor| |reflexivity|by intros e].
  apply (bool_decide_unpack _). vm_compute. reflexivity.
Qed.

Ltac node_idle fs := rewrite settle_timers_idle by done; by exists fs.

(** Every event the invariant allows keeps it, the timer of a key change
    having fired. *)
Lemma extract_step_wf st e :
  extract_wf st -> extract_event_ok st e -> extract_wf (settle_timers (extract_step st e)).
Proof.
  intros [fs Hh] Hok. pose proof Hh as (Ht & Hi & Hx & Hne & Hnd & Hp & He).
  destruct e as [|n|n| |d k r|]; cbn [extract_step].
  - case_bool_decide; [node_idle fs|]. rewrite settle_timers_idle by done. exists fs.
    apply set_edit_holds; [done|]. intros e [= <-]. by left.
  - case_bool_decide; [node_idle fs|]. rewrite Hx.
    destruct ((field_val <$> fs) !! n) as [item|] eqn:E; [|node_idle fs].
    rewrite settle_timers_idle by done. exists fs. apply set_edit_holds; [done|]. intros e [= <-].
    right. by eapply list_elem_of_lookup_2.
  - case_bool_decide as Hc; [node_idle fs|]. rewrite Hx.
    destruct ((field_val <$> fs) !! n) as [item|] eqn:E; [|node_idle fs].
    rewrite list_lookup_fmap in E. destruct (fs !! n) as [f|] eqn:Ef; [|done]. injection E as <-.
    pose proof (delete_field_holds st fs f Hh (list_elem_of_lookup_2 _ _ _ Ef) (proj2 (eq_None_not_Some _) Hc)) as Hd.
    rewrite settle_timers_idle by apply Hd. by eexists.
  - rewrite settle_timers_idle by done. exists fs. apply set_edit_holds; [done|]. by intros e [=].
  - destruct (editExtractFiled st) as [e|] eqn:Hs; [|node_idle fs].
    destruct (bool_decide (d = "") || bool_decide (k = "")) eqn:Hdk; [node_idle fs|].
    apply orb_false_iff in Hdk as [_ Hk%bool_decide_eq_false].
    destruct (edit_key st fs e Hh Hs) as [ke Hke].
    destruct (decide (ke ∈ field_key <$> fs)) as [Hin|Hin].
    + eexists. by eapply submit_existing_holds.
    + pose proof (submit_new_holds st fs e ke d k r Hh Hs Hke Hin Hok Hk) as Hn.
      rewrite settle_timers_idle by apply Hn. by eexists.
  - rewrite Ht. node_idle fs.
Qed.

(** C29: in a session of the extraction node where every submitted key
    is new (or the edited field's own) and no template output's, and each
    10 ms timer fires before the next click, the module's outputs stay the
    template's [success], [failed] and [fields] and one per field, with
    distinct keys. *)
Theorem extract_session_outputs st evs :
  extract_wf st -> extract_events_okb st evs = true ->
  let st' := extract_run st evs in
  timers st' = [] ∧ NoDup (out_key <$> outputs st') ∧ out_key <$> outputs st' ≡ₚ fixed_keys ++ extract_keys st'.
Proof.
  intros Hw Hok. assert (Hw' : extract_wf (extract_run st evs)).
  { revert st Hw Hok. induction evs as [|e evs IH]; intros st Hw Hok; [done|].
    cbn in Hok. apply andb_true_iff in Hok as [He Hok].
    apply IH; [by apply extract_step_wf, extract_event_okb_sound|done]. }
  destruct Hw' as [fs Hh]. destruct (node_holds_keys _ _ Hh) as [Hk Hnd].
  destruct Hh as (Ht & _ & _ & _ & _ & Hp & _). cbv zeta. by rewrite Hk.
Qed.

(** ** Runs *)

(** A second field with a key already in use is appended, not merged:
    the module gets two outputs [name]. *)
Example duplicate_key_two_outputs :
  out_key <$> outputs (extract_run (new_extract_node "m1")
                        [ClickNewField; SubmitField "name" "name" true;
                         ClickNewField; SubmitField "full name" "name" true]) =
  ["success"; "failed"; "fields"; "name"; "name"].
Proof. vm_compute. reflexivity. Qed.

(** Changing the key of a field removes its output but not the edges
    that leave it: unlike the delete icon, the dialog calls no
    [onDelEdge]. *)
Example rename_keeps_edge :
  let st := extract_run sample_node_a [ClickSetting 0; SubmitField "b" "b" true] in
  out_key <$> outputs st = ["success"; "failed"; "fields"; "b"] ∧
  e_sourceHandle <$> edges st = ["a"].
Proof. vm_compute. split; reflexivity. Qed.

Definition sample_extract_events : list ExtractEvent :=
  [ClickNewField; SubmitField "name" "name" true; ClickSetting 0; SubmitField "full name" "fullName" false;
   ClickNewField; SubmitField "age" "age" true; ClickDelete 0].

Lemma extract_session_outputs_witness :
  extract_wf (new_extract_node "m1") ∧ extract_events_okb (new_extract_node "m1") sample_extract_events = true ∧
  let st' := extract_run (new_extract_node "m1") sample_extract_events in
  timers st' = [] ∧ NoDup (out_key <$> outputs st') ∧ out_key <$> outputs st' ≡ₚ fixed_keys ++ extract_keys st'.
Proof.
  assert (H1 : extract_wf (new_extract_node "m1")) by apply new_extract_node_wf.
  assert (H2 : extract_events_okb (new_extract_node "m1") sample_extract_events = true) by (vm_compute; reflexivity).
  split_and!; [exact H1|exact H2|]. exact (extract_session_outputs _ _ H1 H2).
Defined.

End NodeExtract.
