(* ===== verification/AppTemplates.v ===== *)
(** * AppTemplates: the example apps of the module template file

    [appTemplates] of src/client/src/constants/flow/ModuleTemplate.ts
    (lines 531-2020): four apps ([simpleChat], [simpleKbChat], [chatGuide],
    [CQ]), each a module graph.  Every module object of the source is one
    definition below, named after its app and its [moduleId], written with
    the constructors of FlowTypes.v in the order of the source's properties.
    The theorems check the graphs: every edge leads to an existing module
    and input, and module ids are unique. *)

From Stdlib Require Import Ascii ZArith QArith.
From stdpp Require Import base list strings relations.
From S2P Require Import Prelude FlowTypes ModuleTemplates.

Module AppTemplates.
Import FlowTypes ModuleTemplates.ModuleTemplates.
Local Open Scope Q_scope.

Definition simpleChat_userChatInput : AppModuleItemType :=
  AppModule "userChatInput" "User question (dialogue entry)" FlowModuleTypeEnum.questionInput [a_position 464.32198615344566 1602.2698463081606]
  [Input "userChatInput" FlowInputItemTypeEnum.systemInput "User Question"
     [i_connected true]]
  [Output "userChatInput"
     [o_label "User question";
      o_type FlowOutputItemTypeEnum.source;
      o_valueType FlowValueTypeEnum.string]
     [Target "chatModule" "userChatInput"]].

Definition simpleChat_history : AppModuleItemType :=
  AppModule "history" "Chat history" FlowModuleTypeEnum.historyNode [a_position 452.5466249541586 1276.3930310334215]
  [Input "maxContext" FlowInputItemTypeEnum.numberInput "Longest number of records"
     [i_value (JNum 6);
      i_min 0;
      i_max 50;
      i_connected true];
   Input "history" FlowInputItemTypeEnum.hidden "Chat history"
     [i_connected true]]
  [Output "history"
     [o_label "Chat history";
      o_valueType FlowValueTypeEnum.chatHistory;
      o_type FlowOutputItemTypeEnum.source]
     [Target "chatModule" "history"]].

Definition simpleChat_chatModule : AppModuleItemType :=
  AppModule "chatModule" "AI dialogue" FlowModuleTypeEnum.chatNode [a_showStatus true; a_position 1150.8317145593148 957.9676672880053]
  [Input "model" FlowInputItemTypeEnum.custom "dialogue model"
     [i_value (JStr "gpt-3.5-turbo-16k");
      i_list [];
      i_connected true];
   Input "temperature" FlowInputItemTypeEnum.slider "temperature"
     [i_value (JNum 0);
      i_min 0;
      i_max 10;
      i_step 1;
      i_markList [LV "rigorous" (JNum 0); LV "divergent" (JNum 10)];
      i_connected true];
   Input "maxToken" FlowInputItemTypeEnum.custom "reply upper limit"
     [i_value (JNum 8000);
      i_min 100;
      i_max 16000;
      i_step 50;
      i_markList [LV "100" (JNum 100); LV "16000" (JNum 16000)];
      i_connected true];
   Input "systemPrompt" FlowInputItemTypeEnum.textarea "System prompt word"
     [i_valueType FlowValueTypeEnum.string;
      i_description "Model fixed guide word, by adjusting the content, you can guide the model chat direction. The content will be anchored at the beginning of the context. Variables can be used, such as {{language}}";
      i_placeholder "Model fixed guide word, by adjusting the content, you can guide the model chat direction. The content will be anchored at the beginning of the context. Variables can be used, such as {{language}}";
      i_value (JStr "");
      i_connected true];
   Input "limitPrompt" FlowInputItemTypeEnum.textarea "qualifier"
     [i_valueType FlowValueTypeEnum.string;
      i_description ("Limit the scope of the model dialogue, which will be placed before this question, with strong guidance and limitations. Variables can be used, such as {{language}}. Guidance example:" +:+ lf +:+ "1. The knowledge base is an introduction about Laf. Please refer to the knowledge base to answer questions. If it has nothing to do with " +:+ dq +:+ "Laf" +:+ dq +:+ ", reply directly: " +:+ dq +:+ "I dont know" +:+ dq +:+ ". " +:+ lf +:+ "2. You only answer questions about " +:+ dq +:+ "xxx" +:+ dq +:+ ", other questions reply: " +:+ dq +:+ "xxxx" +:+ dq);
      i_placeholder ("Limit the scope of the model dialogue, which will be placed before this question, with strong guidance and limitations. Variables can be used, such as {{language}}. Guidance example:" +:+ lf +:+ "1. The knowledge base is an introduction about Laf. Please refer to the knowledge base to answer questions. If it has nothing to do with " +:+ dq +:+ "Laf" +:+ dq +:+ ", reply directly: " +:+ dq +:+ "I dont know" +:+ dq +:+ ". " +:+ lf +:+ "2. You only answer questions about " +:+ dq +:+ "xxx" +:+ dq +:+ ", other questions reply: " +:+ dq +:+ "xxxx" +:+ dq);
      i_value (JStr "");
      i_connected true];
   Input "switch" FlowInputItemTypeEnum.target "trigger"
     [i_valueType FlowValueTypeEnum.any;
      i_connected false];
   Input "quoteQA" FlowInputItemTypeEnum.target "Quote content"
     [i_valueType FlowValueTypeEnum.kbQuote;
      i_connected false];
   Input "history" FlowInputItemTypeEnum.target "Chat history"
     [i_valueType FlowValueTypeEnum.chatHistory;
      i_connected true];
   Input "userChatInput" FlowInputItemTypeEnum.target "User Question"
     [i_required true;
      i_valueType FlowValueTypeEnum.string;
      i_connected true]]
  [Output "answerText"
     [o_label "Model reply";
      o_description "Direct response, no configuration required";
      o_type FlowOutputItemTypeEnum.hidden]
     [];
   Output "finish"
     [o_label "End of reply";
      o_description "Triggered after the AI ​​reply is completed";
      o_valueType FlowValueTypeEnum.boolean;
      o_type FlowOutputItemTypeEnum.source]
     []].

Definition app_simpleChat : AppTemplate :=
  {| app_id := "simpleChat"; app_avatar := "/imgs/module/AI.png"; app_name := "Simple dialogue";
     app_intro := "An extremely simple AI conversation application";
     app_modules := [simpleChat_userChatInput; simpleChat_history; simpleChat_chatModule] |}.

Definition simpleKbChat_userGuide : AppModuleItemType :=
  AppModule "userGuide" "User Guide" FlowModuleTypeEnum.userGuide [a_position 454.98510354678695 721.4016845336229]
  [Input "welcomeText" FlowInputItemTypeEnum.input "opening"
     [i_value (JStr "Hello, I am assistant laf, how can I help you? ");
      i_connected true]]
  [].

Definition simpleKbChat_userChatInput : AppModuleItemType :=
  AppModule "userChatInput" "User question (dialogue entry)" FlowModuleTypeEnum.questionInput [a_position 464.32198615344566 1602.2698463081606]
  [Input "userChatInput" FlowInputItemTypeEnum.systemInput "User question"
     [i_connected true]]
  [Output "userChatInput"
     [o_label "User question";
      o_type FlowOutputItemTypeEnum.source;
      o_valueType FlowValueTypeEnum.string]
     [Target "chatModule" "userChatInput"; Target "kbSearch" "userChatInput"]].

Definition simpleKbChat_history : AppModuleItemType :=
  AppModule "history" "Chat history" FlowModuleTypeEnum.historyNode [a_position 452.5466249541586 1276.3930310334215]
  [Input "maxContext" FlowInputItemTypeEnum.numberInput "The longest record number"
     [i_value (JNum 6);
      i_min 0;
      i_max 50;
      i_connected true];
   Input "history" FlowInputItemTypeEnum.hidden "Chat records"
     [i_connected true]]
  [Output "history"
     [o_label "Chat records";
      o_valueType FlowValueTypeEnum.chatHistory;
      o_type FlowOutputItemTypeEnum.source]
     [Target "chatModule" "history"]].

Definition simpleKbChat_kbSearch : AppModuleItemType :=
  AppModule "kbSearch" "Knowledge Base Search" FlowModuleTypeEnum.kbSearchNode [a_showStatus true; a_position 956.0838440206068 887.462827870246]
  [Input "kbList" FlowInputItemTypeEnum.custom "Associated knowledge base"
     [i_value (JArr []);
      i_list [];
      i_connected true];
   Input "similarity" FlowInputItemTypeEnum.slider "similarity"
     [i_value (JNum 0.4);
      i_min 0;
      i_max 1;
      i_step 0.01;
      i_markList [LV "100" (JNum 100); LV "1" (JNum 1)];
      i_connected true];
   Input "limit" FlowInputItemTypeEnum.slider "Single search limit"
     [i_description "Take at most n records as references for this question";
      i_value (JNum 5);
      i_min 1;
      i_max 20;
      i_step 1;
      i_markList [LV "1" (JNum 1); LV "20" (JNum 20)];
      i_connected true];
   Input "switch" FlowInputItemTypeEnum.target "trigger"
     [i_valueType FlowValueTypeEnum.any;
      i_connected false];
   Input "userChatInput" FlowInputItemTypeEnum.target "User Question"
     [i_required true;
      i_valueType FlowValueTypeEnum.string;
      i_connected true]]
  [Output "isEmpty"
     [o_label "The search result is empty";
      o_type FlowOutputItemTypeEnum.source;
      o_valueType FlowValueTypeEnum.boolean]
     [Target "2752oj" "switch"];
   Output "unEmpty"
     [o_label "Search result is not empty";
      o_type FlowOutputItemTypeEnum.source;
      o_valueType FlowValueTypeEnum.boolean]
     [Target "chatModule" "switch"];
   Output "quoteQA"
     [o_label "reference content";
      o_description "Always return an array, if you want to perform additional operations when the search result is empty, you need to use the above two inputs and the trigger of the target module";
      o_type FlowOutputItemTypeEnum.source;
      o_valueType FlowValueTypeEnum.kbQuote]
     [Target "chatModule" "quoteQA"]].

Definition simpleKbChat_chatModule : AppModuleItemType :=
  AppModule "chatModule" "AI dialogue" FlowModuleTypeEnum.chatNode [a_showStatus true; a_position 1546.0823206390796 1008.9827344021824]
  [Input "model" FlowInputItemTypeEnum.custom "dialogue model"
     [i_value (JStr "gpt-3.5-turbo-16k");
      i_list [];
      i_connected true];
   Input "temperature" FlowInputItemTypeEnum.slider "temperature"
     [i_value (JNum 0);
      i_min 0;
      i_max 10;
      i_step 1;
      i_markList [LV "rigorous" (JNum 0); LV "divergent" (JNum 10)];
      i_connected true];
   Input "maxToken" FlowInputItemTypeEnum.custom "reply upper limit"
     [i_value (JNum 8000);
      i_min 100;
      i_max 16000;
      i_step 50;
      i_markList [LV "100" (JNum 100); LV "16000" (JNum 16000)];
      i_connected true];
   Input "systemPrompt" FlowInputItemTypeEnum.textarea "system prompt word"
     [i_valueType FlowValueTypeEnum.string;
      i_description "Model fixed guide word, by adjusting the content, you can guide the model chat direction. The content will be pinned to the beginning of the context. Variables can be used, such as {{language}}";
      i_placeholder "Model fixed guide word, by adjusting the content, you can guide the model chat direction. The content will be pinned to the beginning of the context. Variables can be used, such as {{language}}";
      i_value (JStr "");
      i_connected true];
   Input "limitPrompt" FlowInputItemTypeEnum.textarea "qualifier"
     [i_valueType FlowValueTypeEnum.string;
      i_description ("Limit the scope of the model dialogue, which will be placed before this question, with strong guidance and limitations. Variables can be used, such as {{language}}. Guidance example:" +:+ lf +:+ "1. The knowledge base is an introduction about Laf. Please refer to the knowledge base to answer questions. If it has nothing to do with " +:+ dq +:+ "Laf" +:+ dq +:+ ", reply directly: " +:+ dq +:+ "I dont know" +:+ dq +:+ ". " +:+ lf +:+ "2. You only answer questions about " +:+ dq +:+ "xxx" +:+ dq +:+ ", other questions reply: " +:+ dq +:+ "xxxx" +:+ dq);
      i_placeholder ("Limit the scope of the model dialogue, which will be placed before this question, with strong guidance and limitations. Variables can be used, such as {{language}}. Guidance example:" +:+ lf +:+ "1. The knowledge base is an introduction about Laf. Please refer to the knowledge base to answer questions. If it has nothing to do with " +:+ dq +:+ "Laf" +:+ dq +:+ ", reply directly: " +:+ dq +:+ "I dont know" +:+ dq +:+ ". " +:+ lf +:+ "2. You only answer questions about " +:+ dq +:+ "xxx" +:+ dq +:+ ", other questions reply: " +:+ dq +:+ "xxxx" +:+ dq);
      i_value (JStr "");
      i_connected true];
   Input "switch" FlowInputItemTypeEnum.target "trigger"
     [i_valueType FlowValueTypeEnum.any;
      i_connected true];
   Input "quoteQA" FlowInputItemTypeEnum.target "Quote content"
     [i_valueType FlowValueTypeEnum.kbQuote;
      i_connected true];
   Input "history" FlowInputItemTypeEnum.target "Chat records"
     [i_valueType FlowValueTypeEnum.chatHistory;
      i_connected true];
   Input "userChatInput" FlowInputItemTypeEnum.target "User Question"
     [i_required true;
      i_valueType FlowValueTypeEnum.string;
      i_connected true]]
  [Output "answerText"
     [o_label "Model reply";
      o_description "Direct response, no configuration required";
      o_type FlowOutputItemTypeEnum.hidden]
     [];
   Output "finish"
     [o_label "End of reply";
      o_description "Triggered after the AI ​​reply is completed";
      o_valueType FlowValueTypeEnum.boolean;
      o_type FlowOutputItemTypeEnum.source]
     []].

Definition simpleKbChat_2752oj : AppModuleItemType :=
  AppModule "2752oj" "Specify reply" FlowModuleTypeEnum.answerNode [a_position 1542.9271243684725 702.7819618017722]
  [Input "switch" FlowInputItemTypeEnum.target "trigger"
     [i_valueType FlowValueTypeEnum.any;
      i_connected true];
   Input "text" FlowInputItemTypeEnum.textarea "reply content"
     [i_value (JStr "Search results are empty");
      i_valueType FlowValueTypeEnum.string;
      i_description "You can use \n to achieve line breaks. Reply can also be realized through external module input, and the current filled content will be overwritten when the external module is input";
      i_connected true]]
  [].

Definition app_simpleKbChat : AppTemplate :=
  {| app_id := "simpleKbChat"; app_avatar := "/imgs/module/db.png"; app_name := "Knowledge Base + Dialogue Guidance";
     app_intro := "A knowledge base search is performed every time a question is asked, and the search results are injected into the LLM model for reference answering";
     app_modules := [simpleKbChat_userGuide; simpleKbChat_userChatInput; simpleKbChat_history; simpleKbChat_kbSearch; simpleKbChat_chatModule; simpleKbChat_2752oj] |}.

Definition chatGuide_userGuide : AppModuleItemType :=
  AppModule "userGuide" "User Guide" FlowModuleTypeEnum.userGuide [a_position 447.98520778293346 721.4016845336229]
  [Input "welcomeText" FlowInputItemTypeEnum.input "opening"
     [i_value (JStr "Hello, I can translate various languages for you. Please tell me what language you need to translate into? ");
      i_connected true]]
  [].

Definition chatGuide_variable : AppModuleItemType :=
  AppModule "variable" "global variable" FlowModuleTypeEnum.variable [a_position 444.0369195277651 1008.5185781784537]
  [Input "variables" FlowInputItemTypeEnum.systemInput "Variable input"
     [i_value (JArr [(JObj [("id", (JStr "35c640eb-cf22-431f-bb57-3fc21643880e")); ("key", (JStr "language")); ("label", (JStr "target language")); ("type", (JStr "input")); ("required", (JBool true)); ("maxLen", (JNum 50)); ("enums", (JArr [(JObj [("value", (JStr ""))])]))]); (JObj [("id", (JStr "2011ff08-91aa-4f60-ae69-f311ab4797b3")); ("key", (JStr "language2")); ("label", (JStr "Drop-down box test")); ("type", (JStr "select")); ("required", (JBool false)); ("maxLen", (JNum 50)); ("enums", (JArr [(JObj [("value", (JStr "English"))]); (JObj [("value", (JStr "French"))])]))])]);
      i_connected true]]
  [].

Definition chatGuide_userChatInput : AppModuleItemType :=
  AppModule "userChatInput" "User question (dialogue entry)" FlowModuleTypeEnum.questionInput [a_position 464.32198615344566 1602.2698463081606]
  [Input "userChatInput" FlowInputItemTypeEnum.systemInput "User question"
     [i_connected true]]
  [Output "userChatInput"
     [o_label "User Question";
      o_type FlowOutputItemTypeEnum.source;
      o_valueType FlowValueTypeEnum.string]
     [Target "chatModule" "userChatInput"]].

Definition chatGuide_history : AppModuleItemType :=
  AppModule "history" "Chat records" FlowModuleTypeEnum.historyNode [a_position 452.5466249541586 1276.3930310334215]
  [Input "maxContext" FlowInputItemTypeEnum.numberInput "Longest number of records"
     [i_value (JNum 10);
      i_min 0;
      i_max 50;
      i_connected true];
   Input "history" FlowInputItemTypeEnum.hidden "Chat records"
     [i_connected true]]
  [Output "history"
     [o_label "Chat records";
      o_valueType FlowValueTypeEnum.chatHistory;
      o_type FlowOutputItemTypeEnum.source]
     [Target "chatModule" "history"]].

Definition chatGuide_chatModule : AppModuleItemType :=
  AppModule "chatModule" "AI dialogue" FlowModuleTypeEnum.chatNode [a_showStatus true; a_position 981.9682828103937 890.014595014464]
  [Input "model" FlowInputItemTypeEnum.custom "Dialogue Model"
     [i_value (JStr "gpt-3.5-turbo-16k");
      i_list [];
      i_connected true];
   Input "temperature" FlowInputItemTypeEnum.slider "temperature"
     [i_value (JNum 0);
      i_min 0;
      i_max 10;
      i_step 1;
      i_markList [LV "rigorous" (JNum 0); LV "divergence" (JNum 10)];
      i_connected true];
   Input "maxToken" FlowInputItemTypeEnum.custom "reply upper limit"
     [i_value (JNum 8000);
      i_min 100;
      i_max 16000;
      i_step 50;
      i_markList [LV "100" (JNum 100); LV "16000" (JNum 16000)];
      i_connected true];
   Input "systemPrompt" FlowInputItemTypeEnum.textarea "System prompt word"
     [i_valueType FlowValueTypeEnum.string;
      i_description "The models fixed guide word, by adjusting the content, can guide the models chat direction. The content will be anchored at the beginning of the context. Variables can be used, such as {{language}}";
      i_placeholder "The models fixed guide word, by adjusting the content, can guide the models chat direction. The content will be anchored at the beginning of the context. Variables can be used, such as {{language}}";
      i_value (JStr "");
      i_connected true];
   Input "limitPrompt" FlowInputItemTypeEnum.textarea "qualifier"
     [i_valueType FlowValueTypeEnum.string;
      i_description ("Limited model dialogue scope will be placed before this question, with strong guidance and limitation. Variables can be used, such as {{language}}. Guidance example:" +:+ lf +:+ "1. The knowledge base is an introduction to Laf. Please refer to the knowledge base to answer questions. If the content has nothing to do with " +:+ dq +:+ "Laf" +:+ dq +:+ ", directly reply: " +:+ dq +:+ "I dont know" +:+ dq +:+ ". " +:+ lf +:+ "2. You only answer questions about " +:+ dq +:+ "xxx" +:+ dq +:+ ". For other questions, reply: " +:+ dq +:+ "xxxx" +:+ dq);
      i_placeholder ("Limited model dialogue scope will be placed before this question, with strong guidance and limitation. Variables can be used, such as {{language}}. Guidance example:" +:+ lf +:+ "1. The knowledge base is an introduction to Laf. Please refer to the knowledge base to answer questions. If the content has nothing to do with " +:+ dq +:+ "Laf" +:+ dq +:+ ", directly reply: " +:+ dq +:+ "I dont know" +:+ dq +:+ ". " +:+ lf +:+ "2. You only answer questions about " +:+ dq +:+ "xxx" +:+ dq +:+ ". For other questions, reply: " +:+ dq +:+ "xxxx" +:+ dq);
      i_value (JStr "Translate my question directly into English{{language}}");
      i_connected true];
   Input "switch" FlowInputItemTypeEnum.target "trigger"
     [i_valueType FlowValueTypeEnum.any;
      i_connected false];
   Input "quoteQA" FlowInputItemTypeEnum.target "Quote content"
     [i_valueType FlowValueTypeEnum.kbQuote;
      i_connected false];
   Input "history" FlowInputItemTypeEnum.target "Chat history"
     [i_valueType FlowValueTypeEnum.chatHistory;
      i_connected true];
   Input "userChatInput" FlowInputItemTypeEnum.target "User Question"
     [i_required true;
      i_valueType FlowValueTypeEnum.string;
      i_connected true]]
  [Output "answerText"
     [o_label "Model reply";
      o_description "Direct response, no configuration required";
      o_type FlowOutputItemTypeEnum.hidden]
     [];
   Output "finish"
     [o_label "End of reply";
      o_description "Triggered after AI reply is completed";
      o_valueType FlowValueTypeEnum.boolean;
      o_type FlowOutputItemTypeEnum.source]
     []].

Definition app_chatGuide : AppTemplate :=
  {| app_id := "chatGuide"; app_avatar := "/imgs/module/userGuide.png"; app_name := "Dialogue guide + variable";
     app_intro := "You can send a prompt at the beginning of the dialogue, or let the user fill in some content as a variable for this dialogue";
     app_modules := [chatGuide_userGuide; chatGuide_variable; chatGuide_userChatInput; chatGuide_history; chatGuide_chatModule] |}.

Definition CQ_7z5g5h : AppModuleItemType :=
  AppModule "7z5g5h" "User question (dialogue entry)" FlowModuleTypeEnum.questionInput [a_position 198.56612928723575 1622.7034463081607]
  [Input "userChatInput" FlowInputItemTypeEnum.systemInput "User question"
     [i_connected true]]
  [Output "userChatInput"
     [o_label "User Question";
      o_type FlowOutputItemTypeEnum.source;
      o_valueType FlowValueTypeEnum.string]
     [Target "remuj3" "userChatInput"; Target "nlfwkc" "userChatInput"; Target "fljhzy" "userChatInput"]].

Definition CQ_xj0c9p : AppModuleItemType :=
  AppModule "xj0c9p" "Chat records" FlowModuleTypeEnum.historyNode [a_position 194.99102398958047 1801.3545999721096]
  [Input "maxContext" FlowInputItemTypeEnum.numberInput "Longest number of records"
     [i_value (JNum 6);
      i_min 0;
      i_max 50;
      i_connected true];
   Input "history" FlowInputItemTypeEnum.hidden "Chat records"
     [i_connected true]]
  [Output "history"
     [o_label "Chat records";
      o_valueType FlowValueTypeEnum.chatHistory;
      o_type FlowOutputItemTypeEnum.source]
     [Target "nlfwkc" "history"]].

Definition CQ_remuj3 : AppModuleItemType :=
  AppModule "remuj3" "Problem Classification" FlowModuleTypeEnum.classifyQuestion [a_showStatus true; a_position 672.9092284362648 1077.557793775116]
  [Input "systemPrompt" FlowInputItemTypeEnum.textarea "System prompt word"
     [i_valueType FlowValueTypeEnum.string;
      i_description "You can add some specific content introduction to better identify the users question type. This content usually introduces a content to the model that it does not know. ";
      i_placeholder ("For example: " +:+ lf +:+ "1. Laf is a cloud function development platform..." +:+ lf +:+ "2. Sealos is a cluster operating system");
      i_value (JStr ("laf is a cloud development platform that can quickly develop applications" +:+ lf +:+ "laf is an open source BaaS development platform (Backend as a Service)" +:+ lf +:+ "laf is an out-of-the-box serverless development platform" +:+ lf +:+ "laf is a collection of " +:+ dq +:+ "function computing" +:+ dq +:+ ", " +:+ dq +:+ " Database" +:+ dq +:+ " and " +:+ dq +:+ "Object Storage" +:+ dq +:+ " are equal to a one-stop development platform" +:+ lf +:+ "laf. It can be the open source version of Tencent Cloud Development, the open source version of Google Firebase, the open source version of UniCloud"));
      i_connected true];
   Input "history" FlowInputItemTypeEnum.target "Chat history"
     [i_valueType FlowValueTypeEnum.chatHistory;
      i_connected true];
   Input "userChatInput" FlowInputItemTypeEnum.target "User question"
     [i_required true;
      i_valueType FlowValueTypeEnum.string;
      i_connected true];
   Input "agents" FlowInputItemTypeEnum.custom ""
     [i_value (JArr [(JObj [("value", (JStr "Say hello, greetings and other questions")); ("key", (JStr "fasw"))]); (JObj [("value", (JStr ("problem with " +:+ dq +:+ "laf" +:+ dq))); ("key", (JStr "fqsw"))]); (JObj [("value", (JStr "Business issue")); ("key", (JStr "fesw"))]); (JObj [("value", (JStr "Other questions")); ("key", (JStr "oy1c"))])]);
      i_connected true]]
  [Output "fasw"
     [o_label "";
      o_type FlowOutputItemTypeEnum.hidden]
     [Target "a99p6z" "switch"];
   Output "fqsw"
     [o_label "";
      o_type FlowOutputItemTypeEnum.hidden]
     [Target "fljhzy" "switch"];
   Output "fesw"
     [o_label "";
      o_type FlowOutputItemTypeEnum.hidden]
     [Target "5v78ap" "switch"];
   Output "oy1c"
     [o_label "";
      o_type FlowOutputItemTypeEnum.hidden]
     [Target "iejcou" "switch"]].

Definition CQ_a99p6z : AppModuleItemType :=
  AppModule "a99p6z" "specified reply" FlowModuleTypeEnum.answerNode [a_position 1304.2886011902247 776.1589509539264]
  [Input "switch" FlowInputItemTypeEnum.target "trigger"
     [i_valueType FlowValueTypeEnum.any;
      i_connected true];
   Input "text" FlowInputItemTypeEnum.textarea "reply content"
     [i_value (JStr "Hello, I am assistant laf, how can I help you? ");
      i_valueType FlowValueTypeEnum.string;
      i_description "You can use \n to achieve line breaks. Reply can also be realized through external module input, and the current filled content will be overwritten when the external module is input";
      i_connected true]]
  [].

Definition CQ_iejcou : AppModuleItemType :=
  AppModule "iejcou" "specified reply" FlowModuleTypeEnum.answerNode [a_position 1294.2531189034548 2127.1297123368286]
  [Input "switch" FlowInputItemTypeEnum.target "trigger"
     [i_valueType FlowValueTypeEnum.any;
      i_connected true];
   Input "text" FlowInputItemTypeEnum.textarea "reply content"
     [i_value (JStr "Hi, I can only answer laf-related questions, do you have any questions? ");
      i_valueType FlowValueTypeEnum.string;
      i_description "You can use \n to achieve line breaks. Reply can also be realized through external module input, and the current filled content will be overwritten when the external module is input";
      i_connected true]]
  [].

Definition CQ_nlfwkc : AppModuleItemType :=
  AppModule "nlfwkc" "AI dialogue" FlowModuleTypeEnum.chatNode [a_showStatus true; a_position 1821.979893659983 1104.6583548423682]
  [Input "model" FlowInputItemTypeEnum.custom "dialogue model"
     [i_value (JStr "gpt-3.5-turbo-16k");
      i_list [];
      i_connected true];
   Input "temperature" FlowInputItemTypeEnum.slider "temperature"
     [i_value (JNum 0);
      i_min 0;
      i_max 10;
      i_step 1;
      i_markList [LV "rigorous" (JNum 0); LV "divergence" (JNum 10)];
      i_connected true];
   Input "maxToken" FlowInputItemTypeEnum.custom "reply upper limit"
     [i_value (JNum 8000);
      i_min 100;
      i_max 4000;
      i_step 50;
      i_markList [LV "100" (JNum 100); LV "4000" (JNum 4000)];
      i_connected true];
   Input "systemPrompt" FlowInputItemTypeEnum.textarea "system prompt word"
     [i_valueType FlowValueTypeEnum.string;
      i_description "Model fixed guide word, by adjusting the content, you can guide the model chat direction. The content will be pinned to the beginning of the context. Variables can be used, such as {{language}}";
      i_placeholder "Model fixed guide word, by adjusting the content, you can guide the model chat direction. The content will be pinned to the beginning of the context. Variables can be used, such as {{language}}";
      i_value (JStr "The knowledge base is about laf. ");
      i_connected true];
   Input "limitPrompt" FlowInputItemTypeEnum.textarea "qualifier"
     [i_valueType FlowValueTypeEnum.string;
      i_description ("Limit the scope of the model dialogue, which will be placed before this question, with strong guidance and limitations. Variables can be used, such as {{language}}. Guidance example:" +:+ lf +:+ "1. The knowledge base is an introduction about Laf. Please refer to the knowledge base to answer questions. If it has nothing to do with " +:+ dq +:+ "Laf" +:+ dq +:+ ", reply directly: " +:+ dq +:+ "I dont know" +:+ dq +:+ ". " +:+ lf +:+ "2. You only answer questions about " +:+ dq +:+ "xxx" +:+ dq +:+ ", other questions reply: " +:+ dq +:+ "xxxx" +:+ dq);
      i_placeholder ("Limit the scope of the model dialogue, which will be placed before this question, with strong guidance and limitations. Variables can be used, such as {{language}}. Guidance example:" +:+ lf +:+ "1. The knowledge base is an introduction about Laf. Please refer to the knowledge base to answer questions. If it has nothing to do with " +:+ dq +:+ "Laf" +:+ dq +:+ ", reply directly: " +:+ dq +:+ "I dont know" +:+ dq +:+ ". " +:+ lf +:+ "2. You only answer questions about " +:+ dq +:+ "xxx" +:+ dq +:+ ", other questions reply: " +:+ dq +:+ "xxxx" +:+ dq);
      i_value (JStr ("My questions are all about laf. Answer my questions according to the knowledge base, if it has nothing to do with laf, reply directly: " +:+ dq +:+ "I dont know, I can only answer questions related to laf." +:+ dq +:+ ". "));
      i_connected true];
   Input "switch" FlowInputItemTypeEnum.target "trigger"
     [i_valueType FlowValueTypeEnum.any;
      i_connected true];
   Input "quoteQA" FlowInputItemTypeEnum.target "reference content"
     [i_valueType FlowValueTypeEnum.kbQuote;
      i_connected true];
   Input "history" FlowInputItemTypeEnum.target "Chat records"
     [i_valueType FlowValueTypeEnum.chatHistory;
      i_connected true];
   Input "userChatInput" FlowInputItemTypeEnum.target "User Question"
     [i_required true;
      i_valueType FlowValueTypeEnum.string;
      i_connected true]]
  [Output "answerText"
     [o_label "Model reply";
      o_description "Direct response, no configuration required";
      o_type FlowOutputItemTypeEnum.hidden]
     [];
   Output "finish"
     [o_label "End of reply";
      o_description "Triggered after the AI ​​reply is completed";
      o_valueType FlowValueTypeEnum.boolean;
      o_type FlowOutputItemTypeEnum.source]
     []].

Definition CQ_s4v9su : AppModuleItemType :=
  AppModule "s4v9su" "Chat records" FlowModuleTypeEnum.historyNode [a_position 193.3803955457983 1116.251200765746]
  [Input "maxContext" FlowInputItemTypeEnum.numberInput "The longest record number"
     [i_value (JNum 2);
      i_min 0;
      i_max 50;
      i_connected true];
   Input "history" FlowInputItemTypeEnum.hidden "Chat history"
     [i_connected true]]
  [Output "history"
     [o_label "Chat history";
      o_valueType FlowValueTypeEnum.chatHistory;
      o_type FlowOutputItemTypeEnum.source]
     [Target "remuj3" "history"]].

Definition CQ_fljhzy : AppModuleItemType :=
  AppModule "fljhzy" "Knowledge Base Search" FlowModuleTypeEnum.kbSearchNode [a_showStatus true; a_position 1305.5374262228029 1120.0404921820218]
  [Input "kbList" FlowInputItemTypeEnum.custom "Associated knowledge base"
     [i_list [];
      i_value (JArr []);
      i_connected true];
   Input "similarity" FlowInputItemTypeEnum.slider "similarity"
     [i_value (JNum 0.76);
      i_min 0;
      i_max 1;
      i_step 0.01;
      i_markList [LV "100" (JNum 100); LV "1" (JNum 1)];
      i_connected true];
   Input "limit" FlowInputItemTypeEnum.slider "Single search limit"
     [i_description "Take at most n records as references for this question";
      i_value (JNum 5);
      i_min 1;
      i_max 20;
      i_step 1;
      i_markList [LV "1" (JNum 1); LV "20" (JNum 20)];
      i_connected true];
   Input "switch" FlowInputItemTypeEnum.target "trigger"
     [i_valueType FlowValueTypeEnum.any;
      i_connected true];
   Input "userChatInput" FlowInputItemTypeEnum.target "User Question"
     [i_required true;
      i_valueType FlowValueTypeEnum.string;
      i_connected true]]
  [Output "isEmpty"
     [o_label "Search results are empty";
      o_type FlowOutputItemTypeEnum.source;
      o_valueType FlowValueTypeEnum.boolean]
     [Target "tc90wz" "switch"];
   Output "unEmpty"
     [o_label "Search results not empty";
      o_type FlowOutputItemTypeEnum.source;
      o_valueType FlowValueTypeEnum.boolean]
     [Target "nlfwkc" "switch"];
   Output "quoteQA"
     [o_label "Quoted content";
      o_description "Always returns an array, if you want to perform additional operations when the search result is empty, you need to use the two inputs above and the target modules triggers";
      o_type FlowOutputItemTypeEnum.source;
      o_valueType FlowValueTypeEnum.kbQuote]
     [Target "nlfwkc" "quoteQA"]].

Definition CQ_q9equb : AppModuleItemType :=
  AppModule "q9equb" "user guidance" FlowModuleTypeEnum.userGuide [a_position 191.4857498376603 856.6847387508401]
  [Input "welcomeText" FlowInputItemTypeEnum.input "preamble (of speeches, articles etc)"
     [i_value (JStr ("Hi, Im the laf assistant. How can I help you? " +:+ lf +:+ " [What is laf? Whats it for?] " +:+ lf +:+ "[laf online experience address]" +:+ lf +:+ "[Whats the official website address]"));
      i_connected true]]
  [].

Definition CQ_tc90wz : AppModuleItemType :=
  AppModule "tc90wz" "Designated response" FlowModuleTypeEnum.answerNode [a_position 1828.4596416688908 765.3628156185887]
  [Input "switch" FlowInputItemTypeEnum.target "Starter"
     [i_valueType FlowValueTypeEnum.any;
      i_connected true];
   Input "text" FlowInputItemTypeEnum.textarea "Subject of the reply"
     [i_value (JStr "I m sorry, I cant find your question, please describe your problem in more detail. ");
      i_valueType FlowValueTypeEnum.string;
      i_description "You can use \n for line breaks. It is also possible to reply through the input of an external module, which will overwrite the currently filled in content when it is entered";
      i_connected true]]
  [].

Definition CQ_5v78ap : AppModuleItemType :=
  AppModule "5v78ap" "Designated response" FlowModuleTypeEnum.answerNode [a_position 1294.814522053934 1822.7626988141562]
  [Input "switch" FlowInputItemTypeEnum.target "starter"
     [i_valueType FlowValueTypeEnum.any;
      i_connected true];
   Input "text" FlowInputItemTypeEnum.textarea "Subject of the reply"
     [i_value (JStr "Its a business issue");
      i_valueType FlowValueTypeEnum.string;
      i_description "You can use \n for line breaks. It is also possible to reply through the input of an external module, which will overwrite the currently filled in content when it is entered";
      i_connected true]]
  [].

Definition app_CQ : AppTemplate :=
  {| app_id := "CQ"; app_avatar := "/imgs/module/cq.png"; app_name := "Problem classification + knowledge base";
     app_intro := "First classify the users problems, and then perform different operations according to different types of problems";
     app_modules := [CQ_7z5g5h; CQ_xj0c9p; CQ_remuj3; CQ_a99p6z; CQ_iejcou; CQ_nlfwkc; CQ_s4v9su; CQ_fljhzy; CQ_q9equb; CQ_tc90wz; CQ_5v78ap] |}.

(** [appTemplates]. *)
Definition appTemplates : list AppTemplate := [app_simpleChat; app_simpleKbChat; app_chatGuide; app_CQ].

(** The app a user creates in the creation dialog
    (src/client/src/pages/app/list/component/CreateModal.tsx, line 80):
    the modules of the chosen template, or none. *)
Definition createApp_modules (templateId : string) : list AppModuleItemType :=
  match List.find (λ item, String.eqb (app_id item) templateId) appTemplates with
  | Some item => app_modules item
  | None => []
  end.

(** ** The templates are valid graphs *)

Lemma appTemplates_graph_valid : Forall (λ a, graph_valid (app_modules a) = true) appTemplates.
Proof.
  apply Forall_forall. intros a Ha%list_elem_of_In.
  assert (H : forallb (λ a, graph_valid (app_modules a)) appTemplates = true) by (vm_compute; reflexivity).
  by apply (proj1 (forallb_forall _ _) H).
Qed.

(** every example app of [appTemplates] is a valid module
    graph: each edge leads to an existing module and one of its inputs,
    module ids are unique, each edge joins ports of compatible value types,
    and no module reaches itself along edges (the graph is acyclic, spec
    §4.3 and §4.4). *)
Theorem appTemplates_valid :
  Forall (λ a, graph_wf (app_modules a) = true ∧ ids_unique (app_modules a) = true ∧
               edges_typed (app_modules a) = true ∧ ∀ x, ¬ tc (edge_rel (app_modules a)) x x)
    appTemplates.
Proof. eapply Forall_impl; [apply appTemplates_graph_valid|]. intros a. apply graph_valid_spec. Qed.

(** Whatever template id the creation dialog submits, the app
    is created with a valid module graph (the template's, or the empty
    graph when no template has that id). *)
Theorem createApp_modules_valid (templateId : string) :
  graph_wf (createApp_modules templateId) = true ∧ ids_unique (createApp_modules templateId) = true ∧
  ∀ x, ¬ tc (edge_rel (createApp_modules templateId)) x x.
Proof.
  assert (H : graph_valid (createApp_modules templateId) = true).
  { unfold createApp_modules. destruct (List.find _ _) as [a|] eqn:Hf; [|done].
    apply find_some in Hf as [Hin _].
    apply (proj1 (Forall_forall _ _) appTemplates_graph_valid). by apply list_elem_of_In. }
  apply graph_valid_spec in H as (? & ? & _ & ?). done.
Qed.

(** Whatever the configured chat models, every module of every
    example app has the inputs of the menu's template of its flow type, key
    for key and in order, and in every classification module the agents
    listed in its [agents] input are exactly its outputs, in order (one
    output per agent, the executor fires the output of the chosen agent's
    key). *)
Theorem appTemplates_conform (chatModelList : list ChatModelItem) :
  Forall (λ a, Forall (λ am,
      match template_of chatModelList (am_flowType am) with
      | Some t => map in_key (am_inputs am) = map in_key (m_inputs t)
      | None => False
      end ∧
      match am_flowType am with
      | FlowModuleTypeEnum.classifyQuestion => agent_keys (am_inputs am) = map out_key (am_outputs am)
      | _ => True
      end) (app_modules a)) appTemplates.
Proof. vm_compute. repeat constructor. Qed.

End AppTemplates.
