(* ===== verification/AppForm.v ===== *)
(** * AppForm: the simple-mode form of an app and its module graph

    src/client/src/utils/app.ts: the form [EditFormType] the basic editor
    shows, its default [getDefaultAppForm], the reading of a module graph
    into the form [appModules2Form] and the writing of a form as a module
    graph [appForm2Modules] with its templates.  [appModules2Form] copies
    input values of type [any] into the form, so the form's fields are
    JSON values [JsVal]; [updateVal]'s [formKey] path is one constructor of
    [FormKey] per path the code passes.  [chatModelList[0]] is read with a
    property access, so an empty list throws: [getDefaultAppForm] returns
    [None] there.  The theorems: the graph of any form is a valid graph;
    reading back the graph of a form gives the form, for the forms the
    editor can produce with nonzero numeric settings; and what is lost on
    the way when a setting is [0] or is not written into the graph. *)

From Stdlib Require Import Ascii ZArith QArith.
From stdpp Require Import base list strings relations.
From S2P Require Import Prelude FlowTypes ModuleTemplates.

Module AppForm.
Import FlowTypes ModuleTemplates.ModuleTemplates.
Local Open Scope Q_scope.

Record ChatModelForm := {
  cf_model : JsVal;
  cf_systemPrompt : JsVal;
  cf_limitPrompt : JsVal;
  cf_temperature : JsVal;
  cf_maxToken : JsVal;
  cf_frequency : JsVal;
  cf_presence : JsVal
}.

Record KbForm := {
  kf_list : JsVal;
  kf_searchSimilarity : JsVal;
  kf_searchLimit : JsVal;
  kf_searchEmptyText : JsVal
}.

(** [EditFormType]; [guide.welcome.text] is the field [guide_welcome_text]. *)
Record EditFormType := {
  chatModel : ChatModelForm;
  kb : KbForm;
  guide_welcome_text : JsVal;
  variables : JsVal
}.

Definition getDefaultAppForm (chatModelList : list ChatModelItem) : option EditFormType :=
  match head chatModelList with
  | None => None
  | Some defaultChatModel =>
      Some {| chatModel := {| cf_model := JStr (cm_model defaultChatModel);
                              cf_systemPrompt := JStr ""; cf_limitPrompt := JStr "";
                              cf_temperature := JNum 0;
                              cf_maxToken := JNum (inject_Z (cm_contextMaxToken defaultChatModel) / 2);
                              cf_frequency := JNum 0.5; cf_presence := JNum (-0.5) |};
              kb := {| kf_list := JArr []; kf_searchSimilarity := JNum 0.4; kf_searchLimit := JNum 5;
                       kf_searchEmptyText := JStr "" |};
              guide_welcome_text := JStr "";
              variables := JArr [] |}
  end.

(** The [formKey] paths [updateVal] is called with. *)
Inductive FormKey :=
  | chatModel_model | chatModel_temperature | chatModel_maxToken | chatModel_systemPrompt
  | chatModel_limitPrompt | kb_list | kb_searchSimilarity | kb_searchLimit.

Definition form_get (f : EditFormType) (k : FormKey) : JsVal :=
  match k with
  | chatModel_model => cf_model (chatModel f)
  | chatModel_temperature => cf_temperature (chatModel f)
  | chatModel_maxToken => cf_maxToken (chatModel f)
  | chatModel_systemPrompt => cf_systemPrompt (chatModel f)
  | chatModel_limitPrompt => cf_limitPrompt (chatModel f)
  | kb_list => kf_list (kb f)
  | kb_searchSimilarity => kf_searchSimilarity (kb f)
  | kb_searchLimit => kf_searchLimit (kb f)
  end.

Definition set_chatModel (f : EditFormType) (c : ChatModelForm) : EditFormType :=
  {| chatModel := c; kb := kb f; guide_welcome_text := guide_welcome_text f; variables := variables f |}.

Definition set_kb (f : EditFormType) (k : KbForm) : EditFormType :=
  {| chatModel := chatModel f; kb := k; guide_welcome_text := guide_welcome_text f; variables := variables f |}.

Definition form_set (f : EditFormType) (k : FormKey) (v : JsVal) : EditFormType :=
  let '{| cf_model := m; cf_systemPrompt := sp; cf_limitPrompt := lp; cf_temperature := t;
          cf_maxToken := mt; cf_frequency := fr; cf_presence := pr |} := chatModel f in
  let '{| kf_list := l; kf_searchSimilarity := si; kf_searchLimit := li; kf_searchEmptyText := et |} := kb f in
  match k with
  | chatModel_model => set_chatModel f (Build_ChatModelForm v sp lp t mt fr pr)
  | chatModel_temperature => set_chatModel f (Build_ChatModelForm m sp lp v mt fr pr)
  | chatModel_maxToken => set_chatModel f (Build_ChatModelForm m sp lp t v fr pr)
  | chatModel_systemPrompt => set_chatModel f (Build_ChatModelForm m v lp t mt fr pr)
  | chatModel_limitPrompt => set_chatModel f (Build_ChatModelForm m sp v t mt fr pr)
  | kb_list => set_kb f (Build_KbForm v si li et)
  | kb_searchSimilarity => set_kb f (Build_KbForm l v li et)
  | kb_searchLimit => set_kb f (Build_KbForm l si v et)
  end.

(** [inputs.find((item) => item.key === key)?.value] *)
Definition input_value (inputs : list FlowInputItemType) (key : string) : JsVal :=
  match find_input inputs key with Some i => in_value i | None => JUndefined end.

(** [updateVal({formKey, inputs, key})] on the form being built. *)
Definition updateVal (formKey : FormKey) (inputs : list FlowInputItemType) (key : string)
    (f : EditFormType) : EditFormType :=
  form_set f formKey (js_or (input_value inputs key) (form_get f formKey)).

(** The body of [modules.forEach] for one module. *)
Definition module2Form (modules : list AppModuleItemType) (f : EditFormType) (module : AppModuleItemType)
    : EditFormType :=
  match am_flowType module with
  | FlowModuleTypeEnum.chatNode =>
      let ins := am_inputs module in
      updateVal chatModel_limitPrompt ins "limitPrompt"
        (updateVal chatModel_systemPrompt ins "systemPrompt"
          (updateVal chatModel_maxToken ins "maxToken"
            (updateVal chatModel_temperature ins "temperature"
              (updateVal chatModel_model ins "model" f))))
  | FlowModuleTypeEnum.kbSearchNode =>
      let ins := am_inputs module in
      let f1 := updateVal kb_searchLimit ins "limit"
                  (updateVal kb_searchSimilarity ins "similarity" (updateVal kb_list ins "kbList" f)) in
      let emptyOutputs :=
        match List.find (λ item, String.eqb (out_key item) "isEmpty") (am_outputs module) with
        | Some o => out_targets o
        | None => []
        end in
      match emptyOutputs with
      | emptyOutput :: _ =>
          let text :=
            match find_module modules (t_moduleId emptyOutput) with
            | Some target => input_value (am_inputs target) SpecialInputKeyEnum_answerText
            | None => JUndefined
            end in
          let k := kb f1 in
          set_kb f1 {| kf_list := kf_list k; kf_searchSimilarity := kf_searchSimilarity k;
                       kf_searchLimit := kf_searchLimit k; kf_searchEmptyText := js_or text (JStr "") |}
      | [] => f1
      end
  | FlowModuleTypeEnum.userGuide =>
      let val := js_or (input_value (am_inputs module) SystemInputEnum_welcomeText) (JStr "") in
      if js_truthy val
      then {| chatModel := chatModel f; kb := kb f; guide_welcome_text := val; variables := variables f |}
      else f
  | FlowModuleTypeEnum.variable =>
      {| chatModel := chatModel f; kb := kb f; guide_welcome_text := guide_welcome_text f;
         variables := js_or (input_value (am_inputs module) SystemInputEnum_variables) (JArr []) |}
  | _ => f
  end.

Definition appModules2Form (chatModelList : list ChatModelItem) (modules : list AppModuleItemType)
    : option EditFormType :=
  defaultAppForm ← getDefaultAppForm chatModelList;
  Some (fold_left (module2Form modules) modules defaultAppForm).

(** ** From the form to the module graph *)

Definition chatModelInput (formData : EditFormType) : list FlowInputItemType :=
  [Input "model" FlowInputItemTypeEnum.custom "dialogue model"
     [i_value (cf_model (chatModel formData)); i_connected true];
   Input "temperature" FlowInputItemTypeEnum.slider "temperature"
     [i_value (cf_temperature (chatModel formData)); i_connected true];
   Input "maxToken" FlowInputItemTypeEnum.custom "reply upper limit"
     [i_value (cf_maxToken (chatModel formData)); i_connected true];
   Input "systemPrompt" FlowInputItemTypeEnum.textarea "system prompt word"
     [i_value (cf_systemPrompt (chatModel formData)); i_connected true];
   Input "limitPrompt" FlowInputItemTypeEnum.textarea "qualifier"
     [i_value (cf_limitPrompt (chatModel formData)); i_connected true];
   Input "switch" FlowInputItemTypeEnum.target "trigger"
     [i_connected (js_length_pos (kf_list (kb formData)))];
   Input "quoteQA" FlowInputItemTypeEnum.target "reference content"
     [i_connected (js_length_pos (kf_list (kb formData)))];
   Input "history" FlowInputItemTypeEnum.target "Chat history" [i_connected true];
   Input "userChatInput" FlowInputItemTypeEnum.target "User Question" [i_connected true]].

(** The module [welcomeTemplate] writes. *)
Definition guide_module (formData : EditFormType) : AppModuleItemType :=
  AppModule "userGuide" "User Guide" FlowModuleTypeEnum.userGuide
    [a_position 447.98520778293346 721.4016845336229]
    [Input "welcomeText" FlowInputItemTypeEnum.input "opening"
       [i_value (guide_welcome_text formData); i_connected true]]
    [].

Definition welcomeTemplate (formData : EditFormType) : list AppModuleItemType :=
  if js_truthy (guide_welcome_text formData) then [guide_module formData] else [].

(** The module [variableTemplate] writes. *)
Definition variable_module (formData : EditFormType) : AppModuleItemType :=
  AppModule "variable" "global variable" FlowModuleTypeEnum.variable
    [a_position 444.0369195277651 1008.5185781784537]
    [Input "variables" FlowInputItemTypeEnum.systemInput "Variable input"
       [i_value (variables formData); i_connected true]]
    [].

Definition variableTemplate (formData : EditFormType) : list AppModuleItemType :=
  if js_length_pos (variables formData) then [variable_module formData] else [].

(** The question module of both templates, with its edges. *)
Definition userChatInput_module (targets : list FlowOutputTargetItemType) : AppModuleItemType :=
  AppModule "userChatInput" "User question (dialogue entry)" FlowModuleTypeEnum.questionInput
    [a_position 464.32198615344566 1602.2698463081606]
    [Input "userChatInput" FlowInputItemTypeEnum.target "User Question" [i_connected true]]
    [Output "userChatInput" [] targets].

Definition history_module : AppModuleItemType :=
  AppModule "history" "Chat records" FlowModuleTypeEnum.historyNode
    [a_position 452.5466249541586 1276.3930310334215]
    [Input "maxContext" FlowInputItemTypeEnum.numberInput "The longest record number"
       [i_value (JNum 6); i_connected true];
     Input "history" FlowInputItemTypeEnum.hidden "Chat history" [i_connected true]]
    [Output "history" [] [Target "chatModule" "history"]].

(** The chat module of both templates, at its position [(x, y)]. *)
Definition chat_module (x y : Q) (formData : EditFormType) : AppModuleItemType :=
  AppModule "chatModule" "AI dialogue" FlowModuleTypeEnum.chatNode
    [a_showStatus true; a_position x y]
    (chatModelInput formData)
    [Output "answerText"
       [o_label "Model reply"; o_description "Direct response, no configuration required";
        o_type FlowOutputItemTypeEnum.hidden] [];
     Output "finish"
       [o_label "End of reply"; o_description "Triggered after the AI ​​reply is completed";
        o_valueType FlowValueTypeEnum.boolean; o_type FlowOutputItemTypeEnum.source] []].

Definition simpleChatTemplate (formData : EditFormType) : list AppModuleItemType :=
  [userChatInput_module [Target "chatModule" "userChatInput"];
   history_module;
   chat_module 981.9682828103937 890.014595014464 formData].

Definition kbSearch_module (formData : EditFormType) : AppModuleItemType :=
  AppModule "kbSearch" "Knowledge Base Search" FlowModuleTypeEnum.kbSearchNode
    [a_showStatus true; a_position 956.0838440206068 887.462827870246]
    [Input "kbList" FlowInputItemTypeEnum.custom "Associated knowledge base"
       [i_value (kf_list (kb formData)); i_connected true];
     Input "similarity" FlowInputItemTypeEnum.slider "similarity"
       [i_value (kf_searchSimilarity (kb formData)); i_connected true];
     Input "limit" FlowInputItemTypeEnum.slider "Single search limit"
       [i_value (kf_searchLimit (kb formData)); i_connected true];
     Input "switch" FlowInputItemTypeEnum.target "trigger" [i_connected false];
     Input "userChatInput" FlowInputItemTypeEnum.target "User Question" [i_connected true]]
    [Output "isEmpty" []
       (if js_truthy (kf_searchEmptyText (kb formData))
        then [Target "emptyText" "switch"] else [Target "chatModule" "switch"]);
     Output "unEmpty" [] [Target "chatModule" "switch"];
     Output "quoteQA" [] [Target "chatModule" "quoteQA"]].

Definition emptyText_module (formData : EditFormType) : AppModuleItemType :=
  AppModule "emptyText" "specified reply" FlowModuleTypeEnum.answerNode
    [a_position 1553.5815811529146 637.8753731306779]
    [Input "switch" FlowInputItemTypeEnum.target "trigger" [i_connected true];
     Input SpecialInputKeyEnum_answerText FlowInputItemTypeEnum.textarea "reply content"
       [i_value (kf_searchEmptyText (kb formData)); i_valueType FlowValueTypeEnum.string;
        i_connected true]]
    [].

Definition kbTemplate (formData : EditFormType) : list AppModuleItemType :=
  [userChatInput_module [Target "chatModule" "userChatInput"; Target "kbSearch" "userChatInput"];
   history_module;
   kbSearch_module formData] ++
  (if js_truthy (kf_searchEmptyText (kb formData)) then [emptyText_module formData] else []) ++
  [chat_module 1551.71405495818 977.4911578918461 formData].

Definition appForm2Modules (formData : EditFormType) : list AppModuleItemType :=
  welcomeTemplate formData ++ variableTemplate formData ++
  (if js_length_pos (kf_list (kb formData)) then kbTemplate formData else simpleChatTemplate formData).

(** [x || d] gives back [x]: [x] is truthy, or it is [d] itself. *)
Definition kept (x d : JsVal) : Prop := js_or x d = x.

(** The forms for which reading back the graph gives the form: every
    setting written into the graph is one [||] keeps (truthy, or equal to
    the default it falls back to), the settings never written are at their
    defaults, and without a knowledge base the search settings are the
    defaults. *)
Definition editor_form (f : EditFormType) : Prop :=
  let c := chatModel f in
  let k := kb f in
  js_truthy (cf_model c) = true ∧ kept (cf_systemPrompt c) (JStr "") ∧ kept (cf_limitPrompt c) (JStr "") ∧
  kept (cf_temperature c) (JNum 0) ∧ js_truthy (cf_maxToken c) = true ∧
  cf_frequency c = JNum 0.5 ∧ cf_presence c = JNum (-0.5) ∧
  kept (guide_welcome_text f) (JStr "") ∧ (js_length_pos (variables f) = true ∨ variables f = JArr []) ∧
  kept (kf_searchEmptyText k) (JStr "") ∧
  if js_length_pos (kf_list k)
  then js_truthy (kf_searchSimilarity k) = true ∧ js_truthy (kf_searchLimit k) = true
  else kf_list k = JArr [] ∧ kf_searchSimilarity k = JNum 0.4 ∧ kf_searchLimit k = JNum 5 ∧
       kf_searchEmptyText k = JStr "".

(** The empty-search text is read from the module the [isEmpty] edge
    leads to. *)
Definition empty_text_read (mods : list AppModuleItemType) (f : EditFormType) : JsVal :=
  match find_module mods (if js_truthy (kf_searchEmptyText (kb f)) then "emptyText" else "chatModule") with
  | Some target => input_value (am_inputs target) SpecialInputKeyEnum_answerText
  | None => JUndefined
  end.

(** The form after reading each template of [appForm2Modules]. *)
Definition read_chat (f g : EditFormType) : EditFormType :=
  set_chatModel g
    {| cf_model := js_or (cf_model (chatModel f)) (cf_model (chatModel g));
       cf_systemPrompt := js_or (cf_systemPrompt (chatModel f)) (cf_systemPrompt (chatModel g));
       cf_limitPrompt := js_or (cf_limitPrompt (chatModel f)) (cf_limitPrompt (chatModel g));
       cf_temperature := js_or (cf_temperature (chatModel f)) (cf_temperature (chatModel g));
       cf_maxToken := js_or (cf_maxToken (chatModel f)) (cf_maxToken (chatModel g));
       cf_frequency := cf_frequency (chatModel g); cf_presence := cf_presence (chatModel g) |}.

Definition sample_form_model : ChatModelItem :=
  {| cm_model := "gpt-3.5-turbo"; cm_name := "FastAI-4k"; cm_contextMaxToken := 4000 |}.

Definition sample_models : list ChatModelItem := [sample_form_model].

(** A form the editor produces: a knowledge base, a welcome text, one
    variable and an empty-search reply. *)
Definition sample_form : EditFormType :=
  {| chatModel := {| cf_model := JStr "gpt-3.5-turbo"; cf_systemPrompt := JStr "You are laf.";
                     cf_limitPrompt := JStr ""; cf_temperature := JNum 0; cf_maxToken := JNum 2000;
                     cf_frequency := JNum 0.5; cf_presence := JNum (-0.5) |};
     kb := {| kf_list := JArr [JObj [("kbId", JStr "kb1")]]; kf_searchSimilarity := JNum 0.8;
              kf_searchLimit := JNum 3; kf_searchEmptyText := JStr "Nothing found" |};
     guide_welcome_text := JStr "Hello"; variables := JArr [JObj [("key", JStr "language")]] |}.

(** A form with one knowledge base and the similarity slider at 0, the
    lower end of its range in KBSelectModal.tsx. *)
Definition similarity_zero_form : EditFormType :=
  {| chatModel := {| cf_model := JStr "gpt-3.5-turbo"; cf_systemPrompt := JStr ""; cf_limitPrompt := JStr "";
                     cf_temperature := JNum 0; cf_maxToken := JNum 2000;
                     cf_frequency := JNum 0.5; cf_presence := JNum (-0.5) |};
     kb := {| kf_list := JArr [JObj [("kbId", JStr "kb1")]]; kf_searchSimilarity := JNum 0;
              kf_searchLimit := JNum 5; kf_searchEmptyText := JStr "" |};
     guide_welcome_text := JStr ""; variables := JArr [] |}.

(** ** Lemmas *)

Lemma js_or_truthy x d : js_truthy x = true -> js_or x d = x.
Proof. unfold js_or. by intros ->. Qed.

Lemma js_or_falsy x d : js_truthy x = false -> js_or x d = d.
Proof. unfold js_or. by intros ->. Qed.

Lemma kept_falsy x d : kept x d -> js_truthy x = false -> x = d.
Proof. unfold kept, js_or. intros H Hx. by rewrite Hx in H. Qed.

Lemma js_length_pos_truthy x : js_length_pos x = true -> js_truthy x = true.
Proof.
  destruct x as [| | |s| |]; simpl; try done.
  intros H. apply Nat.ltb_lt in H. destruct s; simpl in *; [lia|done].
Qed.

(** Rewrite the tests the hypotheses decide. *)
Ltac rewrite_bools :=
  repeat match goal with
  | H : ?b = true |- context [?b] => rewrite H
  | H : ?b = false |- context [?b] => rewrite H
  end.

(** Rewrite every [x || d] the hypotheses decide. *)
Ltac simp_or :=
  repeat match goal with
  | |- context [js_or ?x ?d] =>
      (rewrite (js_or_truthy x d) by (auto using js_length_pos_truthy)) ||
      (rewrite (js_or_falsy x d) by done) ||
      (match goal with H : js_or x d = x |- _ => rewrite H end)
  end.

(** ** The graph of a form *)

(** the module graph [appForm2Modules] writes for any form
    is a valid graph: every edge leads to an existing module and input,
    module ids are unique, port types agree and there is no cycle. *)
Theorem appForm2Modules_valid (f : EditFormType) :
  graph_wf (appForm2Modules f) = true ∧ ids_unique (appForm2Modules f) = true ∧
  edges_typed (appForm2Modules f) = true ∧ ∀ x, ¬ tc (edge_rel (appForm2Modules f)) x x.
Proof.
  apply graph_valid_spec. unfold appForm2Modules, welcomeTemplate, variableTemplate, kbTemplate, kbSearch_module.
  destruct (js_truthy (guide_welcome_text f)), (js_length_pos (variables f)),
    (js_length_pos (kf_list (kb f))), (js_truthy (kf_searchEmptyText (kb f))); vm_compute; reflexivity.
Qed.

(** ** Reading back the graph of a form *)

(** How [module2Form] reads each module [appForm2Modules] writes. *)
Lemma module2Form_guide mods g f :
  js_truthy (guide_welcome_text f) = true ->
  module2Form mods g (guide_module f) =
    {| chatModel := chatModel g; kb := kb g; guide_welcome_text := guide_welcome_text f; variables := variables g |}.
Proof. intros H. unfold module2Form. simpl. unfold input_value. simpl. by rewrite js_or_truthy, H. Qed.

Lemma module2Form_variable mods g f :
  module2Form mods g (variable_module f) =
    {| chatModel := chatModel g; kb := kb g; guide_welcome_text := guide_welcome_text g;
       variables := js_or (variables f) (JArr []) |}.
Proof. reflexivity. Qed.

Lemma module2Form_userChatInput mods g ts : module2Form mods g (userChatInput_module ts) = g.
Proof. reflexivity. Qed.

Lemma module2Form_history mods g : module2Form mods g history_module = g.
Proof. reflexivity. Qed.

Lemma module2Form_emptyText mods g f : module2Form mods g (emptyText_module f) = g.
Proof. reflexivity. Qed.

Lemma module2Form_chat mods g x y f :
  module2Form mods g (chat_module x y f) =
    set_chatModel g
      {| cf_model := js_or (cf_model (chatModel f)) (cf_model (chatModel g));
         cf_systemPrompt := js_or (cf_systemPrompt (chatModel f)) (cf_systemPrompt (chatModel g));
         cf_limitPrompt := js_or (cf_limitPrompt (chatModel f)) (cf_limitPrompt (chatModel g));
         cf_temperature := js_or (cf_temperature (chatModel f)) (cf_temperature (chatModel g));
         cf_maxToken := js_or (cf_maxToken (chatModel f)) (cf_maxToken (chatModel g));
         cf_frequency := cf_frequency (chatModel g); cf_presence := cf_presence (chatModel g) |}.
Proof. destruct g as [[] [] ? ?]. reflexivity. Qed.

Lemma module2Form_kb mods g f :
  module2Form mods g (kbSearch_module f) =
    set_kb g
      {| kf_list := js_or (kf_list (kb f)) (kf_list (kb g));
         kf_searchSimilarity := js_or (kf_searchSimilarity (kb f)) (kf_searchSimilarity (kb g));
         kf_searchLimit := js_or (kf_searchLimit (kb f)) (kf_searchLimit (kb g));
         kf_searchEmptyText := js_or (empty_text_read mods f) (JStr "") |}.
Proof.
  destruct g as [[] [] ? ?]. unfold empty_text_read, kbSearch_module.
  destruct (js_truthy (kf_searchEmptyText (kb f))); reflexivity.
Qed.

Lemma fold_welcome mods f g :
  fold_left (module2Form mods) (welcomeTemplate f) g =
    if js_truthy (guide_welcome_text f)
    then {| chatModel := chatModel g; kb := kb g; guide_welcome_text := guide_welcome_text f;
            variables := variables g |}
    else g.
Proof. unfold welcomeTemplate. destruct (js_truthy _) eqn:H; [|done]. by apply module2Form_guide. Qed.

Lemma fold_variable mods f g :
  fold_left (module2Form mods) (variableTemplate f) g =
    if js_length_pos (variables f)
    then {| chatModel := chatModel g; kb := kb g; guide_welcome_text := guide_welcome_text g;
            variables := js_or (variables f) (JArr []) |}
    else g.
Proof. unfold variableTemplate. by destruct (js_length_pos _). Qed.

Lemma fold_simpleChat mods f g : fold_left (module2Form mods) (simpleChatTemplate f) g = read_chat f g.
Proof. simpl. by rewrite module2Form_userChatInput, module2Form_history, module2Form_chat. Qed.

Lemma fold_kb mods f g :
  fold_left (module2Form mods) (kbTemplate f) g =
    read_chat f (set_kb g
      {| kf_list := js_or (kf_list (kb f)) (kf_list (kb g));
         kf_searchSimilarity := js_or (kf_searchSimilarity (kb f)) (kf_searchSimilarity (kb g));
         kf_searchLimit := js_or (kf_searchLimit (kb f)) (kf_searchLimit (kb g));
         kf_searchEmptyText := js_or (empty_text_read mods f) (JStr "") |}).
Proof.
  unfold kbTemplate. rewrite !fold_left_app. simpl.
  rewrite module2Form_userChatInput, module2Form_history, module2Form_kb.
  destruct (js_truthy _); simpl; rewrite ?module2Form_emptyText; apply module2Form_chat.
Qed.

(** In the graph of a form with a knowledge base, the [isEmpty] edge leads
    to the reply module holding the empty-search text, or to the chat
    module, which has no [text] input. *)
Lemma empty_text_read_form f :
  js_length_pos (kf_list (kb f)) = true ->
  empty_text_read (appForm2Modules f) f =
    if js_truthy (kf_searchEmptyText (kb f)) then kf_searchEmptyText (kb f) else JUndefined.
Proof.
  intros Hl. unfold empty_text_read, appForm2Modules, kbTemplate. rewrite Hl.
  unfold welcomeTemplate, variableTemplate.
  destruct (js_truthy (guide_welcome_text f)), (js_length_pos (variables f)),
    (js_truthy (kf_searchEmptyText (kb f))); reflexivity.
Qed.

(** Reading back the graph of an editor form gives the form. *)
Lemma form_roundtrip (chatModelList : list ChatModelItem) (m : ChatModelItem) (f : EditFormType) :
  head chatModelList = Some m -> editor_form f ->
  appModules2Form chatModelList (appForm2Modules f) = Some f.
Proof.
  intros Hcml Hf. unfold appModules2Form, getDefaultAppForm. rewrite Hcml. simpl. f_equal.
  pose proof (empty_text_read_form f) as Hread.
  unfold appForm2Modules at 2. rewrite !fold_left_app, fold_welcome, fold_variable.
  destruct f as [[mo sp lp te mt fr pr] [l si li et] w v].
  unfold editor_form in Hf; simpl in *.
  destruct Hf as (Hmo & Hsp & Hlp & Hte & Hmt & -> & -> & Hw & Hv & Het & Hkb).
  destruct (js_truthy w) eqn:Hwt; [|apply kept_falsy in Hw; [subst w|done]].
  all: destruct (js_length_pos v) eqn:Hvl; [|destruct Hv as [?| ->]; [congruence|]].
  all: destruct (js_length_pos l) eqn:Hll; [destruct Hkb as [Hsi Hli]|destruct Hkb as (-> & -> & -> & ->)].
  all: rewrite ?fold_kb, ?fold_simpleChat, ?Hread by done.
  all: try (destruct (js_truthy et) eqn:Het'; [|apply kept_falsy in Het; [subst et|done]]).
  all: unfold read_chat, set_chatModel, set_kb; simpl.
  all: unfold kept in *; simp_or; reflexivity.
Qed.

(** C20: with a configured chat model, reading back with
    [appModules2Form] the graph [appForm2Modules] writes for a form gives the
    form back, for every form whose settings survive [||] against their
    defaults (truthy, or equal to the default), whose frequency and presence
    are the defaults (they are not written into the graph), and which,
    without a knowledge base, keeps the default search settings. *)
Theorem appForm_roundtrip (chatModelList : list ChatModelItem) (m : ChatModelItem) (f : EditFormType) :
  head chatModelList = Some m -> editor_form f ->
  appModules2Form chatModelList (appForm2Modules f) = Some f.
Proof. apply form_roundtrip. Qed.

(** ** What the round trip loses *)

Lemma appForm_roundtrip_witness :
  editor_form sample_form ∧ appModules2Form sample_models (appForm2Modules sample_form) = Some sample_form.
Proof.
  assert (H : editor_form sample_form) by (vm_compute; split_and!; try reflexivity; left; reflexivity).
  split; [exact H|]. apply (appForm_roundtrip sample_models (List.hd sample_form_model sample_models) sample_form);
    [reflexivity|exact H].
Defined.

(** a similarity of 0 is saved into the graph, but
    [appModules2Form] reads it with [||], which takes 0 for a missing value:
    the form read back has the default similarity 0.4. *)
Theorem appForm_similarity_zero_lost :
  kf_searchSimilarity (kb similarity_zero_form) = JNum 0 ∧
  input_value (am_inputs (kbSearch_module similarity_zero_form)) "similarity" = JNum 0 ∧
  option_map (λ g, kf_searchSimilarity (kb g))
    (appModules2Form sample_models (appForm2Modules similarity_zero_form)) = Some (JNum 0.4).
Proof. vm_compute. split_and!; reflexivity. Qed.

End AppForm.
