(* ===== verification/FileSplit.v ===== *)
(** * FileSplit: the text pipeline of file import

    src/client/src/utils/file.ts: [splitText2Chunks], which cuts an
    imported text into overlapping chunks at sentence ends, [simpleText],
    which normalises the text first, the post-processing of
    [readCsvContent] and the size computation of [compressImg]; and the two
    branches of [onSelectFile] in
    src/client/src/pages/kb/detail/components/Import/FileSelect.tsx that
    turn their results into data items.  A JavaScript string is its
    sequence of UTF-16 code units ([ustr], a list of [N]), so [length] is
    the string's [length] and the character classes of the regular
    expressions ([\s], [一-龥]) are tests on code units.  The
    regular expressions are written out as the scans the engine performs;
    [cjk_join] consumes a variable part of its input, so it runs on fuel,
    and [length s] is enough. *)

From Stdlib Require Import Ascii ZArith NArith QArith Lqa Psatz.
From stdpp Require Import base list list_relations strings.
From S2P Require Import Prelude.

Module FileSplit.

Definition ustr := list N.

(** ** [splitText2Chunks] *)

(** The class [[.!?;.!?;]] of the lookbehind. *)
Definition is_sentence_end (c : N) : bool :=
  N.eqb c 46 || N.eqb c 33 || N.eqb c 63 || N.eqb c 59.

(** [text.split(/(?<=[.!?;.!?;])/g)]: a cut after every sentence end
    that is not the last code unit (the engine tries the positions
    [1 .. length - 1]); the empty text gives [[""]]. *)
Fixpoint split_pieces (cur : ustr) (s : ustr) : list ustr :=
  match s with
  | [] => [cur]
  | c :: s' =>
      match s' with
      | [] => [cur ++ [c]]
      | _ :: _ => if is_sentence_end c then (cur ++ [c]) :: split_pieces [] s' else split_pieces (cur ++ [c]) s'
      end
  end.

Definition split_sentences (s : ustr) : list ustr := split_pieces [] s.

(** The locals of the loop. *)
Record ChunkState := { preChunk : ustr; chunk : ustr; chunks : list ustr }.

(** One iteration of the [for] loop (lines 193-202). *)
Definition chunk_step (maxLen overlapLen : Z) (st : ChunkState) (text : ustr) : ChunkState :=
  let chunk' := chunk st ++ text in
  let pre := if Z.ltb (maxLen - overlapLen) (Z.of_nat (length chunk')) then preChunk st ++ text else preChunk st in
  if Z.leb maxLen (Z.of_nat (length chunk'))
  then {| preChunk := []; chunk := pre; chunks := chunks st ++ [chunk'] |}
  else {| preChunk := pre; chunk := chunk'; chunks := chunks st |}.

(** [splitText2Chunks({text, maxLen})]; [encode] is the tokenizer of
    [getOpenAiEncMap] (outside src/), [None] when it throws and the length
    is used instead. *)
Definition splitText2Chunks (encode : option (ustr -> nat)) (text : ustr) (maxLen : Z) : list ustr * nat :=
  let overlapLen := Z.div maxLen 4 in
  let st := fold_left (chunk_step maxLen overlapLen) (split_sentences text)
              {| preChunk := []; chunk := []; chunks := [] |} in
  let result := match chunk st with [] => chunks st | _ => chunks st ++ [chunk st] end in
  let tokens := match encode with Some enc => enc (concat result) | None => length (concat result) end in
  (result, tokens).

(** ** [simpleText] *)

(** [\s]: the white space and line terminators of ECMAScript. *)
Definition is_js_space (c : N) : bool :=
  N.eqb c 9 || N.eqb c 10 || N.eqb c 11 || N.eqb c 12 || N.eqb c 13 || N.eqb c 32 || N.eqb c 160 ||
  N.eqb c 5760 || (N.leb 8192 c && N.leb c 8202) || N.eqb c 8232 || N.eqb c 8233 || N.eqb c 8239 ||
  N.eqb c 8287 || N.eqb c 12288 || N.eqb c 65279.

(** [[一-龥]] *)
Definition is_cjk (c : N) : bool := N.leb 19968 c && N.leb c 40869.

(** The white space at the head of a string, skipped. *)
Fixpoint skip_spaces (s : ustr) : ustr :=
  match s with [] => [] | c :: s' => if is_js_space c then skip_spaces s' else s end.

(** [s.replace(/([一-龥])\s+([一-龥])/g, '$1$2')]: at a CJK
    unit followed by white space and another CJK unit the match is
    replaced by the two units and the scan goes on after the second; else
    the unit is kept and the scan goes on at the next one. *)
Fixpoint cjk_join (fuel : nat) (s : ustr) : ustr :=
  match fuel with
  | O => s
  | S fuel' =>
      match s with
      | [] => []
      | c :: rest =>
          match rest with
          | w :: _ =>
              if is_cjk c && is_js_space w then
                match skip_spaces rest with
                | d :: rest' => if is_cjk d then c :: d :: cjk_join fuel' rest' else c :: cjk_join fuel' rest
                | [] => c :: cjk_join fuel' rest
                end
              else c :: cjk_join fuel' rest
          | [] => [c]
          end
      end
  end.

(** [s.replace(/x{2,}/g, r)] for a class [x]: a run of two or more
    units of the class becomes [r], a single one is kept.  [run] holds the
    units of the current run. *)
Fixpoint collapse_runs (p : N -> bool) (r : N) (run : ustr) (s : ustr) : ustr :=
  match s with
  | [] => match run with [] => [] | [x] => [x] | _ => [r] end
  | c :: s' =>
      if p c then collapse_runs p r (run ++ [c]) s'
      else match run with [] => [] | [x] => [x] | _ => [r] end ++ c :: collapse_runs p r [] s'
  end.

(** [s.replace(/[\x00-\x08]/g, ' ')] *)
Definition replace_controls (s : ustr) : ustr := map (λ c, if N.leb c 8 then 32%N else c) s.

Definition simpleText (text : ustr) : ustr :=
  let text := cjk_join (length text) text in
  let text := collapse_runs (λ c, N.eqb c 10) 10 [] text in
  let text := collapse_runs is_js_space 32 [] text in
  replace_controls text.

(** ** CSV import *)

(** The code units of an ASCII literal. *)
Definition ustr_of (s : string) : ustr := map (λ a, N.of_nat (nat_of_ascii a)) (String.list_ascii_of_string s).

Definition nonempty (s : ustr) : bool := negb (bool_decide (s = [])).

(** The part of [readCsvContent] after [Papa.parse] (lines 139-145):
    [None] when it throws [csv parsing failed]. *)
Definition readCsvContent_post (json : list (list ustr)) : option (list ustr * list (list ustr)) :=
  match json with
  | [] => None
  | header :: rows => Some (List.filter nonempty header, map (List.filter nonempty) rows)
  end.

(** A data item of the CSV branch of [onSelectFile]; [item[k]] is
    [undefined] past the end of the row. *)
Record CsvChunk := { cq : option ustr; ca : option ustr; csource : ustr; cfile_id : string }.

Definition csv_chunk (filename : ustr) (file_id : string) (item : list ustr) : CsvChunk :=
  {| cq := nth_error item 0; ca := nth_error item 1;
     csource := match nth_error item 2 with Some s => if nonempty s then s else filename | None => filename end;
     cfile_id := file_id |}.

Inductive CsvError := CsvParseFailed | CsvBadHeader.

(** The CSV branch of [onSelectFile] (FileSelect.tsx, lines 148-176). *)
Definition csv_import (filename : ustr) (file_id : string) (json : list (list ustr)) : CsvError + list CsvChunk :=
  match readCsvContent_post json with
  | None => inl CsvParseFailed
  | Some (header, data) =>
      if negb (bool_decide (nth_error header 0 = Some (ustr_of "question"))) ||
         negb (bool_decide (nth_error header 1 = Some (ustr_of "answer")))
      then inl CsvBadHeader
      else inr (map (csv_chunk filename file_id) data)
  end.

(** ** Image size of [compressImg] *)

(** Lines 261-274: the size the image is drawn at. *)
Definition compress_dims (width height maxW maxH : Q) : Q * Q :=
  if Qle_bool width height
  then (if Qle_bool height maxH then (width, height) else ((width * (maxH / height))%Q, maxH))
  else (if Qle_bool width maxW then (width, height) else (maxW, (height * (maxW / width))%Q)).

(** Lines 290-292: the compressed data URL is refused when it is longer
    than [maxSize]. *)
Definition compress_size_ok (dataUrlLength maxSize : Z) : bool := negb (Z.ltb maxSize dataUrlLength).

(** ** The text branch of [onSelectFile] *)

Record FileChunk := { fq : ustr; fa : ustr; fsource : ustr; ffile_id : string }.

(** FileSelect.tsx, lines 124-145: a non-empty text read from the file is
    normalised, split into chunks of [chunkLen], and each chunk becomes an
    item with an empty answer; [None] is the fall-through for an empty text. *)
Definition text_import (encode : option (ustr -> nat)) (chunkLen : Z) (filename : ustr) (file_id : string)
    (text : ustr) : option (list FileChunk * nat) :=
  if nonempty text then
    let text := simpleText text in
    let splitRes := splitText2Chunks encode text chunkLen in
    Some (map (λ chunk, {| fq := chunk; fa := []; fsource := filename; ffile_id := file_id |}) splitRes.1,
          splitRes.2)
  else None.

(** [covers prev cs t]: each chunk of [cs] is a suffix of the chunk
    before it (the overlap; [prev] before the first) followed by new text,
    and the new texts, in order, make up [t]. *)
Fixpoint covers (prev : ustr) (cs : list ustr) (t : ustr) : Prop :=
  match cs with
  | [] => t = []
  | c :: cs' => ∃ o n t', c = o ++ n ∧ o `suffix_of` prev ∧ t = n ++ t' ∧ covers c cs' t'
  end.

Fixpoint last_chunk (prev : ustr) (cs : list ustr) : ustr :=
  match cs with [] => prev | c :: cs' => last_chunk c cs' end.

Definition one_sentence : ustr := repeat 97%N 599 ++ [46%N].

(** No two adjacent units of the class [p]. *)
Fixpoint no_double (p : N -> bool) (l : ustr) : bool :=
  match l with
  | a :: ((b :: _) as t) => negb (p a && p b) && no_double p t
  | _ => true
  end.

Definition flush (r : N) (run : ustr) : ustr := match run with [] => [] | [x] => [x] | _ => [r] end.

Definition spaced_text : ustr := [72%N; 105%N; 32%N; 32%N; 10%N; 10%N; 20013%N; 32%N; 25991%N].

(** ** The chunks cover the text *)

Lemma concat_split_pieces cur s : concat (split_pieces cur s) = cur ++ s.
Proof.
  revert cur. induction s as [|c s IH]; intros cur; [reflexivity|].
  destruct s as [|c' s']; [simpl; rewrite app_nil_r; reflexivity|].
  change (split_pieces cur (c :: c' :: s')) with
    (if is_sentence_end c then (cur ++ [c]) :: split_pieces [] (c' :: s') else split_pieces (cur ++ [c]) (c' :: s')).
  destruct (is_sentence_end c); rewrite ?concat_cons, IH, <- app_assoc; reflexivity.
Qed.

Lemma concat_split_sentences s : concat (split_sentences s) = s.
Proof. apply concat_split_pieces. Qed.

Lemma last_chunk_snoc prev cs c : last_chunk prev (cs ++ [c]) = c.
Proof. revert prev. induction cs; simpl; auto. Qed.

Lemma covers_snoc prev cs t c o n :
  covers prev cs t -> c = o ++ n -> o `suffix_of` last_chunk prev cs -> covers prev (cs ++ [c]) (t ++ n).
Proof.
  revert prev t. induction cs as [|c0 cs IH]; intros prev t Hcov Hc Ho; simpl in *.
  - subst. exists o, n, []. by rewrite app_nil_r.
  - destruct Hcov as (o0 & n0 & t' & -> & Ho0 & -> & Hcov).
    exists o0, n0, (t' ++ n). split_and!; [done|done|by rewrite app_assoc|]. by apply IH.
Qed.

Section Loop.
Variables maxLen overlapLen : Z.

(** What the loop keeps true of its locals after consuming [consumed]. *)
Definition chunk_inv (st : ChunkState) (consumed : ustr) : Prop :=
  ∃ t1 o t2, consumed = t1 ++ t2 ∧ covers [] (chunks st) t1 ∧ chunk st = o ++ t2 ∧
    o `suffix_of` last_chunk [] (chunks st) ∧ preChunk st `suffix_of` chunk st ∧
    (preChunk st = [] ∨ (maxLen - overlapLen < Z.of_nat (length (chunk st)))%Z).

Lemma chunk_step_inv st consumed p :
  chunk_inv st consumed -> chunk_inv (chunk_step maxLen overlapLen st p) (consumed ++ p).
Proof.
  intros (t1 & o & t2 & -> & Hcov & Hc & Ho & Hpre & Hgrow). unfold chunk_step. simpl.
  set (pre := if Z.ltb (maxLen - overlapLen) (Z.of_nat (length (chunk st ++ p)))
              then preChunk st ++ p else preChunk st).
  assert (Hpre' : pre `suffix_of` chunk st ++ p ∧
                  (pre = [] ∨ (maxLen - overlapLen < Z.of_nat (length (chunk st ++ p)))%Z)).
  { subst pre. destruct (Z.ltb_spec (maxLen - overlapLen) (Z.of_nat (length (chunk st ++ p)))) as [Hlt|Hge].
    - split; [by apply suffix_app|by right].
    - destruct Hgrow as [He|Hlt]; [rewrite He; split; [apply suffix_nil|by left]|].
      rewrite length_app in Hge. lia. }
  destruct Hpre' as [Hsuf Hor].
  destruct (Z.leb maxLen _); simpl.
  - exists (t1 ++ (t2 ++ p)), pre, []. cbn [chunks chunk preChunk]. rewrite last_chunk_snoc. split_and!.
    + by rewrite !app_assoc, app_nil_r.
    + apply covers_snoc with o; [done| by rewrite Hc, app_assoc | done].
    + by rewrite app_nil_r.
    + exact Hsuf.
    + apply suffix_nil.
    + by left.
  - exists t1, o, (t2 ++ p). split_and!; [by rewrite app_assoc|done|by rewrite Hc, app_assoc|done|done|done].
Qed.

Lemma chunk_loop_inv ps st consumed :
  chunk_inv st consumed -> chunk_inv (fold_left (chunk_step maxLen overlapLen) ps st) (consumed ++ concat ps).
Proof.
  revert st consumed. induction ps as [|p ps IH]; intros st consumed H; simpl.
  - by rewrite app_nil_r.
  - rewrite app_assoc. apply IH. by apply chunk_step_inv.
Qed.

End Loop.

(** C21: whatever the tokenizer and the chunk length, the chunks
    [splitText2Chunks] returns cover the text in order and add nothing to
    it: each chunk is an overlap, a suffix of the chunk before it, followed
    by new text, and the new texts of all chunks, in order, are the text. *)
Theorem splitText2Chunks_covers (encode : option (ustr -> nat)) (text : ustr) (maxLen : Z) :
  covers [] (splitText2Chunks encode text maxLen).1 text.
Proof.
  unfold splitText2Chunks. simpl.
  assert (Hinit : chunk_inv maxLen (Z.div maxLen 4) {| preChunk := []; chunk := []; chunks := [] |} []).
  { exists [], [], []. split_and!; try done; try apply suffix_nil; try (by left). }
  pose proof (chunk_loop_inv maxLen (Z.div maxLen 4) (split_sentences text) _ _ Hinit) as H.
  rewrite concat_split_sentences in H. simpl in H.
  destruct H as (t1 & o & t2 & Ht & Hcov & Hc & Ho & _).
  destruct (chunk _) as [|x xs] eqn:Hch.
  - symmetry in Hc. apply app_eq_nil in Hc as [-> ->]. rewrite app_nil_r in Ht. subst t1. exact Hcov.
  - pose proof (covers_snoc _ _ _ _ o t2 Hcov Hc Ho) as Hc'. rewrite <- Ht in Hc'. exact Hc'.
Qed.

(** ** A sentence longer than a chunk *)

(** a text that is one sentence (no sentence end before its last
    unit) and at least [maxLen] long, for [maxLen >= 4], is returned as two
    chunks that are both the whole text: the loop pushes it, keeps it as
    the next chunk's overlap ([preChunk] took the whole piece), and the end
    of the loop pushes that overlap again. *)
Theorem splitText2Chunks_long_sentence_twice (encode : option (ustr -> nat)) (text : ustr) (maxLen : Z) :
  (4 <= maxLen)%Z -> (maxLen <= Z.of_nat (length text))%Z -> split_sentences text = [text] -> text <> [] ->
  (splitText2Chunks encode text maxLen).1 = [text; text].
Proof.
  intros H4 Hlen Hsplit Hne. unfold splitText2Chunks. rewrite Hsplit. simpl. unfold chunk_step. simpl.
  assert (Hq : (0 < maxLen / 4)%Z) by (apply Z.div_str_pos; lia).
  destruct (Z.ltb_spec (maxLen - maxLen / 4) (Z.of_nat (length text))); [|lia].
  destruct (Z.leb_spec maxLen (Z.of_nat (length text))); [|lia]. simpl.
  by destruct text.
Qed.

Lemma splitText2Chunks_long_sentence_twice_witness :
  (4 <= 500)%Z ∧ (500 <= Z.of_nat (length one_sentence))%Z ∧ split_sentences one_sentence = [one_sentence] ∧
  (splitText2Chunks None one_sentence 500).1 = [one_sentence; one_sentence].
Proof.
  assert (Hs : split_sentences one_sentence = [one_sentence]) by (vm_compute; reflexivity).
  split_and!; [lia|vm_compute; discriminate|exact Hs|].
  apply splitText2Chunks_long_sentence_twice; [lia|vm_compute; discriminate|exact Hs|vm_compute; discriminate].
Defined.

(** ** [simpleText] *)

Lemma skip_spaces_length s : length (skip_spaces s) <= length s.
Proof. induction s as [|c s IH]; simpl; [lia|]. destruct (is_js_space c); simpl; lia. Qed.

Lemma cjk_join_fuel_eq n m s : length s <= n -> length s <= m -> cjk_join n s = cjk_join m s.
Proof.
  revert m s. induction n as [|n IH]; intros m s Hn Hm.
  - destruct s; [|simpl in Hn; lia]. by destruct m.
  - destruct m as [|m]; [destruct s; [done|simpl in Hm; lia]|].
    destruct s as [|c rest]; [done|]. simpl in Hn, Hm. simpl.
    destruct rest as [|w rest0]; [done|].
    pose proof (skip_spaces_length (w :: rest0)) as Hs.
    destruct (is_cjk c && is_js_space w); [|f_equal; apply IH; simpl in *; lia].
    destruct (skip_spaces (w :: rest0)) as [|d rest'] eqn:Hsk; [f_equal; apply IH; simpl in *; lia|].
    simpl in Hs. destruct (is_cjk d); [do 2 f_equal|f_equal]; apply IH; simpl in *; lia.
Qed.

(** The scan of the CJK rule terminates within [length s]
    steps: any fuel at least the length of the text gives the same result
    as [simpleText] uses. *)
Theorem cjk_join_enough_fuel (n : nat) (s : ustr) :
  length s <= n -> cjk_join n s = cjk_join (length s) s.
Proof. intros H. apply cjk_join_fuel_eq; lia. Qed.

Lemma cjk_join_enough_fuel_witness :
  length [20013%N; 32%N; 25991%N] <= 10 ∧
  cjk_join 10 [20013%N; 32%N; 25991%N] = cjk_join (length [20013%N; 32%N; 25991%N]) [20013%N; 32%N; 25991%N].
Proof. split; [simpl; lia|]. apply cjk_join_enough_fuel. simpl; lia. Defined.

Lemma no_double_cons p c t : p c = false -> no_double p (c :: t) = no_double p t.
Proof. intros Hc. destruct t; simpl; [done|]. by rewrite Hc. Qed.

Lemma no_double_flush p r run c t :
  p c = false -> no_double p (flush r run ++ c :: t) = no_double p t.
Proof.
  intros Hc. rewrite <- (no_double_cons p c t Hc).
  destruct run as [|x [|y run]]; [done|..]; cbn [flush app no_double]; by rewrite Hc, andb_false_r.
Qed.

Lemma collapse_runs_no_double p r run s : no_double p (collapse_runs p r run s) = true.
Proof.
  revert run. induction s as [|c s IH]; intros run; simpl.
  - by destruct run as [|x [|y run]].
  - destruct (p c) eqn:Hc; [apply IH|].
    change (match run with [] => [] | [x] => [x] | _ => [r] end) with (flush r run).
    rewrite no_double_flush by done. apply IH.
Qed.

Section Preserve.
Variable Q : N -> Prop.

Lemma skip_spaces_forall s : Forall Q s -> Forall Q (skip_spaces s).
Proof.
  induction s as [|c s IH]; intros H; simpl; [done|]. inversion H; subst.
  destruct (is_js_space c); [by apply IH|done].
Qed.

Lemma cjk_join_forall n s : Forall Q s -> Forall Q (cjk_join n s).
Proof.
  revert s. induction n as [|n IH]; intros s H; [done|].
  destruct s as [|c rest]; [done|]. inversion H as [|? ? Hc Hrest]; subst. simpl.
  destruct rest as [|w rest0]; [by constructor|].
  destruct (is_cjk c && is_js_space w); [|constructor; auto].
  pose proof (skip_spaces_forall _ Hrest) as Hs.
  destruct (skip_spaces (w :: rest0)) as [|d rest']; [constructor; auto|].
  inversion Hs; subst. destruct (is_cjk d); repeat constructor; auto.
Qed.

Lemma collapse_runs_forall p r run s :
  Q r -> Forall Q run -> Forall Q s -> Forall Q (collapse_runs p r run s).
Proof.
  revert run. induction s as [|c s IH]; intros run Hr Hrun Hs; simpl.
  - destruct run as [|x [|y run]]; inversion Hrun; subst; repeat constructor; auto.
  - inversion Hs; subst. destruct (p c).
    + apply IH; auto. apply Forall_app; auto.
    + apply Forall_app; split; [|constructor; auto; apply IH; auto].
      destruct run as [|x [|y run]]; inversion Hrun; subst; repeat constructor; auto.
Qed.

End Preserve.

Lemma replace_controls_id s : Forall (λ c, 8 < c)%N s -> replace_controls s = s.
Proof.
  induction s as [|c s IH]; intros H; [done|]. inversion H; subst. simpl.
  rewrite IH by done. destruct (N.leb_spec c 8); [lia|done].
Qed.

(** For a text without the control units 0-8, [simpleText]
    leaves no two adjacent white-space units: runs of [\s] are collapsed
    to one space, and the later steps add none. *)
Theorem simpleText_no_double_space (text : ustr) :
  Forall (λ c, 8 < c)%N text -> no_double is_js_space (simpleText text) = true.
Proof.
  intros H. unfold simpleText.
  rewrite replace_controls_id; [apply collapse_runs_no_double|].
  apply collapse_runs_forall; [lia|done|].
  apply collapse_runs_forall; [lia|done|]. by apply cjk_join_forall.
Qed.

Lemma simpleText_no_double_space_witness :
  Forall (λ c, 8 < c)%N spaced_text ∧ no_double is_js_space (simpleText spaced_text) = true.
Proof.
  assert (H : Forall (λ c, 8 < c)%N spaced_text) by (repeat constructor; simpl; lia).
  split; [exact H|]. exact (simpleText_no_double_space spaced_text H).
Defined.

(** ** CSV import *)

(** a CSV row with an empty answer cell is read with the cell
    removed ([filter((item) => item)]), so the source column moves into the
    answer: the item's answer is the source and its source is the file name. *)
Theorem csv_empty_answer_takes_source (filename : ustr) (file_id : string) (q src : ustr) :
  q <> [] -> src <> [] ->
  csv_import filename file_id [[ustr_of "question"; ustr_of "answer"; ustr_of "source"]; [q; []; src]] =
    inr [{| cq := Some q; ca := Some src; csource := filename; cfile_id := file_id |}].
Proof.
  intros Hq Hs. unfold csv_import. simpl. unfold nonempty. cbn [List.filter].
  repeat case_bool_decide; try done;
    simpl; unfold csv_chunk, nonempty; simpl; repeat case_bool_decide; done.
Qed.

Lemma csv_empty_answer_takes_source_witness :
  ustr_of "What is X?" <> [] ∧ ustr_of "manual.pdf" <> [] ∧
  csv_import (ustr_of "faq.csv") "f1"
    [[ustr_of "question"; ustr_of "answer"; ustr_of "source"]; [ustr_of "What is X?"; []; ustr_of "manual.pdf"]] =
    inr [{| cq := Some (ustr_of "What is X?"); ca := Some (ustr_of "manual.pdf"); csource := ustr_of "faq.csv";
            cfile_id := "f1" |}].
Proof.
  split_and!; [discriminate|discriminate|].
  apply csv_empty_answer_takes_source; discriminate.
Defined.

(** ** Image size *)

Lemma Qle_bool_false_lt x y : Qle_bool x y = false -> (y < x)%Q.
Proof. intros H. apply Qnot_le_lt. intros Hle. apply Qle_bool_iff in Hle. congruence. Qed.

(** The side scaled by [limit / longer side] stays within the limit. *)
Lemma scaled_le (a b m : Q) : (0 < b -> 0 < a -> 0 < m -> a <= b -> a * (m / b) <= m)%Q.
Proof.
  intros Hb Ha Hm Hab. assert (E : (a * (m / b) == (a / b) * m)%Q) by (field; lra). rewrite E.
  assert (a / b <= 1)%Q by (apply Qle_shift_div_r; lra). nra.
Qed.

(** With a square limit [m], as every caller passes (100 by 100),
    the image is drawn within [m] by [m] and keeps its aspect ratio. *)
Theorem compress_dims_fit (w h m : Q) :
  (0 < w -> 0 < h -> 0 < m ->
   (compress_dims w h m m).1 <= m ∧ (compress_dims w h m m).2 <= m ∧
   (compress_dims w h m m).1 * h == w * (compress_dims w h m m).2)%Q.
Proof.
  intros Hw Hh Hm. unfold compress_dims.
  destruct (Qle_bool w h) eqn:Hwh; [apply Qle_bool_iff in Hwh|apply Qle_bool_false_lt in Hwh].
  - destruct (Qle_bool h m) eqn:Hb; [apply Qle_bool_iff in Hb|apply Qle_bool_false_lt in Hb]; simpl.
    + split_and!; [lra|lra|ring].
    + split_and!; [by apply scaled_le|lra|field; lra].
  - destruct (Qle_bool w m) eqn:Hb; [apply Qle_bool_iff in Hb|apply Qle_bool_false_lt in Hb]; simpl.
    + split_and!; [lra|lra|ring].
    + split_and!; [lra|apply scaled_le; lra|field; lra].
Qed.

Lemma compress_dims_fit_witness :
  (0 < 1024 ∧ 0 < 768 ∧ 0 < 100)%Q ∧
  ((compress_dims 1024 768 100 100).1 <= 100 ∧ (compress_dims 1024 768 100 100).2 <= 100 ∧
   (compress_dims 1024 768 100 100).1 * 768 == 1024 * (compress_dims 1024 768 100 100).2)%Q.
Proof.
  assert (H : (0 < 1024 ∧ 0 < 768 ∧ 0 < 100)%Q) by (split_and!; reflexivity).
  split; [exact H|]. destruct H as (H1 & H2 & H3). exact (compress_dims_fit 1024 768 100 H1 H2 H3).
Defined.

(** ** Composition: a file's text to data items *)

(** The items the text branch of [onSelectFile] produces from
    a non-empty text have empty answers and the file as source, and their
    questions cover the normalised text in order, each adding to an
    overlap with the item before it (an empty text produces none). *)
Theorem text_import_covers (encode : option (ustr -> nat)) (chunkLen : Z) (filename : ustr) (file_id : string)
    (text : ustr) :
  match text_import encode chunkLen filename file_id text with
  | Some (items, _) => covers [] (map fq items) (simpleText text) ∧
                       Forall (λ i, fa i = [] ∧ fsource i = filename ∧ ffile_id i = file_id) items
  | None => text = []
  end.
Proof.
  unfold text_import, nonempty. case_bool_decide as Hn; simpl; [done|].
  split.
  - rewrite map_map. simpl. rewrite map_id. exact (splitText2Chunks_covers encode (simpleText text) chunkLen).
  - apply Forall_map. apply Forall_forall. done.
Qed.

End FileSplit.
