(* ===== verification/ImportPage.v ===== *)
(** * ImportPage: the file selection and the QA import page

    src/client/src/pages/kb/detail/components/Import/FileSelect.tsx turns the
    files a user selects, the pages a URL fetch returns and a text typed in
    the create-file modal into [FileItemType]s; Import/QA.tsx keeps them as
    page state, lets the user edit and delete texts and chunks, re-split an
    edited text, and uploads the chunks in batches of 200.  The file
    readers of src/client/src/utils/file.ts are I/O: what a reader returns
    for a file is part of the selected file ([SelectedFile], from the spec),
    and the code that chooses the reader and assembles a PDF's pages is
    translated.  [file.name.split('.').pop().toLowerCase()] lowers the ASCII
    letters only: no other code unit lowers to a letter of the extensions
    the code compares with, except the Kelvin sign, which lowers to [k].
    React state updates are applied in the order the handlers run. *)

From Stdlib Require Import Ascii ZArith NArith.
From stdpp Require Import base list strings.
From S2P Require Import Prelude FileSplit.

Module ImportPage.
Import FileSplit.

(** ** Data *)

(** [DatasetItemType]: the item of a chunk; [q] and [a] may be
    [undefined]. *)
Record ImportChunk := {
  ic_q : option ustr;
  ic_a : option ustr;
  ic_source : ustr;
  ic_file_id : option string
}.

(** [FileItemType] (FileSelect.tsx lines 30-37). *)
Record FileItem := {
  fi_id : string;
  fi_filename : ustr;
  fi_icon : string;
  fi_text : ustr;
  fi_tokens : nat;
  fi_chunks : list ImportChunk
}.

(** A file of the selection, with what the browser gives for it: the icon
    [fileImgs] finds for its name, the text the reader chosen by its
    extension returns, Papa's parse of its text, the id [uploadFiles]
    returns and the id [nanoid] draws. *)
Record SelectedFile := {
  sf_name : ustr;
  sf_icon : option string;
  sf_read : ustr;
  sf_csv : list (list ustr);
  sf_file_id : string;
  sf_nanoid : string
}.

(** ** utils/file.ts *)

(** readPdfContent, lines 57-66: the text of a page is the concatenation of
    its non-empty items. *)
Definition pdf_page_text (items : list ustr) : ustr := mjoin (filter (λ s, s ≠ []) items).

(** readPdfContent, lines 74-79: the pages joined by line feeds. *)
Definition pdf_text (pages : list (list ustr)) : ustr := join_on 10%N (map pdf_page_text pages).

(** ** FileSelect.tsx *)

Definition lower_unit (c : N) : N := if (65 <=? c)%N && (c <=? 90)%N then (c + 32)%N else c.

(** Line 87: [file?.name?.split('.')?.pop()?.toLowerCase()]. *)
Definition ext_of (name : ustr) : ustr := map lower_unit (List.last (split_on 46%N name) []).

(** Lines 101-112: the reader of the extension; other extensions read as
    the empty text. *)
Definition read_text (ext : ustr) (f : SelectedFile) : ustr :=
  if bool_decide (ext ∈ map ustr_of ["txt"; "md"; "pdf"; "doc"; "docx"]%string) then sf_read f else [].

Definition of_file_chunk (c : FileChunk) : ImportChunk :=
  {| ic_q := Some (fq c); ic_a := Some (fa c); ic_source := fsource c; ic_file_id := Some (ffile_id c) |}.

Definition of_csv_chunk (c : CsvChunk) : ImportChunk :=
  {| ic_q := cq c; ic_a := ca c; ic_source := csource c; ic_file_id := Some (cfile_id c) |}.

(** One iteration of the loop of [onSelectFile] (lines 86-168): [None] is
    an exception (it ends the whole selection), [Some None] a skipped file. *)
Definition select_file (encode : option (ustr -> nat)) (chunkLen : Z) (f : SelectedFile)
    : option (option FileItem) :=
  match sf_icon f with
  | None => Some None
  | Some icon =>
      let ext := ext_of (sf_name f) in
      let text := read_text ext f in
      match text_import encode chunkLen (sf_name f) (sf_file_id f) text with
      | Some (cs, tokens) =>
          Some (Some {| fi_id := sf_nanoid f; fi_filename := sf_name f; fi_icon := icon;
                        fi_text := simpleText text; fi_tokens := tokens; fi_chunks := map of_file_chunk cs |})
      | None =>
          if bool_decide (ext = ustr_of "csv") then
            match csv_import (sf_name f) (sf_file_id f) (sf_csv f) with
            | inl _ => None
            | inr cs =>
                Some (Some {| fi_id := sf_nanoid f; fi_filename := sf_name f; fi_icon := icon;
                              fi_text := []; fi_tokens := 0; fi_chunks := map of_csv_chunk cs |})
            end
          else Some None
      end
  end.

(** The loop; each item is [unshift]ed onto [chunkFiles]. *)
Fixpoint select_loop (encode : option (ustr -> nat)) (chunkLen : Z) (acc : list FileItem)
    (fs : list SelectedFile) : option (list FileItem) :=
  match fs with
  | [] => Some acc
  | f :: rest =>
      match select_file encode chunkLen f with
      | None => None
      | Some None => select_loop encode chunkLen acc rest
      | Some (Some it) => select_loop encode chunkLen (it :: acc) rest
      end
  end.

(** [onSelectFile] (lines 83-181): the files passed to [onPushFiles], or
    [None] when the catch block only shows a toast. *)
Definition onSelectFile (encode : option (ustr -> nat)) (chunkLen : Z) (fs : list SelectedFile)
    : option (list FileItem) :=
  select_loop encode chunkLen [] fs.

(** [onUrlFetch] (lines 182-203): the fetched content is split as it is. *)
Definition onUrlFetch (encode : option (ustr -> nat)) (chunkLen : Z)
    (e : list (string * ustr * ustr)) : list FileItem :=
  map (λ '(id, url, content),
         let splitRes := splitText2Chunks encode content chunkLen in
         {| fi_id := id; fi_filename := url; fi_icon := "/imgs/files/url.svg"; fi_text := content;
            fi_tokens := splitRes.2;
            fi_chunks := map (λ c, {| ic_q := Some c; ic_a := Some []; ic_source := url; ic_file_id := None |})
                           splitRes.1 |}) e.

(** [onCreateFile] (lines 204-226): the content is normalised first. *)
Definition onCreateFile (encode : option (ustr -> nat)) (chunkLen : Z) (id : string) (filename content : ustr)
    : list FileItem :=
  let content := simpleText content in
  let splitRes := splitText2Chunks encode content chunkLen in
  [{| fi_id := id; fi_filename := filename; fi_icon := "/imgs/files/txt.svg"; fi_text := content;
      fi_tokens := splitRes.2;
      fi_chunks := map (λ c, {| ic_q := Some c; ic_a := Some []; ic_source := filename; ic_file_id := None |})
                     splitRes.1 |}].

(** ** QA.tsx *)

Record QAPage := {
  files : list FileItem;
  showRePreview : bool;
  previewFile : option string;
  successChunks : nat
}.

Definition set_files (p : QAPage) (fs : list FileItem) : QAPage :=
  {| files := fs; showRePreview := showRePreview p; previewFile := previewFile p; successChunks := successChunks p |}.

Definition with_chunks (f : FileItem) (cs : list ImportChunk) : FileItem :=
  {| fi_id := fi_id f; fi_filename := fi_filename f; fi_icon := fi_icon f; fi_text := fi_text f;
     fi_tokens := fi_tokens f; fi_chunks := cs |}.

(** [onPushFiles] (line 138): the new files before the old ones. *)
Definition onPushFiles (fs : list FileItem) (p : QAPage) : QAPage := set_files p (fs ++ files p).

(** The delete icon of a file (line 178). *)
Definition removeFile (id : string) (p : QAPage) : QAPage := set_files p (filter (λ f, fi_id f ≠ id) (files p)).

(** The [onBlur] of the preview (lines 270-283). *)
Definition editText (id : string) (val : ustr) (p : QAPage) : QAPage :=
  {| files := map (λ f, if bool_decide (fi_id f = id) then
                          {| fi_id := fi_id f; fi_filename := fi_filename f; fi_icon := fi_icon f; fi_text := val;
                             fi_tokens := fi_tokens f; fi_chunks := fi_chunks f |}
                        else f) (files p);
     showRePreview := true; previewFile := previewFile p; successChunks := successChunks p |}.

(** [onRePreview] (lines 93-118): each file's text is split again, and the
    [i]-th chunk of the new split replaces the [q] of the [i]-th chunk the
    file has. *)
Definition rePreview_file (encode : option (ustr -> nat)) (chunkLen : Z) (f : FileItem) : FileItem :=
  let splitRes := splitText2Chunks encode (fi_text f) chunkLen in
  {| fi_id := fi_id f; fi_filename := fi_filename f; fi_icon := fi_icon f; fi_text := fi_text f;
     fi_tokens := splitRes.2;
     fi_chunks := imap (λ i c, {| ic_q := splitRes.1 !! i; ic_a := ic_a c; ic_source := ic_source c;
                                  ic_file_id := ic_file_id c |}) (fi_chunks f) |}.

Definition onRePreview (encode : option (ustr -> nat)) (chunkLen : Z) (p : QAPage) : QAPage :=
  {| files := map (rePreview_file encode chunkLen) (files p); showRePreview := false; previewFile := None;
     successChunks := successChunks p |}.

(** The delete icon of chunk [i] (lines 321-334). *)
Definition deleteChunk (id : string) (i : nat) (p : QAPage) : QAPage :=
  set_files p (map (λ f, if bool_decide (fi_id f = id) then with_chunks f (take i (fi_chunks f) ++ drop (S i) (fi_chunks f))
                         else f) (files p)).

(** The [onBlur] of chunk [i] (lines 343-375): an empty text deletes it. *)
Definition editChunk (id : string) (i : nat) (val : ustr) (p : QAPage) : QAPage :=
  if bool_decide (val = []) then deleteChunk id i p
  else set_files p (map (λ f, if bool_decide (fi_id f = id) then
                               with_chunks f (imap (λ j c, if bool_decide (j = i) then
                                   {| ic_q := Some val; ic_a := ic_a c; ic_source := ic_source c;
                                      ic_file_id := ic_file_id c |} else c) (fi_chunks f))
                             else f) (files p)).

(** [totalChunk] (lines 35-38). *)
Definition totalChunk (p : QAPage) : nat := sum_list (map (λ f, length (fi_chunks f)) (files p)).

(** The batches of [onclickUpload] (lines 51-67): [chunks.slice(i, i + step)]
    for [i = 0, step, 2 * step, ...] while [i < chunks.length]; the fuel
    bounds the number of iterations. *)
Fixpoint upload_batches {A} (fuel : nat) (step i : nat) (l : list A) : list (list A) :=
  match fuel with
  | 0 => []
  | S fuel' => if i <? length l then take step (drop i l) :: upload_batches fuel' step (i + step) l else []
  end.

Definition upload_step : nat := 200.

Definition upload_chunks (p : QAPage) : list (list ImportChunk) :=
  let chunks := mjoin (map fi_chunks (files p)) in
  upload_batches (length chunks) upload_step 0 chunks.

(** The loop of [onclickUpload] against the push endpoint [post], which
    answers [insertLen] or throws ([None]); [successChunks] keeps the count
    reached when a request throws. *)
Fixpoint upload_loop (post : list ImportChunk -> option nat) (success : nat) (bs : list (list ImportChunk))
    : nat * bool :=
  match bs with
  | [] => (success, true)
  | b :: bs' => match post b with
                | None => (success, false)
                | Some n => upload_loop post (success + n) bs'
                end
  end.

(** ** Samples *)

Definition sample_file : FileItem :=
  {| fi_id := "f"; fi_filename := ustr_of "a.txt"; fi_icon := "/imgs/files/txt.svg"; fi_text := ustr_of "aaaa.";
     fi_tokens := 5;
     fi_chunks := [{| ic_q := Some (ustr_of "aaaa."); ic_a := Some []; ic_source := ustr_of "a.txt";
                      ic_file_id := Some "id1" |}] |}.

Definition sample_page : QAPage :=
  {| files := [sample_file]; showRePreview := false; previewFile := Some "f"; successChunks := 0 |}.

Definition edited_text : ustr := ustr_of "aaaa. bbbbbbb. ccccccc.".

Definition bad_csv : SelectedFile :=
  {| sf_name := ustr_of "qa.csv"; sf_icon := Some "/imgs/files/csv.svg"; sf_read := [];
     sf_csv := [[ustr_of "q"; ustr_of "a"]; [ustr_of "x"; ustr_of "y"]]; sf_file_id := "id2"; sf_nanoid := "n2" |}.

Definition good_txt : SelectedFile :=
  {| sf_name := ustr_of "notes.txt"; sf_icon := Some "/imgs/files/txt.svg"; sf_read := ustr_of "Hello.";
     sf_csv := []; sf_file_id := "id3"; sf_nanoid := "n3" |}.

(** ** Lemmas *)

Lemma select_loop_none encode chunkLen fs f :
  f ∈ fs -> select_file encode chunkLen f = None -> ∀ acc, select_loop encode chunkLen acc fs = None.
Proof.
  induction fs as [|g fs IH]; intros Hf Hsel acc; [by apply not_elem_of_nil in Hf|].
  apply elem_of_cons in Hf as [->|Hf]; simpl.
  - by rewrite Hsel.
  - destruct (select_file encode chunkLen g) as [[it|]|]; [by apply IH..|done].
Qed.

(** The item a file gives, when it gives one. *)
Definition selected_item (encode : option (ustr -> nat)) (chunkLen : Z) (f : SelectedFile) : option FileItem :=
  match select_file encode chunkLen f with Some (Some it) => Some it | _ => None end.

Lemma select_loop_some encode chunkLen fs acc :
  Forall (λ f, select_file encode chunkLen f ≠ None) fs ->
  select_loop encode chunkLen acc fs = Some (reverse (omap (selected_item encode chunkLen) fs) ++ acc).
Proof.
  intros Hfs. revert acc. induction Hfs as [|f fs Hf Hfs IH]; intros acc; [done|].
  simpl. unfold selected_item at 1. destruct (select_file encode chunkLen f) as [[it|]|]; [|by rewrite IH|done].
  rewrite IH, reverse_cons, <- app_assoc. done.
Qed.

Lemma upload_batches_spec {A} (step : nat) (l : list A) fuel i :
  0 < step -> length l ≤ i + fuel * step ->
  concat (upload_batches fuel step i l) = drop i l ∧
  Forall (λ b, 0 < length b ≤ step) (upload_batches fuel step i l).
Proof.
  intros Hs. revert i. induction fuel as [|fuel IH]; intros i Hl; simpl.
  - rewrite drop_ge by lia. done.
  - destruct (i <? length l) eqn:E.
    + apply Nat.ltb_lt in E. destruct (IH (i + step)) as [H1 H2]; [lia|].
      simpl. rewrite H1, <- drop_drop, take_drop. split; [done|]. constructor; [|done].
      rewrite length_take, length_drop. lia.
    + apply Nat.ltb_ge in E. rewrite drop_ge by lia. done.
Qed.

Lemma length_concat_nonempty {A} (bs : list (list A)) :
  Forall (λ b, 0 < length b) bs -> length bs ≤ length (concat bs).
Proof. induction 1 as [|b bs Hb _ IH]; [done|]. simpl. rewrite length_app. lia. Qed.

Lemma upload_loop_all post success bs :
  (∀ b, post b = Some (length b)) -> upload_loop post success bs = (success + length (concat bs), true).
Proof.
  intros Hpost. revert success. induction bs as [|b bs IH]; intros success; simpl; [f_equal; lia|].
  rewrite Hpost, IH, length_app. f_equal. lia.
Qed.

Lemma length_mjoin_chunks (fs : list FileItem) :
  length (mjoin (map fi_chunks fs)) = sum_list (map (λ f, length (fi_chunks f)) fs).
Proof. induction fs as [|f fs IH]; [done|]. simpl. rewrite length_app, IH. done. Qed.

(** ** Properties *)

(** one CSV file with a wrong header anywhere in a
    selection discards the whole selection: the exception of
    [onSelectFile] is caught after the loop, so no file of the selection
    reaches [onPushFiles], not even those parsed before it. *)
Theorem bad_csv_discards_selection (encode : option (ustr -> nat)) (chunkLen : Z) (fs : list SelectedFile)
    (f : SelectedFile) (icon : string) (e : CsvError) :
  f ∈ fs -> sf_icon f = Some icon -> ext_of (sf_name f) = ustr_of "csv" ->
  csv_import (sf_name f) (sf_file_id f) (sf_csv f) = inl e ->
  onSelectFile encode chunkLen fs = None.
Proof.
  intros Hf Hi He Hc. apply (select_loop_none _ _ _ f Hf). unfold select_file. rewrite Hi, He.
  replace (read_text (ustr_of "csv") f) with (@nil N) by reflexivity.
  unfold text_import. simpl. by rewrite Hc.
Qed.

(** When no file of the selection throws, [onSelectFile]
    pushes the items of the accepted files in the reverse order of the
    selection (each is [unshift]ed), skipping the files without an icon and
    the empty non-CSV files. *)
Theorem onSelectFile_order (encode : option (ustr -> nat)) (chunkLen : Z) (fs : list SelectedFile) :
  Forall (λ f, select_file encode chunkLen f ≠ None) fs ->
  onSelectFile encode chunkLen fs = Some (reverse (omap (selected_item encode chunkLen) fs)).
Proof. intros Hfs. unfold onSelectFile. rewrite select_loop_some by done. by rewrite app_nil_r. Qed.

(** the upload loop of the QA page ends after at most
    [totalChunk] requests; it sends every chunk of the page once, in
    order, in batches of 1 to 200 chunks; and when the endpoint inserts
    every chunk it receives, the count it shows is [totalChunk]. *)
Theorem upload_sends_every_chunk (p : QAPage) (post : list ImportChunk -> option nat) :
  concat (upload_chunks p) = mjoin (map fi_chunks (files p)) ∧
  Forall (λ b, 0 < length b ≤ upload_step) (upload_chunks p) ∧
  length (upload_chunks p) ≤ totalChunk p ∧
  ((∀ b, post b = Some (length b)) -> upload_loop post 0 (upload_chunks p) = (totalChunk p, true)).
Proof.
  unfold upload_chunks. set (l := mjoin (map fi_chunks (files p))).
  destruct (upload_batches_spec upload_step l (length l) 0) as [H1 H2]; [unfold upload_step; lia..|].
  rewrite drop_0 in H1. split_and!; [done|done| |].
  - unfold totalChunk. rewrite <- length_mjoin_chunks. fold l.
    etrans; [apply length_concat_nonempty|by rewrite H1].
    eapply Forall_impl; [exact H2|]. intros b []. done.
  - intros Hpost. rewrite upload_loop_all by done. rewrite H1. unfold totalChunk, l.
    by rewrite length_mjoin_chunks.
Qed.

(** after the user edits a file's text in the
    preview and re-splits it, the file keeps its old number of chunks: here
    the edited text splits into three chunks, the file keeps one, and the
    text of the last two is never uploaded. *)
Example rePreview_keeps_old_chunk_count :
  let p := onRePreview None 8 (editText "f" edited_text sample_page) in
  length (splitText2Chunks None edited_text 8).1 = 3 ∧
  map (λ f, length (fi_chunks f)) (files p) = [1] ∧
  map (λ f, map ic_q (fi_chunks f)) (files p) = [[(splitText2Chunks None edited_text 8).1 !! 0]].
Proof. vm_compute. split_and!; reflexivity. Qed.

(** ** Witnesses *)

Lemma bad_csv_discards_selection_witness :
  onSelectFile None 500 [good_txt; bad_csv] = None.
Proof.
  apply (bad_csv_discards_selection None 500 [good_txt; bad_csv] bad_csv "/imgs/files/csv.svg" CsvBadHeader);
    [by right; left|reflexivity|vm_compute; reflexivity|vm_compute; reflexivity].
Defined.

Lemma onSelectFile_order_witness :
  onSelectFile None 500 [good_txt; good_txt] =
  Some (reverse (omap (selected_item None 500) [good_txt; good_txt])).
Proof.
  apply onSelectFile_order. apply Forall_forall. intros f Hf.
  repeat (apply elem_of_cons in Hf as [->|Hf]; [vm_compute; discriminate|]). by apply not_elem_of_nil in Hf.
Defined.

End ImportPage.
