(* ===== verification/Migration.v ===== *)
(** * Migration: the v4 migration of apps to module graphs

    src/client/src/pages/api/admin/initv4.ts: every app that still has the
    old [chat] configuration and no [modules] gets the module graph of its
    configuration ([chatTemplate] without a knowledge base, [kbTemplate]
    with one), batch by batch.  The inputs and modules it writes carry no
    [type], [label] or [name] ([RawInput], [RawModule] of FlowTypes.v).
    The app collection is a list in the store's order; a batch is
    [App.find(filter).limit(limit)] followed by one [findByIdAndUpdate] per
    app found (they touch distinct apps, so their order does not matter).
    The handler's [for] loop runs on fuel: [None] is a loop that has not
    ended.  The theorems: the graph written is valid; the simple editor
    reads it back as the old configuration; with a positive [limit] every
    app is migrated, and with [limit <= 0] the loop never ends. *)

From Stdlib Require Import Ascii ZArith QArith.
From stdpp Require Import base list strings relations.
From S2P Require Import Prelude FlowTypes ModuleTemplates AppForm.

Module Migration.
Import FlowTypes ModuleTemplates.ModuleTemplates AppForm.AppForm.

(** The [chat] field of an app before v4 (@/types/mongoSchema). *)
Record OldChat := {
  chatModel_ : string;
  temperature : Q;
  maxToken : Q;
  systemPrompt : string;
  limitPrompt : string;
  relatedKbs : list string;
  searchEmptyText : string;
  searchLimit : Q;
  searchSimilarity : Q
}.

(** [kbList.length > 0] *)
Definition has_kbs (kbList : list string) : bool := Nat.ltb 0 (length kbList).

Definition v4_chatModelInput (model : string) (temp maxTok : Q) (sys lim : string) (kbList : list string)
    : list FlowInputItemType :=
  [Input "model" FlowInputItemTypeEnum.custom "dialogue model" [i_value (JStr model); i_connected true];
   Input "temperature" FlowInputItemTypeEnum.slider "temperature" [i_value (JNum temp); i_connected true];
   Input "maxToken" FlowInputItemTypeEnum.custom "reply upper limit" [i_value (JNum maxTok); i_connected true];
   Input "systemPrompt" FlowInputItemTypeEnum.textarea "system prompt word" [i_value (JStr sys); i_connected true];
   Input "limitPrompt" FlowInputItemTypeEnum.textarea "qualifier" [i_value (JStr lim); i_connected true];
   Input "switch" FlowInputItemTypeEnum.target "trigger" [i_connected (has_kbs kbList)];
   Input "quoteQA" FlowInputItemTypeEnum.target "reference content" [i_connected (has_kbs kbList)];
   Input "history" FlowInputItemTypeEnum.target "Chat history" [i_connected true];
   Input "userChatInput" FlowInputItemTypeEnum.target "User Question" [i_connected true]].

Definition v4_history : AppModuleItemType :=
  RawModule "history" FlowModuleTypeEnum.historyNode 452.5466249541586 1276.3930310334215
    [RawInput "maxContext" [i_value (JNum 10); i_connected true]; RawInput "history" [i_connected true]]
    [Output "history" [] [Target "chatModule" "history"]].

Definition v4_chatModule (x y : Q) (c : OldChat) (kbList : list string) : AppModuleItemType :=
  RawModule "chatModule" FlowModuleTypeEnum.chatNode x y
    (v4_chatModelInput (chatModel_ c) (temperature c) (maxToken c) (systemPrompt c) (limitPrompt c) kbList)
    [Output TaskResponseKeyEnum_answerText [] []].

Definition chatTemplate (c : OldChat) : list AppModuleItemType :=
  [RawModule "userChatInput" FlowModuleTypeEnum.questionInput 464.32198615344566 1602.2698463081606
     [RawInput "userChatInput" [i_connected true]]
     [Output "userChatInput" [] [Target "chatModule" "userChatInput"]];
   v4_history;
   v4_chatModule 981.9682828103937 890.014595014464 c []].

(** [kbList = relatedKbs.map((id) => ({ kbId: id }))] *)
Definition kb_objects (kbList : list string) : JsVal := JArr (map (λ id, JObj [("kbId", JStr id)]) kbList).

Definition v4_kbSearch (c : OldChat) : AppModuleItemType :=
  RawModule "kbSearch" FlowModuleTypeEnum.kbSearchNode 956.0838440206068 887.462827870246
    [RawInput "kbList" [i_value (kb_objects (relatedKbs c)); i_connected true];
     RawInput "similarity" [i_value (JNum (searchSimilarity c)); i_connected true];
     RawInput "limit" [i_value (JNum (searchLimit c)); i_connected true];
     RawInput "switch" [i_connected false];
     RawInput "userChatInput" [i_connected true]]
    [Output "isEmpty" []
       (if js_truthy (JStr (searchEmptyText c)) then [Target "emptyText" "switch"] else [Target "chatModule" "switch"]);
     Output "unEmpty" [] [Target "chatModule" "switch"];
     Output "quoteQA" [] [Target "chatModule" "quoteQA"]].

Definition v4_emptyText (c : OldChat) : AppModuleItemType :=
  RawModule "emptyText" FlowModuleTypeEnum.answerNode 1553.5815811529146 637.8753731306779
    [RawInput "switch" [i_connected true];
     RawInput SpecialInputKeyEnum_answerText [i_value (JStr (searchEmptyText c)); i_connected true]]
    [].

Definition kbTemplate (c : OldChat) : list AppModuleItemType :=
  [RawModule "userChatInput" FlowModuleTypeEnum.questionInput 464.32198615344566 1602.2698463081606
     [RawInput "userChatInput" [i_connected true]]
     [Output "userChatInput" [] [Target "chatModule" "userChatInput"; Target "kbSearch" "userChatInput"]];
   v4_history;
   v4_kbSearch c] ++
  (if js_truthy (JStr (searchEmptyText c)) then [v4_emptyText c] else []) ++
  [v4_chatModule 1551.71405495818 977.4911578918461 c (relatedKbs c)].

(** The [modules] of one app (lines 412-435). *)
Definition migrate (c : OldChat) : list AppModuleItemType :=
  if Nat.eqb (length (relatedKbs c)) 0 then chatTemplate c else kbTemplate c.

(** ** The batches *)

Record OldApp := { app_key : nat; chat : option OldChat; modules : option (list AppModuleItemType) }.

(** The filter [{chat: {$ne: null}, modules: {$exists: false}}]. *)
Definition eligible (a : OldApp) : bool :=
  match chat a, modules a with Some _, None => true | _, _ => false end.

(** [cursor.limit(n)]: 0 means no limit, a negative [n] is [|n|]. *)
Definition mongo_limit (n : Z) : option nat := if Z.eqb n 0 then None else Some (Z.to_nat (Z.abs n)).

Definition migrate_app (a : OldApp) : OldApp :=
  match chat a with
  | Some c => {| app_key := app_key a; chat := chat a; modules := Some (migrate c) |}
  | None => a
  end.

(** [init(limit, skip)]: the first [limit] eligible apps in store order
    are migrated ([skip] is not used). *)
Fixpoint init_batch (slots : option nat) (apps : list OldApp) : list OldApp :=
  match apps with
  | [] => []
  | a :: rest =>
      if eligible a then
        match slots with
        | None => migrate_app a :: init_batch None rest
        | Some (S k) => migrate_app a :: init_batch (Some k) rest
        | Some O => a :: init_batch (Some O) rest
        end
      else a :: init_batch slots rest
  end.

(** The [for] loop of the handler with the batches it chains, on fuel. *)
Fixpoint run_batches (fuel : nat) (limit i total : Z) (apps : list OldApp) : option (list OldApp) :=
  match fuel with
  | O => None
  | S fuel' =>
      if Z.ltb i total then run_batches fuel' limit (i + limit) total (init_batch (mongo_limit limit) apps)
      else Some apps
  end.

(** The handler: [const { limit = 1000 } = req.body]; [total] is
    [App.countDocuments()], every app. *)
Definition handler (fuel : nat) (limit : option Z) (apps : list OldApp) : option (list OldApp) :=
  let limit := match limit with Some l => l | None => 1000%Z end in
  run_batches fuel limit 0 (Z.of_nat (length apps)) apps.

(** The old configuration as a form. *)
Definition chat_form (c : OldChat) : EditFormType :=
  {| chatModel := {| cf_model := JStr (chatModel_ c); cf_systemPrompt := JStr (systemPrompt c);
                     cf_limitPrompt := JStr (limitPrompt c); cf_temperature := JNum (temperature c);
                     cf_maxToken := JNum (maxToken c); cf_frequency := JNum 0.5; cf_presence := JNum (-0.5) |};
     kb := {| kf_list := kb_objects (relatedKbs c); kf_searchSimilarity := JNum (searchSimilarity c);
              kf_searchLimit := JNum (searchLimit c); kf_searchEmptyText := JStr (searchEmptyText c) |};
     guide_welcome_text := JStr ""; variables := JArr [] |}.

(** What the editor shows: the configuration, with the default search
    settings when the app had no knowledge base. *)
Definition editor_view (c : OldChat) : EditFormType :=
  if has_kbs (relatedKbs c) then chat_form c
  else set_kb (chat_form c) {| kf_list := JArr []; kf_searchSimilarity := JNum 0.4; kf_searchLimit := JNum 5;
                               kf_searchEmptyText := JStr "" |}.

(** The settings the editor reads back unchanged: the model name and the
    reply limit are not falsy, the temperature is not a 0 other than [0]
    itself, and with a knowledge base the similarity and the search limit
    are not 0. *)
Definition migratable (c : OldChat) : Prop :=
  chatModel_ c <> "" ∧ ¬ (maxToken c == 0)%Q ∧ kept (JNum (temperature c)) (JNum 0) ∧
  (has_kbs (relatedKbs c) = true -> ¬ (searchSimilarity c == 0)%Q ∧ ¬ (searchLimit c == 0)%Q).

(** An app after some batches: as it was, or migrated because it was
    eligible. *)
Definition batch_rel (a a' : OldApp) : Prop := a' = a ∨ (eligible a = true ∧ a' = migrate_app a).

Definition sample_chat : OldChat :=
  {| chatModel_ := "gpt-3.5-turbo"; temperature := 0; maxToken := 2000; systemPrompt := "You are laf.";
     limitPrompt := ""; relatedKbs := ["kb1"]; searchEmptyText := "No answer"; searchLimit := 5;
     searchSimilarity := 0.8 |}.

Definition sample_apps : list OldApp :=
  [{| app_key := 0; chat := Some sample_chat; modules := None |};
   {| app_key := 1; chat := None; modules := None |};
   {| app_key := 2; chat := Some sample_chat; modules := None |}].

(** ** The graph written *)

(** For every old configuration, the graph the
    migration writes is valid: edges lead to existing modules and inputs,
    ids are unique, port types agree and there is no cycle. *)
Theorem migrate_valid (c : OldChat) :
  graph_wf (migrate c) = true ∧ ids_unique (migrate c) = true ∧
  edges_typed (migrate c) = true ∧ ∀ x, ¬ tc (edge_rel (migrate c)) x x.
Proof.
  apply graph_valid_spec. unfold migrate, kbTemplate, v4_kbSearch.
  destruct (Nat.eqb _ 0), (js_truthy (JStr (searchEmptyText c))); vm_compute; reflexivity.
Qed.

(** ** What the simple editor reads from it *)

Lemma module2Form_v4_chat mods g x y c kbs :
  module2Form mods g (v4_chatModule x y c kbs) = read_chat (chat_form c) g.
Proof. destruct g as [[] [] ? ?]. reflexivity. Qed.

Lemma module2Form_v4_kb mods g c :
  module2Form mods g (v4_kbSearch c) =
    set_kb g
      {| kf_list := js_or (kb_objects (relatedKbs c)) (kf_list (kb g));
         kf_searchSimilarity := js_or (JNum (searchSimilarity c)) (kf_searchSimilarity (kb g));
         kf_searchLimit := js_or (JNum (searchLimit c)) (kf_searchLimit (kb g));
         kf_searchEmptyText := js_or (empty_text_read mods (chat_form c)) (JStr "") |}.
Proof.
  destruct g as [[] [] ? ?]. unfold empty_text_read, v4_kbSearch.
  change (kf_searchEmptyText (kb (chat_form c))) with (JStr (searchEmptyText c)).
  destruct (js_truthy (JStr (searchEmptyText c))); reflexivity.
Qed.

Lemma empty_text_read_v4 c :
  has_kbs (relatedKbs c) = true ->
  empty_text_read (migrate c) (chat_form c) =
    if js_truthy (JStr (searchEmptyText c)) then JStr (searchEmptyText c) else JUndefined.
Proof.
  intros Hk. unfold migrate, empty_text_read, has_kbs in *.
  destruct (Nat.eqb_spec (length (relatedKbs c)) 0) as [E|E]; [rewrite E in Hk; done|].
  unfold kbTemplate. change (kf_searchEmptyText (kb (chat_form c))) with (JStr (searchEmptyText c)).
  destruct (js_truthy (JStr (searchEmptyText c))); reflexivity.
Qed.

Lemma js_truthy_JStr s : s <> "" -> js_truthy (JStr s) = true.
Proof. intros H. simpl. destruct (String.eqb_spec s ""); [done|reflexivity]. Qed.

Lemma js_truthy_JNum q : ¬ (q == 0)%Q -> js_truthy (JNum q) = true.
Proof. intros H. simpl. destruct (Qeq_bool q 0) eqn:E; [apply Qeq_bool_iff in E; done|reflexivity]. Qed.

Lemma js_truthy_JStr_false s : js_truthy (JStr s) = false -> s = "".
Proof. unfold js_truthy. destruct (String.eqb_spec s ""); done. Qed.

Lemma js_or_JStr_empty s : js_or (JStr s) (JStr "") = JStr s.
Proof. unfold js_or. simpl. destruct (String.eqb_spec s ""); [by subst|reflexivity]. Qed.

Lemma module2Form_v4_question mods g ts :
  module2Form mods g (RawModule "userChatInput" FlowModuleTypeEnum.questionInput 464.32198615344566
                        1602.2698463081606 [RawInput "userChatInput" [i_connected true]]
                        [Output "userChatInput" [] ts]) = g.
Proof. reflexivity. Qed.

Lemma module2Form_v4_history mods g : module2Form mods g v4_history = g.
Proof. reflexivity. Qed.

Lemma module2Form_v4_emptyText mods g c : module2Form mods g (v4_emptyText c) = g.
Proof. reflexivity. Qed.

Local Arguments js_or : simpl never.
Local Arguments js_truthy : simpl never.

(** C22: with a configured chat model, the simple editor
    reads the graph the migration wrote for an old configuration as that
    configuration (its prompts, model, temperature, reply limit and, with
    a knowledge base, its knowledge bases, search settings and empty-search
    reply), for every configuration whose settings are not falsy. *)
Theorem migrate_editor_view (chatModelList : list ChatModelItem) (m : ChatModelItem) (c : OldChat) :
  head chatModelList = Some m -> migratable c ->
  appModules2Form chatModelList (migrate c) = Some (editor_view c).
Proof.
  intros Hcml (Hmo & Hmt & Hte & Hkb). unfold appModules2Form, getDefaultAppForm. rewrite Hcml. simpl. f_equal.
  pose proof (empty_text_read_v4 c) as Hread.
  unfold editor_view. destruct (has_kbs (relatedKbs c)) eqn:Hk.
  - destruct (Hkb eq_refl) as [Hsi Hli].
    pose proof Hk as Hk'. unfold has_kbs in Hk'. apply Nat.ltb_lt in Hk'.
    unfold migrate at 2. destruct (Nat.eqb_spec (length (relatedKbs c)) 0); [lia|].
    unfold kbTemplate. destruct (js_truthy (JStr (searchEmptyText c))) eqn:Het.
    all: rewrite !fold_left_app; cbn [fold_left app].
    all: rewrite module2Form_v4_question, module2Form_v4_history, module2Form_v4_kb, ?module2Form_v4_emptyText,
           module2Form_v4_chat, Hread, ?Het by done.
    all: unfold read_chat, set_chatModel, set_kb, chat_form; simpl.
    all: rewrite ?(js_or_truthy (JStr (chatModel_ c))), ?(js_or_truthy (JNum (maxToken c))),
           ?(js_or_truthy (JNum (searchSimilarity c))), ?(js_or_truthy (JNum (searchLimit c))),
           ?(js_or_truthy (kb_objects (relatedKbs c))), ?js_or_JStr_empty, ?Hte
           by auto using js_truthy_JStr, js_truthy_JNum.
    + reflexivity.
    + apply js_truthy_JStr_false in Het. rewrite Het, js_or_falsy by done. reflexivity.
  - unfold has_kbs in Hk. apply Nat.ltb_ge in Hk.
    unfold migrate at 2. destruct (Nat.eqb_spec (length (relatedKbs c)) 0); [|lia].
    unfold chatTemplate. cbn [fold_left].
    rewrite module2Form_v4_question, module2Form_v4_history, module2Form_v4_chat.
    unfold read_chat, set_chatModel, set_kb, chat_form; simpl.
    rewrite ?(js_or_truthy (JStr (chatModel_ c))), ?(js_or_truthy (JNum (maxToken c))), ?js_or_JStr_empty, ?Hte
      by auto using js_truthy_JStr, js_truthy_JNum.
    reflexivity.
Qed.

(** ** The batches migrate every app *)

Lemma migrate_app_done a : eligible a = true -> eligible (migrate_app a) = false.
Proof. unfold eligible, migrate_app. by destruct (chat a), (modules a). Qed.

Lemma batch_rel_trans a a' a'' : batch_rel a a' -> batch_rel a' a'' -> batch_rel a a''.
Proof.
  intros [->|[He ->]] H2; [done|]. destruct H2 as [->|[He' _]]; [by right|].
  by rewrite migrate_app_done in He'.
Qed.

Lemma Forall2_batch_rel_refl apps : Forall2 batch_rel apps apps.
Proof. induction apps; constructor; [by left|done]. Qed.

Lemma Forall2_batch_rel_trans l1 l2 l3 :
  Forall2 batch_rel l1 l2 -> Forall2 batch_rel l2 l3 -> Forall2 batch_rel l1 l3.
Proof.
  intros H12. revert l3. induction H12; intros l3 H23; inversion H23; subst; constructor; eauto using batch_rel_trans.
Qed.

Lemma init_batch_rel slots apps : Forall2 batch_rel apps (init_batch slots apps).
Proof.
  revert slots. induction apps as [|a apps IH]; intros slots; simpl; [constructor|].
  destruct (eligible a) eqn:He; [|constructor; [by left|apply IH]].
  destruct slots as [[|k]|]; constructor; auto; [by left|by right|by right].
Qed.

Lemma init_batch_count k apps :
  countb eligible (init_batch (Some k) apps) = countb eligible apps - k.
Proof.
  revert k. induction apps as [|a apps IH]; intros k; simpl; [done|].
  destruct (eligible a) eqn:He; [destruct k as [|k]|]; rewrite !countb_cons, ?IH, ?He.
  - lia.
  - rewrite migrate_app_done by done. lia.
  - lia.
Qed.

Lemma countb_zero_forall {A} (f : A -> bool) l : countb f l = 0 -> Forall (λ x, f x = false) l.
Proof.
  induction l as [|x l IH]; intros H; [constructor|]. rewrite countb_cons in H.
  destruct (f x) eqn:E; [lia|]. constructor; auto.
Qed.

Lemma countb_le_length {A} (f : A -> bool) l : countb f l <= length l.
Proof. induction l as [|x l IH]; [done|]. rewrite countb_cons. simpl. destruct (f x); lia. Qed.

Lemma run_batches_spec fuel limit i total apps :
  (0 < limit)%Z -> (Z.of_nat (countb eligible apps) <= Z.max 0 (total - i))%Z -> Z.to_nat (total - i) < fuel ->
  ∃ apps', run_batches fuel limit i total apps = Some apps' ∧ countb eligible apps' = 0 ∧
           Forall2 batch_rel apps apps'.
Proof.
  revert i apps. induction fuel as [|fuel IH]; intros i apps Hl Hc Hf; [lia|]. simpl.
  destruct (Z.ltb_spec i total).
  - unfold mongo_limit. destruct (Z.eqb_spec limit 0); [lia|].
    destruct (IH (i + limit)%Z (init_batch (Some (Z.to_nat (Z.abs limit))) apps)) as (apps' & Hrun & H0 & Hrel).
    + done.
    + rewrite init_batch_count. lia.
    + lia.
    + exists apps'. split_and!; [done|done|]. eapply Forall2_batch_rel_trans; [apply init_batch_rel|done].
  - exists apps. split_and!; [done|lia|apply Forall2_batch_rel_refl].
Qed.

(** C34: with a positive [limit] the handler's loop ends
    (within [length apps + 1] rounds) and every app that had the old
    configuration and no modules has been migrated, each other app left
    as it was. *)
Theorem handler_migrates_all (limit : Z) (apps : list OldApp) :
  (0 < limit)%Z ->
  ∃ apps', handler (S (length apps)) (Some limit) apps = Some apps' ∧
    Forall2 (λ a a', a' = if eligible a then migrate_app a else a) apps apps'.
Proof.
  intros Hl. unfold handler.
  destruct (run_batches_spec (S (length apps)) limit 0 (Z.of_nat (length apps)) apps) as (apps' & Hrun & H0 & Hrel).
  - done.
  - pose proof (countb_le_length eligible apps). lia.
  - lia.
  - exists apps'. split; [done|]. apply countb_zero_forall in H0. clear Hrun.
    revert H0. induction Hrel as [|a a' l l' Hr Hrel' IHr]; intros H0; constructor;
      inversion H0 as [|? ? Ha' Hl']; subst.
    + destruct Hr as [->|[He ->]]; [by rewrite Ha'|by rewrite He].
    + by apply IHr.
Qed.

Lemma run_batches_nonpositive fuel limit i total apps :
  (limit <= 0)%Z -> (i <= 0)%Z -> (0 < total)%Z -> run_batches fuel limit i total apps = None.
Proof.
  revert i apps. induction fuel as [|fuel IH]; intros i apps Hl Hi Ht; [done|]. simpl.
  destruct (Z.ltb_spec i total); [apply IH; lia|lia].
Qed.

(** C35: with [limit <= 0] in the request body and at least one
    app, the handler's loop never ends: [i += limit] never reaches the
    number of apps, whatever the fuel. *)
Theorem handler_loops_forever (limit : Z) (apps : list OldApp) (fuel : nat) :
  (limit <= 0)%Z -> apps <> [] -> handler fuel (Some limit) apps = None.
Proof.
  intros Hl Hne. unfold handler. apply run_batches_nonpositive; [done|lia|].
  destruct apps; [done|simpl; lia].
Qed.

Lemma handler_migrates_all_witness :
  (0 < 1)%Z ∧ ∃ apps', handler (S (length sample_apps)) (Some 1%Z) sample_apps = Some apps' ∧
    Forall2 (λ a a', a' = if eligible a then migrate_app a else a) sample_apps apps'.
Proof. split; [lia|]. apply handler_migrates_all. lia. Defined.

Lemma handler_loops_forever_witness :
  (0 <= 0)%Z ∧ sample_apps <> [] ∧ handler 100 (Some 0%Z) sample_apps = None.
Proof.
  split_and!; [lia|discriminate|]. apply handler_loops_forever; [lia|discriminate].
Defined.

Lemma migrate_editor_view_witness :
  migratable sample_chat ∧
  appModules2Form sample_models (migrate sample_chat) = Some (editor_view sample_chat).
Proof.
  assert (H : migratable sample_chat).
  { split_and!; [discriminate|vm_compute; discriminate|reflexivity|intros _; split; vm_compute; discriminate]. }
  split; [exact H|]. exact (migrate_editor_view sample_models sample_form_model sample_chat eq_refl H).
Defined.

End Migration.
