(* ===== verification/AppStore.v ===== *)
(** * AppStore: the document-store handlers over apps, knowledge bases, collections and chat items

    The API routes of pages/api/app (create, update, del, myApps, detail,
    share/collection), pages/api/plugins/kb (create, update) and
    pages/api/chat (delChatRecordByContentId, feedback/userUpdate,
    feedback/adminUpdate), each a function from a [Store] (the Mongo
    collections App, KB, Chat, ChatItem, Collection and OutLink as lists of
    documents) to an error or a result and the next store.  The schemas and
    [authApp] are outside src/ and are modelled from the spec: [authApp]
    finds the app by id and requires the caller to own it.  [authUser] is
    assumed to succeed with the caller's id.  Fresh ObjectIds are arguments
    of the creating handlers, and [step] requires them fresh.  An update
    key whose value is [undefined] is dropped from the update document, as
    Mongoose does, so it leaves the stored field as it is.  The documents
    carry the fields the handlers of this file and of [AppAccess] read;
    [share.topNum] has the schema's default 0 and no handler writes it. *)

From Stdlib Require Import Ascii ZArith.
From stdpp Require Import base list strings sorting relations.
From S2P Require Import Prelude FlowTypes.

Module AppStore.
Import FlowTypes.

Definition ObjectId := string.

(** ** Documents *)

Record AppShare := { isShare : bool; isShareDetail : bool; share_collection : nat; share_topNum : Z }.

Record AppDoc := {
  app_id : ObjectId;
  app_userId : ObjectId;
  app_name : string;
  app_avatar : string;
  app_type : string;
  app_intro : string;
  app_chat : JsVal;
  app_share : AppShare;
  app_modules : list AppModuleItemType;
  app_updateTime : Z
}.

Record KbDoc := {
  kbdoc_id : ObjectId;
  kbdoc_userId : ObjectId;
  kbdoc_name : string;
  kbdoc_tags : list text;
  kbdoc_vectorModel : string;
  kbdoc_avatar : string
}.

Record ChatDoc := {
  chat_id : ObjectId;
  chat_appId : ObjectId;
  chat_userId : ObjectId;
  chat_title : string;
  chat_variables : JsVal
}.

Record AdminFeedback := { af_kbId : string; af_dataId : string; af_content : string }.

Record ChatItemDoc := {
  ci_dataId : string;
  ci_chatId : ObjectId;
  ci_appId : ObjectId;
  ci_userId : ObjectId;
  ci_obj : string;
  ci_value : string;
  ci_responseData : JsVal;
  userFeedback : option string;
  adminFeedback : option AdminFeedback
}.

Record CollectionDoc := { col_id : ObjectId; col_userId : ObjectId; col_modelId : ObjectId }.

Record OutLinkDoc := {
  ol_id : ObjectId; ol_shareId : string; ol_appId : ObjectId; ol_userId : ObjectId; ol_name : string
}.

Record Store := {
  apps : list AppDoc;
  kbs : list KbDoc;
  chats : list ChatDoc;
  chatItems : list ChatItemDoc;
  collections : list CollectionDoc;
  outLinks : list OutLinkDoc
}.

Definition set_apps (S : Store) (l : list AppDoc) : Store :=
  {| apps := l; kbs := kbs S; chats := chats S; chatItems := chatItems S;
     collections := collections S; outLinks := outLinks S |}.
Definition set_kbs (S : Store) (l : list KbDoc) : Store :=
  {| apps := apps S; kbs := l; chats := chats S; chatItems := chatItems S;
     collections := collections S; outLinks := outLinks S |}.
Definition set_chatItems (S : Store) (l : list ChatItemDoc) : Store :=
  {| apps := apps S; kbs := kbs S; chats := chats S; chatItems := l;
     collections := collections S; outLinks := outLinks S |}.

(** The messages the handlers throw, in the order of the source files. *)
Inductive ApiError :=
  | MissingParameter        (* 'Missing parameter' / 'missing parameter' *)
  | ParameterError          (* 'Parameter error' *)
  | AppIdEmpty              (* 'appId is empty' *)
  | MaxApps                 (* 'Maximum 50 applications' *)
  | AppNotExists            (* authApp: the app is not found *)
  | UnAuthModel             (* authApp: ERROR_ENUM.unAuthModel *)
  | ChatItemIdRequired.     (* 'chatItemId is required' *)

(** ** Spec-modelled collaborators *)

(** [authApp({appId, userId})]: [App.findById], then the owner check. *)
Definition authApp (S : Store) (appId uid : ObjectId) : ApiError + AppDoc :=
  match list_find (λ a, app_id a = appId) (apps S) with
  | None => inl AppNotExists
  | Some (_, a) => if bool_decide (app_userId a = uid) then inr a else inl UnAuthModel
  end.

(** The defaults of the App schema, as [defaultApp] of constants/model.ts
    writes them. *)
Definition default_avatar : string := "/icon/logo.svg".
Definition default_app_type : string := "basic".

(** ** pages/api/app *)

(** [App.countDocuments({userId})]. *)
Definition app_count (S : Store) (uid : ObjectId) : nat :=
  countb (λ a, bool_decide (app_userId a = uid)) (apps S).

(** The document [App.create({avatar, name, userId, modules})] writes
    (create.ts lines 37-42), with the schema's defaults. *)
Definition new_app (uid newId : ObjectId) (now : Z) (name : string) (avatar : option string)
    (ms : list AppModuleItemType) : AppDoc :=
  {| app_id := newId; app_userId := uid; app_name := name;
     app_avatar := default default_avatar avatar; app_type := default_app_type;
     app_intro := ""; app_chat := JUndefined;
     app_share := {| isShare := false; isShareDetail := false; share_collection := 0; share_topNum := 0 |};
     app_modules := ms; app_updateTime := now |}.

(** create.ts (lines 15-53).  [modules] is [None] when it is not an array. *)
Definition app_create (uid newId : ObjectId) (now : Z) (name : string) (avatar : option string)
    (modules : option (list AppModuleItemType)) (S : Store) : ApiError + (ObjectId * Store) :=
  match modules with
  | None => inl MissingParameter
  | Some ms =>
      if bool_decide (name = "") then inl MissingParameter
      else if 50 <=? app_count S uid then inl MaxApps
      else inr (newId, set_apps S (apps S ++ [new_app uid newId now name avatar ms]))
  end.

(** [AppUpdateParams]: each key is [undefined] ([None]) or a value. *)
Record AppUpdateParams := {
  up_name : option string;
  up_avatar : option string;
  up_type : option string;
  up_intro : option string;
  up_chat : option JsVal;
  up_share : option (bool * bool);
  up_modules : option (list AppModuleItemType)
}.

(** The update document of update.ts (lines 30-47) applied to one app:
    [...(share && {...})] sets the two share flags, [...(modules && {modules})]
    the modules (an array is truthy, even when empty). *)
Definition apply_app_update (p : AppUpdateParams) (a : AppDoc) : AppDoc :=
  {| app_id := app_id a; app_userId := app_userId a;
     app_name := default (app_name a) (up_name p);
     app_avatar := default (app_avatar a) (up_avatar p);
     app_type := default (app_type a) (up_type p);
     app_intro := default (app_intro a) (up_intro p);
     app_chat := default (app_chat a) (up_chat p);
     app_share := match up_share p with
                  | Some (s, d) => {| isShare := s; isShareDetail := d;
                                      share_collection := share_collection (app_share a);
                                      share_topNum := share_topNum (app_share a) |}
                  | None => app_share a
                  end;
     app_modules := default (app_modules a) (up_modules p);
     app_updateTime := app_updateTime a |}.

(** [App.updateOne({_id: appId, userId}, ...)]. *)
Definition app_update_one (appId uid : ObjectId) (p : AppUpdateParams) (l : list AppDoc) : list AppDoc :=
  match list_find (λ a, app_id a = appId ∧ app_userId a = uid) l with
  | None => l
  | Some (i, a) => <[i := apply_app_update p a]> l
  end.

(** update.ts (lines 10-56). *)
Definition app_update (uid appId : ObjectId) (p : AppUpdateParams) (S : Store) : ApiError + Store :=
  if bool_decide (appId = "") then inl AppIdEmpty
  else match authApp S appId uid with
       | inl e => inl e
       | inr _ => inr (set_apps S (app_update_one appId uid p (apps S)))
       end.

(** del.ts (lines 8-55): the chats, the favourites and the share links of the
    app, then the app itself.  The chat items are left as they are. *)
Definition app_del (uid appId : ObjectId) (S : Store) : ApiError + Store :=
  if bool_decide (appId = "") then inl ParameterError
  else match authApp S appId uid with
       | inl e => inl e
       | inr _ =>
           inr {| apps := filter (λ a, ¬ (app_id a = appId ∧ app_userId a = uid)) (apps S);
                  kbs := kbs S;
                  chats := filter (λ c, chat_appId c ≠ appId) (chats S);
                  chatItems := chatItems S;
                  collections := filter (λ c, col_modelId c ≠ appId) (collections S);
                  outLinks := filter (λ o, ol_appId o ≠ appId) (outLinks S) |}
       end.

(** [AppListItemType]: the projection ['_id avatar name intro']. *)
Record AppListItem := { li_id : ObjectId; li_avatar : string; li_name : string; li_intro : string }.

Definition app_list_item (a : AppDoc) : AppListItem :=
  {| li_id := app_id a; li_avatar := app_avatar a; li_name := app_name a; li_intro := app_intro a |}.

Definition newer (a b : AppDoc) : Prop := (app_updateTime b ≤ app_updateTime a)%Z.
#[local] Instance newer_dec : RelDecision newer := λ a b, Z.le_dec _ _.

(** myApps.ts (lines 7-33): the caller's apps, the most recently updated
    first. *)
Definition myApps (uid : ObjectId) (S : Store) : list AppListItem :=
  map app_list_item (merge_sort newer (filter (λ a, app_userId a = uid) (apps S))).

(** detail.tsx (lines 8-35). *)
Definition app_detail (uid appId : ObjectId) (S : Store) : ApiError + AppDoc :=
  if bool_decide (appId = "") then inl ParameterError else authApp S appId uid.

(** share/collection.ts (lines 7-44): remove the caller's favourite of the
    app if there is one, otherwise create it; then store the number of
    favourites of the app in [share.collection]. *)
Definition set_collection_count (appId : ObjectId) (n : nat) (a : AppDoc) : AppDoc :=
  if bool_decide (app_id a = appId) then
    {| app_id := app_id a; app_userId := app_userId a; app_name := app_name a;
       app_avatar := app_avatar a; app_type := app_type a; app_intro := app_intro a;
       app_chat := app_chat a;
       app_share := {| isShare := isShare (app_share a); isShareDetail := isShareDetail (app_share a);
                       share_collection := n; share_topNum := share_topNum (app_share a) |};
       app_modules := app_modules a; app_updateTime := app_updateTime a |}
  else a.

Definition collection_count (cs : list CollectionDoc) (appId : ObjectId) : nat :=
  countb (λ c, bool_decide (col_modelId c = appId)) cs.

(** [Collection.findOne({userId, modelId: appId})] (lines 19-22). *)
Definition find_collection (uid appId : ObjectId) (cs : list CollectionDoc) : option CollectionDoc :=
  snd <$> list_find (λ c, col_userId c = uid ∧ col_modelId c = appId) cs.

(** The remove of the record found, or the create (lines 24-31). *)
Definition write_collection (uid newId appId : ObjectId) (found : option CollectionDoc)
    (cs : list CollectionDoc) : list CollectionDoc :=
  match found with
  | Some c => filter (λ d, col_id d ≠ col_id c) cs
  | None => cs ++ [{| col_id := newId; col_userId := uid; col_modelId := appId |}]
  end.

Definition toggle_collection (uid newId appId : ObjectId) (cs : list CollectionDoc) : list CollectionDoc :=
  write_collection uid newId appId (find_collection uid appId cs) cs.

Definition app_collection (uid newId appId : ObjectId) (S : Store) : ApiError + Store :=
  if bool_decide (appId = "") then inl MissingParameter
  else
    let cs := toggle_collection uid newId appId (collections S) in
    inr {| apps := map (set_collection_count appId (collection_count cs appId)) (apps S);
           kbs := kbs S; chats := chats S; chatItems := chatItems S;
           collections := cs; outLinks := outLinks S |}.

(** ** pages/api/plugins/kb *)

Definition space : ascii := " "%char.

(** [tags.split(' ').filter((item) => item)] of kb/update.ts line 28. *)
Definition tags_of (tags : text) : list text := filter (λ t, t ≠ []) (split_on space tags).

(** [e.target.value.split(' ')] of the create modal
    (pages/kb/list/component/CreateModal.tsx line 135): the tags sent. *)
Definition create_modal_tags (input : text) : list text := split_on space input.

(** kb/create.ts (lines 7-35). *)
Definition kb_create (uid newId : ObjectId) (name : string) (tags : list text) (avatar : option string)
    (vectorModel : string) (S : Store) : ApiError + (ObjectId * Store) :=
  if bool_decide (name = "" ∨ vectorModel = "") then inl MissingParameter
  else inr (newId, set_kbs S (kbs S ++
         [{| kbdoc_id := newId; kbdoc_userId := uid; kbdoc_name := name; kbdoc_tags := tags;
             kbdoc_vectorModel := vectorModel; kbdoc_avatar := default default_avatar avatar |}])).

(** kb/update.ts (lines 7-39): [KB.findOneAndUpdate({_id: id, userId}, ...)]. *)
Definition kb_update (uid id : ObjectId) (name : string) (tags : text) (avatar : option string)
    (S : Store) : ApiError + Store :=
  if bool_decide (id = "" ∨ name = "") then inl MissingParameter
  else inr (set_kbs S
    match list_find (λ k, kbdoc_id k = id ∧ kbdoc_userId k = uid) (kbs S) with
    | None => kbs S
    | Some (i, k) =>
        <[i := {| kbdoc_id := kbdoc_id k; kbdoc_userId := kbdoc_userId k; kbdoc_name := name;
                  kbdoc_tags := tags_of tags; kbdoc_vectorModel := kbdoc_vectorModel k;
                  kbdoc_avatar := default (kbdoc_avatar k) avatar |}]> (kbs S)
    end).

(** ** pages/api/chat *)

(** delChatRecordByContentId.ts (lines 6-29): [ChatItem.deleteOne]. *)
Definition delChatRecordByContentId (uid chatId contentId : ObjectId) (S : Store) : Store :=
  set_chatItems S
    match list_find (λ c, ci_dataId c = contentId ∧ ci_chatId c = chatId ∧ ci_userId c = uid) (chatItems S) with
    | None => chatItems S
    | Some (i, _) => delete i (chatItems S)
    end.

Definition set_userFeedback (f : option string) (c : ChatItemDoc) : ChatItemDoc :=
  {| ci_dataId := ci_dataId c; ci_chatId := ci_chatId c; ci_appId := ci_appId c; ci_userId := ci_userId c;
     ci_obj := ci_obj c; ci_value := ci_value c; ci_responseData := ci_responseData c;
     userFeedback := f; adminFeedback := adminFeedback c |}.

Definition set_adminFeedback (f : AdminFeedback) (c : ChatItemDoc) : ChatItemDoc :=
  {| ci_dataId := ci_dataId c; ci_chatId := ci_chatId c; ci_appId := ci_appId c; ci_userId := ci_userId c;
     ci_obj := ci_obj c; ci_value := ci_value c; ci_responseData := ci_responseData c;
     userFeedback := userFeedback c; adminFeedback := Some f |}.

(** [findOneAndUpdate(filter, f)] on the chat items: the first match only. *)
Definition update_first_item (P : ChatItemDoc -> Prop) `{∀ c, Decision (P c)}
    (f : ChatItemDoc -> ChatItemDoc) (l : list ChatItemDoc) : list ChatItemDoc :=
  match list_find P l with
  | None => l
  | Some (i, c) => <[i := f c]> l
  end.

(** feedback/userUpdate.ts (lines 6-34): no [authUser]; an empty feedback
    [$unset]s the field. *)
Definition userUpdate (chatItemId : string) (feedback : option string) (S : Store) : ApiError + Store :=
  if bool_decide (chatItemId = "") then inl ChatItemIdRequired
  else inr (set_chatItems S (update_first_item (λ c, ci_dataId c = chatItemId)
              (set_userFeedback (match feedback with Some "" => None | f => f end)) (chatItems S))).

(** feedback/adminUpdate.ts (lines 8-40). *)
Definition adminUpdate (uid : ObjectId) (chatItemId kbId dataId content : string) (S : Store)
    : ApiError + Store :=
  if bool_decide (chatItemId = "" ∨ kbId = "" ∨ dataId = "" ∨ content = "") then inl MissingParameter
  else inr (set_chatItems S (update_first_item (λ c, ci_userId c = uid ∧ ci_dataId c = chatItemId)
              (set_adminFeedback {| af_kbId := kbId; af_dataId := dataId; af_content := content |})
              (chatItems S))).

(** ** The store's invariant and the step relation *)

(** The favourites of [uid] for [appId]. *)
Definition is_favourite (cs : list CollectionDoc) (uid appId : ObjectId) : bool :=
  existsb (λ c, bool_decide (col_userId c = uid ∧ col_modelId c = appId)) cs.

Definition col_pair (c : CollectionDoc) : ObjectId * ObjectId := (col_userId c, col_modelId c).

(** Ids are unique, no user has more than 50 apps, a user has at most one
    favourite per app, and [share.collection] counts the app's favourites. *)
Record store_wf (S : Store) : Prop := {
  wf_app_ids : NoDup (map app_id (apps S));
  wf_app_limit : ∀ u, app_count S u ≤ 50;
  wf_col_ids : NoDup (map col_id (collections S));
  wf_col_pairs : NoDup (map col_pair (collections S));
  wf_col_count : Forall (λ a, share_collection (app_share a) = collection_count (collections S) (app_id a)) (apps S)
}.

(** A fresh ObjectId: no document of the store carries or references it. *)
Definition fresh (S : Store) (id : ObjectId) : Prop :=
  (id ∉ map app_id (apps S)) ∧ (id ∉ map col_id (collections S)) ∧ (id ∉ map col_modelId (collections S)).

(** One served request that changes the store; a handler that throws
    changes nothing. *)
Inductive step : Store -> Store -> Prop :=
  | step_app_create uid id now name av ms S r S' :
      fresh S id -> app_create uid id now name av ms S = inr (r, S') -> step S S'
  | step_app_update uid appId p S S' : app_update uid appId p S = inr S' -> step S S'
  | step_app_del uid appId S S' : app_del uid appId S = inr S' -> step S S'
  | step_app_collection uid id appId S S' :
      fresh S id -> app_collection uid id appId S = inr S' -> step S S'
  | step_kb_create uid id name tags av vm S r S' : kb_create uid id name tags av vm S = inr (r, S') -> step S S'
  | step_kb_update uid id name tags av S S' : kb_update uid id name tags av S = inr S' -> step S S'
  | step_delChatRecord uid chatId contentId S : step S (delChatRecordByContentId uid chatId contentId S)
  | step_userUpdate i f S S' : userUpdate i f S = inr S' -> step S S'
  | step_adminUpdate uid i k d c S S' : adminUpdate uid i k d c S = inr S' -> step S S'.

Definition empty_store : Store :=
  {| apps := []; kbs := []; chats := []; chatItems := []; collections := []; outLinks := [] |}.

Definition reachable (S : Store) : Prop := rtc step empty_store S.

(** The documents of user [v]: apps, knowledge bases and chat items. *)
Definition owned_by (v : ObjectId) (S : Store) : list AppDoc * list KbDoc * list ChatItemDoc :=
  (filter (λ a, app_userId a = v) (apps S), filter (λ k, kbdoc_userId k = v) (kbs S),
   filter (λ c, ci_userId c = v) (chatItems S)).

(** ** Samples *)

(** Close a decidable proposition on concrete documents by evaluation. *)
Ltac decide_closed := apply (bool_decide_unpack _); vm_compute; reflexivity.

Definition sample_S1 : Store :=
  match app_create "alice" "app1" 1 "Chat" None (Some []) empty_store with
  | inr (_, st) => st | inl _ => empty_store end.

Definition sample_S2 : Store :=
  match app_collection "bob" "col1" "app1" sample_S1 with inr st => st | inl _ => sample_S1 end.

(** [sample_S2] with a chat of [app1] and one chat item of Alice's. *)
Definition sample_item : ChatItemDoc :=
  {| ci_dataId := "d1"; ci_chatId := "chat1"; ci_appId := "app1"; ci_userId := "alice";
     ci_obj := "Human"; ci_value := "hi"; ci_responseData := JUndefined;
     userFeedback := None; adminFeedback := None |}.

Definition sample_S3 : Store :=
  {| apps := apps sample_S2; kbs := kbs sample_S2;
     chats := [{| chat_id := "chat1"; chat_appId := "app1"; chat_userId := "alice";
                 chat_title := "hi"; chat_variables := JObj [] |}];
     chatItems := [sample_item]; collections := collections sample_S2;
     outLinks := [{| ol_id := "ol1"; ol_shareId := "s1"; ol_appId := "app1"; ol_userId := "alice"; ol_name := "demo" |}] |}.

Definition sample_S4 : Store :=
  match app_del "alice" "app1" sample_S3 with inr st => st | inl _ => sample_S3 end.

(** ** Lemmas *)

Lemma authApp_inv S appId uid a :
  authApp S appId uid = inr a -> a ∈ apps S ∧ app_id a = appId ∧ app_userId a = uid.
Proof.
  unfold authApp. destruct (list_find _ _) as [[i b]|] eqn:E; [|done].
  apply list_find_Some in E as (Hi & Hid & _). case_bool_decide; [|done].
  intros [= <-]. split_and!; [by eapply list_elem_of_lookup_2|done|done].
Qed.

Lemma app_count_map S u : app_count S u = countb (λ v, bool_decide (v = u)) (map app_userId (apps S)).
Proof. unfold app_count. by rewrite countb_map. Qed.

Lemma collection_count_fresh cs id : id ∉ map col_modelId cs -> collection_count cs id = 0.
Proof.
  intros Hid. induction cs as [|c cs IH]; [done|]. simpl in Hid. apply not_elem_of_cons in Hid as [Hc Hid].
  unfold collection_count in *. rewrite countb_cons, IH by done. by rewrite bool_decide_false.
Qed.

Lemma store_wf_same S S' : apps S' = apps S -> collections S' = collections S -> store_wf S -> store_wf S'.
Proof.
  intros Ha Hc [? Hl ? ? ?]. split; rewrite ?Ha, ?Hc; try done.
  intros u. unfold app_count. rewrite Ha. apply Hl.
Qed.

(** The apps after a handler that keeps every app's id, owner and counter. *)
Lemma store_wf_apps_same_keys S S' :
  map app_id (apps S') = map app_id (apps S) -> map app_userId (apps S') = map app_userId (apps S) ->
  collections S' = collections S ->
  Forall (λ a, share_collection (app_share a) = collection_count (collections S) (app_id a)) (apps S') ->
  store_wf S -> store_wf S'.
Proof.
  intros Hid Hu Hc Hf [? Hl ? ? ?]. split; rewrite ?Hid, ?Hc; try done.
  intros u. rewrite app_count_map, Hu, <- app_count_map. apply Hl.
Qed.

Lemma app_count_same_owners S S' u :
  map app_userId (apps S') = map app_userId (apps S) -> app_count S' u = app_count S u.
Proof. intros Hu. by rewrite !app_count_map, Hu. Qed.

Lemma map_keys_same (f : AppDoc -> AppDoc) (l : list AppDoc) :
  (∀ a, app_id (f a) = app_id a ∧ app_userId (f a) = app_userId a) ->
  map app_id (map f l) = map app_id l ∧ map app_userId (map f l) = map app_userId l.
Proof. intros Hf. rewrite !map_map. split; apply map_ext; intros a; apply Hf. Qed.

Lemma app_update_one_spec appId uid p l (P : AppDoc -> Prop) :
  map app_id (app_update_one appId uid p l) = map app_id l ∧
  map app_userId (app_update_one appId uid p l) = map app_userId l ∧
  (Forall P l -> (∀ a, P a -> P (apply_app_update p a)) -> Forall P (app_update_one appId uid p l)).
Proof.
  unfold app_update_one. destruct (list_find _ l) as [[i a]|] eqn:E; [|done].
  apply list_find_Some in E as (Hi & _ & _).
  split_and!; [by eapply map_insert_same..|]. intros Hl HP.
  apply Forall_insert; [done|]. apply HP. by eapply Forall_lookup_1.
Qed.

Lemma toggle_collection_spec uid newId appId cs :
  NoDup (map col_id cs) -> NoDup (map col_pair cs) -> newId ∉ map col_id cs ->
  NoDup (map col_id (toggle_collection uid newId appId cs)) ∧
  NoDup (map col_pair (toggle_collection uid newId appId cs)) ∧
  (∀ y, y ≠ appId -> collection_count (toggle_collection uid newId appId cs) y = collection_count cs y).
Proof.
  intros Hid Hp Hn. unfold toggle_collection, write_collection, find_collection.
  destruct (list_find _ cs) as [[i c]|] eqn:E; simpl.
  - apply list_find_Some in E as (Hi & [Hu Hm] & _). apply list_elem_of_lookup_2 in Hi.
    split_and!; [by apply NoDup_map_filter..|].
    intros y Hy. unfold collection_count. apply countb_filter_eq. intros d Hd Hne%dec_stable.
    apply bool_decide_false. assert (d = c) as -> by (eapply NoDup_map_inj_in; [exact Hid|done|done|done]).
    congruence.
  - apply list_find_None in E. rewrite !map_app. split_and!.
    + apply NoDup_app. split_and!; [done| |apply NoDup_singleton].
      intros x Hx Hx'. apply list_elem_of_singleton in Hx'. by subst x.
    + apply NoDup_app. split_and!; [done| |apply NoDup_singleton].
      intros x Hx Hx'. apply list_elem_of_singleton in Hx'. subst x.
      apply list_elem_of_In, in_map_iff in Hx as (d & Hd & Hin). apply list_elem_of_In in Hin.
      rewrite Forall_forall in E. apply (E d Hin). unfold col_pair in Hd. simpl in Hd. by injection Hd.
    + intros y Hy. unfold collection_count. rewrite countb_app, countb_cons, countb_nil.
      rewrite bool_decide_false by (simpl; congruence). lia.
Qed.

(** After a successful update the caller's app is the updated one. *)
Lemma app_update_authApp uid appId p S S' :
  app_update uid appId p S = inr S' ->
  ∃ a, authApp S appId uid = inr a ∧ authApp S' appId uid = inr (apply_app_update p a).
Proof.
  unfold app_update. case_bool_decide; [done|].
  destruct (authApp S appId uid) as [|a] eqn:Ha; [done|]. intros [= <-]. exists a. split; [done|].
  unfold authApp in *. destruct (list_find _ (apps S)) as [[i b]|] eqn:E; [|done].
  case_bool_decide as Hu; [|done]. injection Ha as ->.
  apply list_find_Some in E as (Hi & Hid & Hbefore).
  assert (Hi' : i < length (apps S)) by (by apply lookup_lt_Some in Hi).
  unfold set_apps, app_update_one. cbn [apps].
  replace (list_find (λ a, app_id a = appId ∧ app_userId a = uid) (apps S)) with (Some (i, a)).
  2: { symmetry. apply list_find_Some. split_and!; try done. intros j y Hj Hji [Hy _]. by eapply Hbefore. }
  replace (list_find (λ a, app_id a = appId) _) with (Some (i, apply_app_update p a)).
  2: { symmetry. apply list_find_Some. split_and!; [by apply list_lookup_insert_eq|done|].
       intros j y Hj Hji. rewrite list_lookup_insert_ne in Hj by lia. by eapply Hbefore. }
  by rewrite bool_decide_true.
Qed.

(** *** Each handler keeps the invariant *)

Lemma app_create_wf uid id now name av ms S r S' :
  store_wf S -> fresh S id -> app_create uid id now name av ms S = inr (r, S') -> store_wf S'.
Proof.
  intros [Hids Hl Hcid Hcp Hcc] (Hf1 & _ & Hf3). unfold app_create.
  destruct ms as [ms|]; [|done]. case_bool_decide; [done|].
  destruct (50 <=? _) eqn:Hlim; [done|]. apply Nat.leb_gt in Hlim. intros [= <- <-].
  split; cbn [apps collections set_apps].
  - rewrite map_app. apply NoDup_app. split_and!; [done| |apply NoDup_singleton].
    intros x Hx Hx'. apply list_elem_of_singleton in Hx'. by subst x.
  - intros u. unfold app_count. cbn [apps set_apps]. rewrite countb_app, countb_cons, countb_nil.
    specialize (Hl u). unfold app_count in Hl, Hlim. case_bool_decide; [subst|]; simpl in *; lia.
  - done.
  - done.
  - apply Forall_app. split; [done|]. apply Forall_singleton. simpl.
    symmetry. by apply collection_count_fresh.
Qed.

Lemma app_update_wf uid appId p S S' : store_wf S -> app_update uid appId p S = inr S' -> store_wf S'.
Proof.
  intros Hwf. unfold app_update. case_bool_decide; [done|]. destruct (authApp _ _ _); [done|].
  intros [= <-]. pose proof (wf_col_count _ Hwf) as Hcc.
  destruct (app_update_one_spec appId uid p (apps S)
    (λ a, share_collection (app_share a) = collection_count (collections S) (app_id a))) as (H1 & H2 & H3).
  eapply store_wf_apps_same_keys; [exact H1|exact H2|done| |exact Hwf].
  apply H3; [done|]. intros b Hb. unfold apply_app_update. by destruct (up_share p) as [[]|].
Qed.

Lemma app_del_wf uid appId S S' : store_wf S -> app_del uid appId S = inr S' -> store_wf S'.
Proof.
  intros [Hids Hl Hcid Hcp Hcc]. unfold app_del. case_bool_decide; [done|].
  destruct (authApp _ _ _) as [|a] eqn:Ha; [done|]. apply authApp_inv in Ha as (Ha & Hid & Hu).
  intros [= <-]. split; cbn [apps collections].
  - by apply NoDup_map_filter.
  - intros v. unfold app_count. cbn [apps]. etrans; [apply countb_filter_le|apply Hl].
  - by apply NoDup_map_filter.
  - by apply NoDup_map_filter.
  - apply Forall_forall. intros b Hb. apply list_elem_of_filter in Hb as [Hb Hb'].
    assert (app_id b ≠ appId) as Hne.
    { intros Heq. apply Hb. split; [done|].
      assert (b = a) as -> by (eapply NoDup_map_inj_in; [exact Hids|done|done|congruence]). done. }
    rewrite Forall_forall in Hcc. rewrite Hcc by done. unfold collection_count. symmetry.
    apply countb_filter_eq. intros d _ Hd. apply bool_decide_false. intros Heq. apply Hd. congruence.
Qed.

Lemma app_collection_wf uid id appId S S' :
  store_wf S -> fresh S id -> app_collection uid id appId S = inr S' -> store_wf S'.
Proof.
  intros [Hids Hl Hcid Hcp Hcc] (_ & Hf2 & _). unfold app_collection. case_bool_decide; [done|].
  intros [= <-]. destruct (toggle_collection_spec uid id appId (collections S)) as (T1 & T2 & T3); [done..|].
  set (n := collection_count _ appId).
  destruct (map_keys_same (set_collection_count appId n) (apps S)) as [K1 K2].
  { intros a. unfold set_collection_count. by case_bool_decide. }
  split; cbn [apps collections].
  - by rewrite K1.
  - intros u. rewrite (app_count_same_owners S) by exact K2. apply Hl.
  - done.
  - done.
  - apply Forall_forall. intros b Hb. apply list_elem_of_In, in_map_iff in Hb as (a & <- & Ha).
    apply list_elem_of_In in Ha. unfold set_collection_count. case_bool_decide as Heq; simpl.
    + by rewrite Heq.
    + rewrite T3 by done. rewrite Forall_forall in Hcc. by apply Hcc.
Qed.

Lemma step_wf S S' : store_wf S -> step S S' -> store_wf S'.
Proof.
  intros Hwf Hs. destruct Hs as [uid id now name av ms S r S' Hf Hc|uid appId p S S' Hu|uid appId S S' Hd
    |uid id appId S S' Hf Hc|uid id name tags av vm S r S' Hk|uid id name tags av S S' Hk
    |uid chatId contentId S|i f S S' Hu|uid i k d c S S' Ha].
  - by eapply app_create_wf.
  - by eapply app_update_wf.
  - by eapply app_del_wf.
  - by eapply app_collection_wf.
  - revert Hk. unfold kb_create. case_bool_decide; [done|]. intros [= _ <-]. by apply store_wf_same with S.
  - revert Hk. unfold kb_update. case_bool_decide; [done|]. intros [= <-]. by apply store_wf_same with S.
  - by apply store_wf_same with S.
  - revert Hu. unfold userUpdate. case_bool_decide; [done|]. intros [= <-]. by apply store_wf_same with S.
  - revert Ha. unfold adminUpdate. case_bool_decide; [done|]. intros [= <-]. by apply store_wf_same with S.
Qed.

Lemma is_favourite_true cs uid appId :
  is_favourite cs uid appId = true <-> ∃ c, c ∈ cs ∧ col_pair c = (uid, appId).
Proof.
  unfold is_favourite, col_pair. rewrite existsb_exists. split.
  - intros (c & Hc & Hb%bool_decide_eq_true). exists c. split; [by apply list_elem_of_In|].
    destruct Hb as [-> ->]. done.
  - intros (c & Hc & Hp). exists c. split; [by apply list_elem_of_In|]. apply bool_decide_eq_true.
    by injection Hp.
Qed.

Lemma is_favourite_false cs uid appId :
  Forall (λ c, ¬ (col_userId c = uid ∧ col_modelId c = appId)) cs -> is_favourite cs uid appId = false.
Proof.
  intros Hcs. apply not_true_iff_false. rewrite is_favourite_true. intros (c & Hc & Hp).
  rewrite Forall_forall in Hcs. apply (Hcs c Hc). unfold col_pair in Hp. by injection Hp.
Qed.

Lemma newer_total : Total newer.
Proof. intros a b. unfold newer. lia. Qed.

(** ** Properties *)

(** when each request runs whole, one after the other, in every
    store the handlers reach from the empty store ids are unique, no user owns more than 50 apps, a user has at
    most one favourite per app, and each app's [share.collection] is the
    number of its favourites. *)
Theorem store_reachable_wf (S : Store) : reachable S -> store_wf S.
Proof.
  revert S. apply rtc_ind_r.
  - split; [constructor| |constructor..]. intros v. apply Nat.le_0_l.
  - intros S1 S2 _ Hs IH. by eapply step_wf.
Qed.

(** The effect of [share/collection] on the favourites, shared by the
    theorems on the handler and on the market of shared apps. *)
Lemma app_collection_spec (S : Store) (uid newId appId : ObjectId) (S' : Store) :
  store_wf S -> fresh S newId -> app_collection uid newId appId S = inr S' ->
  is_favourite (collections S') uid appId = negb (is_favourite (collections S) uid appId) ∧
  collection_count (collections S') appId + (if is_favourite (collections S) uid appId then 1 else 0) =
  collection_count (collections S) appId + (if is_favourite (collections S') uid appId then 1 else 0) ∧
  Forall (λ a, app_id a = appId -> share_collection (app_share a) = collection_count (collections S') appId)
    (apps S').
Proof.
  intros Hwf Hf Hc. pose proof (app_collection_wf _ _ _ _ _ Hwf Hf Hc) as Hwf'.
  split_and!; cycle 2.
  { eapply Forall_impl; [apply (wf_col_count _ Hwf')|]. intros a Ha <-. exact Ha. }
  all: revert Hc; unfold app_collection; case_bool_decide; [done|]; intros [= <-]; simpl.
  all: unfold toggle_collection, write_collection, find_collection;
    destruct (list_find _ _) as [[i c]|] eqn:E; cbn [fmap option_fmap option_map snd].
  1,3: apply list_find_Some in E as (Hi%list_elem_of_lookup_2 & [Hu Hm] & _);
    assert (is_favourite (collections S) uid appId = true) as ->
      by (apply is_favourite_true; exists c; by rewrite <- Hu, <- Hm).
  3,4: apply list_find_None in E; rewrite (is_favourite_false (collections S)) by done.
  - rewrite is_favourite_false; [done|]. apply Forall_forall. intros d [Hd Hdc]%list_elem_of_filter Hp.
    apply Hd. f_equal. eapply NoDup_map_inj_in; [apply (wf_col_pairs _ Hwf)|done|done|].
    unfold col_pair. destruct Hp. congruence.
  - rewrite is_favourite_false.
    + pose proof (countb_filter_remove (λ d, bool_decide (col_modelId d = appId)) col_id
        (collections S) c (wf_col_ids _ Hwf) Hi) as Hr.
      cbv beta in Hr. rewrite bool_decide_true in Hr by done. unfold collection_count. lia.
    + apply Forall_forall. intros d [Hd Hdc]%list_elem_of_filter Hp.
      apply Hd. f_equal. eapply NoDup_map_inj_in; [apply (wf_col_pairs _ Hwf)|done|done|].
      unfold col_pair. destruct Hp. congruence.
  - simpl. apply is_favourite_true. eexists. split; [apply elem_of_app; right; by left|done].
  - replace (is_favourite _ uid appId) with true.
    + unfold collection_count. rewrite countb_app, countb_cons, countb_nil. simpl.
      rewrite bool_decide_true by done. lia.
    + symmetry. apply is_favourite_true. eexists. split; [apply elem_of_app; right; by left|done].
Qed.

(** [share/collection] toggles the caller's favourite: after it
    the app is a favourite of the caller exactly when it was not before, the
    number of favourites of the app moves by one accordingly, and the app's
    [share.collection] holds the new number. *)
Theorem app_collection_toggles (S : Store) (uid newId appId : ObjectId) (S' : Store) :
  store_wf S -> fresh S newId -> app_collection uid newId appId S = inr S' ->
  is_favourite (collections S') uid appId = negb (is_favourite (collections S) uid appId) ∧
  collection_count (collections S') appId + (if is_favourite (collections S) uid appId then 1 else 0) =
  collection_count (collections S) appId + (if is_favourite (collections S') uid appId then 1 else 0) ∧
  Forall (λ a, app_id a = appId -> share_collection (app_share a) = collection_count (collections S') appId)
    (apps S').
Proof. apply app_collection_spec. Qed.

(** C10: deleting an app (del.ts) removes the app and every
    chat, favourite and share link of it, keeps every other app, and leaves
    the chat items of the app's chats in place. *)
Theorem app_del_cascade (S : Store) (uid appId : ObjectId) (S' : Store) :
  store_wf S -> app_del uid appId S = inr S' ->
  (appId ∉ map app_id (apps S')) ∧
  Forall (λ c, chat_appId c ≠ appId) (chats S') ∧
  Forall (λ c, col_modelId c ≠ appId) (collections S') ∧
  Forall (λ o, ol_appId o ≠ appId) (outLinks S') ∧
  (∀ a, a ∈ apps S -> app_id a ≠ appId -> a ∈ apps S') ∧
  chatItems S' = chatItems S.
Proof.
  intros Hwf. unfold app_del. case_bool_decide; [done|].
  destruct (authApp _ _ _) as [|a] eqn:Ha; [done|]. apply authApp_inv in Ha as (Ha & Hid & Hu).
  intros [= <-]. cbn [apps chats collections outLinks chatItems]. split_and!; auto with fastgpt.
  - intros Hin. apply list_elem_of_In, in_map_iff in Hin as (b & Hb & Hin).
    apply list_elem_of_In, list_elem_of_filter in Hin as [Hn Hin]. apply Hn.
    assert (b = a) as -> by (eapply NoDup_map_inj_in; [apply (wf_app_ids _ Hwf)|done|done|congruence]).
    done.
  - intros b Hb Hne. apply list_elem_of_filter. split; [|done]. intros [? _]. done.
Qed.

(** A [list_find] for a record of [u] updated in place leaves the records of
    [v] as they are. *)
Lemma filter_update_found {A} (P Q : A -> Prop) `{∀ x, Decision (P x)} `{∀ x, Decision (Q x)}
    (f : A -> A) (l : list A) :
  (∀ x, Q x -> ¬ P x) -> (∀ x, Q x -> ¬ P (f x)) ->
  filter P (match list_find Q l with None => l | Some (i, x) => <[i := f x]> l end) = filter P l.
Proof.
  intros HQ HQf. destruct (list_find Q l) as [[i x]|] eqn:E; [|done].
  apply list_find_Some in E as (Hi & Hx & _). eapply filter_insert_skip; eauto.
Qed.

(** C9: the handlers a user [u] calls, other than [share/collection]
    and the user feedback, leave the apps, knowledge bases and chat items of
    every other user [v] as they are. *)
Theorem handlers_isolate_users (u v : ObjectId) (S : Store) : u ≠ v ->
  (∀ id now name av ms r S', app_create u id now name av ms S = inr (r, S') -> owned_by v S' = owned_by v S) ∧
  (∀ appId p S', app_update u appId p S = inr S' -> owned_by v S' = owned_by v S) ∧
  (∀ appId S', app_del u appId S = inr S' -> owned_by v S' = owned_by v S) ∧
  (∀ id name tags av vm r S', kb_create u id name tags av vm S = inr (r, S') -> owned_by v S' = owned_by v S) ∧
  (∀ id name tags av S', kb_update u id name tags av S = inr S' -> owned_by v S' = owned_by v S) ∧
  (∀ chatId contentId, owned_by v (delChatRecordByContentId u chatId contentId S) = owned_by v S) ∧
  (∀ i k d c S', adminUpdate u i k d c S = inr S' -> owned_by v S' = owned_by v S).
Proof.
  intros Huv. unfold owned_by. split_and!.
  - intros id now name av ms r S'. unfold app_create. destruct ms; [|done]. case_bool_decide; [done|].
    destruct (_ <=? _); [done|]. intros [= _ <-]. simpl. rewrite filter_app, filter_cons_False by done.
    by rewrite app_nil_r.
  - intros appId p S'. unfold app_update. case_bool_decide; [done|]. destruct (authApp _ _ _); [done|].
    intros [= <-]. simpl. unfold app_update_one. f_equal. f_equal.
    apply filter_update_found; intros x [_ Hx]; simpl; congruence.
  - intros appId S'. unfold app_del. case_bool_decide; [done|]. destruct (authApp _ _ _); [done|].
    intros [= <-]. simpl. f_equal. f_equal. apply filter_filter_sub. intros x Hx [_ Hx']. congruence.
  - intros id name tags av vm r S'. unfold kb_create. case_bool_decide; [done|]. intros [= _ <-]. simpl.
    rewrite filter_app, filter_cons_False by done. by rewrite app_nil_r.
  - intros id name tags av S'. unfold kb_update. case_bool_decide; [done|]. intros [= <-]. simpl.
    f_equal. f_equal. apply filter_update_found; intros x [_ Hx]; simpl; congruence.
  - intros chatId contentId. unfold delChatRecordByContentId. simpl. f_equal.
    destruct (list_find _ _) as [[i x]|] eqn:E; [|done].
    apply list_find_Some in E as (Hi & (_ & _ & Hx) & _). eapply filter_delete_skip; [exact Hi|congruence].
  - intros i k d c S'. unfold adminUpdate. case_bool_decide; [done|]. intros [= <-]. simpl. f_equal.
    unfold update_first_item. apply filter_update_found; intros x [Hx _]; simpl; congruence.
Qed.

(** The tags the knowledge-base update stores
    ([tags.split(' ').filter(item => item)]) are the tags of the text they
    were joined from with spaces, when each is non-empty and has no space. *)
Theorem tags_roundtrip (ts : list text) :
  Forall (λ t, t ≠ [] ∧ space ∉ t) ts -> tags_of (join_on space ts) = ts.
Proof.
  intros Hts. unfold tags_of. destruct ts as [|t ts]; [done|].
  rewrite split_on_join; [|by eapply Forall_impl; [exact Hts|intros ? []]|done].
  apply filter_Forall_id. by eapply Forall_impl; [exact Hts|intros ? []].
Qed.

(** The knowledge-base create modal sends
    [value.split(' ')] and kb/create.ts stores it as it is, so two spaces
    in a row store an empty tag; kb/update.ts drops it. *)
Example kb_create_keeps_empty_tags :
  (let tags := create_modal_tags ⟦"a  b"⟧ in
   match kb_create "u" "k1" "kb" tags None "text-embedding-ada-002" empty_store with
   | inr (_, st) => map kbdoc_tags (kbs st)
   | inl _ => []
   end) = [[⟦"a"⟧; []; ⟦"b"⟧]] ∧
  tags_of ⟦"a  b"⟧ = [⟦"a"⟧; ⟦"b"⟧].
Proof. split; vm_compute; reflexivity. Qed.

(** [myApps] lists the caller's apps, each once, the most recently updated
    first. *)
Theorem myApps_spec (uid : ObjectId) (S : Store) :
  ∃ l, myApps uid S = map app_list_item l ∧ l ≡ₚ filter (λ a, app_userId a = uid) (apps S) ∧
       Sorted newer l.
Proof.
  eexists. split; [reflexivity|]. split; [apply merge_sort_Permutation|].
  apply Sorted_merge_sort. apply newer_total.
Qed.


Lemma sample_wf (st : Store) :
  NoDup (map app_id (apps st)) -> Forall (λ a, app_count st (app_userId a) ≤ 50) (apps st) ->
  NoDup (map col_id (collections st)) -> NoDup (map col_pair (collections st)) ->
  Forall (λ a, share_collection (app_share a) = collection_count (collections st) (app_id a)) (apps st) ->
  store_wf st.
Proof.
  intros H1 H2 H3 H4 H5. split; try done. intros u.
  destruct (decide (u ∈ map app_userId (apps st))) as [Hu|Hu].
  - apply list_elem_of_In, in_map_iff in Hu as (a & <- & Ha). rewrite Forall_forall in H2.
    apply H2. by apply list_elem_of_In.
  - rewrite app_count_map. enough (countb (λ v, bool_decide (v = u)) (map app_userId (apps st)) = 0) by lia.
    induction (map app_userId (apps st)) as [|w l IH]; [done|]. apply not_elem_of_cons in Hu as [Hw Hu].
    rewrite countb_cons, bool_decide_false by done. by apply IH.
Qed.

Lemma sample_S1_wf : store_wf sample_S1.
Proof. apply sample_wf; decide_closed. Qed.

Lemma sample_S2_wf : store_wf sample_S2.
Proof. apply sample_wf; decide_closed. Qed.

Lemma sample_S3_wf : store_wf sample_S3.
Proof. apply sample_wf; decide_closed. Qed.

Lemma store_reachable_wf_witness : reachable sample_S2 ∧ store_wf sample_S2.
Proof.
  assert (reachable sample_S2) as Hr.
  { eapply rtc_l; [apply (step_app_create "alice" "app1" 1 "Chat" None (Some []) empty_store "app1");
                   [decide_closed|vm_compute; reflexivity]|].
    eapply rtc_l; [apply (step_app_collection "bob" "col1" "app1"); [decide_closed|vm_compute; reflexivity]|].
    apply rtc_refl. }
  split; [exact Hr|]. exact (store_reachable_wf sample_S2 Hr).
Defined.

Lemma app_collection_toggles_witness :
  is_favourite (collections sample_S2) "bob" "app1" = negb (is_favourite (collections sample_S1) "bob" "app1") ∧
  collection_count (collections sample_S2) "app1" + (if is_favourite (collections sample_S1) "bob" "app1" then 1 else 0) =
  collection_count (collections sample_S1) "app1" + (if is_favourite (collections sample_S2) "bob" "app1" then 1 else 0) ∧
  Forall (λ a, app_id a = "app1" -> share_collection (app_share a) = collection_count (collections sample_S2) "app1")
    (apps sample_S2).
Proof.
  apply (app_collection_toggles sample_S1 "bob" "col1" "app1" sample_S2);
    [exact sample_S1_wf|decide_closed|vm_compute; reflexivity].
Defined.

Lemma app_del_cascade_witness :
  ("app1" ∉ map app_id (apps sample_S4)) ∧
  Forall (λ c, chat_appId c ≠ "app1") (chats sample_S4) ∧
  Forall (λ c, col_modelId c ≠ "app1") (collections sample_S4) ∧
  Forall (λ o, ol_appId o ≠ "app1") (outLinks sample_S4) ∧
  (∀ a, a ∈ apps sample_S3 -> app_id a ≠ "app1" -> a ∈ apps sample_S4) ∧
  chatItems sample_S4 = chatItems sample_S3.
Proof.
  apply (app_del_cascade sample_S3 "alice" "app1" sample_S4); [exact sample_S3_wf|vm_compute; reflexivity].
Defined.

Lemma handlers_isolate_users_witness :
  let u := "alice" in let v := "bob" in let S := sample_S3 in
  (∀ id now name av ms r S', app_create u id now name av ms S = inr (r, S') -> owned_by v S' = owned_by v S) ∧
  (∀ appId p S', app_update u appId p S = inr S' -> owned_by v S' = owned_by v S) ∧
  (∀ appId S', app_del u appId S = inr S' -> owned_by v S' = owned_by v S) ∧
  (∀ id name tags av vm r S', kb_create u id name tags av vm S = inr (r, S') -> owned_by v S' = owned_by v S) ∧
  (∀ id name tags av S', kb_update u id name tags av S = inr S' -> owned_by v S' = owned_by v S) ∧
  (∀ chatId contentId, owned_by v (delChatRecordByContentId u chatId contentId S) = owned_by v S) ∧
  (∀ i k d c S', adminUpdate u i k d c S = inr S' -> owned_by v S' = owned_by v S).
Proof. apply (handlers_isolate_users "alice" "bob" sample_S3). done. Defined.

Lemma tags_roundtrip_witness : tags_of (join_on space [⟦"ai"⟧; ⟦"kb"⟧]) = [⟦"ai"⟧; ⟦"kb"⟧].
Proof. apply tags_roundtrip. decide_closed. Defined.

End AppStore.
