(* ===== verification/Concurrency.v ===== *)
(** * Concurrency: the create and favourite handlers under concurrent requests

    pages/api/app/create.ts and pages/api/app/share/collection.ts read the
    store, [await], and write: create.ts counts the caller's apps (lines
    29-34) and then creates the app (lines 37-42); collection.ts looks for
    the caller's favourite (lines 19-22), removes or creates it (lines
    24-31), counts the app's favourites and writes the count (lines
    33-35).  Between two [await]s of one request the server serves others.
    A configuration is the store with the pool of requests in flight, each
    at its next [await] ([Pending]); a step starts a request (its checks
    and its first read), advances one request in flight by one read or
    write, or serves a request of another handler of [AppStore] whole.
    [cstep true] is the serial server, which starts a request only when
    none is in flight; [cstep false] interleaves freely.  ObjectIds are
    chosen when the request starts and must be fresh when they are
    written, as Mongo's are. *)

From Stdlib Require Import Ascii ZArith.
From stdpp Require Import base list strings relations pretty.
From S2P Require Import Prelude FlowTypes AppStore.

Module Concurrency.
Import FlowTypes AppStore.

(** A request in flight, at its next [await]. *)
Inductive Pending :=
  | PCreate (uid id : ObjectId) (now : Z) (name : string) (avatar : option string)
      (ms : list AppModuleItemType)                  (* create.ts: [App.create] to come, line 37 *)
  | PToggle (uid id appId : ObjectId) (found : option CollectionDoc)
                                                     (* collection.ts: the remove or create to come, lines 24-31 *)
  | PCount (appId : ObjectId)                        (* [Collection.countDocuments] to come, line 34 *)
  | PUpdate (appId : ObjectId) (n : nat).            (* [App.findByIdAndUpdate] to come, line 33 *)

(** create.ts up to its first write (lines 17-34): the checks and the count. *)
Definition start_create (uid id : ObjectId) (now : Z) (name : string) (avatar : option string)
    (modules : option (list AppModuleItemType)) (S : Store) : ApiError + Pending :=
  match modules with
  | None => inl MissingParameter
  | Some ms =>
      if bool_decide (name = "") then inl MissingParameter
      else if 50 <=? app_count S uid then inl MaxApps
      else inr (PCreate uid id now name avatar ms)
  end.

(** collection.ts up to its first write (lines 9-22): the check and the
    [findOne]. *)
Definition start_collection (uid id appId : ObjectId) (S : Store) : ApiError + Pending :=
  if bool_decide (appId = "") then inl MissingParameter
  else inr (PToggle uid id appId (find_collection uid appId (collections S))).

Definition set_collections (S : Store) (cs : list CollectionDoc) : Store :=
  {| apps := apps S; kbs := kbs S; chats := chats S; chatItems := chatItems S;
     collections := cs; outLinks := outLinks S |}.

(** One [await] of a request in flight: the store after it and what is
    left of the request. *)
Definition advance (p : Pending) (S : Store) : Store * option Pending :=
  match p with
  | PCreate uid id now name av ms => (set_apps S (apps S ++ [new_app uid id now name av ms]), None)
  | PToggle uid id appId found =>
      (set_collections S (write_collection uid id appId found (collections S)), Some (PCount appId))
  | PCount appId => (S, Some (PUpdate appId (collection_count (collections S) appId)))
  | PUpdate appId n => (set_apps S (map (set_collection_count appId n) (apps S)), None)
  end.

(** The id a write creates is fresh when it is written. *)
Definition pending_fresh (p : Pending) (S : Store) : Prop :=
  match p with
  | PCreate _ id _ _ _ _ | PToggle _ id _ _ => fresh S id
  | _ => True
  end.

Definition Config : Type := Store * list Pending.

(** The server: with [serial], a request starts only when none is in
    flight. *)
Inductive cstep (serial : bool) : Config -> Config -> Prop :=
  | cs_atomic S S' ps :
      (serial = false ∨ ps = []) -> step S S' -> cstep serial (S, ps) (S', ps)
  | cs_start_create uid id now name av ms S ps p :
      (serial = false ∨ ps = []) -> start_create uid id now name av ms S = inr p ->
      cstep serial (S, ps) (S, ps ++ [p])
  | cs_start_collection uid id appId S ps p :
      (serial = false ∨ ps = []) -> start_collection uid id appId S = inr p ->
      cstep serial (S, ps) (S, ps ++ [p])
  | cs_advance S ps1 p ps2 S' o :
      pending_fresh p S -> advance p S = (S', o) ->
      cstep serial (S, ps1 ++ p :: ps2) (S', ps1 ++ option_list o ++ ps2).

(** The store after the write of a favourite toggle, before its count. *)
Definition toggled (S : Store) (uid id appId : ObjectId) : Store :=
  set_collections S (toggle_collection uid id appId (collections S)).

(** What the serial server has in flight: nothing, or one request
    started on a store reachable by whole requests. *)
Definition serial_inv (c : Config) : Prop :=
  match c with
  | (St, []) => reachable St
  | (St, [PCreate uid id now name av ms]) =>
      reachable St ∧ start_create uid id now name av (Some ms) St = inr (PCreate uid id now name av ms)
  | (St, [PToggle uid id appId found]) =>
      reachable St ∧ start_collection uid id appId St = inr (PToggle uid id appId found)
  | (St, [PCount appId]) =>
      ∃ S0 uid id, reachable S0 ∧ fresh S0 id ∧ appId ≠ "" ∧ St = toggled S0 uid id appId
  | (St, [PUpdate appId n]) =>
      ∃ S0 uid id, reachable S0 ∧ fresh S0 id ∧ appId ≠ "" ∧ St = toggled S0 uid id appId ∧
                   n = collection_count (collections St) appId
  | _ => False
  end.

(** ** Samples *)

(** A store where user [u] owns 49 apps. *)
Definition store49 : Store :=
  set_apps empty_store ((λ i, new_app "u" (String.append "a" (pretty i)) 0 "App" None []) <$> seq 0 49).

(** A store with one app of user [u] and no favourite. *)
Definition store_one_app : Store := set_apps empty_store [new_app "u" "a1" 0 "Chat" None []].

(** A serial run: [u] creates an app and marks it as a favourite. *)
Definition serial_sample : Store :=
  set_apps (toggled store_one_app "u" "c1" "a1")
    (map (set_collection_count "a1" 1) (apps store_one_app)).

(** ** Lemmas *)

Lemma cstep_advance_at serial S ps1 p ps2 S' o c c' :
  c = (S, ps1 ++ p :: ps2) -> c' = (S', ps1 ++ option_list o ++ ps2) ->
  pending_fresh p S -> advance p S = (S', o) -> cstep serial c c'.
Proof. intros -> ->. apply cs_advance. Qed.

(** A create that passed its checks writes what the whole handler writes. *)
Lemma app_create_start uid id now name av ms S p :
  start_create uid id now name av (Some ms) S = inr p ->
  p = PCreate uid id now name av ms ∧
  app_create uid id now name av (Some ms) S = inr (id, set_apps S (apps S ++ [new_app uid id now name av ms])).
Proof.
  unfold start_create, app_create. case_bool_decide; [done|].
  destruct (50 <=? _); [done|]. by intros [= <-].
Qed.

(** The write and the count of a favourite toggle give what the whole
    handler gives. *)
Lemma app_collection_phases uid id appId S :
  appId ≠ "" ->
  app_collection uid id appId S =
    inr (set_apps (toggled S uid id appId)
           (map (set_collection_count appId (collection_count (collections (toggled S uid id appId)) appId))
                (apps S))).
Proof. intros Hne. unfold app_collection. by rewrite bool_decide_false. Qed.

Lemma start_collection_inv uid id appId S p :
  start_collection uid id appId S = inr p ->
  appId ≠ "" ∧ p = PToggle uid id appId (find_collection uid appId (collections S)).
Proof. unfold start_collection. case_bool_decide; [done|]. by intros [= <-]. Qed.

(** The serial server has at most one request in flight. *)
Lemma serial_inv_pool S ps1 p ps2 :
  serial_inv (S, ps1 ++ p :: ps2) -> ps1 = [] ∧ ps2 = [] ∧ serial_inv (S, [p]).
Proof.
  destruct ps1 as [|x ps1]; [destruct ps2 as [|y ps2]|]; [done| |].
  - by destruct p, y.
  - destruct x, ps1 as [|z ps1]; simpl; try done; by destruct p || by destruct z.
Qed.

Lemma serial_step_inv c c' : serial_inv c -> cstep true c c' -> serial_inv c'.
Proof.
  intros Hinv Hs. destruct Hs as [S S' ps Hser Hst|uid id now name av ms S ps p Hser Hp
    |uid id appId S ps p Hser Hp|S ps1 p ps2 S' o Hf Ha].
  - destruct Hser as [| ->]; [done|]. simpl in *. by eapply rtc_r.
  - destruct Hser as [| ->]; [done|]. simpl.
    destruct ms as [ms|]; [|done]. pose proof Hp as Hp'. apply app_create_start in Hp' as [-> _]. by split.
  - destruct Hser as [| ->]; [done|]. simpl. pose proof (start_collection_inv _ _ _ _ _ Hp) as [_ ->]. by split.
  - apply serial_inv_pool in Hinv as (-> & -> & Hinv). rewrite app_nil_r. simpl.
    destruct p as [uid id now name av ms|uid id appId found|appId|appId n]; simpl in Ha, Hinv; injection Ha as <- <-.
    + destruct Hinv as [Hr Hc]. apply app_create_start in Hc as [_ Hc].
      eapply rtc_r; [exact Hr|]. by eapply step_app_create.
    + destruct Hinv as [Hr (Hne & Hp)%start_collection_inv]. injection Hp as ->.
      exists S, uid, id. split_and!; done.
    + destruct Hinv as (S0 & uid & id & Hr & Hf0 & Hne & ->). exists S0, uid, id. split_and!; done.
    + destruct Hinv as (S0 & uid & id & Hr & Hf0 & Hne & -> & ->). eapply rtc_r; [exact Hr|].
      eapply step_app_collection; [exact Hf0|]. by rewrite app_collection_phases.
Qed.

Lemma fresh_set_apps_new S id uid id' now name av ms :
  fresh S id -> id ≠ id' -> fresh (set_apps S (apps S ++ [new_app uid id' now name av ms])) id.
Proof.
  intros (H1 & H2 & H3) Hne. split_and!; [|done|done]. cbn [apps set_apps].
  rewrite map_app, elem_of_app. intros [H|H]; [done|]. simpl in H. by apply list_elem_of_singleton in H.
Qed.

(** Creates started before any of them writes: each passes the count of
    the store they all read. *)
Lemma start_creates S ps uid now name av ms ids :
  name ≠ "" -> app_count S uid < 50 ->
  rtc (cstep false) (S, ps) (S, ps ++ ((λ id, PCreate uid id now name av ms) <$> ids)).
Proof.
  intros Hn Hc. revert ps. induction ids as [|id ids IH]; intros ps; [by rewrite app_nil_r|].
  eapply rtc_l; [apply (cs_start_create _ uid id now name av (Some ms)); [by left|]|].
  { unfold start_create. rewrite bool_decide_false by done. by rewrite (proj2 (Nat.leb_gt _ _) Hc). }
  specialize (IH (ps ++ [PCreate uid id now name av ms])). rewrite <- app_assoc in IH. exact IH.
Qed.

(** The creates in flight then write, one after the other. *)
Lemma finish_creates S uid now name av ms ids :
  NoDup ids -> Forall (fresh S) ids ->
  rtc (cstep false) (S, (λ id, PCreate uid id now name av ms) <$> ids)
      (set_apps S (apps S ++ ((λ id, new_app uid id now name av ms) <$> ids)), []).
Proof.
  revert S. induction ids as [|id ids IH]; intros S Hnd Hf; [rewrite app_nil_r; destruct S; apply rtc_refl|].
  apply NoDup_cons in Hnd as [Hnin Hnd]. apply Forall_cons in Hf as [Hid Hf].
  eapply rtc_l; [eapply (cstep_advance_at _ S [] _ _ _ None); [reflexivity|reflexivity|exact Hid|reflexivity]|].
  set (S1 := set_apps S (apps S ++ [new_app uid id now name av ms])).
  replace (set_apps S _) with (set_apps S1 (apps S1 ++ ((λ id, new_app uid id now name av ms) <$> ids)))
    by (cbn; by rewrite <- app_assoc).
  apply IH; [done|]. apply Forall_forall. intros x Hx. apply fresh_set_apps_new; [|by intros ->].
  by eapply Forall_forall in Hf.
Qed.

Lemma app_count_new_apps S uid now name av ms ids :
  app_count (set_apps S (apps S ++ ((λ id, new_app uid id now name av ms) <$> ids))) uid =
  app_count S uid + length ids.
Proof.
  unfold app_count. cbn [apps set_apps]. rewrite countb_app. f_equal.
  induction ids as [|id ids IH]; [done|]. rewrite fmap_cons, countb_cons, IH. simpl.
  by rewrite bool_decide_true.
Qed.

Lemma serial_run_inv c c' : rtc (cstep true) c c' -> serial_inv c -> serial_inv c'.
Proof. induction 1 as [|c c1 c' Hs _ IH]; [done|]. intros Hc. by eapply IH, serial_step_inv. Qed.

Lemma fresh_add_collection S id c :
  fresh S id -> id ≠ col_id c -> id ≠ col_modelId c -> fresh (set_collections S (collections S ++ [c])) id.
Proof.
  intros (H1 & H2 & H3) Hi Hm. split_and!; cbn [apps collections set_collections]; [done| |];
    rewrite map_app, elem_of_app; intros [H|H]; try done; simpl in H; by apply list_elem_of_singleton in H.
Qed.

(** ** Properties *)

(** C8: served one request at a time (a create or a favourite toggle
    starts only when no request is in flight, and every other handler runs
    whole), the handlers keep the store's invariant: whenever no request
    is in flight, ids are unique, no user owns more than 50 apps, a user
    has at most one favourite per app, and each app's [share.collection]
    is the number of its favourites. *)
Theorem serial_reachable_wf (S : Store) :
  rtc (cstep true) (empty_store, []) (S, []) -> store_wf S.
Proof.
  intros Hrun. apply store_reachable_wf. apply (serial_run_inv _ _ Hrun). apply rtc_refl.
Qed.

(** C38: create.ts counts the caller's apps and creates the app in two
    [await]s, so concurrent creates all pass the limit: from any store
    where a user owns fewer than 50 apps, [k] creates with fresh ids that
    all count before any of them writes end with the user owning [k] more
    apps, each the document the handler writes; from 49 apps, two such
    creates give 51. *)
Theorem concurrent_creates_exceed_limit (S : Store) (uid : ObjectId) (now : Z) (name : string)
    (av : option string) (ms : list AppModuleItemType) (ids : list ObjectId) :
  name ≠ "" -> NoDup ids -> Forall (fresh S) ids -> app_count S uid < 50 ->
  let S' := set_apps S (apps S ++ ((λ id, new_app uid id now name av ms) <$> ids)) in
  rtc (cstep false) (S, []) (S', []) ∧ app_count S' uid = app_count S uid + length ids.
Proof.
  intros Hn Hnd Hf Hc S'. split; [|apply app_count_new_apps].
  etrans; [apply (start_creates _ [] uid now name av ms ids Hn Hc)|]. by apply finish_creates.
Qed.

(** C39: collection.ts looks for the caller's favourite and creates it in
    two [await]s, so two concurrent toggles by a user without a favourite
    of an existing app both create one: the run ends, with no request in
    flight, with two favourites of the same user and app, which the serial
    server never reaches. *)
Theorem concurrent_toggles_duplicate_favourite S uid appId id1 id2 :
  appId ≠ "" -> appId ∈ map app_id (apps S) -> id1 ≠ id2 -> fresh S id1 -> fresh S id2 ->
  find_collection uid appId (collections S) = None ->
  ∃ S', rtc (cstep false) (S, []) (S', []) ∧
    collections S' = collections S ++ [{| col_id := id1; col_userId := uid; col_modelId := appId |};
                                       {| col_id := id2; col_userId := uid; col_modelId := appId |}] ∧
    ¬ NoDup (map col_pair (collections S')).
Proof.
  intros Hne Happ Hid Hf1 Hf2 Hnone.
  assert (id2 ≠ appId) as Hid2 by (intros ->; by destruct Hf2 as [? _]).
  set (T i := PToggle uid i appId None).
  set (c i := {| col_id := i; col_userId := uid; col_modelId := appId |}).
  assert (Hst : ∀ i ps, cstep false (S, ps) (S, ps ++ [T i])).
  { intros i ps. apply (cs_start_collection _ uid i appId); [by left|].
    unfold start_collection. by rewrite bool_decide_false, Hnone. }
  eexists. split; [|split].
  - eapply rtc_l; [apply (Hst id1 [])|]. eapply rtc_l; [apply (Hst id2 [T id1])|].
    eapply rtc_l; [eapply (cstep_advance_at _ S [] (T id1) [T id2]); [reflexivity|reflexivity|exact Hf1|reflexivity]|].
    eapply rtc_l; [eapply (cstep_advance_at _ _ [PCount appId] (T id2) []); [reflexivity|reflexivity| |reflexivity]|].
    { apply fresh_add_collection; [exact Hf2|simpl; congruence|exact Hid2]. }
    eapply rtc_l; [eapply (cstep_advance_at _ _ [] (PCount appId) [PCount appId]); first [reflexivity|exact I]|].
    eapply rtc_l; [eapply (cstep_advance_at _ _ [PUpdate appId _] (PCount appId) []); first [reflexivity|exact I]|].
    eapply rtc_l; [eapply (cstep_advance_at _ _ [] (PUpdate appId _) [PUpdate appId _]); first [reflexivity|exact I]|].
    eapply rtc_l; [eapply (cstep_advance_at _ _ [] (PUpdate appId _) []); first [reflexivity|exact I]|].
    apply rtc_refl.
  - cbn. by rewrite <- app_assoc.
  - cbn. rewrite <- app_assoc, map_app. intros (_ & _ & Hnd)%NoDup_app. simpl in Hnd.
    apply NoDup_cons in Hnd as [Hn _]. apply Hn. by left.
Qed.

Lemma serial_reachable_wf_witness :
  rtc (cstep true) (empty_store, []) (serial_sample, []) ∧ store_wf serial_sample.
Proof.
  assert (Hrun : rtc (cstep true) (empty_store, []) (serial_sample, [])).
  { eapply rtc_l; [apply (cs_start_create _ "u" "a1" 0 "Chat" None (Some [])); [by right|reflexivity]|].
    eapply rtc_l; [eapply (cstep_advance_at _ _ [] _ [] _ None); [reflexivity|reflexivity| |reflexivity]|].
    { unfold fresh. apply (bool_decide_unpack _). vm_compute. reflexivity. }
    eapply rtc_l; [apply (cs_start_collection _ "u" "c1" "a1"); [by right|reflexivity]|].
    eapply rtc_l; [eapply (cstep_advance_at _ _ [] _ []); [reflexivity|reflexivity| |reflexivity]|].
    { unfold fresh. apply (bool_decide_unpack _). vm_compute. reflexivity. }
    eapply rtc_l; [eapply (cstep_advance_at _ _ [] _ []); first [reflexivity|exact I]|].
    eapply rtc_l; [eapply (cstep_advance_at _ _ [] _ []); first [reflexivity|exact I]|].
    apply rtc_refl. }
  split; [exact Hrun|]. by apply serial_reachable_wf.
Defined.

Lemma concurrent_creates_exceed_limit_witness :
  let S' := set_apps store49 (apps store49 ++ ((λ id, new_app "u" id 0 "App" None []) <$> ["x1"; "x2"])) in
  rtc (cstep false) (store49, []) (S', []) ∧ app_count S' "u" = app_count store49 "u" + 2.
Proof.
  apply (concurrent_creates_exceed_limit store49 "u" 0 "App" None [] ["x1"; "x2"]).
  - done.
  - apply (bool_decide_unpack _). vm_compute. reflexivity.
  - repeat constructor; unfold fresh; apply (bool_decide_unpack _); vm_compute; reflexivity.
  - vm_compute. lia.
Defined.

(** On [store49], the two creates leave user [u] with 51 apps. *)
Example two_creates_reach_51 :
  app_count (set_apps store49 (apps store49 ++ ((λ id, new_app "u" id 0 "App" None []) <$> ["x1"; "x2"]))) "u" = 51.
Proof. vm_compute. reflexivity. Qed.

Lemma concurrent_toggles_duplicate_favourite_witness :
  ∃ S', rtc (cstep false) (store_one_app, []) (S', []) ∧
    collections S' = collections store_one_app ++ [{| col_id := "c1"; col_userId := "u"; col_modelId := "a1" |};
                                                   {| col_id := "c2"; col_userId := "u"; col_modelId := "a1" |}] ∧
    ¬ NoDup (map col_pair (collections S')).
Proof.
  apply concurrent_toggles_duplicate_favourite.
  - done.
  - by left.
  - done.
  - unfold fresh. apply (bool_decide_unpack _). vm_compute. reflexivity.
  - unfold fresh. apply (bool_decide_unpack _). vm_compute. reflexivity.
  - reflexivity.
Defined.

End Concurrency.
