(* ===== verification/CreateModals.v ===== *)
(** * CreateModals: the dialogs that create an app and a knowledge base

    src/client/src/pages/app/list/component/CreateModal.tsx and
    src/client/src/pages/kb/list/component/CreateModal.tsx: a form with an
    avatar, a name (required) and the template of the app, or the index
    model and the tags of the knowledge base; [Confirm creation] posts it
    to the create handler of [AppStore] ([postCreateApp] and
    [postCreateKb] of the api wrappers) and, on success, goes to the
    detail page of the new document.

    The avatar is what [compressImg] returns for the chosen file, an
    argument of the event ([None] when it throws).  The index models are
    [vectorModelList] of the global store, outside src/: a list given to
    the knowledge-base dialog. *)

From Stdlib Require Import Ascii ZArith.
From stdpp Require Import base list strings.
From S2P Require Import Prelude FlowTypes AppTemplates AppStore.

Module CreateModals.
Import FlowTypes AppTemplates.

(** What [useRequest] shows. *)
Inductive Toast := SuccessToast (s : string) | ErrorToast (s : string) | WarningToast (s : string).

(** ** The app dialog *)

(** [FormType] (lines 28-32). *)
Record AppCreateForm := { acf_avatar : string; acf_name : string; acf_templateId : string }.

(** The dialog: its form, whether it is open, the route the router was
    sent to and the last toast. *)
Record AppCreateState := {
  ac_form : AppCreateForm;
  ac_open : bool;
  ac_route : option string;
  ac_toast : option Toast
}.

(** [defaultValues] (lines 41-45): [appTemplates[0].id]. *)
Definition app_form0 : AppCreateForm :=
  {| acf_avatar := "/icon/logo.svg"; acf_name := "";
     acf_templateId := match appTemplates with t :: _ => app_id t | [] => "" end |}.

Definition app_modal0 : AppCreateState :=
  {| ac_form := app_form0; ac_open := true; ac_route := None; ac_toast := None |}.

Inductive AppCreateEvent :=
  | AppSelectAvatar (src : option string)
  | AppInputName (s : string)
  | ClickTemplate (id : string)
  | AppClickCancel
  | AppClickConfirm (newId : AppStore.ObjectId) (now : Z).

Definition set_app_form (st : AppCreateState) (f : AppCreateForm) : AppCreateState :=
  {| ac_form := f; ac_open := ac_open st; ac_route := ac_route st; ac_toast := ac_toast st |}.

Definition app_toast (st : AppCreateState) (t : Toast) : AppCreateState :=
  {| ac_form := ac_form st; ac_open := ac_open st; ac_route := ac_route st; ac_toast := Some t |}.

Section AppDialog.
Variable uid : AppStore.ObjectId.

(** One event; a closed dialog is unmounted and takes none. *)
Definition app_modal_step (x : AppStore.Store * AppCreateState) (ev : AppCreateEvent)
    : AppStore.Store * AppCreateState :=
  let '(srv, st) := x in
  let f := ac_form st in
  if negb (ac_open st) then x else
  match ev with
  | AppSelectAvatar None => (srv, app_toast st (WarningToast "Avatar selection exception"))
  | AppSelectAvatar (Some src) =>
      (srv, set_app_form st {| acf_avatar := src; acf_name := acf_name f; acf_templateId := acf_templateId f |})
  | AppInputName s =>
      (srv, set_app_form st {| acf_avatar := acf_avatar f; acf_name := s; acf_templateId := acf_templateId f |})
  | ClickTemplate id =>
      (* a card exists for each template *)
      if bool_decide (id ∈ app_id <$> appTemplates)
      then (srv, set_app_form st {| acf_avatar := acf_avatar f; acf_name := acf_name f; acf_templateId := id |})
      else x
  | AppClickCancel =>
      (srv, {| ac_form := f; ac_open := false; ac_route := ac_route st; ac_toast := ac_toast st |})
  | AppClickConfirm newId now =>
      (* [required] on the name *)
      if bool_decide (acf_name f = "") then x
      else match AppStore.app_create uid newId now (acf_name f) (Some (acf_avatar f))
                   (Some (createApp_modules (acf_templateId f))) srv with
           | inl _ => (srv, app_toast st (ErrorToast "Create application exception"))
           | inr (id, srv') =>
               (srv', {| ac_form := f; ac_open := false; ac_route := Some ("/app/detail?appId=" +:+ id);
                         ac_toast := Some (SuccessToast "Created successfully") |})
           end
  end.

Definition app_modal_run (x : AppStore.Store * AppCreateState) (evs : list AppCreateEvent)
    : AppStore.Store * AppCreateState :=
  foldl app_modal_step x evs.

End AppDialog.

(** ** The knowledge-base dialog *)

(** [CreateKbParams]: the tags as the input's value split on spaces. *)
Record KbCreateForm := { kcf_avatar : string; kcf_name : string; kcf_tags : list text; kcf_vectorModel : string }.

Record KbCreateState := {
  kc_form : KbCreateForm;
  kc_route : option string;
  kc_toast : option Toast
}.

Inductive KbCreateEvent :=
  | KbSelectAvatar (src : option string)
  | KbInputName (s : string)
  | SelectVectorModel (model : string)
  | InputTags (value : text)
  | KbClickConfirm (newId : AppStore.ObjectId).

Definition set_kb_form (st : KbCreateState) (f : KbCreateForm) : KbCreateState :=
  {| kc_form := f; kc_route := kc_route st; kc_toast := kc_toast st |}.

Section KbDialog.
Variable uid : AppStore.ObjectId.
(** The [model] of each entry of [vectorModelList]. *)
Variable vectorModels : list string.

(** [defaultValues] (lines 27-32): [vectorModelList[0].model]. *)
Definition kb_modal0 : KbCreateState :=
  {| kc_form := {| kcf_avatar := "/icon/logo.svg"; kcf_name := ""; kcf_tags := [];
                   kcf_vectorModel := match vectorModels with m :: _ => m | [] => "" end |};
     kc_route := None; kc_toast := None |}.

Definition kb_modal_step (x : AppStore.Store * KbCreateState) (ev : KbCreateEvent)
    : AppStore.Store * KbCreateState :=
  let '(srv, st) := x in
  let f := kc_form st in
  match ev with
  | KbSelectAvatar None => (srv, {| kc_form := f; kc_route := kc_route st; kc_toast := Some (WarningToast "Avatar selection exception") |})
  | KbSelectAvatar (Some src) =>
      (srv, set_kb_form st {| kcf_avatar := src; kcf_name := kcf_name f; kcf_tags := kcf_tags f; kcf_vectorModel := kcf_vectorModel f |})
  | KbInputName s =>
      (srv, set_kb_form st {| kcf_avatar := kcf_avatar f; kcf_name := s; kcf_tags := kcf_tags f; kcf_vectorModel := kcf_vectorModel f |})
  | SelectVectorModel m =>
      if bool_decide (m ∈ vectorModels)
      then (srv, set_kb_form st {| kcf_avatar := kcf_avatar f; kcf_name := kcf_name f; kcf_tags := kcf_tags f; kcf_vectorModel := m |})
      else x
  | InputTags v =>
      (* [maxLength={30}], then [e.target.value.split(' ')] *)
      (srv, set_kb_form st {| kcf_avatar := kcf_avatar f; kcf_name := kcf_name f;
                              kcf_tags := split_on " "%char (take 30 v); kcf_vectorModel := kcf_vectorModel f |})
  | KbClickConfirm newId =>
      if bool_decide (kcf_name f = "") then x
      else match AppStore.kb_create uid newId (kcf_name f) (kcf_tags f) (Some (kcf_avatar f)) (kcf_vectorModel f) srv with
           | inl _ => (srv, {| kc_form := f; kc_route := kc_route st;
                               kc_toast := Some (ErrorToast "An accident occurred while creating the knowledge base") |})
           | inr (id, srv') =>
               (srv', {| kc_form := f; kc_route := Some ("/kb/detail?kbId=" +:+ id);
                         kc_toast := Some (SuccessToast "Created successfully") |})
           end
  end.

Definition kb_modal_run (x : AppStore.Store * KbCreateState) (evs : list KbCreateEvent)
    : AppStore.Store * KbCreateState :=
  foldl kb_modal_step x evs.

End KbDialog.

(** A session: a name, a template card, an avatar that fails to load. *)
Definition sample_app_events : list AppCreateEvent :=
  [AppInputName "Support bot"; ClickTemplate "simpleKbChat"; AppSelectAvatar None; ClickTemplate "nope"].

(** ** Lemmas *)

(** The template of a card: [createApp_modules] gives its modules. *)
Lemma createApp_modules_of id :
  id ∈ app_id <$> appTemplates -> ∃ t, t ∈ appTemplates ∧ createApp_modules id = app_modules t.
Proof.
  intros Hid. unfold createApp_modules. destruct (List.find _ _) as [t|] eqn:Hf.
  - apply find_some in Hf as [Hin _]. exists t. split; [by apply list_elem_of_In|done].
  - apply list_elem_of_fmap in Hid as (t & -> & Ht). apply list_elem_of_In in Ht.
    pose proof (find_none _ _ Hf t Ht) as Hn. cbv beta in Hn. by rewrite String.eqb_refl in Hn.
Qed.

(** The template of the form is always one of the cards. *)
Lemma app_modal_step_template uid x e :
  acf_templateId (ac_form x.2) ∈ app_id <$> appTemplates ->
  acf_templateId (ac_form (app_modal_step uid x e).2) ∈ app_id <$> appTemplates.
Proof.
  destruct x as [srv st]. cbn [snd]. intros Ht. unfold app_modal_step.
  destruct (negb (ac_open st)); [done|].
  destruct e as [[src|]|s|id| |newId now]; cbn; try done.
  - case_bool_decide; done.
  - case_bool_decide; [done|]. by repeat case_match.
Qed.

Lemma app_modal_run_template uid x evs :
  acf_templateId (ac_form x.2) ∈ app_id <$> appTemplates ->
  acf_templateId (ac_form (app_modal_run uid x evs).2) ∈ app_id <$> appTemplates.
Proof.
  unfold app_modal_run. revert x. induction evs as [|e evs IH]; intros x Hx; [done|].
  apply IH, app_modal_step_template, Hx.
Qed.

(** The create handler appends the app and the detail handler finds it. *)
Lemma app_create_detail uid newId now name av ms S id S' :
  newId ≠ "" -> newId ∉ AppStore.app_id <$> AppStore.apps S ->
  AppStore.app_create uid newId now name av ms S = inr (id, S') ->
  id = newId ∧ ∃ a, AppStore.app_detail uid newId S' = inr a ∧ AppStore.app_name a = name ∧
    AppStore.app_avatar a = default AppStore.default_avatar av ∧ Some (AppStore.app_modules a) = ms.
Proof.
  intros Hne Hfresh. unfold AppStore.app_create. destruct ms as [ms|]; [|done].
  case_bool_decide; [done|]. destruct (50 <=? _); [done|]. intros [= <- <-]. split; [done|].
  eexists. unfold AppStore.app_detail, AppStore.authApp. rewrite bool_decide_false by done.
  cbn [AppStore.apps AppStore.set_apps]. rewrite list_find_app_r.
  2: { apply list_find_None, Forall_forall. intros a Ha Heq. apply Hfresh, list_elem_of_fmap. by exists a. }
  cbn. rewrite decide_True by done. cbn. rewrite bool_decide_true by done. by split_and!.
Qed.

(** ** Properties *)

(** C30: whatever the user did in the creation dialog, confirming it
    with a name, under the limit of 50 apps and with a fresh id, creates
    an app with that name and avatar whose modules are those of one of
    the example templates, a valid graph, which the detail handler
    returns, and sends the router to its detail page. *)
Theorem create_app_from_template uid S evs newId now :
  let x := app_modal_run uid (S, app_modal0) evs in
  ac_open x.2 = true -> acf_name (ac_form x.2) ≠ "" -> AppStore.app_count x.1 uid < 50 ->
  newId ≠ "" -> newId ∉ AppStore.app_id <$> AppStore.apps x.1 ->
  let y := app_modal_step uid x (AppClickConfirm newId now) in
  ac_route y.2 = Some ("/app/detail?appId=" +:+ newId) ∧ ac_open y.2 = false ∧
  ∃ a t, AppStore.app_detail uid newId y.1 = inr a ∧ t ∈ appTemplates ∧
    AppStore.app_modules a = app_modules t ∧ graph_wf (AppStore.app_modules a) = true ∧
    AppStore.app_name a = acf_name (ac_form x.2) ∧ AppStore.app_avatar a = acf_avatar (ac_form x.2).
Proof.
  cbv zeta. destruct (app_modal_run uid (S, app_modal0) evs) as [srv st] eqn:Hx. cbn [fst snd].
  intros Ho Hn Hc Hne Hfresh.
  destruct (createApp_modules_of (acf_templateId (ac_form st))) as (t & Ht & Hm).
  { replace st with (app_modal_run uid (S, app_modal0) evs).2 by (by rewrite Hx).
    apply app_modal_run_template. vm_compute. left. }
  unfold app_modal_step. rewrite Ho, bool_decide_false by done. cbn [negb].
  destruct (AppStore.app_create _ _ _ _ _ _ _) as [e|[id srv']] eqn:Hcr.
  - exfalso. revert Hcr. unfold AppStore.app_create. rewrite bool_decide_false by done.
    by rewrite (proj2 (Nat.leb_gt _ _) Hc).
  - destruct (app_create_detail _ _ _ _ _ _ _ _ _ Hne Hfresh Hcr) as (-> & a & Hd & Hna & Hav & Hms).
    cbn. split_and!; [done|done|]. exists a, t. rewrite <-Hm. injection Hms as Hms.
    split_and!; rewrite ?Hms; try done. apply createApp_modules_valid.
Qed.

(** The index model of the knowledge-base form is always one of the list. *)
Lemma kb_modal_run_model uid models x evs :
  kcf_vectorModel (kc_form x.2) ∈ models -> kcf_vectorModel (kc_form (kb_modal_run uid models x evs).2) ∈ models.
Proof.
  unfold kb_modal_run. revert x. induction evs as [|e evs IH]; intros [srv st] Hx; [done|]. apply IH.
  destruct e as [[src|]|s|m|v|newId]; cbn -[elem_of]; try done.
  - by case_bool_decide.
  - case_bool_decide; [done|]. by repeat case_match.
Qed.

(** Confirming the knowledge-base dialog with a name stores a knowledge
    base of the user with that name, the tags as typed split on spaces
    (empty tags included) and one of the index models, and goes to its
    page. *)
Theorem create_kb_from_dialog uid models S evs newId :
  models ≠ [] -> "" ∉ models ->
  let x := kb_modal_run uid models (S, kb_modal0 models) evs in
  kcf_name (kc_form x.2) ≠ "" ->
  let y := kb_modal_step uid models x (KbClickConfirm newId) in
  kc_route y.2 = Some ("/kb/detail?kbId=" +:+ newId) ∧
  ∃ k, AppStore.kbs y.1 = AppStore.kbs x.1 ++ [k] ∧ AppStore.kbdoc_id k = newId ∧ AppStore.kbdoc_userId k = uid ∧
    AppStore.kbdoc_name k = kcf_name (kc_form x.2) ∧ AppStore.kbdoc_tags k = kcf_tags (kc_form x.2) ∧
    AppStore.kbdoc_vectorModel k ∈ models.
Proof.
  intros Hm He. cbv zeta. pose proof (kb_modal_run_model uid models (S, kb_modal0 models) evs) as Hmod.
  destruct (kb_modal_run uid models (S, kb_modal0 models) evs) as [srv st]. cbn [fst snd] in *.
  assert (Hv : kcf_vectorModel (kc_form st) ∈ models) by (apply Hmod; destruct models; [done|left]).
  intros Hn.
  cbn [kb_modal_step]. rewrite bool_decide_false by done. unfold AppStore.kb_create.
  rewrite bool_decide_false by (intros [?|Hv']; [done|by rewrite Hv' in Hv]).
  cbn. split; [done|]. by eexists.
Qed.

Lemma create_app_from_template_witness :
  let x := app_modal_run "alice" (AppStore.empty_store, app_modal0) sample_app_events in
  let y := app_modal_step "alice" x (AppClickConfirm "app9" 0) in
  ac_route y.2 = Some ("/app/detail?appId=" +:+ "app9") ∧ ac_open y.2 = false ∧
  ∃ a t, AppStore.app_detail "alice" "app9" y.1 = inr a ∧ t ∈ appTemplates ∧
    AppStore.app_modules a = app_modules t ∧ graph_wf (AppStore.app_modules a) = true ∧
    AppStore.app_name a = acf_name (ac_form x.2) ∧ AppStore.app_avatar a = acf_avatar (ac_form x.2).
Proof.
  apply (create_app_from_template "alice" AppStore.empty_store sample_app_events "app9" 0);
    [vm_compute; reflexivity|vm_compute; discriminate|vm_compute; lia|discriminate|].
  apply (bool_decide_unpack _). vm_compute. reflexivity.
Defined.

End CreateModals.
