(* ===== verification/Account.v ===== *)
(** * Account: the user account handlers and the registration page

    pages/api/user/account/loginByPassword.ts and register.ts over the
    user collection of service/models/user.ts, getBill.ts over the bills of
    a user, promotion/getPromotionData.ts over the users a user invited
    and their promotion records, and the register button of
    pages/login/components/RegisterForm.tsx, which after a successful
    registration creates the example apps of [appTemplates] through the
    create handler of [AppStore].

    The schema's [password] setter hashes the value it stores and the
    query [User.findOne({username, password})] is cast through the same
    setter, so a stored password is [hashPassword] of the one sent and a
    login compares hashes.  [hashPassword], [generateToken] and
    [PRICE_SCALE] are not under src/ and are parameters; [authUser] is the
    id it yields; a new document's [_id] is an argument. *)

From Stdlib Require Import Ascii ZArith QArith.
From stdpp Require Import base list strings sorting.
From S2P Require Import Prelude FlowTypes AppTemplates AppStore.

Module Account.
Import FlowTypes AppTemplates AppStore.

(** [UserSchema] (lines 6-53): the fields the handlers read or set; the
    password is the stored hash. *)
Record UserDoc := {
  u_id : string;
  u_username : string;
  u_password : string;
  u_avatar : string;
  u_balance : Z;
  u_inviterId : option string;
  u_promotionRate : Z
}.

(** A user as the handlers return it: [password] has [select: false]. *)
Record UserView := {
  uv_id : string; uv_username : string; uv_avatar : string; uv_balance : Z;
  uv_inviterId : option string; uv_promotionRate : Z
}.

Definition view (u : UserDoc) : UserView :=
  {| uv_id := u_id u; uv_username := u_username u; uv_avatar := u_avatar u; uv_balance := u_balance u;
     uv_inviterId := u_inviterId u; uv_promotionRate := u_promotionRate u |}.

(** The errors the handlers throw. *)
Inductive AccountError :=
  | MissingParameter      (* 'Missing parameter' *)
  | UserNotRegistered     (* 'User is not registered' *)
  | PasswordError         (* 'password error' *)
  | InvalidRequest        (* 'Invalid request' *)
  | UserExists            (* 'User already exists' *)
  | UserNotFound.         (* 'User not found' *)

Definition truthy (s : string) : bool := negb (String.eqb s "").

(** A bill as [getBill] reads it. *)
Record BillDoc := { bd_id : string; bd_userId : string; bd_time : Z; bd_total : Q }.

(** A promotion record. *)
Record PromotionRecord := { pr_userId : string; pr_amount : Q }.

(** The collections the handlers use. *)
Record Accounts := { users : list UserDoc; bills : list BillDoc; promotions : list PromotionRecord }.

Definition add_user (A : Accounts) (u : UserDoc) : Accounts :=
  {| users := users A ++ [u]; bills := bills A; promotions := promotions A |}.

Section Handlers.
Variable hashPassword : string -> string.
(** [generateToken(userId)] signs a token for the user, with an expiry
    from the clock at the call ([now]). *)
Variable generateToken : string -> Z -> string.
Variable PRICE_SCALE : Z.

(** loginByPassword.ts (lines 8-49). *)
Definition loginByPassword (A : Accounts) (username password : string) (now : Z) : AccountError + (UserView * string) :=
  if negb (truthy username) || negb (truthy password) then inl MissingParameter
  else match List.find (λ u, String.eqb (u_username u) username) (users A) with
       | None => inl UserNotRegistered
       | Some _ =>
           match List.find (λ u, String.eqb (u_username u) username && String.eqb (u_password u) (hashPassword password))
                   (users A) with
           | None => inl PasswordError
           | Some user => inr (view user, generateToken (u_id user) now)
           end
       end.

(** The document [User.create] writes (register.ts lines 26-30, with the
    schema's defaults and setter). *)
Definition new_user (newId username password : string) (inviterId : option string) : UserDoc :=
  {| u_id := newId; u_username := username; u_password := hashPassword password;
     u_avatar := "/icon/human.png"; u_balance := 2 * PRICE_SCALE;
     u_inviterId := match inviterId with Some i => if truthy i then Some i else None | None => None end;
     u_promotionRate := 15 |}.

(** register.ts (lines 8-53): the verification [code] is only required
    to be non-empty. *)
Definition register (A : Accounts) (newId username code password : string) (inviterId : option string) (now : Z)
    : AccountError + (Accounts * (UserView * string)) :=
  if negb (truthy username) || negb (truthy code) || negb (truthy password) then inl InvalidRequest
  else match List.find (λ u, String.eqb (u_username u) username) (users A) with
       | Some _ => inl UserExists
       | None =>
           let A' := add_user A (new_user newId username password inviterId) in
           match List.find (λ u, String.eqb (u_id u) newId) (users A') with
           | None => inl UserNotFound
           | Some user => inr (A', (view user, generateToken (u_id user) now))
           end
       end.

End Handlers.

(** getBill.ts (lines 9-58): the caller's bills between the two dates,
    newest first, one page, and their number. *)
Definition bill_where (uid : string) (dateStart dateEnd : Z) (b : BillDoc) : Prop :=
  bd_userId b = uid ∧ (dateStart <= bd_time b)%Z ∧ (bd_time b <= dateEnd)%Z.

#[local] Instance bill_where_dec uid s e : ∀ b, Decision (bill_where uid s e b).
Proof. intros b. unfold bill_where. apply _. Defined.

(** [.sort({time: -1})]: a stable sort, ties in store order. *)
Definition bill_newer (x y : BillDoc) : Prop := (bd_time y <= bd_time x)%Z.

#[local] Instance newer_dec : RelDecision bill_newer.
Proof. intros x y. unfold bill_newer. apply _. Defined.

Record BillPage := { bp_pageNum : nat; bp_pageSize : nat; bp_data : list BillDoc; bp_total : nat }.

Definition getBill (A : Accounts) (uid : string) (pageNum pageSize : nat) (dateStart dateEnd : Z) : BillPage :=
  let matched := filter (bill_where uid dateStart dateEnd) (bills A) in
  {| bp_pageNum := pageNum; bp_pageSize := pageSize;
     bp_data := take pageSize (drop ((pageNum - 1) * pageSize) (merge_sort bill_newer matched));
     bp_total := length matched |}.

(** getPromotionData.ts (lines 8-51): the users the caller invited, and the
    sum of the caller's positive promotion amounts ([|| 0] for none). *)
Definition getPromotionData (A : Accounts) (uid : string) : nat * Q :=
  (length (filter (λ u, u_inviterId u = Some uid) (users A)),
   foldr (λ r acc, pr_amount r + acc)%Q 0%Q
     (filter (λ r, bool_decide (pr_userId r = uid) && negb (Qle_bool (pr_amount r) 0) = true) (promotions A))).


(** The example apps the register button creates (RegisterForm.tsx lines
    68-74) through the create handler, with the new user's token, one
    after the other; a failed create is ignored. *)
Fixpoint create_templates (uid : ObjectId) (ids : list ObjectId) (now : Z) (ts : list AppTemplate) (S : Store) : Store :=
  match ts, ids with
  | t :: ts', i :: ids' =>
      let S' := match app_create uid i now (FlowTypes.app_name t) (Some (FlowTypes.app_avatar t))
                        (Some (FlowTypes.app_modules t)) S with
                | inr (_, S') => S' | inl _ => S end in
      create_templates uid ids' now ts' S'
  | _, _ => S
  end.

(** The apps of a user in the store. *)
Definition apps_of (S : Store) (uid : ObjectId) : list AppDoc := filter (λ a, app_userId a = uid) (apps S).

(** ** Samples *)

Definition hash_sample (s : string) : string := String.append "h:" s.
Definition token_sample (s : string) (now : Z) : string := String.append "t:" s.

Definition accounts0 : Accounts :=
  {| users := [new_user hash_sample 100000 "u1" "alice@x.io" "pw" None]; bills := []; promotions := [] |}.

(** ** Lemmas *)

Lemma find_app_None {A} (p : A -> bool) l x :
  List.find p l = None -> List.find p (l ++ [x]) = (if p x then Some x else None).
Proof. induction l as [|y l IH]; simpl; [by destruct (p x)|]. by destruct (p y). Qed.

Lemma find_None_forall {A} (p : A -> bool) l : List.find p l = None <-> Forall (λ x, p x = false) l.
Proof.
  induction l as [|y l IH]; simpl; [split; [constructor|done]|]. rewrite Forall_cons, <- IH.
  destruct (p y); naive_solver.
Qed.

Lemma find_None_and {A} (p q : A -> bool) l : List.find p l = None -> List.find (λ x, p x && q x) l = None.
Proof.
  rewrite !find_None_forall. intros H. eapply Forall_impl; [exact H|]. intros x ->. done.
Qed.

Lemma register_Some hash tok P A newId username code password inv now A' v t :
  register hash tok P A newId username code password inv now = inr (A', (v, t)) ->
  truthy username = true ∧ truthy code = true ∧ truthy password = true ∧
  List.find (λ u, String.eqb (u_username u) username) (users A) = None ∧
  A' = add_user A (new_user hash P newId username password inv) ∧
  ∃ user, List.find (λ u, String.eqb (u_id u) newId) (users A') = Some user ∧ v = view user ∧ t = tok (u_id user) now.
Proof.
  unfold register. intros H.
  destruct (truthy username), (truthy code), (truthy password); cbn [negb orb] in H; try done.
  destruct (List.find (λ u, String.eqb (u_username u) username) (users A)) eqn:Hf; [done|].
  destruct (List.find (λ u, String.eqb (u_id u) newId) (users (add_user A (new_user hash P newId username password inv))))
    as [user|] eqn:Hu; [|done]. injection H as <- <- <-. split_and!; eauto.
Qed.

Lemma apps_of_create uid newId now name avatar ms S id' S' :
  app_create uid newId now name avatar (Some ms) S = inr (id', S') ->
  ∃ a, apps_of S' uid = apps_of S uid ++ [a] ∧ app_modules a = ms.
Proof.
  unfold app_create. case_bool_decide; [done|]. destruct (50 <=? app_count S uid); [done|].
  intros [= _ <-]. unfold apps_of. cbn [apps set_apps]. rewrite filter_app, filter_cons_True by done.
  eexists. split; [done|done].
Qed.

Lemma app_count_apps_of S uid : app_count S uid = length (apps_of S uid).
Proof.
  unfold app_count, apps_of, countb. f_equal. apply list_filter_iff. intros a. by rewrite bool_decide_eq_true.
Qed.

(** ** Properties *)

(** C33: after a registration with a fresh document id, the answer is the
    new user's view and a token generated for the new id at the time of
    the registration; logging in later with the same user name and
    password, at any time, succeeds with the same view and a token
    generated for the same id at the time of the login. *)
Theorem register_then_login hash tok P A newId username code password inv now A' v t :
  newId ∉ u_id <$> users A ->
  register hash tok P A newId username code password inv now = inr (A', (v, t)) ->
  t = tok newId now ∧
  ∀ now', loginByPassword hash tok A' username password now' = inr (v, tok newId now').
Proof.
  intros Hfresh (Hu & _ & Hp & Hf & -> & user & Hid & -> & ->)%register_Some.
  assert (user = new_user hash P newId username password inv) as ->.
  { revert Hid. cbn [users add_user]. rewrite find_app_None.
    - simpl. rewrite String.eqb_refl. by intros [= <-].
    - apply find_None_forall, Forall_forall. intros u Hu'. apply String.eqb_neq. intros <-.
      apply Hfresh, list_elem_of_fmap_2, Hu'. }
  split; [done|]. intros now'.
  unfold loginByPassword. rewrite Hu, Hp. simpl.
  rewrite find_app_None, String.eqb_refl by done.
  rewrite find_app_None by (by apply find_None_and). simpl. by rewrite !String.eqb_refl.
Qed.

(** registration never checks the verification code: any two
    non-empty codes give the same answer and the same store. *)
Theorem register_ignores_code hash tok P A newId username code1 code2 password inv now :
  truthy code1 = true -> truthy code2 = true ->
  register hash tok P A newId username code1 password inv now = register hash tok P A newId username code2 password inv now.
Proof. intros H1 H2. unfold register. by rewrite H1, H2. Qed.

(** registration keeps user names unique. *)
Theorem register_usernames_unique hash tok P A newId username code password inv now A' r :
  NoDup (u_username <$> users A) -> register hash tok P A newId username code password inv now = inr (A', r) ->
  NoDup (u_username <$> users A').
Proof.
  intros Hnd Hr. destruct r as [v t]. apply register_Some in Hr as (_ & _ & _ & Hf & -> & _).
  cbn [users add_user]. rewrite fmap_app. apply NoDup_app. split_and!; [done| |apply NoDup_singleton].
  intros x (u & -> & Hu)%list_elem_of_fmap Heq%list_elem_of_singleton. simpl in Heq.
  apply find_None_forall in Hf. eapply Forall_forall in Hf; [|done]. simpl in Hf.
  by rewrite Heq, String.eqb_refl in Hf.
Qed.

(** the login handler tells an unknown user name from a wrong
    password: it answers [UserNotRegistered] exactly when no user has the
    name, and [PasswordError] exactly when users have the name but none
    with that password. *)
Theorem login_errors hash tok A username password now :
  truthy username = true -> truthy password = true ->
  (loginByPassword hash tok A username password now = inl UserNotRegistered <->
     Forall (λ u, u_username u ≠ username) (users A)) ∧
  (loginByPassword hash tok A username password now = inl PasswordError <->
     (∃ u, u ∈ users A ∧ u_username u = username) ∧
     Forall (λ u, u_username u = username -> u_password u ≠ hash password) (users A)).
Proof.
  intros Hu Hp. unfold loginByPassword. rewrite Hu, Hp. simpl.
  destruct (List.find (λ u, String.eqb (u_username u) username) (users A)) as [w|] eqn:E1.
  - apply find_some in E1 as [Hw Hwn%String.eqb_eq].
    destruct (List.find (λ u, _ && _) (users A)) eqn:E2; split; split; try done.
    + intros Hf. eapply Forall_forall in Hf; [|by apply list_elem_of_In]. done.
    + intros [_ Hf]. apply find_some in E2 as [Hin [Hn%String.eqb_eq Hpw%String.eqb_eq]%andb_prop].
      eapply Forall_forall in Hf; [|by apply list_elem_of_In]. by destruct (Hf Hn).
    + intros Hf. eapply Forall_forall in Hf; [|by apply list_elem_of_In]. done.
    + intros _. split; [exists w; split; [by apply list_elem_of_In|done]|].
      apply find_None_forall in E2. eapply Forall_impl; [exact E2|]. intros u Hu' Hn.
      cbv beta in Hu'. rewrite Hn, String.eqb_refl in Hu'. simpl in Hu'. by apply String.eqb_neq in Hu'.
  - split; split; try done.
    + intros _. apply find_None_forall in E1. eapply Forall_impl; [exact E1|]. intros u Hu'. by apply String.eqb_neq.
    + intros [(u & Hin & Hn) _]. apply find_None_forall in E1. eapply Forall_forall in E1; [|done].
      rewrite Hn, String.eqb_refl in E1. done.
Qed.

(** a page of [getBill] holds bills of the caller in the date range,
    newest first, at most [pageSize] of them, and the pages [1..k] one after
    the other are the first [k * pageSize] of all those bills, newest
    first. *)
Theorem getBill_pages A uid pageSize s e k :
  (∀ n, Forall (bill_where uid s e) (bp_data (getBill A uid n pageSize s e)) ∧
        Sorted bill_newer (bp_data (getBill A uid n pageSize s e)) ∧
        length (bp_data (getBill A uid n pageSize s e)) <= pageSize) ∧
  concat (map (λ n, bp_data (getBill A uid (n + 1) pageSize s e)) (seq 0 k)) =
    take (k * pageSize) (merge_sort bill_newer (filter (bill_where uid s e) (bills A))).
Proof.
  split.
  - intros n. cbn [getBill bp_data]. split_and!.
    + apply Forall_forall. intros b Hb%elem_of_page.
      rewrite (merge_sort_Permutation _ _) in Hb. by apply list_elem_of_filter in Hb as [? _].
    + apply Sorted_take, Sorted_drop, Sorted_merge_sort. intros x y. unfold bill_newer. lia.
    + rewrite length_take. lia.
  - rewrite <- pages_concat. f_equal. apply map_ext_in. intros n _. cbn. do 2 f_equal. lia.
Qed.

(** after a registration, the register button's creates give the new
    user one app per example app, with the example's module graph. *)
Theorem register_creates_templates uid ids now S :
  apps_of S uid = [] -> length appTemplates <= length ids ->
  app_modules <$> apps_of (create_templates uid ids now appTemplates S) uid = FlowTypes.app_modules <$> appTemplates.
Proof.
  intros H0 Hids.
  assert (Hgen : ∀ ts ids S, Forall (λ t, FlowTypes.app_name t ≠ "") ts -> length ts <= length ids ->
            length (apps_of S uid) + length ts <= 50 ->
            app_modules <$> apps_of (create_templates uid ids now ts S) uid =
            (app_modules <$> apps_of S uid) ++ (FlowTypes.app_modules <$> ts)).
  { induction ts as [|t ts IH]; intros [|i ids'] S' Hn Hl Hc; cbn [create_templates length] in *; try lia; [by rewrite app_nil_r|by rewrite app_nil_r|].
    apply Forall_cons in Hn as [Hn Hns].
    cbv zeta. destruct (app_create uid i now (FlowTypes.app_name t) (Some (FlowTypes.app_avatar t)) (Some (FlowTypes.app_modules t)) S') as [err|[id' S'']] eqn:Hcr.
    - exfalso. revert Hcr. unfold app_create. rewrite bool_decide_false by done.
      rewrite app_count_apps_of, (proj2 (Nat.leb_gt _ _)) by lia. done.
    - apply apps_of_create in Hcr as (a & Ha & Hm). rewrite IH; [|done|lia|rewrite Ha, length_app; simpl; lia].
      rewrite Ha, fmap_app, <- app_assoc. simpl. by rewrite Hm. }
  rewrite Hgen; [by rewrite H0|repeat constructor; discriminate|done|rewrite H0; simpl; lia].
Qed.

(** a user name that is registered and a wrong password give
    [PasswordError]; a user name nobody has gives [UserNotRegistered]. *)
Example login_tells_names_apart :
  loginByPassword hash_sample token_sample accounts0 "alice@x.io" "guess" 0 = inl PasswordError ∧
  loginByPassword hash_sample token_sample accounts0 "mallory@x.io" "guess" 0 = inl UserNotRegistered.
Proof. split; reflexivity. Qed.

Lemma register_then_login_witness :
  match register hash_sample token_sample 100000 accounts0 "u2" "bob@x.io" "123456" "pw2" None 0 with
  | inr (A', (v, t)) => t = token_sample "u2" 0 ∧
      ∀ now', loginByPassword hash_sample token_sample A' "bob@x.io" "pw2" now' = inr (v, token_sample "u2" now')
  | inl _ => False
  end.
Proof.
  pose proof (register_then_login hash_sample token_sample 100000 accounts0 "u2" "bob@x.io" "123456" "pw2" None 0) as H.
  destruct (register _ _ _ _ _ _ _ _ _ _) as [e|[A' [v t]]] eqn:E; [vm_compute in E; discriminate|].
  apply (H A' v t); [apply (bool_decide_unpack _); vm_compute; reflexivity|reflexivity].
Defined.

Lemma register_ignores_code_witness :
  register hash_sample token_sample 100000 accounts0 "u2" "bob@x.io" "123456" "pw2" None 0 =
  register hash_sample token_sample 100000 accounts0 "u2" "bob@x.io" "000000" "pw2" None 0.
Proof. apply register_ignores_code; reflexivity. Defined.

Lemma register_usernames_unique_witness :
  match register hash_sample token_sample 100000 accounts0 "u2" "bob@x.io" "123456" "pw2" None 0 with
  | inr (A', _) => NoDup (u_username <$> users A')
  | inl _ => False
  end.
Proof.
  pose proof (register_usernames_unique hash_sample token_sample 100000 accounts0 "u2" "bob@x.io" "123456" "pw2" None 0) as H.
  destruct (register _ _ _ _ _ _ _ _ _ _) as [e|[A' r]] eqn:E; [vm_compute in E; discriminate|].
  apply (H A' r); [apply (bool_decide_unpack _); vm_compute; reflexivity|reflexivity].
Defined.

Lemma login_errors_witness :
  (loginByPassword hash_sample token_sample accounts0 "alice@x.io" "guess" 0 = inl UserNotRegistered <->
     Forall (λ u, u_username u ≠ "alice@x.io") (users accounts0)) ∧
  (loginByPassword hash_sample token_sample accounts0 "alice@x.io" "guess" 0 = inl PasswordError <->
     (∃ u, u ∈ users accounts0 ∧ u_username u = "alice@x.io") ∧
     Forall (λ u, u_username u = "alice@x.io" -> u_password u ≠ hash_sample "guess") (users accounts0)).
Proof. apply login_errors; reflexivity. Defined.

Lemma register_creates_templates_witness :
  app_modules <$> apps_of (create_templates "u2" ["a1"; "a2"; "a3"; "a4"] 0 appTemplates empty_store) "u2" =
  FlowTypes.app_modules <$> appTemplates.
Proof. apply register_creates_templates; [reflexivity|simpl; lia]. Defined.

End Account.
