(* ===== verification/KbSelect.v ===== *)
(** * KbSelect: choosing the knowledge bases of an app

    pages/app/detail/components/KBSelectModal.tsx is the dialog in which the
    simple editor (BasicEdit/index.tsx) picks the knowledge bases an app
    searches.  Its state is the selection [selectedKbList], initialised
    with the app's current knowledge bases; a click on a card removes a
    selected knowledge base or appends an unselected one, unless its index
    (vector) model differs from the one of the first selected knowledge
    base; [Finish] keeps the selected knowledge bases still in the user's
    list and hands them to the form.  The dialog promises "only knowledge
    bases with the same index model can be selected"; the theorems show
    when the code keeps that promise. *)

From Stdlib Require Import ZArith QArith.
From stdpp Require Import base list strings.
From S2P Require Import Prelude FlowTypes.

Module KbSelect.
Import FlowTypes.

(** [VectorModelItemType]: the model's id and its display name. *)
Record VectorModelItem := { vm_model : string; vm_name : string }.

(** [KbListItemType]: the fields the dialog reads. *)
Record KbListItem := { kb_id : string; kb_name : string; kb_avatar : string; kb_vectorModel : VectorModelItem }.

(** [SelectedKbType]: one selected knowledge base. *)
Record SelectedKb := { sk_kbId : string; sk_vectorModel : VectorModelItem }.

(** The warning toast the dialog shows instead of selecting. *)
Inductive ClickOutcome := Selected | Deselected | ModelMismatch.

(** [!!selectedKbList.find((kb) => kb.kbId === item._id)] (line 73). *)
Definition is_selected (sel : list SelectedKb) (id : string) : bool :=
  existsb (λ kb, bool_decide (sk_kbId kb = id)) sel.

(** The [onClick] of a card (lines 91-108). *)
Definition click (item : KbListItem) (sel : list SelectedKb) : list SelectedKb * ClickOutcome :=
  if is_selected sel (kb_id item) then
    (filter (λ kb, sk_kbId kb ≠ kb_id item) sel, Deselected)
  else
    let vectorModel := vm_model ∘ sk_vectorModel <$> head sel in
    match vectorModel with
    | Some m =>
        if bool_decide (m ≠ "" ∧ m ≠ vm_model (kb_vectorModel item)) then (sel, ModelMismatch)
        else (sel ++ [{| sk_kbId := kb_id item; sk_vectorModel := kb_vectorModel item |}], Selected)
    | None => (sel ++ [{| sk_kbId := kb_id item; sk_vectorModel := kb_vectorModel item |}], Selected)
    end.

(** The [Finish] button (lines 129-137): the selection without the
    knowledge bases that are no longer in [kbList]. *)
Definition finish (kbList : list KbListItem) (sel : list SelectedKb) : list SelectedKb :=
  filter (λ kb, existsb (λ item, bool_decide (kb_id item = sk_kbId kb)) kbList = true) sel.

(** The [activeKbs] BasicEdit/index.tsx passes (lines 124-127 and
    557-561): the user's knowledge bases that the form's list names, in the
    order of the user's list, with their current model. *)
Definition activeKbs (myKbList : list KbListItem) (formKbIds : list string) : list SelectedKb :=
  map (λ item, {| sk_kbId := kb_id item; sk_vectorModel := kb_vectorModel item |})
      (filter (λ item, kb_id item ∈ formKbIds) myKbList).

(** A session of the dialog: the clicks in order, from the initial
    selection. *)
Definition clicks (items : list KbListItem) (sel : list SelectedKb) : list SelectedKb :=
  foldl (λ s item, (click item s).1) sel items.

(** One index model across the selection, and no empty model name. *)
Definition one_model (sel : list SelectedKb) : Prop :=
  ∀ x y, x ∈ sel -> y ∈ sel -> vm_model (sk_vectorModel x) = vm_model (sk_vectorModel y).

(** The selection the dialog keeps: one index model, no knowledge base
    twice, no empty model name. *)
Definition sel_ok (sel : list SelectedKb) : Prop :=
  one_model sel ∧ NoDup (map sk_kbId sel) ∧ Forall (λ kb, vm_model (sk_vectorModel kb) ≠ "") sel.

(** ** The search parameters dialog

    [KbParamsModal] (lines 147-252) is a form initialised with the three
    search parameters of the app's form.  The similarity slider (0 to 1,
    step 0.01) and the quantity slider (1 to 20) set their field, the
    textarea (at most 500 characters) the reply to an empty search;
    [Finish] hands the three values to [onChange], [Cancel] only closes
    the dialog. *)
Record KbParamsType := { kp_searchEmptyText : JsVal; kp_searchLimit : JsVal; kp_searchSimilarity : JsVal }.

Inductive KbParamsEvent := SlideSimilarity (val : Q) | SlideLimit (val : Q) | TypeEmptyText (s : string).

(** The [onChange] of the sliders (lines 194-197 and 213-216) and the
    [register] of the textarea (lines 225-232). *)
Definition kbParams_step (p : KbParamsType) (e : KbParamsEvent) : KbParamsType :=
  match e with
  | SlideSimilarity val =>
      {| kp_searchEmptyText := kp_searchEmptyText p; kp_searchLimit := kp_searchLimit p; kp_searchSimilarity := JNum val |}
  | SlideLimit val =>
      {| kp_searchEmptyText := kp_searchEmptyText p; kp_searchLimit := JNum val; kp_searchSimilarity := kp_searchSimilarity p |}
  | TypeEmptyText s =>
      {| kp_searchEmptyText := JStr (String.substring 0 500 s); kp_searchLimit := kp_searchLimit p;
         kp_searchSimilarity := kp_searchSimilarity p |}
  end.

(** A session of the dialog: its events, then [Finish] ([Some] of what
    [onChange] receives) or [Cancel] ([None]). *)
Definition kbParamsModal (init : KbParamsType) (evs : list KbParamsEvent) (finished : bool) : option KbParamsType :=
  if finished then Some (foldl kbParams_step init evs) else None.

(** A value a slider gives: a number in its range, in lowest terms as a
    JavaScript number is. *)
Definition slider_value (lo hi q : Q) : Prop := Qred q = q ∧ (lo <= q <= hi)%Q.

(** What the widgets of the dialog can give. *)
Definition kbParams_event_ok (e : KbParamsEvent) : Prop :=
  match e with
  | SlideSimilarity val => slider_value 0 1 val
  | SlideLimit val => slider_value 1 20 val
  | TypeEmptyText _ => True
  end.

(** ** Samples *)

Definition ada : VectorModelItem := {| vm_model := "text-embedding-ada-002"; vm_name := "Embedding-2" |}.
Definition m3e : VectorModelItem := {| vm_model := "m3e"; vm_name := "M3E" |}.

Definition kb_a : KbListItem := {| kb_id := "kbA"; kb_name := "Docs"; kb_avatar := ""; kb_vectorModel := ada |}.
Definition kb_b : KbListItem := {| kb_id := "kbB"; kb_name := "FAQ"; kb_avatar := ""; kb_vectorModel := ada |}.
Definition kb_c : KbListItem := {| kb_id := "kbC"; kb_name := "Local"; kb_avatar := ""; kb_vectorModel := m3e |}.

(** ** Lemmas *)

Lemma is_selected_spec sel id : is_selected sel id = true <-> ∃ kb, kb ∈ sel ∧ sk_kbId kb = id.
Proof.
  unfold is_selected. rewrite existsb_exists. setoid_rewrite bool_decide_eq_true.
  by setoid_rewrite <- list_elem_of_In.
Qed.

Lemma one_model_sub sel sel' : (∀ x, x ∈ sel' -> x ∈ sel) -> one_model sel -> one_model sel'.
Proof. intros Hs Ho x y Hx Hy. apply Ho; auto. Qed.

Lemma one_model_snoc sel kb :
  one_model sel -> (∀ x, x ∈ sel -> vm_model (sk_vectorModel x) = vm_model (sk_vectorModel kb)) ->
  one_model (sel ++ [kb]).
Proof.
  intros Ho Hk x y Hx Hy. apply elem_of_app in Hx as [Hx|Hx%list_elem_of_singleton];
    apply elem_of_app in Hy as [Hy|Hy%list_elem_of_singleton]; subst; auto.
  symmetry. auto.
Qed.

Lemma click_ok item sel : vm_model (kb_vectorModel item) ≠ "" -> sel_ok sel -> sel_ok (click item sel).1.
Proof.
  intros Hi (Ho & Hn & Hf). unfold click.
  destruct (is_selected sel (kb_id item)) eqn:Hs; simpl.
  { split_and!.
    - apply (one_model_sub sel); [|done]. intros x [_ Hx]%list_elem_of_filter. done.
    - by apply NoDup_map_filter.
    - by apply Forall_filter_of. }
  assert (Hnot : kb_id item ∉ map sk_kbId sel).
  { intros (kb & Hid & Hkb)%list_elem_of_fmap. rewrite <- not_true_iff_false, is_selected_spec in Hs.
    apply Hs. eauto. }
  assert (Happ : ∀ m, (∀ x, x ∈ sel -> vm_model (sk_vectorModel x) = m) -> m = vm_model (kb_vectorModel item) ->
    sel_ok (sel ++ [{| sk_kbId := kb_id item; sk_vectorModel := kb_vectorModel item |}])).
  { intros m Hm ->. split_and!.
    - apply one_model_snoc; [done|]. simpl. done.
    - rewrite map_app. apply NoDup_app. split_and!; [done| |apply NoDup_singleton].
      intros x Hx ->%list_elem_of_singleton. done.
    - apply Forall_app. split; [done|]. by apply Forall_singleton. }
  destruct sel as [|first rest]; simpl.
  - apply (Happ (vm_model (kb_vectorModel item))); [intros ? []%not_elem_of_nil|done].
  - case_bool_decide as Hm; [done|]. apply (Happ (vm_model (sk_vectorModel first))).
    + intros x Hx. apply Ho; [done|left].
    + apply Forall_cons in Hf as [Hfirst _]. destruct (decide (vm_model (sk_vectorModel first) = vm_model (kb_vectorModel item))); [done|].
      exfalso. apply Hm. done.
Qed.

(** ** Theorems *)

(** C16: every session of the dialog keeps the selection to one index
    model with no knowledge base twice, when it starts from such a
    selection and every model has a name. *)
Theorem clicks_keep_one_model items sel :
  Forall (λ item, vm_model (kb_vectorModel item) ≠ "") items -> sel_ok sel -> sel_ok (clicks items sel).
Proof.
  unfold clicks. intros Hitems. revert sel.
  induction Hitems as [|item items Hi _ IH]; intros sel Hsel; [done|]. simpl. by apply IH, click_ok.
Qed.

(** clicking a knowledge base the dialog has just selected deselects
    it and gives the selection back as it was. *)
Theorem click_twice_restores item sel :
  sel_ok sel -> (click item sel).2 = Selected -> (click item (click item sel).1).1 = sel.
Proof.
  intros _ Hsel. destruct (is_selected sel (kb_id item)) eqn:Hs.
  { unfold click in Hsel. by rewrite Hs in Hsel. }
  assert (Hnot : Forall (λ kb, sk_kbId kb ≠ kb_id item) sel).
  { apply Forall_forall. intros kb Hkb Hid. rewrite <- not_true_iff_false, is_selected_spec in Hs. eauto. }
  assert (Hc : (click item sel).1 = sel ++ [{| sk_kbId := kb_id item; sk_vectorModel := kb_vectorModel item |}]).
  { revert Hsel. unfold click. rewrite Hs.
    destruct (vm_model ∘ sk_vectorModel <$> head sel); [case_bool_decide|]; done. }
  rewrite Hc. unfold click.
  replace (is_selected _ (kb_id item)) with true
    by (symmetry; apply is_selected_spec; eexists; split; [apply elem_of_app; right; left|done]).
  simpl. rewrite filter_app, filter_Forall_id by done.
  rewrite filter_cons_False by (cbn; naive_solver). apply app_nil_r.
Qed.

(** [Finish] hands the form a selection of knowledge bases of the
    user's list only, in the order they were selected, and keeps the
    dialog's invariant. *)
Theorem finish_ok kbList sel :
  sel_ok sel ->
  sel_ok (finish kbList sel) ∧ finish kbList sel `sublist_of` sel ∧
  Forall (λ kb, ∃ item, item ∈ kbList ∧ kb_id item = sk_kbId kb) (finish kbList sel).
Proof.
  intros (Ho & Hn & Hf). unfold sel_ok, finish. split_and!.
  - apply (one_model_sub sel); [|done]. intros x [_ Hx]%list_elem_of_filter. done.
  - by apply NoDup_map_filter.
  - by apply Forall_filter_of.
  - apply sublist_filter.
  - apply Forall_forall. intros kb [Hkb _]%list_elem_of_filter.
    apply existsb_exists in Hkb as (item & Hi%list_elem_of_In & Hb%bool_decide_eq_true). eauto.
Qed.

(** the dialog refuses a knowledge base of another index model than
    the first selected one. *)
Example click_other_model_refused :
  click kb_c (clicks [kb_a; kb_b] []) = (clicks [kb_a; kb_b] [], ModelMismatch).
Proof. reflexivity. Qed.

Lemma clicks_keep_one_model_witness : sel_ok (clicks [kb_a; kb_c; kb_b; kb_a] []).
Proof.
  apply clicks_keep_one_model.
  - repeat constructor; discriminate.
  - split_and!; [intros ? ? []%not_elem_of_nil|constructor|constructor].
Defined.

Lemma click_twice_restores_witness : (click kb_b (click kb_b [{| sk_kbId := "kbA"; sk_vectorModel := ada |}]).1).1 =
  [{| sk_kbId := "kbA"; sk_vectorModel := ada |}].
Proof.
  apply click_twice_restores; [|reflexivity].
  split_and!.
  - intros x y ->%list_elem_of_singleton ->%list_elem_of_singleton. done.
  - repeat constructor. intros []%not_elem_of_nil.
  - repeat constructor. discriminate.
Defined.

Lemma finish_ok_witness :
  sel_ok (finish [kb_a] (clicks [kb_a; kb_b] [])) ∧ finish [kb_a] (clicks [kb_a; kb_b] []) `sublist_of` clicks [kb_a; kb_b] [] ∧
  Forall (λ kb, ∃ item, item ∈ [kb_a] ∧ kb_id item = sk_kbId kb) (finish [kb_a] (clicks [kb_a; kb_b] [])).
Proof.
  apply finish_ok. apply clicks_keep_one_model.
  - repeat constructor; discriminate.
  - split_and!; [intros ? ? []%not_elem_of_nil|constructor|constructor].
Defined.

End KbSelect.
