(* ===== verification/BasicEdit.v ===== *)
(** * BasicEdit: the simple editor page of an app

    src/client/src/pages/app/detail/components/BasicEdit/index.tsx and the
    variable dialog of ../VariableEditModal.tsx, over the client wrappers of
    src/client/src/api/app.ts.  The page loads the app's graph into the form
    ([appModules2Form]), saves the form as a graph with the type [basic]
    ([putAppById], the handler [AppStore.app_update]), edits the variables
    of the form, and runs a test chat whose history comes from the graph.
    The other edits of the page are events of an editing session
    ([EditorEvent], [editor_run]); the two knowledge-base dialogs are the
    ones of KbSelect.v, wired to the form as the page does.
    [updateAppDetail] of the user store (outside src/) is [putAppById]
    with the same data.  A variable of the form is [VariableItemType]; the
    dialog's validation is the rules of its [register] calls for the fields
    it shows. *)

From Stdlib Require Import ZArith QArith.
From stdpp Require Import base list strings.
From S2P Require Import Prelude FlowTypes ModuleTemplates AppForm AppStore KbSelect.

Module BasicEdit.
Import FlowTypes ModuleTemplates AppForm AppStore KbSelect.

(** ** api/app.ts *)

(** [putAppById] (lines 32-33): [PUT /app/update?appId=...]. *)
Definition putAppById (uid appId : ObjectId) (data : AppUpdateParams) (S : Store) : ApiError + Store :=
  app_update uid appId data S.

(** [delModelById] (line 22): [DELETE /app/del?appId=...]. *)
Definition delModelById (uid id : ObjectId) (S : Store) : ApiError + Store := app_del uid id S.

(** [getModelById] (line 27): [GET /app/detail?appId=...]. *)
Definition getModelById (uid id : ObjectId) (S : Store) : ApiError + AppDoc := app_detail uid id S.

(** ** Loading and saving *)

Definition AppTypeEnum_basic : string := "basic".

(** [appModule2Form] (lines 147-151): the form of the app's graph. *)
Definition appModule2Form (chatModelList : list ChatModelItem) (appDetail : AppDoc) : option EditFormType :=
  appModules2Form chatModelList (app_modules appDetail).

(** The data [onSubmitSave] (lines 153-164) sends. *)
Definition save_params (data : EditFormType) : AppUpdateParams :=
  {| up_name := None; up_avatar := None; up_type := Some AppTypeEnum_basic; up_intro := None;
     up_chat := None; up_share := None; up_modules := Some (appForm2Modules data) |}.

Definition onSubmitSave (uid appId : ObjectId) (data : EditFormType) (S : Store) : ApiError + Store :=
  putAppById uid appId (save_params data) S.

(** The save button (lines 300-306) asks for a confirmation first when the
    app is not a basic app yet. *)
Definition save_needs_confirm (appDetail : AppDoc) : bool := negb (bool_decide (app_type appDetail = AppTypeEnum_basic)).

(** [chatModelList.find((item) => item.model === val)?.contextMaxToken
    || 4000]: the context of a model, 4000 when the model is unknown or has
    no context. *)
Definition model_context (chatModelList : list ChatModelItem) (val : JsVal) : Z :=
  match List.find (λ m, match val with JStr s => String.eqb (cm_model m) s | _ => false end) chatModelList with
  | Some m => if Z.eqb (cm_contextMaxToken m) 0 then 4000%Z else cm_contextMaxToken m
  | None => 4000%Z
  end.

(** The model select (lines 376-384): the model, and half its context as
    [maxToken]. *)
Definition onChangeModel (chatModelList : list ChatModelItem) (val : JsVal) (f : EditFormType) : EditFormType :=
  let f1 := form_set f chatModel_model val in
  form_set f1 chatModel_maxToken (JNum (inject_Z (model_context chatModelList (cf_model (chatModel f1))) / 2)).

(** [tokenLimit] (lines 118-123): the upper end of the reply-limit slider. *)
Definition tokenLimit (chatModelList : list ChatModelItem) (f : EditFormType) : Z :=
  model_context chatModelList (cf_model (chatModel f)).

(** The delete button (lines 129-145): without an app nothing happens;
    otherwise [delModelById], then the success toast and the redirect to
    the list of apps, or the error toast. *)
Inductive DelOutcome := DelNothing | DelRedirect (path : string) | DelFailed (e : ApiError).

Definition handleDelModel (uid : ObjectId) (appDetail : option AppDoc) (S : Store) : Store * DelOutcome :=
  match appDetail with
  | None => (S, DelNothing)
  | Some a => match delModelById uid (app_id a) S with
              | inr S' => (S', DelRedirect "/app/list")
              | inl e => (S, DelFailed e)
              end
  end.

(** ** Variables *)

Inductive VariableInputEnum := VarInput | VarSelect.

(** [VariableItemType]. *)
Record VariableItem := {
  v_id : string;
  v_key : string;
  v_label : string;
  v_type : VariableInputEnum;
  v_required : bool;
  v_maxLen : Z;
  v_enums : list string
}.

(** [defaultVariable] and [addVariable] (VariableEditModal.tsx lines
    197-209): a new variable takes fresh [key] and [id]. *)
Definition addVariable (key id : string) : VariableItem :=
  {| v_id := id; v_key := key; v_label := "label"; v_type := VarInput; v_required := true; v_maxLen := 50;
     v_enums := [""] |}.

(** The rules of the dialog's fields (lines 80-160): a label, a key, a
    length from 1 to 100 for a text variable, non-empty options for a
    select. *)
Definition variable_valid (v : VariableItem) : bool :=
  negb (bool_decide (v_label v = "")) && negb (bool_decide (v_key v = "")) &&
  match v_type v with
  | VarInput => (1 <=? v_maxLen v)%Z && (v_maxLen v <=? 100)%Z
  | VarSelect => forallb (λ e, negb (bool_decide (e = ""))) (v_enums v)
  end.

Inductive VariableSubmit :=
  | FormErrors                        (* handleSubmit does not call onSubmit *)
  | KeyRepeat                         (* the warning toast; the dialog stays open *)
  | Saved (vars : list VariableItem).

(** The [onSubmit] of the dialog (BasicEdit lines 534-552): an existing id
    replaces its variable; a new id is appended unless its key is taken. *)
Definition submitVariable (vars : list VariableItem) (v : VariableItem) : VariableSubmit :=
  if negb (variable_valid v) then FormErrors
  else if existsb (λ x, bool_decide (v_id x = v_id v)) vars then
    Saved (map (λ x, if bool_decide (v_id x = v_id v) then v else x) vars)
  else if existsb (λ x, bool_decide (v_key x = v_key v)) vars then KeyRepeat
  else Saved (vars ++ [v]).

(** [removeVariable(index)] (line 352). *)
Definition removeVariable (vars : list VariableItem) (i : nat) : list VariableItem := delete i vars.

(** ** The test chat *)

(** [historyMaxLen] (lines 592-595): the [maxContext] of the first history
    module, [|| 0]; an integer. *)
Definition historyMaxLen (modules : list AppModuleItemType) : option Z :=
  let v := match List.find (λ m, bool_decide (am_flowType m = FlowModuleTypeEnum.historyNode)) modules with
           | Some m => input_value (am_inputs m) "maxContext"
           | None => JUndefined
           end in
  match js_or v (JNum 0) with
  | JNum q => if Z.eqb (Z.modulo (Qnum q) (Zpos (Qden q))) 0 then Some (Qnum q / Zpos (Qden q))%Z else None
  | _ => None
  end.

(** [chatList.slice(-historyMaxLen - 2, -2)] (line 596): the history sent
    with the prompt (the last two items are the question and the answer
    being generated). *)
Definition chatTest_history {A} (modules : list AppModuleItemType) (chatList : list A) : option (list A) :=
  (λ n, js_slice chatList (- n - 2)%Z (Some (-2)%Z)) <$> historyMaxLen modules.

(** The modules of the test chat (lines 623-627): the graph of the app
    read into a form and written again. *)
Definition chatTest_modules (chatModelList : list ChatModelItem) (appDetail : AppDoc)
    : option (list AppModuleItemType) :=
  appForm2Modules <$> appModules2Form chatModelList (app_modules appDetail).

(** ** The knowledge bases and the search parameters of the form *)

(** An item of [kb.list] as [KBSelectModal] hands it: [{kbId, vectorModel}]. *)
Definition kb_item (k : SelectedKb) : JsVal :=
  JObj [("kbId", JStr (sk_kbId k));
        ("vectorModel", JObj [("model", JStr (vm_model (sk_vectorModel k))); ("name", JStr (vm_name (sk_vectorModel k)))])].

(** The ids [kbList.find((kb) => kb.kbId === item._id)] (line 125)
    compares: the string [kbId]s of the form's list. *)
Definition form_kbIds (f : EditFormType) : list string :=
  match kf_list (kb f) with
  | JArr l => omap (λ v, match v with JObj fs => match js_field "kbId" fs with JStr s => Some s | _ => None end
                                      | _ => None end) l
  | _ => []
  end.

(** [replaceKbList] of the field array [kb.list] (lines 96-99). *)
Definition replaceKbList (sel : list SelectedKb) (f : EditFormType) : EditFormType :=
  form_set f kb_list (JArr (kb_item <$> sel)).

(** The knowledge-base dialog opened from the editor (lines 555-565): it
    starts from [activeKbs] of the user's list and the form's ids; [Finish]
    calls [replaceKbList], closing it leaves the form. *)
Definition kbSelect_session (myKbList items : list KbListItem) (finished : bool) (f : EditFormType) : EditFormType :=
  if finished then replaceKbList (finish myKbList (clicks items (activeKbs myKbList (form_kbIds f)))) f else f.

(** The three values the parameters dialog starts from (lines 568-570). *)
Definition form_kb_params (f : EditFormType) : KbParamsType :=
  {| kp_searchEmptyText := kf_searchEmptyText (kb f); kp_searchLimit := kf_searchLimit (kb f);
     kp_searchSimilarity := kf_searchSimilarity (kb f) |}.

(** Its [onChange] (lines 572-577): three [setValue]s on distinct fields. *)
Definition onKbParamsChange (p : KbParamsType) (f : EditFormType) : EditFormType :=
  set_kb f {| kf_list := kf_list (kb f); kf_searchSimilarity := kp_searchSimilarity p;
              kf_searchLimit := kp_searchLimit p; kf_searchEmptyText := kp_searchEmptyText p |}.

Definition kbParams_session (evs : list KbParamsEvent) (finished : bool) (f : EditFormType) : EditFormType :=
  match kbParamsModal (form_kb_params f) evs finished with Some p => onKbParamsChange p f | None => f end.

(** ** The fields of the editor *)

(** What the user does on the page between loading and saving: the model
    select, the temperature slider (lines 390-404), the reply-limit slider
    (lines 408-424), the textareas [register]ed for the prompts (lines
    435-455) and the welcome text (lines 517-523), and the two dialogs. *)
Inductive EditorEvent :=
  | SelectModel (val : string)
  | SlideTemperature (val : Q)
  | SlideMaxToken (val : Q)
  | TypeSystemPrompt (s : string)
  | TypeLimitPrompt (s : string)
  | TypeWelcome (s : string)
  | KbSelectDialog (items : list KbListItem) (finished : bool)
  | KbParamsDialog (evs : list KbParamsEvent) (finished : bool).

Definition set_welcome (f : EditFormType) (v : JsVal) : EditFormType :=
  {| chatModel := chatModel f; kb := kb f; guide_welcome_text := v; variables := variables f |}.

Definition editor_step (chatModelList : list ChatModelItem) (myKbList : list KbListItem) (f : EditFormType)
    (e : EditorEvent) : EditFormType :=
  match e with
  | SelectModel val => onChangeModel chatModelList (JStr val) f
  | SlideTemperature val => form_set f chatModel_temperature (JNum val)
  | SlideMaxToken val => form_set f chatModel_maxToken (JNum val)
  | TypeSystemPrompt s => form_set f chatModel_systemPrompt (JStr s)
  | TypeLimitPrompt s => form_set f chatModel_limitPrompt (JStr s)
  | TypeWelcome s => set_welcome f (JStr s)
  | KbSelectDialog items finished => kbSelect_session myKbList items finished f
  | KbParamsDialog evs finished => kbParams_session evs finished f
  end.

Definition editor_run (chatModelList : list ChatModelItem) (myKbList : list KbListItem) (f : EditFormType)
    (evs : list EditorEvent) : EditFormType :=
  foldl (editor_step chatModelList myKbList) f evs.

(** The values the widgets give: a model of the select's list, slider
    values in their ranges, and the two dialogs used while the app has a
    knowledge base (an empty selection, or parameters set without a
    knowledge base, are not written into the graph: see
    [kb_params_without_kb_lost]). *)
Definition editor_event_ok (chatModelList : list ChatModelItem) (myKbList : list KbListItem) (f : EditFormType)
    (e : EditorEvent) : Prop :=
  match e with
  | SelectModel val => val ∈ cm_model <$> chatModelList ∧ val ≠ ""
  | SlideTemperature val => slider_value 0 10 val
  | SlideMaxToken val => slider_value 100 (inject_Z (tokenLimit chatModelList f)) val
  | TypeSystemPrompt _ | TypeLimitPrompt _ | TypeWelcome _ => True
  | KbSelectDialog items finished =>
      finished = true -> finish myKbList (clicks items (activeKbs myKbList (form_kbIds f))) ≠ []
  | KbParamsDialog evs finished =>
      Forall (λ e, kbParams_event_ok e ∧ ∀ q, e = SlideSimilarity q -> ¬ (q == 0)%Q) evs ∧
      (finished = true -> js_length_pos (kf_list (kb f)) = true)
  end.

Fixpoint editor_events_ok (chatModelList : list ChatModelItem) (myKbList : list KbListItem) (f : EditFormType)
    (evs : list EditorEvent) : Prop :=
  match evs with
  | [] => True
  | e :: evs' => editor_event_ok chatModelList myKbList f e ∧
                 editor_events_ok chatModelList myKbList (editor_step chatModelList myKbList f e) evs'
  end.

(** ** Samples *)

Definition saved_store : Store :=
  match onSubmitSave "alice" "app1" sample_form sample_S1 with inr st => st | inl _ => sample_S1 end.

(** The app of [saved_store]. *)
Definition saved_app : AppDoc :=
  {| app_id := "app1"; app_userId := "alice"; app_name := "Chat"; app_avatar := default_avatar;
     app_type := AppTypeEnum_basic; app_intro := ""; app_chat := JUndefined;
     app_share := {| isShare := false; isShareDetail := false; share_collection := 0; share_topNum := 0 |};
     app_modules := appForm2Modules sample_form; app_updateTime := 1 |}.

(** The user's knowledge bases: the one of [sample_form] and a second one
    of the same index model. *)
Definition my_kbs : list KbListItem :=
  [{| kb_id := "kb1"; kb_name := "Docs"; kb_avatar := ""; kb_vectorModel := ada |};
   {| kb_id := "kb2"; kb_name := "FAQ"; kb_avatar := ""; kb_vectorModel := ada |}].

(** A session on the editor: every widget once, the knowledge base
    swapped for the second one. *)
Definition edit_events : list EditorEvent :=
  [SelectModel "gpt-3.5-turbo"; SlideTemperature 7; SlideMaxToken 1500; TypeSystemPrompt "Be brief.";
   KbSelectDialog [{| kb_id := "kb1"; kb_name := "Docs"; kb_avatar := ""; kb_vectorModel := ada |};
                   {| kb_id := "kb2"; kb_name := "FAQ"; kb_avatar := ""; kb_vectorModel := ada |}] true;
   KbParamsDialog [SlideSimilarity (3#4); SlideLimit 8; TypeEmptyText ""] true; TypeWelcome ""].

Definition edited_store : Store :=
  match onSubmitSave "alice" "app1" (editor_run sample_models my_kbs sample_form edit_events) sample_S1 with
  | inr st => st | inl _ => sample_S1 end.

(** The form of a new simple app: no knowledge base, default search
    parameters. *)
Definition default_form : EditFormType :=
  match getDefaultAppForm sample_models with Some f => f | None => sample_form end.

(** The parameters dialog used on it: the similarity set to 0.8. *)
Definition params_only_form : EditFormType :=
  editor_run sample_models my_kbs default_form [KbParamsDialog [SlideSimilarity (4#5)] true].

Definition params_only_store : Store :=
  match onSubmitSave "alice" "app1" params_only_form sample_S1 with inr st => st | inl _ => sample_S1 end.

Definition var_a : VariableItem :=
  {| v_id := "v1"; v_key := "language"; v_label := "Language"; v_type := VarInput; v_required := true;
     v_maxLen := 20; v_enums := [] |}.
Definition var_b : VariableItem :=
  {| v_id := "v2"; v_key := "tone"; v_label := "Tone"; v_type := VarInput; v_required := false;
     v_maxLen := 20; v_enums := [] |}.

(** ** Lemmas *)

Lemma find_history_module (f : EditFormType) :
  List.find (λ m, bool_decide (am_flowType m = FlowModuleTypeEnum.historyNode)) (appForm2Modules f) =
  Some history_module.
Proof.
  unfold appForm2Modules, welcomeTemplate, variableTemplate.
  destruct (js_truthy _), (js_length_pos (variables f)), (js_length_pos _); reflexivity.
Qed.

Lemma historyMaxLen_form (f : EditFormType) : historyMaxLen (appForm2Modules f) = Some 6%Z.
Proof. unfold historyMaxLen. rewrite find_history_module. reflexivity. Qed.

Lemma js_slice_history {A} (l : list A) (n : Z) :
  (0 ≤ n)%Z -> 2 ≤ length l ->
  let k := min (Z.to_nat n) (length l - 2) in
  js_slice l (- n - 2)%Z (Some (-2)%Z) = take k (drop (length l - 2 - k) l).
Proof.
  intros Hn Hl k. unfold js_slice. rewrite (js_rel_index_neg _ (-2)) by lia.
  rewrite js_rel_index_neg by lia. unfold js_rel_index. f_equal; [|f_equal]; lia.
Qed.

Lemma submit_keys_append vars v :
  NoDup (map v_key vars) -> existsb (λ x, bool_decide (v_key x = v_key v)) vars = false ->
  NoDup (map v_key (vars ++ [v])).
Proof.
  intros Hk Hv. rewrite map_app. apply NoDup_app. split_and!; [done| |apply NoDup_singleton].
  intros k Hin Hk'. apply list_elem_of_singleton in Hk'. subst k.
  apply list_elem_of_In, in_map_iff in Hin as (x & Hx & Hin).
  assert (existsb (λ x, bool_decide (v_key x = v_key v)) vars = true) as Ht; [|congruence].
  apply existsb_exists. exists x. split; [done|]. by apply bool_decide_eq_true.
Qed.

Lemma kept_str s : kept (JStr s) (JStr "").
Proof. unfold kept, js_or. cbn. destruct (String.eqb s "") eqn:E; [|done]. by apply String.eqb_eq in E as ->. Qed.

Lemma kept_num q : Qred q = q -> kept (JNum q) (JNum 0).
Proof.
  unfold kept, js_or. cbn. intros Hq. destruct (Qeq_bool q 0) eqn:E; [|done]. simpl.
  apply Qeq_bool_iff, Qred_complete in E. by rewrite <- Hq, E.
Qed.

Lemma truthy_num q : ¬ (q == 0)%Q -> js_truthy (JNum q) = true.
Proof. intros Hq. cbn. destruct (Qeq_bool q 0) eqn:E; [|done]. by apply Qeq_bool_iff in E. Qed.

Lemma slider_truthy lo hi q : (0 < lo)%Q -> slider_value lo hi q -> js_truthy (JNum q) = true.
Proof.
  intros Hlo [_ [Hq _]]. apply truthy_num. intros H0. rewrite H0 in Hq.
  apply (Qlt_not_le _ _ Hlo Hq).
Qed.

Lemma model_context_nz chatModelList v : model_context chatModelList v ≠ 0%Z.
Proof. unfold model_context. case_match; [|lia]. destruct (Z.eqb_spec (cm_contextMaxToken c) 0); lia. Qed.

Lemma half_truthy z : z ≠ 0%Z -> js_truthy (JNum (inject_Z z / 2)) = true.
Proof.
  intros Hz. apply truthy_num. unfold Qeq. simpl. lia.
Qed.

(** The invariant of the parameters dialog: the values the form reads
    back. *)
Definition params_ok (p : KbParamsType) : Prop :=
  js_truthy (kp_searchSimilarity p) = true ∧ js_truthy (kp_searchLimit p) = true ∧
  kept (kp_searchEmptyText p) (JStr "").

Lemma kbParams_step_ok p e :
  kbParams_event_ok e -> (∀ q, e = SlideSimilarity q -> ¬ (q == 0)%Q) -> params_ok p -> params_ok (kbParams_step p e).
Proof.
  unfold params_ok. intros He Hz (Hs & Hl & He'). destruct e as [q|q|t]; cbn.
  - split_and!; [|done|done]. by apply truthy_num, Hz.
  - split_and!; [done| |done]. by apply (slider_truthy 1 20).
  - split_and!; [done|done|]. apply kept_str.
Qed.

Lemma kbParams_run_ok p evs :
  Forall (λ e, kbParams_event_ok e ∧ ∀ q, e = SlideSimilarity q -> ¬ (q == 0)%Q) evs -> params_ok p ->
  params_ok (foldl kbParams_step p evs).
Proof.
  intros Hevs. revert p. induction Hevs as [|e evs [He Hz] _ IH]; intros p Hp; [done|]. simpl.
  by apply IH, kbParams_step_ok.
Qed.

Lemma editor_form_params f : editor_form f -> params_ok (form_kb_params f).
Proof.
  destruct f as [c [l si li et] w v]. unfold editor_form, params_ok. cbn.
  intros (_ & _ & _ & _ & _ & _ & _ & _ & _ & Het & Hk). split_and!; [| |done].
  all: destruct (js_length_pos l); [by destruct Hk|destruct Hk as (_ & -> & -> & _); reflexivity].
Qed.

Lemma editor_form_replaceKbList f sel : editor_form f -> sel ≠ [] -> editor_form (replaceKbList sel f).
Proof.
  intros Hf Hsel. pose proof (editor_form_params f Hf) as Hp. revert Hf Hp. destruct sel as [|k sel]; [done|].
  destruct f as [[m sp lp t mt fr pr] [l si li et] w v]. unfold editor_form, params_ok, replaceKbList. cbn.
  intros (Hm & Hsp & Hlp & Ht & Hmt & Hfr & Hpr & Hw & Hv & Het & Hk) (Hs & Hli & _). by split_and!.
Qed.

(** The editor's invariant: every event the widgets can give keeps a
    form whose graph gives it back. *)
Lemma editor_step_ok chatModelList myKbList f e :
  editor_form f -> editor_event_ok chatModelList myKbList f e -> editor_form (editor_step chatModelList myKbList f e).
Proof.
  intros Hf He. destruct e as [val|q|q|s|s|s|items []|evs []]; cbn [editor_step kbSelect_session]; try done.
  7: { apply editor_form_replaceKbList; [done|by apply He]. }
  all: pose proof (editor_form_params f Hf) as Hp; revert Hf Hp He.
  all: destruct f as [[m sp lp t mt fr pr] [l si li et] w v]; unfold editor_form, params_ok; cbn.
  all: intros (Hm & Hsp & Hlp & Ht & Hmt & Hfr & Hpr & Hw & Hv & Het & Hk) (Hs & Hli & _) He.
  - destruct He as [_ Hval]. split_and!; try done.
    + by apply negb_true_iff, String.eqb_neq.
    + apply half_truthy, model_context_nz.
  - split_and!; try done. by apply kept_num, He.
  - split_and!; try done. eapply (slider_truthy 100); [reflexivity|exact He].
  - split_and!; try done. apply kept_str.
  - split_and!; try done. apply kept_str.
  - split_and!; try done. apply kept_str.
  - destruct He as [Hevs Hl]. specialize (Hl eq_refl). unfold kbParams_session, kbParamsModal, onKbParamsChange.
    destruct (kbParams_run_ok {| kp_searchEmptyText := et; kp_searchLimit := li; kp_searchSimilarity := si |} _ Hevs (conj Hs (conj Hli Het))) as (Hs' & Hli' & He').
    cbn. rewrite Hl in Hk |- *. split_and!; done.
Qed.

Lemma editor_run_ok chatModelList myKbList f evs :
  editor_form f -> editor_events_ok chatModelList myKbList f evs -> editor_form (editor_run chatModelList myKbList f evs).
Proof.
  unfold editor_run. revert f. induction evs as [|e evs IH]; intros f Hf Hok; [done|].
  destruct Hok as [He Hok]. simpl. apply IH; [|done]. by apply editor_step_ok.
Qed.

(** Saving an editor form and loading the page again gives it back. *)
Lemma save_reload_form chatModelList m uid appId f S S' :
  head chatModelList = Some m -> editor_form f -> onSubmitSave uid appId f S = inr S' ->
  ∃ a, getModelById uid appId S' = inr a ∧ app_type a = AppTypeEnum_basic ∧
       appModule2Form chatModelList a = Some f.
Proof.
  intros Hm Hf Hs. unfold onSubmitSave, putAppById in Hs.
  destruct (app_update_authApp _ _ _ _ _ Hs) as (a & _ & Ha').
  assert (appId ≠ "") by (intros ->; unfold app_update in Hs; by rewrite bool_decide_true in Hs).
  exists (apply_app_update (save_params f) a). unfold getModelById, app_detail.
  rewrite bool_decide_false by done. split_and!; [done|done|].
  unfold appModule2Form. simpl. by eapply form_roundtrip.
Qed.

(** ** Properties *)

(** C23: editing an app in the simple editor and saving it gives back,
    on the next load, the form the user left: from a form the graph gives
    back, any sequence of edits the widgets allow (the model select, the
    sliders, the prompts, the welcome text, the knowledge-base and
    search-parameter dialogs) followed by [onSubmitSave] leaves an app of
    type [basic] whose graph [appModules2Form] reads as the edited form. *)
Theorem edit_save_reload (chatModelList : list ChatModelItem) (m : ChatModelItem) (myKbList : list KbListItem)
    (uid appId : ObjectId) (f : EditFormType) (evs : list EditorEvent) (S S' : Store) :
  head chatModelList = Some m -> editor_form f -> editor_events_ok chatModelList myKbList f evs ->
  onSubmitSave uid appId (editor_run chatModelList myKbList f evs) S = inr S' ->
  ∃ a, getModelById uid appId S' = inr a ∧ app_type a = AppTypeEnum_basic ∧
       appModule2Form chatModelList a = Some (editor_run chatModelList myKbList f evs).
Proof. intros Hm Hf Hevs. apply (save_reload_form _ m); [done|]. by apply editor_run_ok. Qed.

(** the variable dialog keeps the keys of the form's
    variables unique when it adds a variable (a new id whose key is taken
    is refused with the warning); an edited variable replaces its old
    version without that check ([variable_edit_duplicates_key]). *)
Theorem submitVariable_keys (vars vars' : list VariableItem) (v : VariableItem) :
  NoDup (map v_key vars) -> v_id v ∉ map v_id vars -> submitVariable vars v = Saved vars' ->
  NoDup (map v_key vars') ∧ vars' = vars ++ [v].
Proof.
  intros Hk Hid. unfold submitVariable. destruct (variable_valid v); [|done]. simpl.
  replace (existsb (λ x, bool_decide (v_id x = v_id v)) vars) with false.
  2: { symmetry. apply not_true_iff_false. intros (x & Hx & Hb%bool_decide_eq_true)%existsb_exists.
       apply Hid, list_elem_of_In, in_map_iff. exists x. by split. }
  destruct existsb eqn:E; [done|]. intros [= <-]. split; [by apply submit_keys_append|done].
Qed.

(** Editing the second variable to the first one's key gives two
    variables with the same key. *)
Example variable_edit_duplicates_key :
  submitVariable [var_a; var_b] {| v_id := "v2"; v_key := "language"; v_label := "Tone"; v_type := VarInput;
                                   v_required := false; v_maxLen := 20; v_enums := [] |} =
  Saved [var_a; {| v_id := "v2"; v_key := "language"; v_label := "Tone"; v_type := VarInput;
                   v_required := false; v_maxLen := 20; v_enums := [] |}].
Proof. vm_compute. reflexivity. Qed.

(** the test chat of the simple editor sends as
    history the last [min 6 (n - 2)] items before the question and the
    answer being generated, for every app whose graph the editor can read:
    the graph the editor writes has [maxContext] 6. *)
Theorem chatTest_history_six {A} (chatModelList : list ChatModelItem) (appDetail : AppDoc) (f : EditFormType)
    (chatList : list A) :
  appModule2Form chatModelList appDetail = Some f -> 2 ≤ length chatList ->
  ∃ mods, chatTest_modules chatModelList appDetail = Some mods ∧
    chatTest_history mods chatList =
      Some (take (min 6 (length chatList - 2)) (drop (length chatList - 2 - min 6 (length chatList - 2)) chatList)).
Proof.
  intros Hf Hl. exists (appForm2Modules f). unfold chatTest_modules. unfold appModule2Form in Hf.
  rewrite Hf. split; [done|]. unfold chatTest_history. rewrite historyMaxLen_form.
  pose proof (js_slice_history chatList 6 ltac:(lia) Hl) as H. cbv zeta in H. simpl in H |- *.
  by rewrite H.
Qed.

(** the search parameters set while the app has no knowledge base are
    shown on the page but not saved: [appForm2Modules] writes them only
    with the knowledge-base template, and the form loaded after the save
    is the default form again, with the similarity at 0.4. *)
Example kb_params_without_kb_lost :
  kf_searchSimilarity (kb params_only_form) = JNum (4#5) ∧
  ∃ a, getModelById "alice" "app1" params_only_store = inr a ∧ appModule2Form sample_models a = Some default_form ∧
       kf_searchSimilarity (kb default_form) = JNum 0.4.
Proof. split; [reflexivity|]. eexists. split_and!; vm_compute; reflexivity. Qed.

(** ** Witnesses *)

Lemma edit_save_reload_witness :
  ∃ a, getModelById "alice" "app1" edited_store = inr a ∧ app_type a = AppTypeEnum_basic ∧
       appModule2Form sample_models a = Some (editor_run sample_models my_kbs sample_form edit_events).
Proof.
  apply (edit_save_reload sample_models sample_form_model my_kbs "alice" "app1" sample_form edit_events sample_S1 edited_store);
    [reflexivity| | |vm_compute; reflexivity].
  - vm_compute. split_and!; try reflexivity. left. reflexivity.
  - cbn -[slider_value Qle]. unfold slider_value.
    repeat (split || constructor); try discriminate; try reflexivity; try (intros ? [=]).
    subst q. discriminate.
Defined.

Lemma submitVariable_keys_witness :
  NoDup (map v_key [var_a; var_b]) ∧ [var_a; var_b] = [var_a] ++ [var_b].
Proof.
  apply (submitVariable_keys [var_a] [var_a; var_b] var_b); [decide_closed|decide_closed|vm_compute; reflexivity].
Defined.

Lemma chatTest_history_six_witness :
  ∃ mods, chatTest_modules sample_models saved_app = Some mods ∧
    chatTest_history mods [1; 2; 3; 4; 5; 6; 7; 8; 9; 10] =
      Some (take (min 6 (length [1; 2; 3; 4; 5; 6; 7; 8; 9; 10] - 2))
              (drop (length [1; 2; 3; 4; 5; 6; 7; 8; 9; 10] - 2 - min 6 (length [1; 2; 3; 4; 5; 6; 7; 8; 9; 10] - 2))
                 [1; 2; 3; 4; 5; 6; 7; 8; 9; 10])).
Proof.
  apply (chatTest_history_six sample_models saved_app sample_form); [vm_compute; reflexivity|simpl; lia].
Defined.

End BasicEdit.
