(* ===== verification/AppAccess.v ===== *)
(** * AppAccess: who may open an app, and the market of shared apps

    Three read handlers over the document store of [AppStore]:
    pages/api/chat/init.ts opens the chat box of an app for a signed-in user
    (the app, the title and variables of one of the user's chats and its
    last 30 chat items), pages/api/chat/shareChat/init.ts opens the chat box
    behind a share link, and pages/api/app/share/getModels.ts lists the
    shared apps that match a search, ranked and paged, each marked with
    whether the caller has it among their favourites.

    [authApp] of service/utils/auth.ts is outside src/ and is modelled from
    the spec with its two options: the app must exist, and a caller who does
    not own it is refused when [authOwner] is set, or when [authUser] is set
    and the app is not shared.  [getSpecialModule] and
    [getChatModelNameList] of components/ChatBox/utils.ts, and
    [new RegExp(searchText, 'i')], are library calls the handlers only make:
    they are the variables of the section [Handlers], and the compiled
    regular expression is [None] when the search text is not a valid
    pattern (the constructor throws). *)

From Stdlib Require Import Ascii ZArith.
From stdpp Require Import base list strings sorting.
From S2P Require Import Prelude FlowTypes AppStore.

Module AppAccess.
Import FlowTypes AppStore.

(** ** [authApp] with its options *)

(** [authApp({appId, userId, authUser = true, authOwner = true})]. *)
Definition authApp_opts (S : Store) (appId uid : ObjectId) (authUser authOwner : bool)
    : ApiError + AppDoc :=
  match list_find (λ a, app_id a = appId) (apps S) with
  | None => inl AppNotExists
  | Some (_, a) =>
      if bool_decide (app_userId a = uid) then inr a
      else if authOwner || (authUser && negb (isShare (app_share a))) then inl UnAuthModel
      else inr a
  end.

(** [HUMAN_ICON] of constants/chat.ts. *)
Definition HUMAN_ICON : string := "/icon/human.png".

(** ** The chat box: chat/init.ts and shareChat/init.ts *)

(** A chat item as init.ts projects it:
    ['dataId obj value adminFeedback userFeedback responseData']. *)
Record ChatItemType := {
  h_dataId : string;
  h_obj : string;
  h_value : string;
  h_adminFeedback : option AdminFeedback;
  h_userFeedback : option string;
  h_responseData : JsVal
}.

Definition chat_item_type (c : ChatItemDoc) : ChatItemType :=
  {| h_dataId := ci_dataId c; h_obj := ci_obj c; h_value := ci_value c;
     h_adminFeedback := adminFeedback c; h_userFeedback := userFeedback c;
     h_responseData := ci_responseData c |}.

(** [ChatItem.find({chatId, userId}).sort({_id: -1}).limit(30)], then
    [history.reverse()].  Chat items are stored in the order they were
    created, which is the order of their ObjectIds. *)
Definition chat_history (S : Store) (chatId uid : ObjectId) : list ChatItemType :=
  let items := filter (λ c, ci_chatId c = chatId ∧ ci_userId c = uid) (chatItems S) in
  reverse (take 30 (chat_item_type <$> reverse items)).

Inductive InitError :=
  | NoAppYet                 (* code 501: 'You don't have an app yet' *)
  | ChatBoxNotExist          (* 'Chat box does not exist' *)
  | ParamsError              (* shareChat: 'params is error' *)
  | LinkExpired              (* shareChat, code 501: 'The sharing link has expired' *)
  | AuthAppFailed (e : ApiError).

Section Handlers.

(** [getSpecialModule] and [getChatModelNameList]. *)
Context {SpecialModule : Type}.
Variable getSpecialModule : list AppModuleItemType -> SpecialModule.
Variable getChatModelNameList : list AppModuleItemType -> list string.

Record InitApp := {
  ia_special : SpecialModule;
  ia_chatModels : list string;
  ia_name : string;
  ia_avatar : string;
  ia_intro : string
}.

Definition init_app (a : AppDoc) : InitApp :=
  {| ia_special := getSpecialModule (app_modules a);
     ia_chatModels := getChatModelNameList (app_modules a);
     ia_name := app_name a; ia_avatar := app_avatar a; ia_intro := app_intro a |}.

Record InitChatResponse := {
  ir_chatId : string;
  ir_appId : string;
  ir_app : InitApp;
  ir_canUse : bool;
  ir_title : string;
  ir_variables : JsVal;
  ir_history : list ChatItemType
}.

(** chat/init.ts (lines 13-100).  [authApp] is called with [authUser] and
    [authOwner] both false; the chat is looked up by [chatId] and the
    caller.  The test [if (!app)] of line 71 cannot fail: [authApp] rejects
    when there is no app. *)
Definition chat_init (S : Store) (uid appId chatId : ObjectId) : InitError + InitChatResponse :=
  if bool_decide (appId = "") then inl NoAppYet
  else match authApp_opts S appId uid false false with
  | inl e => inl (AuthAppFailed e)
  | inr app =>
      let found :=
        if bool_decide (chatId = "") then inr (None, [])
        else match list_find (λ c, chat_id c = chatId ∧ chat_userId c = uid) (chats S) with
             | None => inl ChatBoxNotExist
             | Some (_, c) => inr (Some c, chat_history S chatId uid)
             end in
      match found with
      | inl e => inl e
      | inr (chat, history) =>
          inr {| ir_chatId := chatId; ir_appId := appId;
                 ir_app := init_app app;
                 ir_canUse := isShare (app_share app) || bool_decide (app_userId app = uid);
                 ir_title := match chat with
                             | Some c => if bool_decide (chat_title c = "") then "New conversation"
                                         else chat_title c
                             | None => "New conversation"
                             end;
                 ir_variables := match chat with
                                 | Some c => if js_truthy (chat_variables c) then chat_variables c
                                             else JObj []
                                 | None => JObj []
                                 end;
                 ir_history := history |}
      end
  end.

Record InitShareChatResponse := { sr_userAvatar : string; sr_app : InitApp }.

(** shareChat/init.ts (lines 10-60).  [user_avatar] is
    [User.findById(shareChat.userId, 'avatar')]: [None] when there is no
    such user or no avatar. *)
Definition shareChat_init (S : Store) (user_avatar : ObjectId -> option string) (shareId : string)
    : InitError + InitShareChatResponse :=
  if bool_decide (shareId = "") then inl ParamsError
  else match list_find (λ o, ol_shareId o = shareId) (outLinks S) with
  | None => inl LinkExpired
  | Some (_, o) =>
      match authApp_opts S (ol_appId o) (ol_userId o) true false with
      | inl e => inl (AuthAppFailed e)
      | inr app =>
          inr {| sr_userAvatar := match user_avatar (ol_userId o) with
                                  | Some av => if bool_decide (av = "") then HUMAN_ICON else av
                                  | None => HUMAN_ICON
                                  end;
                 sr_app := init_app app |}
      end
  end.

End Handlers.

(** ** The market of shared apps: share/getModels.ts *)

(** [ShareAppItem], the [$project] stage (lines 57-73).  The App schema
    gives every app an avatar, so [$ifNull] keeps it. *)
Record ShareAppItem := {
  sh_id : ObjectId;
  sh_avatar : string;
  sh_name : string;
  sh_userId : ObjectId;
  sh_intro : string;
  sh_share : AppShare;
  isCollection : bool
}.

(** The [where] of lines 24-31: a shared app whose name or intro the
    search expression matches. *)
Definition share_where (re : text -> bool) (a : AppDoc) : bool :=
  isShare (app_share a) && (re ⟦app_name a⟧ || re ⟦app_intro a⟧).

(** The [$lookup] of lines 36-56 and the [$project] after it: the caller's
    favourites of the app. *)
Definition share_item (cs : list CollectionDoc) (uid : ObjectId) (a : AppDoc) : ShareAppItem :=
  {| sh_id := app_id a; sh_avatar := app_avatar a; sh_name := app_name a;
     sh_userId := app_userId a; sh_intro := app_intro a; sh_share := app_share a;
     isCollection := bool_decide (0 < length (filter (λ c, col_modelId c = app_id a ∧ col_userId c = uid) cs)) |}.

(** [$sort: {'share.topNum': -1, 'share.collection': -1}]: [x] may come
    before [y]. *)
Definition ranks_before (x y : ShareAppItem) : Prop :=
  (share_topNum (sh_share y) < share_topNum (sh_share x))%Z ∨
  (share_topNum (sh_share x) = share_topNum (sh_share y) ∧
   share_collection (sh_share y) ≤ share_collection (sh_share x)).

#[export] Instance ranks_before_dec : RelDecision ranks_before.
Proof. intros x y. unfold ranks_before. apply _. Defined.

(** The pipeline up to [$sort]: the ranked matches.  The sort is stable
    here; MongoDB may order ties either way. *)
Definition ranked_shares (re : text -> bool) (uid : ObjectId) (S : Store) : list ShareAppItem :=
  merge_sort ranks_before (map (share_item (collections S) uid) (filter (λ a, share_where re a = true) (apps S))).

Record SharePage := { sp_pageNum : Z; sp_pageSize : Z; sp_data : list ShareAppItem; sp_total : nat }.

Inductive ShareListError :=
  | InvalidRegExp            (* new RegExp(searchText) throws *)
  | NegativeSkip             (* $skip of a negative number *)
  | NonPositiveLimit.        (* $limit of 0 or less *)

(** getModels.ts (lines 10-106): [pageNum] and [pageSize] default to 1 and
    20; [re] is the compiled [new RegExp(searchText, 'i')]. *)
Definition getModels (uid : ObjectId) (re : option (text -> bool)) (pageNum pageSize : option Z) (S : Store)
    : ShareListError + SharePage :=
  let n := default 1%Z pageNum in
  let size := default 20%Z pageSize in
  match re with
  | None => inl InvalidRegExp
  | Some re =>
      let skip := ((n - 1) * size)%Z in
      if (skip <? 0)%Z then inl NegativeSkip
      else if (size <=? 0)%Z then inl NonPositiveLimit
      else inr {| sp_pageNum := n; sp_pageSize := size;
                  sp_data := take (Z.to_nat size) (drop (Z.to_nat skip) (ranked_shares re uid S));
                  sp_total := length (filter (λ a, share_where re a = true) (apps S)) |}
  end.

(** ** Samples *)

(** Alice's unshared app [app1] with one chat of hers, and Bob. *)
Definition access_S : Store := sample_S3.

(** [access_S] with a second app of Alice's. *)
Definition mixed_S : Store :=
  match app_create "alice" "app2" 2 "Second" None (Some []) access_S with
  | inr (_, st) => st | inl _ => access_S end.

(** Alice shares [app1] of [sample_S1] in the market. *)
Definition share_params : AppUpdateParams :=
  {| up_name := None; up_avatar := None; up_type := None; up_intro := None; up_chat := None;
     up_share := Some (true, false); up_modules := None |}.

Definition market_S : Store :=
  match app_update "alice" "app1" share_params sample_S1 with inr st => st | inl _ => sample_S1 end.

(** Bob's favourite of [app1] in the market. *)
Definition market_S' : Store :=
  match app_collection "bob" "col1" "app1" market_S with inr st => st | inl _ => market_S end.

Definition match_all : text -> bool := λ _, true.

Definition no_special : list AppModuleItemType -> unit := λ _, tt.
Definition no_models : list AppModuleItemType -> list string := λ _, [].

(** ** Lemmas *)

Lemma authApp_opts_ok S appId uid u o a :
  authApp_opts S appId uid u o = inr a <->
  (∃ i, list_find (λ a, app_id a = appId) (apps S) = Some (i, a)) ∧
  (app_userId a = uid ∨ (o = false ∧ (u = false ∨ isShare (app_share a) = true))).
Proof.
  unfold authApp_opts. destruct (list_find _ _) as [[i b]|]; [|naive_solver].
  split.
  - case_bool_decide; [intros [= <-]; eauto|].
    destruct (o || (u && negb _)) eqn:E; [done|]. intros [= <-]. split; [eauto|right].
    destruct o, u, (isShare (app_share b)); simpl in E; naive_solver.
  - intros [[? ?] Hp]. simplify_eq. case_bool_decide; [done|].
    destruct Hp as [?|[-> [->| ->]]]; simpl; rewrite ?andb_false_r; done.
Qed.

(** The owner's check of the handlers of [AppStore] is [authApp] with both
    options set. *)
Lemma authApp_opts_authApp S appId uid : authApp_opts S appId uid true true = authApp S appId uid.
Proof. unfold authApp_opts, authApp. by repeat case_match. Qed.

Lemma list_find_Some_iff_elem {A} (P : A -> Prop) `{∀ x, Decision (P x)} (l : list A) :
  (∃ i x, list_find P l = Some (i, x)) <-> ∃ x, x ∈ l ∧ P x.
Proof.
  split.
  - intros (i & x & (Hl & HP & _)%list_find_Some). exists x. split; [by eapply list_elem_of_lookup_2|done].
  - intros (x & Hx & HP). destruct (list_find P l) as [[i y]|] eqn:E; [eauto|].
    exfalso. eapply list_find_None in E. rewrite Forall_forall in E. by apply (E x).
Qed.

Lemma chat_history_last S chatId uid :
  chat_history S chatId uid =
  chat_item_type <$> (let items := filter (λ c, ci_chatId c = chatId ∧ ci_userId c = uid) (chatItems S) in
                      drop (length items - 30) items).
Proof.
  unfold chat_history. cbv zeta. by rewrite fmap_reverse, reverse_take_reverse, length_fmap, fmap_drop.
Qed.

Lemma share_item_isCollection cs uid a :
  isCollection (share_item cs uid a) = is_favourite cs uid (app_id a).
Proof.
  unfold share_item, is_favourite. cbn [isCollection].
  apply eq_bool_prop_intro. rewrite bool_decide_spec, Is_true_true, existsb_exists.
  split.
  - intros Hlen. destruct (filter _ cs) as [|c l] eqn:E; [simpl in Hlen; lia|].
    assert (Hc : c ∈ filter (λ c, col_modelId c = app_id a ∧ col_userId c = uid) cs) by (rewrite E; left).
    apply list_elem_of_filter in Hc as [[? ?] Hc]. exists c. split; [by apply list_elem_of_In|].
    by apply bool_decide_eq_true.
  - intros (c & Hc%list_elem_of_In & Hb%bool_decide_eq_true).
    assert (c ∈ filter (λ c, col_modelId c = app_id a ∧ col_userId c = uid) cs)
      by (apply list_elem_of_filter; naive_solver).
    destruct (filter _ cs); [by apply not_elem_of_nil in H|simpl; lia].
Qed.

#[export] Instance ranks_before_total : Total ranks_before.
Proof. intros x y. unfold ranks_before. lia. Qed.

Lemma authApp_opts_open S appId uid :
  (∃ a, authApp_opts S appId uid false false = inr a) <-> ∃ a, a ∈ apps S ∧ app_id a = appId.
Proof.
  rewrite <- list_find_Some_iff_elem. setoid_rewrite authApp_opts_ok. naive_solver.
Qed.

Lemma ranked_shares_elem re uid S x :
  x ∈ ranked_shares re uid S <->
  ∃ a, a ∈ apps S ∧ share_where re a = true ∧ x = share_item (collections S) uid a.
Proof.
  unfold ranked_shares. rewrite (merge_sort_Permutation ranks_before _), list_elem_of_fmap.
  setoid_rewrite list_elem_of_filter. naive_solver.
Qed.

(** ** Theorems *)

Section Theorems.
Context {SM : Type} (gs : list AppModuleItemType -> SM) (gc : list AppModuleItemType -> list string).

(** C11: chat/init.ts answers with the app whenever an app of that id
    exists, whoever asks: it checks neither ownership nor sharing; it fails
    only when [appId] is empty, when there is no such app, or when a
    [chatId] is given and the caller has no chat of that id. *)
Theorem chat_init_ok_iff S uid appId chatId :
  (∃ r, chat_init gs gc S uid appId chatId = inr r) <->
  appId ≠ "" ∧ (∃ a, a ∈ apps S ∧ app_id a = appId) ∧
  (chatId = "" ∨ ∃ c, c ∈ chats S ∧ chat_id c = chatId ∧ chat_userId c = uid).
Proof.
  unfold chat_init. case_bool_decide as Hid; [split; [intros [? [=]]|naive_solver]|].
  rewrite <- (authApp_opts_open S appId uid).
  destruct (authApp_opts _ _ _ _ _) as [e|a];
    [split; [intros [? [=]]|intros (_ & [? Hx] & _); discriminate Hx]|].
  case_bool_decide as Hc; [naive_solver|].
  rewrite <- (list_find_Some_iff_elem (λ c, chat_id c = chatId ∧ chat_userId c = uid)).
  destruct (list_find _ _) as [[i c]|]; naive_solver.
Qed.

(** with a [chatId], the history chat/init.ts returns is the last 30
    chat items of the caller in that chat, oldest first; the chat is one of
    the caller's, and nothing relates it to the app asked for. *)
Theorem chat_init_history S uid appId chatId r :
  chat_init gs gc S uid appId chatId = inr r -> chatId ≠ "" ->
  (∃ c, c ∈ chats S ∧ chat_id c = chatId ∧ chat_userId c = uid) ∧
  (let items := filter (λ c, ci_chatId c = chatId ∧ ci_userId c = uid) (chatItems S) in
   ir_history r = chat_item_type <$> drop (length items - 30) items) ∧
  length (ir_history r) ≤ 30.
Proof.
  intros Hr Hc. pose proof (chat_init_ok_iff S uid appId chatId) as [Hok _].
  destruct (Hok (ex_intro _ r Hr)) as (_ & _ & [?|Hch]); [done|]. split; [done|].
  revert Hr. unfold chat_init. case_bool_decide; [done|].
  destruct (authApp_opts _ _ _ _ _); [done|]. rewrite bool_decide_false by done.
  destruct (list_find _ _) as [[i c]|]; [|done]. intros [= <-]. cbn [ir_history].
  rewrite chat_history_last. split; [done|]. rewrite length_fmap, length_drop. lia.
Qed.

(** the chat box of a share link opens exactly when the link exists
    and the app it names exists and is the link owner's or shared. *)
Theorem shareChat_init_ok_iff S user_avatar shareId :
  (∃ r, shareChat_init gs gc S user_avatar shareId = inr r) <->
  shareId ≠ "" ∧
  ∃ i o, list_find (λ o, ol_shareId o = shareId) (outLinks S) = Some (i, o) ∧
  ∃ j a, list_find (λ a, app_id a = ol_appId o) (apps S) = Some (j, a) ∧
         (app_userId a = ol_userId o ∨ isShare (app_share a) = true).
Proof.
  unfold shareChat_init. case_bool_decide; [split; [intros [? [=]]|naive_solver]|].
  destruct (list_find _ (outLinks S)) as [[i o]|]; [|split; [intros [? [=]]|naive_solver]].
  destruct (authApp_opts _ _ _ _ _) as [e|a] eqn:E.
  - split; [intros [? [=]]|]. intros (_ & ? & ? & [= <- <-] & j & a & Hf & Ho).
    enough (authApp_opts S (ol_appId o) (ol_userId o) true false = inr a) by congruence.
    apply authApp_opts_ok. naive_solver.
  - apply authApp_opts_ok in E. split; [|eauto]. intros _. split; [done|].
    exists i, o. split; [done|]. destruct E as [[j ?] Ho]. exists j, a. naive_solver.
Qed.

End Theorems.

(** C12: a page of getModels.ts lists shared apps that match the search,
    each with its favourite mark for the caller, ranked by [share.topNum]
    and then [share.collection], at most [pageSize] of them; [total] counts
    every match. *)
Theorem getModels_sound uid re pageNum pageSize S p :
  getModels uid (Some re) pageNum pageSize S = inr p ->
  Sorted ranks_before (sp_data p) ∧
  length (sp_data p) ≤ Z.to_nat (sp_pageSize p) ∧
  Forall (λ x, ∃ a, a ∈ apps S ∧ isShare (app_share a) = true ∧ share_where re a = true ∧
                    sh_id x = app_id a ∧ isCollection x = is_favourite (collections S) uid (app_id a))
         (sp_data p) ∧
  sp_total p = length (ranked_shares re uid S).
Proof.
  unfold getModels. destruct (_ <? 0)%Z; [done|]. destruct (_ <=? 0)%Z; [done|].
  intros [= <-]. cbn [sp_data sp_pageSize sp_total]. split_and!.
  - apply Sorted_take, Sorted_drop, Sorted_merge_sort. apply _.
  - rewrite length_take. lia.
  - apply Forall_forall. intros x Hx%elem_of_page.
    apply ranked_shares_elem in Hx as (a & Ha & Hw & ->). exists a.
    split_and!; try done; [|apply share_item_isCollection].
    unfold share_where in Hw. by apply andb_true_iff in Hw as [? _].
  - unfold ranked_shares. by rewrite (Permutation_length (merge_sort_Permutation _ _)), length_map.
Qed.

(** with a positive page size, pages [1 .. k] of getModels.ts, one
    after the other, are the first [k * pageSize] ranked matches: paging
    skips and repeats nothing. *)
Theorem getModels_pages uid re size S k :
  (0 < size)%Z ->
  concat (map (λ n, match getModels uid (Some re) (Some (Z.of_nat n + 1)%Z) (Some size) S with
                    | inr p => sp_data p | inl _ => [] end) (seq 0 k)) =
  take (k * Z.to_nat size) (ranked_shares re uid S).
Proof.
  intros Hs. rewrite <- pages_concat. f_equal. apply map_ext_in. intros n _.
  unfold getModels. simpl.
  rewrite (proj2 (Z.ltb_ge _ 0)) by nia. rewrite (proj2 (Z.leb_gt size 0)) by lia. cbn [sp_data].
  do 2 f_equal. rewrite Z.add_simpl_r, Z2Nat.inj_mul, Nat2Z.id by lia. lia.
Qed.

(** getModels.ts fails exactly when the search text is not a regular
    expression, when [(pageNum - 1) * pageSize] is negative (the [$skip]
    stage refuses it), or else when [pageSize] is not positive (the
    [$limit] stage refuses it). *)
Theorem getModels_errors uid re pageNum pageSize S e :
  let n := default 1%Z pageNum in
  let size := default 20%Z pageSize in
  getModels uid re pageNum pageSize S = inl e <->
  (re = None ∧ e = InvalidRegExp) ∨
  (re ≠ None ∧ ((n - 1) * size < 0)%Z ∧ e = NegativeSkip) ∨
  (re ≠ None ∧ (0 ≤ (n - 1) * size)%Z ∧ (size ≤ 0)%Z ∧ e = NonPositiveLimit).
Proof.
  cbv zeta. unfold getModels. destruct re as [re|]; [|naive_solver].
  destruct (Z.ltb_spec ((default 1 pageNum - 1) * default 20 pageSize) 0)%Z;
    [split; [intros [= <-]|]; naive_solver lia|].
  destruct (Z.leb_spec (default 20 pageSize) 0)%Z; split; try (intros [= <-]); naive_solver lia.
Qed.

(** C13: composition with [AppStore.app_collection]: after the caller
    toggles an app in their favourites, the market lists that app with the
    opposite favourite mark and with [share.collection] equal to its new
    number of favourites. *)
Theorem favourite_toggle_in_market S uid newId appId S' re x :
  store_wf S -> fresh S newId -> app_collection uid newId appId S = inr S' ->
  x ∈ ranked_shares re uid S' -> sh_id x = appId ->
  isCollection x = negb (is_favourite (collections S) uid appId) ∧
  share_collection (sh_share x) = collection_count (collections S') appId.
Proof.
  intros Hwf Hf Hc Hx Hid.
  destruct (app_collection_spec S uid newId appId S' Hwf Hf Hc) as (Hflip & _ & Hcount).
  apply ranked_shares_elem in Hx as (a & Ha & _ & ->).
  assert (app_id a = appId) as Hid' by exact Hid.
  rewrite share_item_isCollection, Hid'. split; [done|].
  rewrite Forall_forall in Hcount. by apply Hcount.
Qed.

(** Bob, who neither owns Alice's unshared [app1] nor may use it, still
    receives its name from chat/init.ts, with [canUse] false. *)
Example chat_init_private_app :
  match chat_init no_special no_models access_S "bob" "app1" "" with
  | inr r => ir_canUse r = false ∧ ia_name (ir_app r) = "Chat"
  | inl _ => False
  end.
Proof. vm_compute. split; reflexivity. Qed.

(** Alice opens her [app2] with the chat [chat1] of her [app1]: the
    history of [chat1] comes back under [app2]. *)
Example chat_init_mixes_apps :
  map chat_appId (chats mixed_S) = ["app1"] ∧
  match chat_init no_special no_models mixed_S "alice" "app2" "chat1" with
  | inr r => ir_appId r = "app2" ∧ map h_value (ir_history r) = ["hi"]
  | inl _ => False
  end.
Proof. vm_compute. split_and!; reflexivity. Qed.

Lemma chat_init_history_witness :
  ∃ r, chat_init no_special no_models mixed_S "alice" "app2" "chat1" = inr r ∧ length (ir_history r) ≤ 30.
Proof.
  destruct (chat_init no_special no_models mixed_S "alice" "app2" "chat1") as [e|r] eqn:E;
    [vm_compute in E; discriminate|].
  exists r. split; [done|]. eapply (chat_init_history no_special no_models); [exact E|done].
Defined.

Lemma getModels_sound_witness :
  ∃ p, getModels "bob" (Some match_all) None None market_S = inr p ∧ sp_total p = 1.
Proof.
  destruct (getModels "bob" (Some match_all) None None market_S) as [e|p] eqn:E;
    [vm_compute in E; discriminate|].
  exists p. split; [done|].
  destruct (getModels_sound _ _ _ _ _ _ E) as (_ & _ & _ & ->). vm_compute. reflexivity.
Defined.

Lemma getModels_pages_witness :
  concat (map (λ n, match getModels "bob" (Some match_all) (Some (Z.of_nat n + 1)%Z) (Some 1%Z) market_S with
                    | inr p => sp_data p | inl _ => [] end) (seq 0 2)) =
  take (2 * Z.to_nat 1) (ranked_shares match_all "bob" market_S).
Proof. apply getModels_pages. lia. Defined.

Lemma market_S_wf : store_wf market_S.
Proof. apply (app_update_wf "alice" "app1" share_params sample_S1); [apply sample_S1_wf|reflexivity]. Qed.

Lemma favourite_toggle_in_market_witness :
  Forall (λ x, sh_id x = "app1" -> isCollection x = true) (ranked_shares match_all "bob" market_S').
Proof.
  apply Forall_forall. intros x Hx Hid.
  destruct (favourite_toggle_in_market market_S "bob" "col1" "app1" market_S' match_all x) as [-> _];
    [apply market_S_wf|unfold fresh; decide_closed|reflexivity|exact Hx|exact Hid|].
  reflexivity.
Defined.

End AppAccess.
