(* ===== verification/OutLink.v ===== *)
(** * OutLink: the share links of an app

    The [Share] panel of src/client/src/pages/app/detail/components/OutLink.tsx
    lists the share links of an app ([useQuery] on [getShareChatList]),
    creates one from the name typed in a modal ([createShareChat], then
    [refetchShareChatList] and a copy of the link), copies a link or the
    script that embeds it, and deletes a link ([delShareChatById], then a
    refetch).  The three endpoints of api/chat.ts are the class
    [ShareChatApi]; their handlers (pages/api/chat/shareChat/list, create
    and delete) are not in the repository, and what the page relies on of
    them is the class [ShareChatLaws].  [store_api] is one server over the
    [OutLink] collection of [AppStore]; with it the links the page creates
    open the app through shareChat/init.ts ([AppAccess.shareChat_init]).

    A refetch is not awaited: the page is a state machine whose events are
    the user's clicks and the arrival of the refetched list, [RefetchDone].
    The button "Create new link" is disabled while the list shown has 10
    links or more; nothing else bounds the number of links. *)

From Stdlib Require Import Ascii ZArith.
From stdpp Require Import base list strings.
From S2P Require Import Prelude FlowTypes AppStore AppAccess.

Module OutLink.
Import FlowTypes AppStore AppAccess.

(** [ShareChatEditType]: the fields of the create form. *)
Record ShareChatEditType := { sce_name : string }.

(** [defaultShareChat] of constants/model.ts. *)
Definition defaultShareChat : ShareChatEditType := {| sce_name := "" |}.

#[export] Instance OutLinkDoc_eq_dec : EqDecision OutLinkDoc.
Proof. solve_decision. Defined.

(** ** The endpoints *)

(** [getShareChatList(appId)], [createShareChat({...e, appId})] and
    [delShareChatById(id)] of api/chat.ts, for the signed-in user [uid].
    The create returns the new link's [shareId]; its ObjectId and
    [shareId] are chosen by the server and are an argument here.  [None]
    is a rejected request. *)
Class ShareChatApi (Srv : Type) := {
  getShareChatList : Srv -> ObjectId -> ObjectId -> list OutLinkDoc;
  createShareChat : Srv -> ObjectId -> ShareChatEditType -> ObjectId -> ObjectId * string -> option (Srv * string);
  delShareChatById : Srv -> ObjectId -> ObjectId -> option Srv
}.

(** What the page relies on: a create appends one link with the name and
    the [shareId] it answers; a delete removes the user's link of that id. *)
Class ShareChatLaws (Srv : Type) `{!ShareChatApi Srv} := {
  createShareChat_appends : ∀ S uid e appId ids S' id,
    createShareChat S uid e appId ids = Some (S', id) ->
    ∃ o, getShareChatList S' uid appId = getShareChatList S uid appId ++ [o] ∧
         ol_shareId o = id ∧ ol_name o = sce_name e;
  delShareChatById_removes : ∀ S uid id S' appId,
    delShareChatById S uid id = Some S' ->
    getShareChatList S' uid appId = filter (λ o, ol_id o ≠ id) (getShareChatList S uid appId)
}.

(** ** The page *)

(** The state of [Share]: the [data] of the query, [isFetching],
    the modal's [isOpen], the form values and what [copyData] last
    put on the clipboard. *)
Record ShareState := {
  shareChatList : list OutLinkDoc;
  isFetching : bool;
  isOpenCreateShareChat : bool;
  shareChatValues : ShareChatEditType;
  clipboard : option string
}.

(** The page as it mounts: no data yet, the first fetch in flight. *)
Definition share_page0 : ShareState :=
  {| shareChatList := []; isFetching := true; isOpenCreateShareChat := false;
     shareChatValues := defaultShareChat; clipboard := None |}.

Inductive ShareEvent :=
  | ClickCreateNewLink
  | CloseCreateShareChat
  | InputName (s : string)
  | ClickConfirm (ids : ObjectId * string)
  | CopyEmbedScript (item : OutLinkDoc)
  | CopyShareLink (item : OutLinkDoc)
  | DeleteLink (item : OutLinkDoc)
  | RefetchDone.

(** [`${location.origin}/chat/share?shareId=${id}`] (lines 69, 130, 149). *)
Definition share_url (origin shareId : string) : string :=
  origin +:+ "/chat/share?shareId=" +:+ shareId.

(** The script of the embed icon (lines 130-132). *)
Definition embed_script (origin shareId : string) : string :=
  "<script src=" +:+ dq +:+ origin +:+ "/js/iframe.js" +:+ dq +:+ " id=" +:+ dq +:+ "fastgpt-iframe" +:+ dq
  +:+ " data-src=" +:+ dq +:+ share_url origin shareId +:+ dq +:+ " data-color=" +:+ dq +:+ "#4e83fd" +:+ dq
  +:+ "></script>".

Definition set_list (p : ShareState) (l : list OutLinkDoc) (fetching : bool) : ShareState :=
  {| shareChatList := l; isFetching := fetching; isOpenCreateShareChat := isOpenCreateShareChat p;
     shareChatValues := shareChatValues p; clipboard := clipboard p |}.

Definition set_modal (p : ShareState) (open : bool) (v : ShareChatEditType) : ShareState :=
  {| shareChatList := shareChatList p; isFetching := isFetching p; isOpenCreateShareChat := open;
     shareChatValues := v; clipboard := clipboard p |}.

Definition copyData (p : ShareState) (s : string) : ShareState :=
  {| shareChatList := shareChatList p; isFetching := isFetching p;
     isOpenCreateShareChat := isOpenCreateShareChat p; shareChatValues := shareChatValues p;
     clipboard := Some s |}.

Section Page.
Context {Srv : Type} `{!ShareChatApi Srv}.
Variables (origin : string) (uid appId : ObjectId).

(** One event.  While the modal is open only its input and buttons
    take clicks; a row's icons exist only for the links the list shows. *)
Definition share_step (x : Srv * ShareState) (ev : ShareEvent) : Srv * ShareState :=
  let '(srv, p) := x in
  match ev with
  | ClickCreateNewLink =>
      (* isDisabled when [shareChatList.length >= 10] (line 94) *)
      if isOpenCreateShareChat p || (10 <=? length (shareChatList p)) then x
      else (srv, set_modal p true (shareChatValues p))
  | CloseCreateShareChat => (srv, set_modal p false (shareChatValues p))
  | InputName s =>
      (* [maxLength={20}] *)
      if isOpenCreateShareChat p then (srv, set_modal p true {| sce_name := String.substring 0 20 s |}) else x
  | ClickConfirm ids =>
      (* [submitShareChat]: the rule [required] stops an empty name *)
      if negb (isOpenCreateShareChat p) || bool_decide (sce_name (shareChatValues p) = "") then x
      else match createShareChat srv uid (shareChatValues p) appId ids with
           | None => x
           | Some (srv', id) =>
               (* onSuccess: close, refetch, copy the link, reset the form *)
               (srv', copyData (set_list (set_modal p false defaultShareChat) (shareChatList p) true)
                             (share_url origin id))
           end
  | CopyEmbedScript item =>
      if isOpenCreateShareChat p || bool_decide (item ∉ shareChatList p) then x
      else (srv, copyData p (embed_script origin (ol_shareId item)))
  | CopyShareLink item =>
      if isOpenCreateShareChat p || bool_decide (item ∉ shareChatList p) then x
      else (srv, copyData p (share_url origin (ol_shareId item)))
  | DeleteLink item =>
      if isOpenCreateShareChat p || bool_decide (item ∉ shareChatList p) then x
      else match delShareChatById srv uid (ol_id item) with
           | None => x                                   (* console.log(error) *)
           | Some srv' => (srv', set_list p (shareChatList p) true)
           end
  | RefetchDone =>
      if isFetching p then (srv, set_list p (getShareChatList srv uid appId) false) else x
  end.

Definition share_run (x : Srv * ShareState) (evs : list ShareEvent) : Srv * ShareState :=
  foldl share_step x evs.

(** A session in which every refetch comes back before the next click. *)
Definition settle (x : Srv * ShareState) : Srv * ShareState :=
  if isFetching x.2 then share_step x RefetchDone else x.

Definition share_run_settled (x : Srv * ShareState) (evs : list ShareEvent) : Srv * ShareState :=
  foldl (λ x e, settle (share_step x e)) x evs.

(** The list shown is the server's, and the limit of the button holds. *)
Definition share_synced (x : Srv * ShareState) : Prop :=
  isFetching x.2 = false ∧ shareChatList x.2 = getShareChatList x.1 uid appId ∧
  length (shareChatList x.2) ≤ 10 ∧ (isOpenCreateShareChat x.2 = true -> length (shareChatList x.2) < 10).

End Page.

(** ** A server over the [OutLink] collection *)

Definition set_outLinks (S : Store) (l : list OutLinkDoc) : Store :=
  {| apps := apps S; kbs := kbs S; chats := chats S; chatItems := chatItems S;
     collections := collections S; outLinks := l |}.

(** [OutLink.find({appId, userId})]. *)
Definition store_list (S : Store) (uid appId : ObjectId) : list OutLinkDoc :=
  filter (λ o, ol_appId o = appId ∧ ol_userId o = uid) (outLinks S).

(** The owner's [authApp], then [OutLink.create]. *)
Definition store_create (S : Store) (uid : ObjectId) (e : ShareChatEditType) (appId : ObjectId)
    (ids : ObjectId * string) : option (Store * string) :=
  match authApp_opts S appId uid true true with
  | inl _ => None
  | inr _ =>
      Some (set_outLinks S (outLinks S ++ [{| ol_id := ids.1; ol_shareId := ids.2; ol_appId := appId;
                                              ol_userId := uid; ol_name := sce_name e |}]), ids.2)
  end.

(** [OutLink.findOneAndRemove({_id: id, userId})]. *)
Definition store_delete (S : Store) (uid id : ObjectId) : option Store :=
  Some (set_outLinks S (filter (λ o, ¬ (ol_id o = id ∧ ol_userId o = uid)) (outLinks S))).

#[export] Instance store_api : ShareChatApi Store :=
  {| getShareChatList := store_list; createShareChat := store_create; delShareChatById := store_delete |}.

(** A store of [sample_S3] where Alice's [app1] has [n] share links. *)
Definition sample_link (k : nat) : OutLinkDoc :=
  {| ol_id := String (ascii_of_nat (65 + k)) ""; ol_shareId := String (ascii_of_nat (97 + k)) "";
     ol_appId := "app1"; ol_userId := "alice"; ol_name := "link" |}.

Definition sample_links_store (n : nat) : Store := set_outLinks sample_S3 (sample_link <$> seq 0 n).

Definition sample_origin : string := "https://fastgpt.run".

(** The page over Alice's [app1] with [n] links, once the first fetch is back. *)
Definition loaded_page (n : nat) : Store * ShareState :=
  settle sample_origin "alice" "app1" (sample_links_store n, share_page0).

(** Two links created one after the other, each refetch late: the second
    click on "Create new link" comes while the list shown still has 9
    links.  Whether the user can click then depends on the [Loading]
    overlay of hooks/useLoading, which is not in the repository. *)
Definition race_events : list ShareEvent :=
  [ClickCreateNewLink; InputName "a"; ClickConfirm ("X", "x");
   ClickCreateNewLink; InputName "b"; ClickConfirm ("Y", "y")].

(** ** The server's laws *)

#[export] Instance store_laws : ShareChatLaws Store.
Proof.
  split.
  - intros S uid e appId ids S' id. cbn. unfold store_create.
    destruct (authApp_opts _ _ _ _ _); [done|]. intros [= <- <-].
    exists {| ol_id := ids.1; ol_shareId := ids.2; ol_appId := appId; ol_userId := uid; ol_name := sce_name e |}.
    split_and!; [|done|done]. unfold store_list. cbn.
    by rewrite filter_app, filter_cons_True, filter_nil by done.
  - intros S uid id S' appId. cbn. unfold store_delete. intros [= <-]. unfold store_list. cbn.
    rewrite !list_filter_filter. apply list_filter_iff. naive_solver.
Qed.

(** ** The page's invariant *)

Section PageTheorems.
Context {Srv : Type} `{!ShareChatApi Srv} `{!ShareChatLaws Srv}.
Variables (origin : string) (uid appId : ObjectId).

Lemma settle_idle x : isFetching x.2 = false -> settle origin uid appId x = x.
Proof. unfold settle. by intros ->. Qed.

Lemma settle_fetch srv p :
  isFetching p = true -> settle origin uid appId (srv, p) = (srv, set_list p (getShareChatList srv uid appId) false).
Proof. unfold settle, share_step. cbn. by intros ->. Qed.

Ltac idle := rewrite settle_idle by (cbn; done); cbn; naive_solver.

(** Every event, followed by the refetch it starts, keeps the list shown
    the server's and within the button's limit. *)
Lemma share_step_synced x e :
  share_synced uid appId x -> share_synced uid appId (settle origin uid appId (share_step origin uid appId x e)).
Proof.
  destruct x as [srv p]. unfold share_synced. cbn [fst snd]. intros (Hf & Hl & Hle & Ho).
  destruct e as [| |s|ids|item|item|item|]; cbn [share_step].
  - destruct (isOpenCreateShareChat p || (10 <=? length (shareChatList p))) eqn:E;
      rewrite settle_idle by done; [done|].
    apply orb_false_iff in E as [_ E%Nat.leb_gt]. cbn. naive_solver.
  - rewrite settle_idle by done. cbn. naive_solver.
  - destruct (isOpenCreateShareChat p) eqn:Eo; rewrite settle_idle by done; cbn; naive_solver.
  - destruct (negb _ || _) eqn:E; [idle|].
    apply orb_false_iff in E as [Eo%negb_false_iff _].
    destruct (createShareChat srv uid (shareChatValues p) appId ids) as [[srv' id]|] eqn:Ec;
      [|idle].
    destruct (createShareChat_appends _ _ _ _ _ _ _ Ec) as (o & Ho' & _).
    rewrite settle_fetch by done. cbn. rewrite Ho', length_app. simpl. specialize (Ho Eo).
    rewrite <-Hl. split_and!; [done|done|lia|done].
  - destruct (_ || _); idle.
  - destruct (_ || _); idle.
  - destruct (isOpenCreateShareChat p) eqn:Eo; cbn [orb]; [idle|].
    destruct (bool_decide _); [idle|].
    destruct (delShareChatById srv uid (ol_id item)) as [srv'|] eqn:Ed; [|idle].
    rewrite settle_fetch by done. cbn. rewrite (delShareChatById_removes _ _ _ _ _ Ed), <-Hl.
    pose proof (length_filter (λ o, ol_id o ≠ ol_id item) (shareChatList p)). split_and!; [done|done|lia|by rewrite Eo].
  - rewrite Hf. idle.
Qed.

(** C25: in a session where each refetch comes back before the next
    click, the list the page shows stays the server's list of the app's
    links and the app never has more than 10: whatever the user clicks,
    creates, copies or deletes. *)
Theorem settled_session_bound x evs :
  share_synced uid appId x -> share_synced uid appId (share_run_settled origin uid appId x evs).
Proof.
  unfold share_run_settled. revert x. induction evs as [|e evs IH]; intros x Hx; [done|].
  simpl. by apply IH, share_step_synced.
Qed.

End PageTheorems.

(** ** Share links and the chat box behind them *)

Section Composition.
Context {SM : Type} (gs : list AppModuleItemType -> SM) (gc : list AppModuleItemType -> list string).
Variables (avatar : ObjectId -> option string) (origin : string).

(** C26: confirming the create modal with a name, for an app the user
    owns and a fresh non-empty [shareId], copies the link
    [origin/chat/share?shareId=...], closes the modal, and the chat box
    behind that [shareId] (shareChat/init.ts) opens the app. *)
Theorem created_link_opens_app uid appId S p ids a :
  isOpenCreateShareChat p = true -> sce_name (shareChatValues p) ≠ "" ->
  (∃ i, list_find (λ a, app_id a = appId) (apps S) = Some (i, a)) -> app_userId a = uid ->
  ids.2 ≠ "" -> ids.2 ∉ ol_shareId <$> outLinks S ->
  let x := share_step origin uid appId (S, p) (ClickConfirm ids) in
  clipboard x.2 = Some (share_url origin ids.2) ∧ isOpenCreateShareChat x.2 = false ∧
  ∃ r, shareChat_init gs gc x.1 avatar ids.2 = inr r ∧ sr_app r = init_app gs gc a.
Proof.
  intros Ho Hn Ha Hu Hid Hfresh. cbn [share_step]. rewrite Ho, bool_decide_false by done.
  cbn [negb orb createShareChat store_api]. unfold store_create.
  assert (Hauth : ∀ o, authApp_opts S appId uid true o = inr a) by (intros o; apply authApp_opts_ok; auto).
  rewrite Hauth. cbn. split_and!; [done|done|]. unfold shareChat_init. rewrite bool_decide_false by done.
  unfold set_outLinks. cbn [outLinks]. rewrite list_find_app_r.
  2: { apply list_find_None, Forall_forall. intros o Ho' Heq. apply Hfresh, list_elem_of_fmap. by exists o. }
  cbn. rewrite decide_True by done. cbn. change (authApp_opts _ appId uid true false) with (authApp_opts S appId uid true false).
  rewrite Hauth. by eexists.
Qed.

(** C28: deleting a link of the list shown, when no other link has its
    [shareId], makes the chat box behind it answer that the link has
    expired. *)
Theorem deleted_link_expires uid appId S p item :
  isOpenCreateShareChat p = false -> item ∈ shareChatList p -> shareChatList p = store_list S uid appId ->
  ol_shareId item ≠ "" -> NoDup (ol_shareId <$> outLinks S) ->
  shareChat_init gs gc (share_step origin uid appId (S, p) (DeleteLink item)).1 avatar (ol_shareId item)
  = inl LinkExpired.
Proof.
  intros Ho Hin Hl Hid Hnd. cbn [share_step]. rewrite Ho, bool_decide_false by (intros []; done).
  cbn [orb delShareChatById store_api]. unfold store_delete. cbn [fst].
  unfold shareChat_init. rewrite bool_decide_false by done.
  rewrite Hl in Hin. apply list_elem_of_filter in Hin as [[_ Hu] Hin].
  replace (list_find _ _) with (@None (nat * OutLinkDoc)); [done|]. symmetry.
  apply list_find_None, Forall_forall. intros o Ho'%list_elem_of_filter Heq. cbn in Ho'.
  destruct Ho' as [Hq Ho']. apply Hq. by rewrite (NoDup_map_inj_in ol_shareId _ o item Hnd Ho' Hin Heq).
Qed.

End Composition.

(** ** Sessions *)

(** The limit of 10 is a property of the button, not of the store: a
    session whose refetch is late creates an eleventh link. *)
Example unsettled_session_eleventh_link :
  length (store_list (share_run sample_origin "alice" "app1" (loaded_page 9) race_events).1 "alice" "app1") = 11.
Proof. vm_compute. reflexivity. Qed.

Lemma settled_session_bound_witness :
  share_synced "alice" "app1" (loaded_page 9) ∧
  share_synced "alice" "app1" (share_run_settled sample_origin "alice" "app1" (loaded_page 9) race_events).
Proof.
  assert (H : share_synced "alice" "app1" (loaded_page 9)).
  { unfold share_synced. split_and!; [reflexivity|reflexivity|vm_compute; lia|intros Ho; vm_compute in Ho; discriminate]. }
  split; [exact H|]. exact (settled_session_bound sample_origin "alice" "app1" _ race_events H).
Defined.

Lemma created_link_opens_app_witness :
  ∃ a, let x := share_step sample_origin "alice" "app1"
                  ((loaded_page 1).1, set_modal (loaded_page 1).2 true {| sce_name := "team" |}) (ClickConfirm ("ol9", "zz")) in
  clipboard x.2 = Some (share_url sample_origin "zz") ∧ isOpenCreateShareChat x.2 = false ∧
  ∃ r, shareChat_init no_special no_models x.1 (λ _, None) "zz" = inr r ∧ sr_app r = init_app no_special no_models a.
Proof.
  destruct (list_find (λ a, app_id a = "app1") (apps (loaded_page 1).1)) as [[i a]|] eqn:E;
    [|vm_compute in E; discriminate].
  exists a. pose proof E as E'. vm_compute in E'. injection E' as <- Ha.
  apply (created_link_opens_app no_special no_models (λ _, None) sample_origin "alice" "app1" _ _ ("ol9", "zz") a);
    [reflexivity|done|by exists 0|by subst a|done|decide_closed].
Defined.

Lemma deleted_link_expires_witness :
  shareChat_init no_special no_models
    (share_step sample_origin "alice" "app1" (loaded_page 2) (DeleteLink (sample_link 0))).1 (λ _, None)
    (ol_shareId (sample_link 0)) = inl LinkExpired.
Proof.
  apply deleted_link_expires; [reflexivity|decide_closed|reflexivity|done|decide_closed].
Defined.

End OutLink.
