(* ===== verification/AppInfo.v ===== *)
(** * AppInfo: the information dialogs of an app and of a knowledge base

    pages/app/detail/components/InfoModal.tsx edits the app document the
    detail page loaded: the form holds the whole document, the name is
    required, and saving sends the name, avatar, intro, the old chat
    configuration and the share settings to the update handler of
    [AppStore].  A form that fails validation shows the first message
    [deepSearch] finds in react-hook-form's [errors] object; the same
    search is in pages/kb/detail/components/Info.tsx, the information page
    of a knowledge base, whose save goes to the update handler
    kb/update.ts and whose tags are read back joined by the detail handler
    (not under src/, modelled from the spec).  [deepSearch] is a
    recursion without a bound: it runs here with fuel, [None] when the fuel
    is spent. *)

From Stdlib Require Import Ascii ZArith QArith.
From stdpp Require Import base list strings.
From S2P Require Import Prelude FlowTypes AppStore AppAccess.

Module AppInfo.
Import FlowTypes AppStore AppAccess.

(** ** [deepSearch] *)

(** [Object.values(obj)] for the values [deepSearch] meets: the values of
    an object in order, the elements of an array, the characters of a
    string, nothing for the other primitives. *)
Definition object_values (v : JsVal) : list JsVal :=
  match v with
  | JObj fields => map snd fields
  | JArr l => l
  | JStr s => map (λ c, JStr (String.String c String.EmptyString)) (String.list_ascii_of_string s)
  | _ => []
  end.

(** [obj.message]: the field [message] of an object. *)
Definition message_of (v : JsVal) : JsVal :=
  match v with
  | JObj fields => default JUndefined (snd <$> List.find (λ kv, String.eqb kv.1 "message") fields)
  | _ => JUndefined
  end.

(** [Object.values(obj)[0]]: [undefined] for an empty list. *)
Definition first_value (v : JsVal) : JsVal := default JUndefined (head (object_values v)).

(** [deepSearch] (lines 76-82): the default text for a falsy value, the
    message when there is a truthy one, else the search goes on in the
    first value.  A truthy message is a string for react-hook-form; any
    other one is read as the empty text. *)
Fixpoint deepSearch (fuel : nat) (obj : JsVal) : option string :=
  match fuel with
  | O => None
  | S fuel' =>
      if negb (js_truthy obj) then Some "Error submitting the form"
      else if js_truthy (message_of obj) then
        Some (match message_of obj with JStr m => m | _ => "" end)
      else deepSearch fuel' (first_value obj)
  end.

(** ** Saving *)

(** The messages the dialog shows. *)
Inductive InfoOutcome :=
  | FormInvalid (title : option string)   (* saveSubmitError: deepSearch(errors) *)
  | UpdateFailed (e : ApiError)           (* errorToast 'Update failed' *)
  | Updated.                              (* 'Update successful', onSuccess, onClose *)

(** The update document of [saveSubmitSuccess] (lines 40-57): [chat] is
    [undefined] when the document has none. *)
Definition info_params (data : AppDoc) : AppUpdateParams :=
  {| up_name := Some (app_name data); up_avatar := Some (app_avatar data); up_type := None;
     up_intro := Some (app_intro data);
     up_chat := match app_chat data with JUndefined => None | c => Some c end;
     up_share := Some (isShare (app_share data), isShareDetail (app_share data));
     up_modules := None |}.

(** react-hook-form's [errors] for the one rule of the form (lines
    137-139): [{name: {type: 'required', message, ref}}]. *)
Definition name_required_errors : JsVal :=
  JObj [("name", JObj [("type", JStr "required"); ("message", JStr "The display name cannot be empty");
                       ("ref", JObj [])])].

(** [saveUpdateModel] (lines 86-89): validation, then the update.
    [fuel] bounds [deepSearch]. *)
Definition saveUpdateModel (fuel : nat) (uid : ObjectId) (data : AppDoc) (S : Store) : Store * InfoOutcome :=
  if bool_decide (app_name data = "") then (S, FormInvalid (deepSearch fuel name_required_errors))
  else match app_update uid (app_id data) (info_params data) S with
       | inl e => (S, UpdateFailed e)
       | inr S' => (S', Updated)
       end.

(** ** The knowledge-base information page: pages/kb/detail/components/Info.tsx *)

(** The form of the page: the fields it edits and sends with
    [putKbById({id: kbId, ...data})]; [tags] is the text of the input. *)
Record KbInfoForm := { kif_name : string; kif_tags : text; kif_avatar : string }.

(** The tag chips under the input (lines 212-214):
    [getValues('tags').split(' ').filter((item) => item)]. *)
Definition kb_tag_chips (tags : text) : list text := filter (λ t, t ≠ []) (split_on space tags).

(** The tags [getKbDetail] puts back in the form: the detail handler (not
    under src/) joins the stored tags with a space. *)
Definition kb_detail_tags (k : KbDoc) : text := join_on space (kbdoc_tags k).

(** react-hook-form's [errors] for the name rule (lines 188-190). *)
Definition kb_name_required_errors : JsVal :=
  JObj [("name", JObj [("type", JStr "required"); ("message", JStr "Knowledge base name cannot be empty");
                       ("ref", JObj [])])].

(** The save button (line 228) with [saveSubmitSuccess] (lines 72-95): [handleSubmit(saveSubmitSuccess,
    saveSubmitError)], then the update handler kb/update.ts. *)
Definition kb_saveSubmit (fuel : nat) (uid kbId : ObjectId) (f : KbInfoForm) (S : Store) : Store * InfoOutcome :=
  if bool_decide (kif_name f = "") then (S, FormInvalid (deepSearch fuel kb_name_required_errors))
  else match kb_update uid kbId (kif_name f) (kif_tags f) (Some (kif_avatar f)) S with
       | inl e => (S, UpdateFailed e)
       | inr S' => (S', Updated)
       end.

(** The app the witnesses save, shared. *)
Definition shared_app1 : AppDoc :=
  {| app_id := "app1"; app_userId := "alice"; app_name := "Helper"; app_avatar := "/icon/logo.svg";
     app_type := "basic"; app_intro := "A helper"; app_chat := JUndefined;
     app_share := {| isShare := true; isShareDetail := false; share_collection := 0; share_topNum := 0 |};
     app_modules := []; app_updateTime := 1 |}.

(** A knowledge base of Alice's and an edit of its tags with a double
    and a trailing space. *)
Definition sample_kb : KbDoc :=
  {| kbdoc_id := "kb1"; kbdoc_userId := "alice"; kbdoc_name := "Docs"; kbdoc_tags := [⟦"ai"⟧];
     kbdoc_vectorModel := "m3e"; kbdoc_avatar := "" |}.

Definition kb_store : Store := set_kbs empty_store [sample_kb].

Definition sample_kb_form : KbInfoForm := {| kif_name := "Docs"; kif_tags := ⟦"ai  docs "⟧; kif_avatar := "" |}.

(** ** Lemmas *)

Lemma deepSearch_letter fuel : deepSearch fuel (JStr "r") = None.
Proof. induction fuel as [|fuel IH]; [done|]. exact IH. Qed.

Lemma authApp_elem S appId uid a : authApp S appId uid = inr a -> a ∈ apps S ∧ app_id a = appId.
Proof.
  unfold authApp. destruct (list_find _ _) as [[i b]|] eqn:E; [|done].
  case_bool_decide; [|done]. intros [= <-].
  apply list_find_Some in E as (Hi & Hid & _). split; [by eapply list_elem_of_lookup_2|done].
Qed.

Lemma kb_tag_chips_join (tags : text) : kb_tag_chips (join_on space (kb_tag_chips tags)) = kb_tag_chips tags.
Proof.
  unfold kb_tag_chips. set (ts := filter _ (split_on space tags)).
  assert (Hts : Forall (λ t, t ≠ [] ∧ space ∉ t) ts).
  { apply Forall_forall. intros t [Hne Ht]%list_elem_of_filter. split; [done|].
    pose proof (split_on_no_sep space tags) as Hs. rewrite Forall_forall in Hs. by apply Hs. }
  destruct ts as [|t ts'] eqn:E; [done|]. rewrite <- E in *.
  rewrite split_on_join; [|by eapply Forall_impl; [exact Hts|intros ? []]|by rewrite E].
  apply filter_Forall_id. by eapply Forall_impl; [exact Hts|intros ? []].
Qed.

(** ** Theorems *)

(** with the rule of the dialog, an empty name is not sent: the store
    is unchanged and the toast shows the rule's message once [deepSearch]
    has two rounds. *)
Theorem empty_name_rejected fuel uid data S :
  app_name data = "" ->
  saveUpdateModel (2 + fuel) uid data S = (S, FormInvalid (Some "The display name cannot be empty")).
Proof. intros Hn. unfold saveUpdateModel. by rewrite bool_decide_true. Qed.

(** C17: composition with the market: once the owner saves the dialog with
    sharing on, the shared-app market lists the app, with its new name, for
    every caller whose search matches that name. *)
Theorem info_share_lists_in_market fuel uid data S S' re caller :
  saveUpdateModel fuel uid data S = (S', Updated) ->
  isShare (app_share data) = true -> re ⟦app_name data⟧ = true ->
  ∃ x, x ∈ ranked_shares re caller S' ∧ sh_id x = app_id data ∧ sh_name x = app_name data.
Proof.
  unfold saveUpdateModel. case_bool_decide; [done|].
  destruct (app_update _ _ _ _) as [e|S1] eqn:E; [done|]. intros [= ->] Hsh Hre.
  destruct (app_update_authApp _ _ _ _ _ E) as (a & Ha & Ha').
  apply authApp_elem in Ha' as [Hin Hid]. apply authApp_elem in Ha as [_ Hid0].
  exists (share_item (collections S') caller (apply_app_update (info_params data) a)).
  split_and!; [|done|done]. apply ranked_shares_elem. eexists. split; [exact Hin|]. split; [|done].
  unfold share_where. cbn. rewrite Hsh, Hre. done.
Qed.

(** round trip of the knowledge-base page: after a save, the tags the
    page reads back from the detail handler show exactly the chips the
    user saw under the input before saving. *)
Theorem kb_tags_display_roundtrip fuel uid kbId f S S' i k :
  list_find (λ k, kbdoc_id k = kbId ∧ kbdoc_userId k = uid) (kbs S) = Some (i, k) ->
  kb_saveSubmit fuel uid kbId f S = (S', Updated) ->
  ∃ k', kbs S' !! i = Some k' ∧ kbdoc_id k' = kbId ∧ kbdoc_name k' = kif_name f ∧
        kb_tag_chips (kb_detail_tags k') = kb_tag_chips (kif_tags f).
Proof.
  intros Hf. unfold kb_saveSubmit, kb_update. case_bool_decide; [done|].
  case_bool_decide; [done|]. rewrite Hf. intros [= <-]. cbn [kbs set_kbs].
  apply list_find_Some in Hf as (Hi & [Hid _] & _).
  eexists. rewrite list_lookup_insert_eq by (by eapply lookup_lt_Some). split_and!; [done|done|done|].
  unfold kb_detail_tags. cbn [kbdoc_tags]. apply kb_tag_chips_join.
Qed.

(** ** Witnesses *)

Lemma info_share_lists_in_market_witness :
  ∃ x, x ∈ ranked_shares match_all "bob" (saveUpdateModel 3 "alice" shared_app1 sample_S1).1 ∧
       sh_id x = "app1" ∧ sh_name x = "Helper".
Proof.
  apply (info_share_lists_in_market 3 "alice" shared_app1 sample_S1 _ match_all "bob"); reflexivity.
Defined.

Lemma empty_name_rejected_witness :
  saveUpdateModel 2 "alice" {| app_id := "app1"; app_userId := "alice"; app_name := ""; app_avatar := "";
      app_type := "basic"; app_intro := ""; app_chat := JUndefined; app_share := app_share shared_app1;
      app_modules := []; app_updateTime := 1 |} sample_S1 =
  (sample_S1, FormInvalid (Some "The display name cannot be empty")).
Proof. apply (empty_name_rejected 0). reflexivity. Defined.

Lemma kb_tags_display_roundtrip_witness :
  ∃ k', kbs (kb_saveSubmit 2 "alice" "kb1" sample_kb_form kb_store).1 !! 0 = Some k' ∧ kbdoc_id k' = "kb1" ∧
        kbdoc_name k' = "Docs" ∧ kb_tag_chips (kb_detail_tags k') = kb_tag_chips ⟦"ai  docs "⟧.
Proof. apply (kb_tags_display_roundtrip 2 "alice" "kb1" sample_kb_form kb_store _ 0 sample_kb); reflexivity. Defined.

End AppInfo.
