(* ===== verification/ListPages.v ===== *)
(** * ListPages: deleting from the list of apps and the list of knowledge bases

    pages/app/list/index.tsx and pages/kb/list/index.tsx list the user's
    apps and knowledge bases, each card with a delete button behind a
    confirmation.  The app page awaits [delModelById] (the handler
    app/del.ts of [AppStore]) and reloads the list with [loadMyApps]
    (app/myApps.ts); the knowledge-base page calls [delKbById] without
    awaiting it, shows its success toast and removes the card from the list
    it holds.  The store's loaders and the knowledge-base delete handler are
    not under src/ and are modelled from the spec: [loadKbList] lists the
    user's knowledge bases, and the delete removes the user's knowledge base
    of that id, failing when there is none. *)

From Stdlib Require Import Ascii ZArith.
From stdpp Require Import base list strings sorting.
From S2P Require Import Prelude FlowTypes AppStore.

Module ListPages.
Import FlowTypes AppStore.

Inductive ListToast := DeleteSucceeded | DeleteFailed (e : ApiError).

(** ** The list of apps *)

(** [onclickDelApp] (lines 47-64): on success a toast and the list
    reloaded by [loadMyApps(true)]; on failure an error toast and the list
    as it was. *)
Definition onclickDelApp (uid appId : ObjectId) (shown : list AppListItem) (S : Store)
    : Store * list AppListItem * ListToast :=
  match app_del uid appId S with
  | inr S' => (S', myApps uid S', DeleteSucceeded)
  | inl e => (S, shown, DeleteFailed e)
  end.

(** ** The list of knowledge bases *)

(** The card of a knowledge base: the fields the page shows. *)
Record KbCard := { kc_id : ObjectId; kc_name : string; kc_tags : list text }.

Definition kb_card (k : KbDoc) : KbCard := {| kc_id := kbdoc_id k; kc_name := kbdoc_name k; kc_tags := kbdoc_tags k |}.

(** [loadKbList]: the user's knowledge bases. *)
Definition loadKbList (uid : ObjectId) (S : Store) : list KbCard :=
  kb_card <$> filter (λ k, kbdoc_userId k = uid) (kbs S).

(** [delKbById]: the handler removes the user's knowledge base of that id
    and fails when there is none. *)
Definition delKbById (uid id : ObjectId) (S : Store) : ApiError + Store :=
  if existsb (λ k, bool_decide (kbdoc_id k = id ∧ kbdoc_userId k = uid)) (kbs S) then
    inr (set_kbs S (filter (λ k, ¬ (kbdoc_id k = id ∧ kbdoc_userId k = uid)) (kbs S)))
  else inl ParameterError.

(** [onclickDelKb] (lines 48-65): [delKbById(id)] is not awaited, so the
    [try] never sees its failure; the toast says the delete succeeded and
    the card leaves the list, whatever [answer] the handler gives. *)
Definition onclickDelKb_with (answer : ApiError + Store) (id : ObjectId) (shown : list KbCard) (S : Store)
    : Store * list KbCard * ListToast :=
  let S' := match answer with inr S' => S' | inl _ => S end in
  (S', filter (λ c, kc_id c ≠ id) shown, DeleteSucceeded).

Definition onclickDelKb (uid id : ObjectId) (shown : list KbCard) (S : Store) : Store * list KbCard * ListToast :=
  onclickDelKb_with (delKbById uid id S) id shown S.

(** ** Samples *)

Definition lp_kb : KbDoc :=
  {| kbdoc_id := "kb1"; kbdoc_userId := "alice"; kbdoc_name := "Docs"; kbdoc_tags := [⟦"ai"⟧];
     kbdoc_vectorModel := "m3e"; kbdoc_avatar := "" |}.

Definition lp_store : Store := set_kbs empty_store [lp_kb].

(** ** Lemmas *)

Lemma myApps_app_del_gone uid appId S S' :
  app_del uid appId S = inr S' -> Forall (λ it, li_id it ≠ appId) (myApps uid S').
Proof.
  unfold app_del. case_bool_decide; [done|]. destruct (authApp _ _ _); [done|]. intros [= <-].
  unfold myApps. cbn [apps]. apply Forall_forall. intros it Hit%list_elem_of_In.
  apply in_map_iff in Hit as (d & <- & Ha%list_elem_of_In).
  rewrite (merge_sort_Permutation _ _) in Ha.
  apply list_elem_of_filter in Ha as [Hu Ha]. apply list_elem_of_filter in Ha as [Hn _].
  cbn. intros Hid. apply Hn. done.
Qed.

Lemma loadKbList_filter uid id S :
  loadKbList uid (set_kbs S (filter (λ k, ¬ (kbdoc_id k = id ∧ kbdoc_userId k = uid)) (kbs S))) =
  filter (λ c, kc_id c ≠ id) (loadKbList uid S).
Proof.
  unfold loadKbList. cbn [kbs set_kbs]. rewrite filter_fmap, !list_filter_filter. f_equal.
  apply list_filter_iff. intros k. cbn. naive_solver.
Qed.

(** ** Theorems *)

(** deleting from the list of apps: on success the page shows the
    reloaded list of the user's apps, without the deleted app; on failure
    the store and the list stay as they were. *)
Theorem app_list_delete_refreshes uid appId shown S :
  let '(S', shown', t) := onclickDelApp uid appId shown S in
  match t with
  | DeleteSucceeded => shown' = myApps uid S' ∧ Forall (λ it, li_id it ≠ appId) shown'
  | DeleteFailed _ => S' = S ∧ shown' = shown
  end.
Proof.
  unfold onclickDelApp. destruct (app_del uid appId S) as [e|S'] eqn:E; [done|].
  split; [done|]. by eapply myApps_app_del_gone.
Qed.

(** deleting from the list of knowledge bases keeps the page in step
    with the store when the handler succeeds: the cards left are the ones
    [loadKbList] would show. *)
Theorem kb_list_delete_consistent uid id S k :
  k ∈ kbs S -> kbdoc_id k = id -> kbdoc_userId k = uid ->
  let '(S', shown', _) := onclickDelKb uid id (loadKbList uid S) S in shown' = loadKbList uid S'.
Proof.
  intros Hk Hid Hu. unfold onclickDelKb, delKbById.
  replace (existsb _ (kbs S)) with true.
  - simpl. by rewrite loadKbList_filter.
  - symmetry. apply existsb_exists. exists k. split; [by apply list_elem_of_In|]. by apply bool_decide_eq_true.
Qed.

(** when the handler refuses the delete, the knowledge-base page still
    says the delete succeeded and drops the card, although the store keeps
    the knowledge base and the next [loadKbList] shows it again. *)
Theorem kb_list_delete_ignores_failure uid id S e k :
  k ∈ kbs S -> kbdoc_id k = id -> kbdoc_userId k = uid ->
  let '(S', shown', t) := onclickDelKb_with (inl e) id (loadKbList uid S) S in
  t = DeleteSucceeded ∧ Forall (λ c, kc_id c ≠ id) shown' ∧ kb_card k ∈ loadKbList uid S'.
Proof.
  intros Hk Hid Hu. simpl. split_and!; [done| |].
  - apply Forall_forall. by intros c [? _]%list_elem_of_filter.
  - unfold loadKbList. apply list_elem_of_fmap_2. by apply list_elem_of_filter.
Qed.

Lemma kb_list_delete_consistent_witness :
  let '(S', shown', _) := onclickDelKb "alice" "kb1" (loadKbList "alice" lp_store) lp_store in
  shown' = loadKbList "alice" S'.
Proof. apply (kb_list_delete_consistent _ _ _ lp_kb); [left|done|done]. Defined.

Lemma kb_list_delete_ignores_failure_witness :
  let '(S', shown', t) := onclickDelKb_with (inl ParameterError) "kb1" (loadKbList "alice" lp_store) lp_store in
  t = DeleteSucceeded ∧ Forall (λ c, kc_id c ≠ "kb1") shown' ∧ kb_card lp_kb ∈ loadKbList "alice" S'.
Proof. apply (kb_list_delete_ignores_failure _ _ _ _ lp_kb); [left|done|done]. Defined.

End ListPages.
